(* ===== verification/_CoqProject ===== *)
-Q . S2P
Prelude.v
PyNum.v
Effects.v
Machine.v
Format.v
Schema.v
Frames.v
World.v
Locality.v
Blocks.v
Protocol.v
Catalog.v
Gdp.v
Inequality.v
Poverty.v
TradeEdu.v
Main.v
Report.v
Observed.v
Independence.v
Stages.v
Integrity.v
Panels.v
Relational.v
