(* ===== verification/Prelude.v ===== *)
(** * Verification of the global-inequality sample-data loader (src/load_data.py)

    The program is a linear batch script: it builds a hard-coded catalog of 48
    countries, then four generators each walk the catalog, draw pseudo-random
    numbers conditioned on the country's income group or region, append one
    record per (country, year) to a list and write the list to one database
    table, replacing earlier content.  [main] runs them in a fixed order inside
    try / except / finally.

    ** Files, in dependency order

    - [Prelude] (this file): the scope [py_scope], the tactics and the hint
      database shared by every file, generic facts on rationals and lists,
      and [blocks_table], the shape every generated table has (the
      concatenation of one block of rows per catalog entry), with its
      lemmas on length, membership and uniqueness of keys.
    - [PyNum]: the Python builtins the script calls on numbers: [round]
      ([py_round], round-half-to-even), [min], [max], [**] and [range], with
      monotonicity, idempotence, error and gap of rounding, the clamp and
      the bounds of powers.
    - [Effects]: the state-and-exception monad [M] the functions of the
      script are written in ([ret], [bind], [raise], [try_except],
      [try_finally], the loop [for_acc] that threads the list [data]), its
      laws and the weakest-precondition rules [wp_*].
    - [Machine]: labelled transition systems, independent of the script:
      runs ([run]), invariants that are [stable], properties that hold
      [eventually] on every path, forward simulation ([simulates]) and the
      machines given by a function ([fstep], executed with fuel by
      [exec]).
    - [Format]: the strings [main] prints: string repetition
      ([str_mul]), the formats [{:25s}] ([ljust]) and [{:,}]
      ([format_thousands]), and the reading back of a grouped number
      ([parse_thousands]).
    - [Schema]: one record per table ([Country.t], [GdpRow.t],
      [InequalityRow.t], [PovertyRow.t], [TradeEduRow.t]) with the column
      names of the dictionaries the script appends, the type [Table] and
      the name of each kind of table ([table_kind]).
    - [Frames]: the tables as the database receives them: [Cell] (a value
      of a dict literal: [None], a string, an integer or a float) with its
      SQLite storage class ([cell_class]), the dict literal each loader
      appends as a function of the typed row ([gdp_dict], lines 123 to
      129, [inequality_dict], 174 to 181, [poverty_dict], 224 to 231,
      [trade_education_dict], 277 to 284, and [country_dict] for a row of
      the catalog frame), [frame_of_dicts] for [pd.DataFrame] on a list of
      dicts, the class [Tabular] of the row types that have such a dict
      and a decoder of it, and [table_frame], the frame handed to
      [to_sql].
    - [World]: the state of a run ([World]: position in the random stream,
      the tables of the database, the console, the tracebacks printed,
      whether the connection is open), the classes [RandomSource],
      [Storage] and [Host] that stand for [random.random], for the outcome
      of a write and for the file system and the SQL engine, the
      primitives ([random_uniform], [print], [dict_get], [to_sql],
      [read_count], [sqlite3_connect], [open_read], [executescript],
      [traceback_print_exc], [conn_close]), the generic loader
      [load_table] (every [load_*] is "print, loop over the catalog,
      write, print"), the predicate [keeps_store] of computations that
      only print and read, the relation [advanced] that measures the
      draws and the lines between two states, and the interface between a
      generator and [main]: a [Contract] names the table, the lines
      printed, the catalogs accepted, the rows promised and the draws
      made, and the class [Loader] says that a function meets it on both
      outcomes of the write.  Each generator file ends its refinement
      with an instance ([gdp_loader], [inequality_loader],
      [poverty_loader], [trade_education_loader]); the lemmas of
      [LoaderFacts] and the theorems on [main] use the instances only.
    - [Locality]: a relational judgement on two random streams:
      [reads RS1 RS2 c1 c2] says that [c1] (on the stream [RS1]) and [c2]
      (on [RS2]) only read the stream and advance its position, by the
      same number of draws, and return the same value when the streams
      agree ([agree]) on the positions read.  Its rules follow the
      constructs of the monad ([reads_bind], [reads_for_acc],
      [reads_random_uniform], ...), the tactic [reads_auto] applies them,
      and [load_table_local] lifts the judgement on a loop body to the
      loader built from it.
    - [Blocks]: the loop of a loader as a [concat]: [appends f] says that
      [f] does from a list what it does from the empty list and returns
      the list followed by what it returns then, with one rule per
      construct ([appends_bind], [appends_for_acc], ..., applied by
      [appends_auto]); [block_at] is the block an entry generates alone
      at a position of the stream, [table_blocks] the blocks of a
      catalog, and [for_acc_table_blocks] the equation between the loop
      and their concatenation.
    - [Protocol]: what a run of the loader may do, as an abstract machine
      [pstep] over the events of a run ([Event]: banner, connection,
      schema, the write of a table, summary, an exception, its report,
      the release of the connection) and a state [Proto] that records the
      phase, the tables written and whether the connection is held; its
      invariant [proto_ok], its history and its measure.
    - [Catalog]: [load_country_metadata], lines 18 to 77: the four columns
      as written, [DataFrame] with the equal-length check of pandas, the
      population column, the write; the catalog's well-formedness.
    - [Gdp]: [load_gdp_data], lines 82 to 133: [gdp_ranges],
      [sample_growth] (the if / elif chain), [gdp_year] (the body of the
      loop over the years with the 2020 override), [gdp_country],
      [load_gdp_data]; the specification [gdp_table_spec] and the theorems
      on it.
    - [Inequality]: [load_inequality_data], lines 139 to 185:
      [gini_ranges], [years], [inequality_year], [inequality_country],
      [load_inequality_data]; the specification [inequality_table_spec]
      and the theorems on it.
    - [Poverty]: [load_poverty_data], lines 191 to 235: [poverty_years],
      [poverty_groups] (the list of the membership test),
      [sample_base_rates] (the if / elif chain), [reduction_factor],
      [poverty_year], [poverty_country], [load_poverty_data]; the
      specification [poverty_table_spec] and the theorems on it.
    - [TradeEdu]: [load_trade_education], lines 241 to 288:
      [sample_education] (the if / elif chain), [trade_education_year],
      [trade_education_country], [load_trade_education]; the
      specification [trade_education_table_spec] and the theorems on it.
    - [Main]: [main], lines 294 to 346: [create_schema], [main_try],
      [print_summary] with [summary_line], [main_except], [main], and the
      guard of lines 348 and 349 ([module_entry]); the theorems on whole
      runs.
    - [Report]: what the body of [try] prints, draws and raises for each
      outcome of the five writes: [loader_steps] lists, for each loader,
      its table, its two lines and its draws on the script's catalog, and
      [loaders_report] computes the lines, the draws and the exception of
      a run from the outcomes of the writes ([main_try_report]).
    - [Observed]: the whole of [main] on every host and storage:
      [main_observed] computes what a run shows (result, lines,
      tracebacks, draws, whether the connection is closed) from [Host]
      and [Storage] alone, [main_tables] the tables it leaves from the
      rows generated, and [main_final] proves that [main] does exactly
      that, for every random stream.
    - [Independence]: which draws each table depends on: the loop bodies
      of the four generators satisfy [reads], each loader reads the
      positions it consumes and no other, in a run of [main] each table
      is a function of one segment of the stream ([segments]), and the
      rows of a country are a function of the draws of that country.
    - [Stages]: [main] again, statement by statement: [Stage] names the
      program points (before each of the two statements that precede
      [try], before each of the seven statements of its body, in the
      handler, in [finally], after the return), and [stage_next] runs the
      statement at a point with the exits Python gives it
      ([outside_try]: an exception leaves [main]; [inside_try]: it goes to
      the handler; [in_except]: it is pending while [finally] runs;
      [in_finally]: the return, or the pending exception).  The file
      proves that this machine computes [main], that it stops, and that
      it refines [Protocol].
    - [Integrity]: the typing of the database ([db_ok]: each of the five
      names holds a table of its own kind whose rows are well formed),
      the class [TypedContract] of the generators whose promised rows are
      well formed, and the proof that every statement of [main] keeps
      [db_ok].
    - [Panels]: the keys of the generated tables: [panel_keys] lists
      every code with every year of a series, and the keys of a block and
      of a table are computed for each loader from its specification.
    - [Relational]: the database as relations: [table_schema] gives the
      columns of each kind of table with the storage class of their
      cells, [relation_ok] says that a frame has these columns, cells of
      these classes, the rows counted and pairwise distinct keys
      ([key_width] leading columns), and [references] that every row
      joins with exactly one row of [country_metadata].

    ** What the theorems show

    For each generator, on an open connection to a table that can be
    written (and, for the two generators that index a dictionary, on a
    catalog that only holds its keys):
    - refinement: the run returns normally and the table it writes
      satisfies the table specification, with the final state given in
      full ([load_gdp_data_writes_table],
      [load_inequality_data_writes_table],
      [load_poverty_data_writes_table],
      [load_trade_education_writes_table]);
    - the range of every generated column, the order of the values over
      the years, the number of rows, the uniqueness of the key
      (country_code, year), the exact number of random draws;
    - the error exits: [KeyError] at the first unknown income group or
      region with the state left behind, the database error when the
      write fails;
    - what the code does beyond its comments: the 2020 row draws twice,
      the Gini clamp never changes a value while the cap of the secondary
      rate does, the stored Palma ratio is not the ratio of the stored
      shares, the poverty rates of a row need not increase with the
      poverty line, an unknown income group is an error for one
      generator, no row for another and low income for the third.
    For [main]: once the connection is made it returns normally and
    closes the connection on every path, and a connection that is refused
    (the call stands before [try]) leaves [main] as an uncaught exception
    after the banner ([main_always_closes]); a successful run leaves 48, 432, 240, 110
    and 432 rows and prints a text that does not depend on the random
    stream ([main_success]); a second run replaces the tables
    ([main_rerun_stable]); after a failed write the tables written before
    it are in place and the later ones untouched ([main_tables_written]);
    a missing schema file and every other exception are reported
    ([main_schema_missing], [main_reports_failure]).
    What a run shows (files [Report] and [Observed]): on every host and
    storage [main] returns, prints, traces and draws what [main_observed]
    computes ([main_final]); when a write fails the console stops at
    the first line of the loader that failed, followed by the error line,
    and the generator has advanced by all the draws of that loader
    ([main_stops_at_failed_write]); two runs on two random streams return
    the same result, print the same lines and tracebacks, make the same
    number of draws and leave tables of the same names and sizes
    ([main_seed_independent]): only the values in the rows depend on the
    seed.
    What a table depends on (files [Locality] and [Independence]): each
    loader reads the stream at the positions it consumes and nowhere
    else ([loaders_read_own_draws]); in a run of [main], [gdp_data] is
    a function of the draws 0 to 527 counted from the position at the
    start, [inequality_metrics] of 528 to 1295, [poverty_indicators] of
    1296 to 1361 and [trade_education] of 1362 to 2417, whichever writes
    fail ([main_table_reads_segment]).  The loaders are therefore not
    independent stages: they share the generator, and what a loader
    writes changes when another loader runs before it
    ([loaders_share_generator]).  Inside a table the same holds country
    by country: the table is the concatenation of the blocks the body of
    the loop generates alone, each at the position where the draws of
    the countries before it end ([tables_are_country_blocks]), and the
    block of a country is a function of the 11, 16, 3 or 0, and 22 draws
    of that country ([country_block_reads_own_draws]).
    For the statement machine of [main] (file [Stages]):
    - equivalence: run from the first statement, the machine stops with
      the result and in the state of the function [main]
      ([main_stages_equiv]), so what is proved of one holds of the
      other;
    - termination and liveness: the number of statements left
      ([stage_rank]) decreases at every step, so the machine stops after
      at most eleven steps whatever the generators, the storage and the
      host do ([stage_machine_terminates]), and every path reaches the
      return of [main]: the normal return with the connection released
      when the connection was made, the exception of [sqlite3.connect]
      when it was refused ([main_eventually_returns]);
    - refinement: [stage_rel] is a forward simulation of the machine by
      [Protocol] ([main_refines_protocol]); the shape of the events of a
      run ([main_events_shape]), the order of the writes
      ([main_writes_in_order]) and the invariant of the reachable
      configurations ([stage_reachable_inv], from [stage_ok], which adds
      to the simulation relation that control is past the connection
      only when the host allowed it) follow by induction on runs.
    Typing (file [Integrity]): every generator writes a table of its own
    kind with catalog codes, years of its series, values rounded to two
    decimals and distinct keys ([generators_write_typed_tables]), and
    [main] keeps the database well typed on every path
    ([main_keeps_integrity]).
    The database as the queries see it (files [Frames], [Panels] and
    [Relational]): the typed rows and the frames handed to [to_sql]
    carry the same information ([table_frame_roundtrip], from the laws
    of [Tabular] and from [frame_of_dicts_uniform]); after a successful
    run each of the five names holds a relation with the columns of the
    dict literal in the order written, cells of the storage class of
    their column, the rows counted in the summary, pairwise distinct
    keys, and rows that join with exactly one row of [country_metadata]
    ([main_database_relations], from [table_ok_relation] and
    [table_ok_references], which hold of every well-typed table); the
    keys of each generated table are the codes of the catalog, in its
    order, each with every year of the series ([main_tables_are_panels]);
    and a loader that generates no row hands [to_sql] a frame without
    columns ([load_poverty_data_empty_frame]).
    Round trips: the count read after a write is the length of the frame
    ([to_sql_read_count]); the count printed in the summary can be read
    back from the line ([summary_line_roundtrip], from
    [parse_format_thousands]).
    Each theorem with hypotheses is applied to the script's own catalog
    under a concrete random stream ([lcg_source]) in a lemma named
    [<theorem>_witness].

    ** Loops and termination

    Every loop of the script runs over a finite list (the rows of the
    catalog, [range(2015, 2024)], the list of survey years), so [for_acc]
    is structural recursion on that list: no fuel is needed and every
    function of the model is total.  The statement machine of [Stages] is
    the one definition executed with fuel: [exec stage_next 11].  Eleven
    is the number of statements on the longest path of [main] (banner,
    connection, schema, five loaders, summary, and either the handler and
    [finally] or [finally] alone); [stage_machine_terminates] proves that
    fuel [stage_rank] of the stage is always enough, and the final
    configuration with fuel 11 is a returned one for every state.

    ** How numbers are modelled

    A Python float is modelled as an exact rational ([Q] of the Standard
    Library, compared with [Qeq]); binary rounding of the IEEE operations is
    not modelled.  [round(x, 2)] is round-half-to-even on the exact value,
    which is what CPython computes on the exact value of a float.  Python
    integers are [Z].  Every bound proved here is therefore a statement about
    the arithmetic the script writes down, up to the last-bit error of double
    precision.

    ** Randomness and storage

    [random.uniform(a, b)] is [a + (b - a) * random()], and [random()] is
    the next value of a stream [draw : nat -> Q] with values in [[0, 1)];
    the state holds the position in the stream.  A theorem stated for
    every [RandomSource] holds for every seed.  A write fails when the
    connection is closed or when [write_ok] of the [Storage] says so; a
    failed write leaves the table as it was, and a write that succeeded
    stays in the database when a later statement fails.  The file
    [schema.sql] is not among the sources: [Host] says whether it can be
    read, which tables its script leaves and whether the script fails.
    [Host] also says whether [sqlite3.connect] can open or create the
    database file ([can_connect]); when it cannot, the call raises
    [connect_error].  The theorems on [main] hold for every [Host]; those
    on runs that reach [try] assume [can_connect DB_PATH = true].

    ** Typed rows and frames

    The state keeps a table as the list of the typed rows last written
    ([Table]); the script hands pandas a list of dicts.  [Frames] relates
    the two: [pd.DataFrame] on a list of dicts takes as columns the keys
    in the order of their first appearance and leaves a cell empty where
    a dict lacks the key ([frame_of_dicts]); the catalog frame is built
    from a dict of columns and has its columns even without a row.  A
    cell holds the Python value written: [None] is stored as NULL, a
    string as TEXT, an integer as INTEGER and a float as REAL
    ([cell_class]); [index=False] means that the frame has no column
    beside those of the dicts.  A column of numbers is taken to be a
    column of floats: [min(105, x)] returns the integer 105 when it caps
    and [round] keeps it an integer, but pandas stores a column as
    floats as soon as one of its values is a float, and on the script's
    catalog every column of values has one (the cap is out of reach for
    the countries that are not high income).  The column types pandas
    declares in its CREATE TABLE statement are not modelled.

    ** What is not modelled

    The text of [schema.sql] and the statements of SQL (the script is a
    parameter of [Host]; the typing of [Integrity] is that of the frames
    the loaders write, not the column types of the DDL), indexes and
    transactions, the database file on disk, the interpreter's import of
    the module (only the guard on [__name__] is), the text of a traceback (the model records which
    exception was traced), exceptions that are not [Exception]
    (KeyboardInterrupt, SystemExit), a failure of [print] or of
    [conn.close()], the binary rounding of floats, a write that fails after
    the table was dropped (a failed write leaves the table as it was), and
    what the SQL engine does with a frame that has no column (only a
    catalog without any eligible country makes [load_poverty_data] build
    one, see [load_poverty_data_empty_frame]; the script's catalog has 22
    eligible countries).  Nothing more of the script is left to model:
    every line of code of [src/load_data.py] is translated by a
    definition, and the parts above are libraries and files outside the
    sources. *)

From Stdlib Require Import QArith Qround Qpower Qabs Lqa Lia ZArith List.
From stdpp Require Import base tactics option list.

Declare Scope py_scope.
Delimit Scope py_scope with py.

Create HintDb py discriminated.
Create Rewrite HintDb py.

(** ** Tactics *)

(** [lra] does not see through a division by a literal: [qdiv] turns every
    [x / c] with [c] a literal into a product by the literal inverse. *)
Ltac qdiv :=
  unfold Qdiv in *;
  repeat match goal with
  | |- context [Qinv (?n # ?d)] =>
      let v := eval vm_compute in (Qinv (n # d)) in
      change (Qinv (n # d)) with v
  | H : context [Qinv (?n # ?d)] |- _ =>
      let v := eval vm_compute in (Qinv (n # d)) in
      change (Qinv (n # d)) with v in H
  end.

(** Linear (then non-linear) rational arithmetic after [qdiv]. *)
Ltac qlra := intros; qdiv; first [lra | nra].

(** Split a conjunction of bounds and close each side with [qlra]. *)
Ltac qbounds := intros; repeat split; qlra.

(** Close a decidable closed proposition by evaluating its decision. *)
Ltac by_decide := apply (bool_decide_unpack _); vm_compute; exact I.

(** ** Rationals *)

Local Open Scope Q_scope.

Lemma inject_Z_le (a b : Z) : (a <= b)%Z -> inject_Z a <= inject_Z b.
Proof. intros H. rewrite <- Zle_Qle. exact H. Qed.

Lemma inject_Z_lt (a b : Z) : (a < b)%Z -> inject_Z a < inject_Z b.
Proof. intros H. rewrite <- Zlt_Qlt. exact H. Qed.

Lemma inject_Z_le_inv (a b : Z) : inject_Z a <= inject_Z b -> (a <= b)%Z.
Proof. intros H. rewrite Zle_Qle. exact H. Qed.

Lemma inject_Z_lt_inv (a b : Z) : inject_Z a < inject_Z b -> (a < b)%Z.
Proof. intros H. rewrite Zlt_Qlt. exact H. Qed.

Lemma inject_Z_succ (a : Z) : inject_Z (a + 1) == inject_Z a + 1.
Proof. rewrite inject_Z_plus. reflexivity. Qed.

(** The floor is the unique integer [f] with [f <= x < f + 1]. *)
Lemma Qfloor_bounds (x : Q) :
  inject_Z (Qfloor x) <= x /\ x < inject_Z (Qfloor x) + 1.
Proof.
  split; [apply Qfloor_le |].
  rewrite <- inject_Z_succ. apply Qlt_floor.
Qed.

Lemma Qfloor_unique (x : Q) (f : Z) :
  inject_Z f <= x -> x < inject_Z f + 1 -> Qfloor x = f.
Proof.
  intros Hlo Hhi. destruct (Qfloor_bounds x) as [Flo Fhi].
  assert (inject_Z f < inject_Z (Qfloor x + 1)) as H1
    by (rewrite inject_Z_succ; lra).
  assert (inject_Z (Qfloor x) < inject_Z (f + 1)) as H2
    by (rewrite inject_Z_succ; lra).
  apply inject_Z_lt_inv in H1, H2. lia.
Qed.

(** Powers keep order on non-negative bases. *)
Lemma Qpower_nat_le_compat (x y : Q) (n : nat) :
  0 <= x -> x <= y -> x ^ Z.of_nat n <= y ^ Z.of_nat n.
Proof.
  intros Hx Hxy. induction n as [|n IH]; [simpl; lra |].
  rewrite Nat2Z.inj_succ, <- Z.add_1_r.
  assert (0 <= y) as Hy by lra.
  destruct (Qeq_dec x 0) as [Hx0|Hx0].
  - rewrite Hx0 at 1. rewrite Qpower_0 by lia. apply Qpower_0_le. exact Hy.
  - destruct (Qeq_dec y 0) as [Hy0|Hy0]; [exfalso; lra |].
    rewrite !Qpower_plus by assumption. simpl (_ ^ 1).
    assert (0 <= x ^ Z.of_nat n) by (apply Qpower_0_le; exact Hx).
    nra.
Qed.

#[export] Hint Resolve inject_Z_le inject_Z_lt Qpower_0_le : py.

(** ** Lists *)

Lemma elem_of_concat {A} (y : A) (ls : list (list A)) :
  y ∈ concat ls <-> exists l, y ∈ l /\ l ∈ ls.
Proof.
  induction ls as [|l ls IH]; cbn.
  - split; [intros H%elem_of_nil; contradiction |].
    intros (l & _ & H%elem_of_nil). contradiction.
  - rewrite elem_of_app, IH. split.
    + intros [H|(l' & H1 & H2)]; [exists l | exists l'];
        (split; [assumption |]); [left | right; assumption].
    + intros (l' & H1 & [->|H2]%elem_of_cons); [left | right; exists l']; auto.
Qed.

Section ListFacts.
Context {A B : Type}.

(** A concatenation of blocks of one length. *)
Lemma length_concat_uniform (k : nat) (ls : list (list A)) :
  Forall (fun l => length l = k) ls -> length (concat ls) = (k * length ls)%nat.
Proof.
  induction 1 as [|l ls Hl _ IH]; simpl; [lia |].
  rewrite length_app, IH, Hl. lia.
Qed.

Lemma Forall_concat_intro (P : A -> Prop) (ls : list (list A)) :
  Forall (Forall P) ls -> Forall P (concat ls).
Proof.
  induction 1 as [|l ls Hl _ IH]; simpl; [constructor |].
  apply Forall_app. split; assumption.
Qed.

(** Blocks of one element each, related pointwise, concatenate to a list
    related pointwise. *)
Lemma Forall2_concat_singletons (P : A -> B -> Prop) (xs : list A)
    (outs : list (list B)) :
  Forall2 (fun x out => exists y, out = [y] /\ P x y) xs outs ->
  Forall2 P xs (concat outs).
Proof.
  induction 1 as [|x out xs outs (y & -> & Hy) _ IH]; cbn; constructor; auto.
Qed.

End ListFacts.

(** A sum that counts [k] for each element with a property. *)
Lemma list_sum_filter {A} (P : A -> Prop) `{!forall x, Decision (P x)}
    (k : nat) (xs : list A) :
  list_sum (map (fun x => if decide (P x) then k else 0%nat) xs)
  = (k * length (filter P xs))%nat.
Proof.
  unfold list_sum. induction xs as [|x xs IH]; cbn [map fold_right].
  - cbn. lia.
  - rewrite IH, filter_cons. destruct (decide (P x)); cbn [length]; lia.
Qed.

(** Two elements of a list without duplicate keys that share a key are
    equal. *)
Lemma NoDup_fmap_elem_of_eq {A K} (f : A -> K) (xs : list A) (x y : A) :
  NoDup (map f xs) -> x ∈ xs -> y ∈ xs -> f x = f y -> x = y.
Proof.
  induction xs as [|a xs IH]; cbn; [intros _ H%elem_of_nil; contradiction |].
  intros [Ha Hnd]%NoDup_cons [->|Hx]%elem_of_cons [->|Hy]%elem_of_cons Hf;
    [reflexivity | exfalso | exfalso | exact (IH Hnd Hx Hy Hf)]; apply Ha.
  - rewrite Hf. apply list_elem_of_fmap_2, Hy.
  - rewrite <- Hf. apply list_elem_of_fmap_2, Hx.
Qed.

(** An element of the second list is related to one of the first. *)
Lemma Forall2_elem_of_r {A B} (R : A -> B -> Prop) (xs : list A)
    (ys : list B) y :
  Forall2 R xs ys -> y ∈ ys -> exists x, x ∈ xs /\ R x y.
Proof.
  induction 1 as [|x y' xs ys Hxy _ IH]; [intros H%elem_of_nil; contradiction |].
  intros [->|Hy]%elem_of_cons.
  - exists x. split; [left | exact Hxy].
  - destruct (IH Hy) as (x' & Hx' & HR). exists x'. split; [right |]; assumption.
Qed.

(** An element of the concatenation lies in the block of some [x]. *)
Lemma Forall2_concat_elem_of {A B} (R : A -> list B -> Prop) (xs : list A)
    (blocks : list (list B)) y :
  Forall2 R xs blocks -> y ∈ concat blocks ->
  exists x block, x ∈ xs /\ R x block /\ y ∈ block.
Proof.
  intros HR (block & Hy & Hb)%elem_of_concat.
  destruct (Forall2_elem_of_r _ _ _ _ HR Hb) as (x & Hx & Hxb). eauto.
Qed.

(** Every block of a sequence of related blocks has the related property. *)
Lemma Forall2_Forall_r {A B} (R : A -> B -> Prop) (P : B -> Prop)
    (xs : list A) (ys : list B) :
  (forall x y, x ∈ xs -> R x y -> P y) -> Forall2 R xs ys -> Forall P ys.
Proof.
  intros H HR. induction HR as [|x y xs ys Hxy _ IH]; constructor.
  - apply (H x); [left | exact Hxy].
  - apply IH. intros x' y' Hx'. apply H. right. exact Hx'.
Qed.

(** ** Tables built block by block

    Every generator writes, for each catalog entry [x] in turn, a block of
    rows that carry the key of [x].  When the keys of the entries are
    pairwise distinct, rows with one key lie in one block. *)

Section Blocks.
Context {A B K : Type} (R : A -> list B -> Prop) (ka : A -> K) (kb : B -> K).
Hypothesis R_key : forall x b y, R x b -> y ∈ b -> kb y = ka x.

Lemma Forall2_concat_key (xs : list A) (blocks : list (list B)) y :
  Forall2 R xs blocks -> y ∈ concat blocks -> kb y ∈ map ka xs.
Proof.
  intros HR Hy.
  destruct (Forall2_concat_elem_of _ _ _ _ HR Hy) as (x & b & Hx & Hxb & Hyb).
  rewrite (R_key _ _ _ Hxb Hyb). apply list_elem_of_fmap_2, Hx.
Qed.

Lemma Forall2_concat_same_block (xs : list A) (blocks : list (list B)) y1 y2 :
  NoDup (map ka xs) -> Forall2 R xs blocks ->
  y1 ∈ concat blocks -> y2 ∈ concat blocks -> kb y1 = kb y2 ->
  exists x b, x ∈ xs /\ R x b /\ y1 ∈ b /\ y2 ∈ b.
Proof.
  intros Hnd HR. revert Hnd.
  induction HR as [|x b xs blocks Hxb HR IH]; cbn.
  - intros _ H%elem_of_nil. contradiction.
  - intros [Hx Hnd]%NoDup_cons. rewrite !elem_of_app.
    intros [H1|H1] [H2|H2] Hk.
    + exists x, b. repeat split; [left | |..]; assumption.
    + exfalso. apply Hx. rewrite <- (R_key _ _ _ Hxb H1), Hk.
      eapply Forall2_concat_key; eassumption.
    + exfalso. apply Hx. rewrite <- (R_key _ _ _ Hxb H2), <- Hk.
      eapply Forall2_concat_key; eassumption.
    + destruct (IH Hnd H1 H2 Hk) as (x' & b' & Hx' & ?).
      exists x', b'. split; [right |]; assumption.
Qed.

(** A projection [f] that determines the key and has no duplicate inside a
    block has none in the table. *)
Lemma NoDup_concat_blocks {C} (f : B -> C) (xs : list A)
    (blocks : list (list B)) :
  (forall y1 y2, f y1 = f y2 -> kb y1 = kb y2) ->
  (forall x b, R x b -> NoDup (map f b)) ->
  NoDup (map ka xs) -> Forall2 R xs blocks -> NoDup (map f (concat blocks)).
Proof.
  intros Hf Hb Hnd HR. revert Hnd.
  induction HR as [|x b xs blocks Hxb HR IH]; cbn.
  - intros _. constructor.
  - intros [Hx Hnd]%NoDup_cons. rewrite map_app. apply NoDup_app.
    split; [eapply Hb, Hxb |]. split; [| apply IH, Hnd].
    intros z (y1 & -> & Hy1)%list_elem_of_fmap (y2 & Hz & Hy2)%list_elem_of_fmap.
    apply Hx. rewrite <- (R_key _ _ _ Hxb Hy1), (Hf _ _ Hz).
    eapply Forall2_concat_key; eassumption.
Qed.

End Blocks.

(** [blocks_table R xs rows]: [rows] is the concatenation, in the order of
    [xs], of one block per entry, the block of [x] being related to [x] by
    [R]. *)
Definition blocks_table {A B} (R : A -> list B -> Prop) (xs : list A)
    (rows : list B) : Prop :=
  exists blocks, rows = concat blocks /\ Forall2 R xs blocks.

Section BlocksTable.
Context {A B K : Type} (R : A -> list B -> Prop).

Lemma blocks_table_length (k : nat) (xs : list A) (rows : list B) :
  (forall x b, R x b -> length b = k) ->
  blocks_table R xs rows -> length rows = (k * length xs)%nat.
Proof.
  intros Hk (blocks & -> & H). rewrite (Forall2_length _ _ _ H).
  apply length_concat_uniform. eapply Forall2_Forall_r, H.
  intros x b _. apply Hk.
Qed.

(** When the length of a block depends on its entry, the table has the sum
    of the lengths. *)
Lemma blocks_table_length_sum (n : A -> nat) (xs : list A) (rows : list B) :
  (forall x b, R x b -> length b = n x) ->
  blocks_table R xs rows -> length rows = list_sum (map n xs).
Proof.
  intros Hn (blocks & -> & H).
  induction H as [|x b xs blocks Hxb _ IH]; cbn; [reflexivity |].
  rewrite length_app, (Hn _ _ Hxb), IH. reflexivity.
Qed.

Lemma blocks_table_elem_of (xs : list A) (rows : list B) y :
  blocks_table R xs rows -> y ∈ rows ->
  exists x b, x ∈ xs /\ R x b /\ y ∈ b.
Proof. intros (blocks & -> & H). apply Forall2_concat_elem_of, H. Qed.

Context (ka : A -> K) (kb : B -> K).
Hypothesis R_key : forall x b y, R x b -> y ∈ b -> kb y = ka x.

Lemma blocks_table_same_block (xs : list A) (rows : list B) y1 y2 :
  NoDup (map ka xs) -> blocks_table R xs rows ->
  y1 ∈ rows -> y2 ∈ rows -> kb y1 = kb y2 ->
  exists x b, x ∈ xs /\ R x b /\ y1 ∈ b /\ y2 ∈ b.
Proof.
  intros Hnd (blocks & -> & H).
  apply (Forall2_concat_same_block R ka kb R_key); assumption.
Qed.

Lemma blocks_table_NoDup {C} (f : B -> C) (xs : list A) (rows : list B) :
  (forall y1 y2, f y1 = f y2 -> kb y1 = kb y2) ->
  (forall x b, R x b -> NoDup (map f b)) ->
  NoDup (map ka xs) -> blocks_table R xs rows -> NoDup (map f rows).
Proof.
  intros Hf Hb Hnd (blocks & -> & H).
  apply (NoDup_concat_blocks R ka kb R_key f xs blocks); assumption.
Qed.

End BlocksTable.
