(* ===== verification/PyNum.v ===== *)
(** * PyNum: the Python builtins the loader calls on numbers

    [round(x, n)], [min], [max], [x ** k] and [range(a, b)] as total
    functions on exact rationals and integers, with the facts the generators
    need about them: the rounding error, monotonicity, stability of bounds
    that lie on the decimal grid, and clamping. *)

From Stdlib Require Import QArith Qround Qpower Qabs Lqa Lia ZArith List.
From stdpp Require Import base tactics option list.
From S2P Require Import Prelude.

Local Open Scope Q_scope.

(** ** Definitions *)

(** Nearest integer, ties to the even neighbour (Python 3's rounding). *)
Definition round_half_even (x : Q) : Z :=
  let f := Qfloor x in
  match Qcompare (x - inject_Z f) (1 # 2) with
  | Lt => f
  | Gt => (f + 1)%Z
  | Eq => if Z.even f then f else (f + 1)%Z
  end.

(** [10 ** ndigits] as a rational. *)
Definition pow10 (ndigits : nat) : Q := inject_Z (10 ^ Z.of_nat ndigits).

(** [round(x, ndigits)]: scale, round to the nearest integer, scale back. *)
Definition py_round (x : Q) (ndigits : nat) : Q :=
  inject_Z (round_half_even (x * pow10 ndigits)) / pow10 ndigits.

(** [min(a, b)] returns [a] unless [b < a]. *)
Definition py_min (a b : Q) : Q := if Qlt_le_dec b a then b else a.

(** [max(a, b)] returns [a] unless [a < b]. *)
Definition py_max (a b : Q) : Q := if Qlt_le_dec a b then b else a.

(** [x ** k] for an integer exponent. *)
Definition py_pow (x : Q) (k : Z) : Q := x ^ k.

(** [range(a, b)]: the integers [a, a+1, ..., b-1]. *)
Definition py_range (a b : Z) : list Z :=
  map (fun i => (a + Z.of_nat i)%Z) (seq 0 (Z.to_nat (b - a))).

(** A value that [round(_, ndigits)] leaves unchanged. *)
Definition on_grid (ndigits : nat) (q : Q) : Prop := py_round q ndigits == q.

(** ** [round_half_even] *)

#[export] Instance round_half_even_proper : Proper (Qeq ==> eq) round_half_even.
Proof.
  intros x y Hxy. unfold round_half_even.
  rewrite (Qfloor_comp _ _ Hxy).
  replace (Qcompare (x - inject_Z (Qfloor y)) (1 # 2))
    with (Qcompare (y - inject_Z (Qfloor y)) (1 # 2)); [reflexivity |].
  apply Qcompare_comp; [rewrite Hxy |]; reflexivity.
Qed.

(** The three outcomes of the comparison with one half, as rational facts. *)
Lemma round_half_even_cases (x : Q) :
  let f := Qfloor x in
  (x - inject_Z f < 1 # 2 /\ round_half_even x = f) \/
  (1 # 2 < x - inject_Z f /\ round_half_even x = (f + 1)%Z) \/
  (x - inject_Z f == 1 # 2 /\
   round_half_even x = if Z.even f then f else (f + 1)%Z).
Proof.
  intros f. unfold round_half_even. fold f.
  destruct (Qcompare (x - inject_Z f) (1 # 2)) eqn:E.
  - right; right. split; [apply (proj2 (Qeq_alt _ _)), E | reflexivity].
  - left. split; [apply (proj2 (Qlt_alt _ _)), E | reflexivity].
  - right; left. split; [apply (proj2 (Qgt_alt _ _)), E | reflexivity].
Qed.

Lemma round_half_even_bounds (x : Q) :
  x - (1 # 2) <= inject_Z (round_half_even x) <= x + (1 # 2).
Proof.
  destruct (Qfloor_bounds x) as [Flo Fhi].
  destruct (round_half_even_cases x) as [[H ->]|[[H ->]|[H ->]]];
    [| | destruct (Z.even _)]; rewrite ?inject_Z_succ; split; lra.
Qed.

Lemma round_half_even_Z (z : Z) : round_half_even (inject_Z z) = z.
Proof.
  unfold round_half_even. rewrite Qfloor_Z.
  replace (Qcompare (inject_Z z - inject_Z z) (1 # 2)) with Lt; [reflexivity |].
  symmetry. apply (proj1 (Qlt_alt _ _)). lra.
Qed.

Lemma round_half_even_lt_mono (x y : Q) :
  x < y -> (round_half_even x <= round_half_even y)%Z.
Proof.
  intros Hxy.
  pose proof (round_half_even_bounds x) as [_ Hx].
  pose proof (round_half_even_bounds y) as [Hy _].
  assert (inject_Z (round_half_even x) < inject_Z (round_half_even y + 1)) as H
    by (rewrite inject_Z_succ; lra).
  apply inject_Z_lt_inv in H. lia.
Qed.

Lemma round_half_even_mono (x y : Q) :
  x <= y -> (round_half_even x <= round_half_even y)%Z.
Proof.
  intros Hxy. destruct (Qlt_le_dec x y) as [Hlt|Hge].
  - apply round_half_even_lt_mono, Hlt.
  - assert (x == y) as -> by lra. reflexivity.
Qed.

(** Two inputs more than one apart round to different integers. *)
Lemma round_half_even_gap (x y : Q) :
  x + 1 < y -> (round_half_even x < round_half_even y)%Z.
Proof.
  intros Hxy.
  pose proof (round_half_even_bounds x) as [_ Hx].
  pose proof (round_half_even_bounds y) as [Hy _].
  apply inject_Z_lt_inv. lra.
Qed.

(** ** [py_round] *)

Lemma pow10_pos (n : nat) : 0 < pow10 n.
Proof.
  unfold pow10. change 0 with (inject_Z 0). apply inject_Z_lt.
  apply Z.pow_pos_nonneg; lia.
Qed.

#[export] Instance py_round_proper : Proper (Qeq ==> eq ==> eq) py_round.
Proof.
  intros x y Hxy n ? <-. unfold py_round.
  assert (x * pow10 n == y * pow10 n) as H by (rewrite Hxy; reflexivity).
  rewrite (round_half_even_proper _ _ H). reflexivity.
Qed.

(** Scaling a rounded value back up gives the integer it was built from. *)
Lemma py_round_scaled (x : Q) (n : nat) :
  py_round x n * pow10 n == inject_Z (round_half_even (x * pow10 n)).
Proof.
  unfold py_round. pose proof (pow10_pos n). field. lra.
Qed.

Lemma py_round_mono (x y : Q) (n : nat) :
  x <= y -> py_round x n <= py_round y n.
Proof.
  intros Hxy. pose proof (pow10_pos n) as Hp. unfold py_round.
  apply Qmult_le_compat_r; [| apply Qlt_le_weak, Qinv_lt_0_compat, Hp].
  apply inject_Z_le, round_half_even_mono. nra.
Qed.

Lemma py_round_idem (x : Q) (n : nat) : on_grid n (py_round x n).
Proof.
  unfold on_grid. unfold py_round at 1.
  rewrite py_round_scaled, round_half_even_Z. reflexivity.
Qed.

(** Bounds that lie on the decimal grid survive rounding. *)
Lemma py_round_between (lo hi x : Q) (n : nat) :
  on_grid n lo -> on_grid n hi -> lo <= x <= hi ->
  lo <= py_round x n <= hi.
Proof.
  unfold on_grid. intros Hlo Hhi [H1 H2].
  split.
  - apply Qle_trans with (py_round lo n); [rewrite Hlo; lra |].
    apply py_round_mono, H1.
  - apply Qle_trans with (py_round hi n); [| rewrite Hhi; lra].
    apply py_round_mono, H2.
Qed.

(** The rounding error is at most half a unit of the last kept digit. *)
Lemma py_round_error (x : Q) (n : nat) :
  Qabs (py_round x n - x) * pow10 n <= 1 # 2.
Proof.
  pose proof (pow10_pos n) as Hp.
  pose proof (round_half_even_bounds (x * pow10 n)) as [Hlo Hhi].
  pose proof (py_round_scaled x n) as Hs.
  apply Qabs_case; intros _; nra.
Qed.

(** Inputs more than one grid step apart round to different values. *)
Lemma py_round_gap (x y : Q) (n : nat) :
  x * pow10 n + 1 < y * pow10 n -> py_round x n < py_round y n.
Proof.
  intros H. pose proof (pow10_pos n) as Hp. unfold py_round.
  apply Qmult_lt_compat_r; [apply Qinv_lt_0_compat, Hp |].
  apply inject_Z_lt, round_half_even_gap, H.
Qed.

(** ** [py_min], [py_max] and clamping *)

#[export] Instance py_min_proper : Proper (Qeq ==> Qeq ==> Qeq) py_min.
Proof.
  intros a a' Ha b b' Hb. unfold py_min.
  destruct (Qlt_le_dec b a), (Qlt_le_dec b' a'); lra.
Qed.

#[export] Instance py_max_proper : Proper (Qeq ==> Qeq ==> Qeq) py_max.
Proof.
  intros a a' Ha b b' Hb. unfold py_max.
  destruct (Qlt_le_dec a b), (Qlt_le_dec a' b'); lra.
Qed.

Lemma py_min_spec (a b : Q) :
  py_min a b <= a /\ py_min a b <= b /\ (py_min a b == a \/ py_min a b == b).
Proof. unfold py_min. destruct (Qlt_le_dec b a); repeat split; lra || auto with *. Qed.

Lemma py_max_spec (a b : Q) :
  a <= py_max a b /\ b <= py_max a b /\ (py_max a b == a \/ py_max a b == b).
Proof. unfold py_max. destruct (Qlt_le_dec a b); repeat split; lra || auto with *. Qed.

(** [max(lo, min(hi, x))] lies in [[lo, hi]] whatever [x] is. *)
Lemma py_clamp_bounds (lo hi x : Q) :
  lo <= hi -> lo <= py_max lo (py_min hi x) <= hi.
Proof.
  intros H. unfold py_max, py_min.
  destruct (Qlt_le_dec x hi); destruct (Qlt_le_dec lo _); split; lra.
Qed.

(** Inside the interval the clamp is the identity. *)
Lemma py_clamp_inside (lo hi x : Q) :
  lo <= x <= hi -> py_max lo (py_min hi x) == x.
Proof.
  intros [H1 H2]. unfold py_max, py_min.
  destruct (Qlt_le_dec x hi); destruct (Qlt_le_dec lo _); lra.
Qed.

(** ** [py_pow] *)

#[export] Instance py_pow_proper : Proper (Qeq ==> eq ==> Qeq) py_pow.
Proof. intros x y Hxy k ? <-. unfold py_pow. rewrite Hxy. reflexivity. Qed.

Lemma py_pow_0 (x : Q) : py_pow x 0 == 1.
Proof. reflexivity. Qed.

Lemma py_pow_mono (x y : Q) (k : Z) :
  (0 <= k)%Z -> 0 <= x -> x <= y -> py_pow x k <= py_pow y k.
Proof.
  intros Hk Hx Hxy. unfold py_pow. rewrite <- (Z2Nat.id k Hk).
  apply Qpower_nat_le_compat; assumption.
Qed.

Lemma py_pow_ge_1 (x : Q) (k : Z) : (0 <= k)%Z -> 1 <= x -> 1 <= py_pow x k.
Proof. intros Hk Hx. apply Qpower_1_le; assumption. Qed.

Lemma py_pow_le_1 (x : Q) (k : Z) :
  (0 <= k)%Z -> 0 <= x -> x <= 1 -> py_pow x k <= 1.
Proof.
  intros Hk Hx Hx1. rewrite <- (Qpower_1 k).
  apply (py_pow_mono x 1 k); assumption.
Qed.

(** A positive power of a base in [[0, 1]] is at most the base. *)
Lemma py_pow_le_base (x : Q) (k : Z) :
  (1 <= k)%Z -> 0 <= x -> x <= 1 -> py_pow x k <= x.
Proof.
  intros Hk H0 H1. unfold py_pow. destruct (Qeq_dec x 0) as [Hx|Hx].
  - rewrite Hx, Qpower_0 by lia. lra.
  - replace k with (1 + (k - 1))%Z by lia. rewrite Qpower_plus by exact Hx.
    pose proof (py_pow_le_1 x (k - 1) ltac:(lia) H0 H1) as Hp.
    unfold py_pow in Hp. pose proof (Qpower_0_le x (k - 1) H0).
    simpl (x ^ 1). nra.
Qed.

(** ** [py_range] *)

Lemma py_range_length (a b : Z) : length (py_range a b) = Z.to_nat (b - a).
Proof. unfold py_range. rewrite length_map, length_seq. reflexivity. Qed.

Lemma py_range_elem_of (a b y : Z) : y ∈ py_range a b <-> (a <= y < b)%Z.
Proof.
  unfold py_range. rewrite list_elem_of_fmap. setoid_rewrite elem_of_seq. split.
  - intros (i & -> & Hi). lia.
  - intros H. exists (Z.to_nat (y - a)). lia.
Qed.

Lemma py_range_NoDup (a b : Z) : NoDup (py_range a b).
Proof.
  unfold py_range. apply NoDup_fmap_2_strong; [| apply NoDup_seq].
  intros i j _ _ H. lia.
Qed.

Lemma py_range_cons (a b : Z) :
  (a < b)%Z -> py_range a b = a :: py_range (a + 1) b.
Proof.
  intros H. unfold py_range.
  replace (Z.to_nat (b - a)) with (S (Z.to_nat (b - (a + 1)))) by lia.
  cbn [seq map]. f_equal; [lia |].
  rewrite <- seq_shift, map_map. apply map_ext. intros i. lia.
Qed.

(** ** Concrete runs *)

Example py_round_half_to_even :
  py_round 0.125 2 == 0.12 /\ py_round 0.135 2 == 0.14 /\
  py_round (-2.675) 2 == -2.68 /\ py_round 3 2 == 3.
Proof. vm_compute. repeat split; reflexivity. Qed.

Example py_range_years :
  py_range 2015 2024 =
  [2015; 2016; 2017; 2018; 2019; 2020; 2021; 2022; 2023]%Z.
Proof. reflexivity. Qed.
