(* ===== verification/Effects.v ===== *)
(** * Effects: the state-and-exception monad the script runs in

    A Python statement reads and updates the interpreter's state and either
    returns a value or raises.  [M S E A] is the type of such computations
    over a state [S] with exceptions [E]: a raise keeps the state reached so
    far, as in Python.  The file gives the control constructs the script uses
    (sequencing, [for] loops that append to a list, try / except / finally),
    the monad laws, and a weakest-precondition calculus [wp] with one rule per
    construct, which the component files use for every loop. *)

From Stdlib Require Import List.
From stdpp Require Import base tactics option list.
From S2P Require Import Prelude.

(** ** Results and computations *)

Inductive result (E A : Type) : Type :=
| Ok (a : A)
| Raise (e : E).

Arguments Ok {E A} a.
Arguments Raise {E A} e.

Definition M (S E A : Type) : Type := S -> result E A * S.

Section Monad.
Context {S E : Type}.

Definition ret {A} (a : A) : M S E A := fun s => (Ok a, s).

Definition bind {A B} (c : M S E A) (k : A -> M S E B) : M S E B :=
  fun s =>
    match c s with
    | (Ok a, s') => k a s'
    | (Raise e, s') => (Raise e, s')
    end.

Definition raise {A} (e : E) : M S E A := fun s => (Raise e, s).

Definition get : M S E S := fun s => (Ok s, s).

Definition modify (f : S -> S) : M S E unit := fun s => (Ok tt, f s).

(** [try: c except Exception as e: h e]. *)
Definition try_except {A} (c : M S E A) (h : E -> M S E A) : M S E A :=
  fun s =>
    match c s with
    | (Ok a, s') => (Ok a, s')
    | (Raise e, s') => h e s'
    end.

(** [try: c finally: f]: [f] runs on both exits; an exception of [c] is
    raised again after [f], unless [f] itself raises. *)
Definition try_finally {A} (c : M S E A) (f : M S E unit) : M S E A :=
  fun s =>
    match c s with
    | (r, s') =>
        match f s' with
        | (Ok _, s'') => (r, s'')
        | (Raise e, s'') => (Raise e, s'')
        end
    end.

(** [for x in xs: acc = body(x, acc)]: the loop threads the list it appends
    to; a raise in the body leaves the loop. *)
Fixpoint for_acc {A B} (xs : list A) (body : A -> B -> M S E B) (acc : B)
  : M S E B :=
  match xs with
  | [] => ret acc
  | x :: xs' => bind (body x acc) (for_acc xs' body)
  end.

(** [for x in xs: body(x)]. *)
Definition for_each {A} (xs : list A) (body : A -> M S E unit) : M S E unit :=
  for_acc xs (fun x _ => body x) tt.

(** The result and the final state of a run. *)
Definition run_result {A} (c : M S E A) (s : S) : result E A := fst (c s).
Definition run_state {A} (c : M S E A) (s : S) : S := snd (c s).

(** [wp c Q s]: running [c] from [s] ends in a result and a state that
    satisfy [Q].  Every computation terminates, so this is total
    correctness. *)
Definition wp {A} (c : M S E A) (Q : result E A -> S -> Prop) (s : S) : Prop :=
  Q (run_result c s) (run_state c s).

(** The postcondition of a computation that must return normally. *)
Definition returns {A} (Q : A -> S -> Prop) : result E A -> S -> Prop :=
  fun r s => match r with Ok a => Q a s | Raise _ => False end.

(** The postcondition of a computation that may raise: [Qe] on a raise. *)
Definition returns_or {A} (Q : A -> S -> Prop) (Qe : E -> S -> Prop)
  : result E A -> S -> Prop :=
  fun r s => match r with Ok a => Q a s | Raise e => Qe e s end.

End Monad.

Notation "x <- c ;; k" := (bind c (fun x => k))
  (at level 100, c at next level, right associativity) : py_scope.
Notation "c ;; k" := (bind c (fun _ => k))
  (at level 100, right associativity) : py_scope.

Local Open Scope py_scope.

(** ** Monad laws *)

Section Laws.
Context {S E : Type}.
Implicit Types s : S.

Lemma bind_ret_l {A B} (a : A) (k : A -> M S E B) s : bind (ret a) k s = k a s.
Proof. reflexivity. Qed.

Lemma bind_ret_r {A} (c : M S E A) s : bind c ret s = c s.
Proof. unfold bind, ret. destruct (c s) as [[a|e] s']; reflexivity. Qed.

Lemma bind_assoc {A B C} (c : M S E A) (k : A -> M S E B) (h : B -> M S E C) s :
  bind (bind c k) h s = bind c (fun a => bind (k a) h) s.
Proof. unfold bind. destruct (c s) as [[a|e] s']; reflexivity. Qed.

Lemma bind_raise {A B} (e : E) (k : A -> M S E B) s :
  bind (raise e) k s = (Raise e, s).
Proof. reflexivity. Qed.

Lemma bind_ext {A B} (c : M S E A) (k k' : A -> M S E B) s :
  (forall a s', k a s' = k' a s') -> bind c k s = bind c k' s.
Proof.
  intros H. unfold bind. destruct (c s) as [[a|e] s']; [apply H | reflexivity].
Qed.

Lemma for_acc_app {A B} (xs ys : list A) (body : A -> B -> M S E B) acc s :
  for_acc (xs ++ ys) body acc s
  = bind (for_acc xs body acc) (for_acc ys body) s.
Proof.
  revert acc s. induction xs as [|x xs IH]; intros acc s; [reflexivity |].
  cbn [for_acc app]. rewrite bind_assoc. apply bind_ext. exact IH.
Qed.

(** A loop whose body only appends a value computed from the element
    returns the list extended by the values, in the state it started in. *)
Lemma for_acc_pure {A B} (f : A -> B) (body : A -> list B -> M S E (list B))
    (xs : list A) (acc : list B) s :
  (forall x acc, body x acc = ret (acc ++ [f x])) ->
  for_acc xs body acc s = (Ok (acc ++ map f xs), s).
Proof.
  intros Hbody. revert acc.
  induction xs as [|x xs IH]; intros acc; cbn [for_acc map].
  - rewrite app_nil_r. reflexivity.
  - rewrite Hbody, bind_ret_l, IH, <- app_assoc. reflexivity.
Qed.

End Laws.

(** ** Rules of the calculus *)

Section Rules.
Context {S E : Type}.
Implicit Types s : S.

Lemma wp_run {A} (c : M S E A) (Q : result E A -> S -> Prop) s r s' :
  c s = (r, s') -> Q r s' -> wp c Q s.
Proof. unfold wp, run_result, run_state. intros ->. exact id. Qed.

(** A run whose outcome is decided by a test. *)
Lemma wp_if_outcome {A} (c : M S E A) (Q : result E A -> S -> Prop) s
    (b : bool) r1 s1 r2 s2 :
  c s = (if b then (r1, s1) else (r2, s2)) ->
  (b = true -> Q r1 s1) -> (b = false -> Q r2 s2) -> wp c Q s.
Proof.
  unfold wp, run_result, run_state. intros ->.
  destruct b; cbn; auto.
Qed.

Lemma wp_mono {A} (c : M S E A) (Q Q' : result E A -> S -> Prop) s :
  (forall r s', Q r s' -> Q' r s') -> wp c Q s -> wp c Q' s.
Proof. unfold wp. auto. Qed.

Lemma wp_conj {A} (c : M S E A) (Q Q' : result E A -> S -> Prop) s :
  wp c Q s -> wp c Q' s -> wp c (fun r s' => Q r s' /\ Q' r s') s.
Proof. unfold wp. auto. Qed.

Lemma wp_ret {A} (a : A) (Q : result E A -> S -> Prop) s :
  Q (Ok a) s -> wp (ret a) Q s.
Proof. exact id. Qed.

Lemma wp_raise {A} (e : E) (Q : result E A -> S -> Prop) s :
  Q (Raise e) s -> wp (raise e) Q s.
Proof. exact id. Qed.

Lemma wp_modify (f : S -> S) (Q : result E unit -> S -> Prop) s :
  Q (Ok tt) (f s) -> wp (modify f) Q s.
Proof. exact id. Qed.

Lemma wp_bind {A B} (c : M S E A) (k : A -> M S E B)
    (Q : result E B -> S -> Prop) s :
  wp c (fun r s' =>
          match r with
          | Ok a => wp (k a) Q s'
          | Raise e => Q (Raise e) s'
          end) s ->
  wp (bind c k) Q s.
Proof.
  unfold wp, run_result, run_state, bind.
  destruct (c s) as [[a|e] s']; exact id.
Qed.

(** Sequencing after a computation that returns normally. *)
Lemma wp_bind_returns {A B} (c : M S E A) (k : A -> M S E B)
    (P : A -> S -> Prop) (Q : result E B -> S -> Prop) s :
  wp c (returns P) s ->
  (forall a s', P a s' -> wp (k a) Q s') ->
  wp (bind c k) Q s.
Proof.
  intros Hc Hk. apply wp_bind. revert Hc. apply wp_mono.
  intros [a|e] s'; cbn; [apply Hk | tauto].
Qed.

Lemma wp_try_except {A} (c : M S E A) (h : E -> M S E A)
    (Q : result E A -> S -> Prop) s :
  wp c (fun r s' =>
          match r with
          | Ok a => Q (Ok a) s'
          | Raise e => wp (h e) Q s'
          end) s ->
  wp (try_except c h) Q s.
Proof.
  unfold wp, run_result, run_state, try_except.
  destruct (c s) as [[a|e] s']; exact id.
Qed.

Lemma wp_try_finally {A} (c : M S E A) (f : M S E unit)
    (Q : result E A -> S -> Prop) s :
  wp c (fun r s' =>
          wp f (fun rf s'' =>
                  match rf with
                  | Ok _ => Q r s''
                  | Raise e => Q (Raise e) s''
                  end) s') s ->
  wp (try_finally c f) Q s.
Proof.
  unfold wp, run_result, run_state, try_finally.
  destruct (c s) as [r s']; cbn.
  destruct (f s') as [[[]|e] s'']; exact id.
Qed.

(** The loop rule.  [Inv done acc s] is the invariant after the elements
    [done] have been processed; a raise in the body must establish [Qe]. *)
Lemma wp_for_acc {A B} (body : A -> B -> M S E B)
    (Inv : list A -> B -> S -> Prop) (Qe : E -> S -> Prop)
    (xs : list A) (acc : B) s :
  Inv [] acc s ->
  (forall done x rest acc s,
      xs = done ++ x :: rest -> Inv done acc s ->
      wp (body x acc) (returns_or (Inv (done ++ [x])) Qe) s) ->
  wp (for_acc xs body acc) (returns_or (Inv xs) Qe) s.
Proof.
  intros H0 Hstep.
  enough (forall rest done acc s,
             xs = done ++ rest -> Inv done acc s ->
             wp (for_acc rest body acc) (returns_or (Inv xs) Qe) s) as H
    by (apply (H xs []); [reflexivity | exact H0]).
  clear acc s H0. induction rest as [|x rest IH]; intros done acc s Hxs HI.
  - rewrite app_nil_r in Hxs. subst done. exact HI.
  - cbn [for_acc]. apply wp_bind.
    generalize (Hstep done x rest acc s Hxs HI). apply wp_mono.
    intros [acc'|e] s'; cbn; [| exact id].
    apply IH. rewrite <- app_assoc. exact Hxs.
Qed.

(** The loop rule for a body that cannot raise. *)
Lemma wp_for_acc_returns {A B} (body : A -> B -> M S E B)
    (Inv : list A -> B -> S -> Prop) (xs : list A) (acc : B) s :
  Inv [] acc s ->
  (forall done x rest acc s,
      xs = done ++ x :: rest -> Inv done acc s ->
      wp (body x acc) (returns (Inv (done ++ [x]))) s) ->
  wp (for_acc xs body acc) (returns (Inv xs)) s.
Proof.
  intros H0 Hstep.
  apply (wp_mono _ (returns_or (Inv xs) (fun _ _ => False))).
  { intros [a|e] s'; exact id. }
  apply wp_for_acc; [exact H0 |].
  intros done x rest acc' s' Hxs HI.
  generalize (Hstep done x rest acc' s' Hxs HI). apply wp_mono.
  intros [a|e] s''; exact id.
Qed.

(** The rule for the loops of the script, which append a block of rows per
    element: if the body appends a block related to [x] by [R] and changes
    the state by [T x], the loop appends the blocks in order and changes the
    state by the [T x] in order. *)
Lemma wp_for_acc_blocks {A B} (body : A -> list B -> M S E (list B))
    (R : A -> list B -> Prop) (T : A -> S -> S) (xs : list A)
    (acc : list B) s :
  (forall x acc s, x ∈ xs ->
     wp (body x acc)
        (returns (fun acc' s' =>
           exists out, acc' = acc ++ out /\ R x out /\ s' = T x s)) s) ->
  wp (for_acc xs body acc)
     (returns (fun acc' s' =>
        exists outs, acc' = acc ++ concat outs /\ Forall2 R xs outs
                     /\ s' = foldl (fun s x => T x s) s xs)) s.
Proof.
  intros Hbody.
  apply (wp_mono _ (returns (fun acc' s' =>
    exists outs, acc' = acc ++ concat outs /\ Forall2 R xs outs
                 /\ s' = foldl (fun s x => T x s) s xs))); [tauto |].
  apply (wp_for_acc_returns body (fun done acc' s' =>
    exists outs, acc' = acc ++ concat outs /\ Forall2 R done outs
                 /\ s' = foldl (fun s x => T x s) s done)).
  - exists []. rewrite app_nil_r. auto.
  - intros done x rest acc' s' Hxs (outs & -> & HR & ->).
    assert (x ∈ xs) as Hx by (rewrite Hxs; apply elem_of_app; right; left).
    generalize
      (Hbody x (acc ++ concat outs) (foldl (fun s x => T x s) s done) Hx).
    apply wp_mono.
    intros [a|e] s''; cbn; [| exact id]. intros (out & -> & Hout & ->).
    exists (outs ++ [out]). rewrite concat_app, foldl_app, <- app_assoc. cbn.
    rewrite app_nil_r. split; [reflexivity |]. split; [| reflexivity].
    apply Forall2_app; [exact HR | constructor; [exact Hout | constructor]].
Qed.

(** What a run returned, read off a [wp] fact. *)
Lemma wp_returns_inv {A} (c : M S E A) (P : A -> S -> Prop) s :
  wp c (returns P) s -> exists a s', c s = (Ok a, s') /\ P a s'.
Proof.
  unfold wp, run_result, run_state.
  destruct (c s) as [[a|e] s']; cbn; [eauto | tauto].
Qed.

End Rules.

#[export] Hint Resolve wp_ret wp_raise wp_modify : py.
