(* ===== verification/Machine.v ===== *)
(** * Machine: labelled transition systems

    The statements of [main] form a small machine: each statement is a
    step that emits what it did.  This file holds what the development
    needs of such machines and nothing of the loader itself: finite runs
    and their labels, invariants by induction on a run, measures that bound
    the length of every run, the property that every path reaches a set of
    states, simulation of one machine by another, and machines given by a
    step function, which can be executed. *)

From Stdlib Require Import List Lia.
From stdpp Require Import base tactics option list.
From S2P Require Import Prelude.

Set Implicit Arguments.

(** ** Runs *)

Section Runs.
Context {St L : Type} (step : St -> L -> St -> Prop).
Implicit Types (s : St) (l : L) (ls : list L).

(** [run s ls s']: the machine goes from [s] to [s'] and emits [ls]. *)
Inductive run : St -> list L -> St -> Prop :=
| run_nil s : run s [] s
| run_cons s l s' ls s'' : step s l s' -> run s' ls s'' -> run s (l :: ls) s''.

Definition reachable (init s : St) : Prop := exists ls, run init ls s.

(** A state from which no step leaves. *)
Definition final (s : St) : Prop := forall l s', ~ step s l s'.

(** A predicate every step preserves. *)
Definition stable (I : St -> Prop) : Prop :=
  forall s l s', I s -> step s l s' -> I s'.

(** [eventually P s]: every path from [s] reaches [P], and no path from
    [s] gets stuck before it does. *)
Inductive eventually (P : St -> Prop) : St -> Prop :=
| eventually_now s : P s -> eventually P s
| eventually_later s :
    (exists l s', step s l s') ->
    (forall l s', step s l s' -> eventually P s') -> eventually P s.

Lemma run_one s l s' : step s l s' -> run s [l] s'.
Proof. intros H. eapply run_cons; [exact H | apply run_nil]. Qed.

Lemma run_app s ls s' ls' s'' :
  run s ls s' -> run s' ls' s'' -> run s (ls ++ ls') s''.
Proof.
  induction 1 as [|s l s1 ls s2 Hstep _ IH]; intros H'; [exact H' |].
  cbn. eapply run_cons; [exact Hstep | exact (IH H')].
Qed.

Lemma run_snoc s ls s' l s'' :
  run s ls s' -> step s' l s'' -> run s (ls ++ [l]) s''.
Proof. intros H Hstep. eapply run_app; [exact H | apply run_one, Hstep]. Qed.

(** An invariant holds at the end of every run that starts inside it. *)
Lemma run_invariant (I : St -> Prop) s ls s' :
  stable I -> run s ls s' -> I s -> I s'.
Proof. intros HI. induction 1; eauto. Qed.

(** The same for a predicate that depends on the labels emitted so far. *)
Lemma run_history_from (J : list L -> St -> Prop) s ls s' pre :
  (forall ls s l s', J ls s -> step s l s' -> J (ls ++ [l]) s') ->
  run s ls s' -> J pre s -> J (pre ++ ls) s'.
Proof.
  intros HJ Hrun. revert pre.
  induction Hrun as [|s l s1 ls s2 Hstep _ IH]; intros pre Hpre.
  - rewrite app_nil_r. exact Hpre.
  - rewrite cons_middle, app_assoc. apply IH. eapply HJ; eassumption.
Qed.

Lemma run_history (J : list L -> St -> Prop) s ls s' :
  (forall ls s l s', J ls s -> step s l s' -> J (ls ++ [l]) s') ->
  J [] s -> run s ls s' -> J ls s'.
Proof. intros HJ H0 Hrun. exact (run_history_from J [] HJ Hrun H0). Qed.

(** A measure that every step decreases bounds the length of every run. *)
Lemma run_measure (m : St -> nat) s ls s' :
  (forall s l s', step s l s' -> m s' < m s) ->
  run s ls s' -> length ls + m s' <= m s.
Proof.
  intros Hm. induction 1 as [|s l s1 ls s2 Hstep _ IH]; cbn; [lia |].
  specialize (Hm _ _ _ Hstep). lia.
Qed.

(** With such a measure, a machine that can step from every state of an
    invariant outside [P] reaches [P] on every path. *)
Lemma eventually_measure (m : St -> nat) (I P : St -> Prop) :
  (forall s l s', step s l s' -> m s' < m s) ->
  stable I -> (forall s, I s -> P s \/ exists l s', step s l s') ->
  forall s, I s -> eventually P s.
Proof.
  intros Hm HI Hprog s. remember (m s) as n eqn:En.
  revert s En. induction n as [n IH] using lt_wf_ind. intros s -> Hs.
  destruct (Hprog s Hs) as [HP|Hstep]; [apply eventually_now, HP |].
  apply eventually_later; [exact Hstep |].
  intros l s' Hstep'.
  eapply IH; [apply (Hm _ _ _ Hstep') | reflexivity | eapply HI; eassumption].
Qed.

Lemma eventually_weaken (P Q : St -> Prop) s :
  (forall s, P s -> Q s) -> eventually P s -> eventually Q s.
Proof.
  intros HPQ. induction 1 as [s HP|s Hs _ IH];
    [apply eventually_now, HPQ, HP | apply eventually_later; assumption].
Qed.

(** A run that ends in a final state has met every set of states that is
    reached eventually and cannot be left. *)
Lemma eventually_run (P : St -> Prop) s ls s' :
  stable P -> eventually P s -> run s ls s' -> final s' -> P s'.
Proof.
  intros HP Hev Hrun Hfin. revert Hev.
  induction Hrun as [s|s l s1 ls s2 Hstep Hrun IH]; intros Hev.
  - destruct Hev as [s HPs|s (l & s' & Hs) _]; [exact HPs |].
    destruct (Hfin _ _ Hs).
  - apply IH; [exact Hfin |].
    destruct Hev as [s HPs|s _ Hall];
      [apply eventually_now, (HP _ _ _ HPs Hstep) | exact (Hall _ _ Hstep)].
Qed.

End Runs.

#[export] Hint Constructors run : py.
#[export] Hint Resolve run_one run_snoc : py.

(** ** Simulation *)

(** The machine [cstep] is simulated by [astep] through the relation [R]
    when every step of the first is matched by a step of the second with
    the same label. *)
Section Simulation.
Context {C A L : Type}.
Context (cstep : C -> L -> C -> Prop) (astep : A -> L -> A -> Prop).
Context (R : C -> A -> Prop).

Definition simulates : Prop :=
  forall c l c' a, R c a -> cstep c l c' ->
    exists a', astep a l a' /\ R c' a'.

(** A simulation of steps is a simulation of runs: the labels of a run of
    the first machine are labels of a run of the second. *)
Lemma simulation_run c ls c' a :
  simulates -> run cstep c ls c' -> R c a ->
  exists a', run astep a ls a' /\ R c' a'.
Proof.
  intros Hsim Hrun. revert a.
  induction Hrun as [c|c l c1 ls c2 Hstep _ IH]; intros a HR.
  - exists a. split; [apply run_nil | exact HR].
  - destruct (Hsim _ _ _ _ HR Hstep) as (a1 & Ha & HR1).
    destruct (IH _ HR1) as (a2 & Hrun2 & HR2).
    exists a2. split; [eapply run_cons; eassumption | exact HR2].
Qed.

End Simulation.

(** ** Machines given by a step function *)

Section Functional.
Context {St L : Type} (next : St -> option (L * St)).

(** The step relation of the function. *)
Definition fstep (s : St) (l : L) (s' : St) : Prop := next s = Some (l, s').

(** At most [fuel] steps from [s]: the labels emitted and the state
    reached. *)
Fixpoint exec (fuel : nat) (s : St) : list L * St :=
  match fuel with
  | O => ([], s)
  | S fuel' =>
      match next s with
      | Some (l, s') => let (ls, s'') := exec fuel' s' in (l :: ls, s'')
      | None => ([], s)
      end
  end.

Lemma exec_S fuel s :
  exec (S fuel) s
  = match next s with
    | Some (l, s') => (l :: (exec fuel s').1, (exec fuel s').2)
    | None => ([], s)
    end.
Proof.
  cbn. destruct (next s) as [[l s']|]; [| reflexivity].
  destruct (exec fuel s'); reflexivity.
Qed.

(** One step, then the rest. *)
Lemma exec_step fuel s l s' :
  next s = Some (l, s') ->
  exec (S fuel) s = (l :: (exec fuel s').1, (exec fuel s').2).
Proof. intros E. rewrite exec_S, E. reflexivity. Qed.

(** Nothing happens in a state without a step. *)
Lemma exec_stopped fuel s : next s = None -> exec fuel s = ([], s).
Proof. intros E. destruct fuel; cbn; rewrite ?E; reflexivity. Qed.

Lemma fstep_deterministic s l1 s1 l2 s2 :
  fstep s l1 s1 -> fstep s l2 s2 -> l1 = l2 /\ s1 = s2.
Proof. unfold fstep. intros H1 H2. rewrite H1 in H2. by simplify_eq. Qed.

Lemma fstep_final s : next s = None <-> final fstep s.
Proof.
  unfold final, fstep. split.
  - intros H l s' H'. rewrite H in H'. discriminate.
  - intros H. destruct (next s) as [[l s']|] eqn:E; [| reflexivity].
    destruct (H l s' eq_refl).
Qed.

(** What [exec] computes is a run of the machine. *)
Lemma exec_run fuel s : run fstep s (exec fuel s).1 (exec fuel s).2.
Proof.
  revert s. induction fuel as [|fuel IH]; intros s; cbn; [apply run_nil |].
  destruct (next s) as [[l s']|] eqn:E; [| apply run_nil].
  specialize (IH s'). destruct (exec fuel s') as [ls s'']. cbn in *.
  eapply run_cons; [exact E | exact IH].
Qed.

(** Fuel above a measure that every step decreases is enough: [exec] stops
    in a final state. *)
Lemma exec_final (m : St -> nat) fuel s :
  (forall s l s', fstep s l s' -> m s' < m s) ->
  m s <= fuel -> next (exec fuel s).2 = None.
Proof.
  intros Hm. revert s. induction fuel as [|fuel IH]; intros s Hfuel; cbn.
  - destruct (next s) as [[l s']|] eqn:E; [| reflexivity].
    specialize (Hm _ _ _ E). lia.
  - destruct (next s) as [[l s']|] eqn:E; [| exact E].
    specialize (IH s'). destruct (exec fuel s') as [ls s''].
    apply IH. specialize (Hm _ _ _ E). lia.
Qed.

(** A run of a deterministic machine into a final state is the one [exec]
    computes. *)
Lemma run_exec s ls s' fuel :
  run fstep s ls s' -> next s' = None -> length ls <= fuel ->
  exec fuel s = (ls, s').
Proof.
  intros Hrun Hend. revert fuel.
  induction Hrun as [s|s l s1 ls s2 Hstep _ IH]; intros fuel Hfuel.
  - destruct fuel; cbn; rewrite ?Hend; reflexivity.
  - destruct fuel as [|fuel]; cbn in *; [lia |].
    rewrite Hstep, (IH Hend fuel) by lia. reflexivity.
Qed.

End Functional.
