(* ===== verification/Format.v ===== *)
(** * Format: the strings [main] prints

    The banner and the summary are built with string repetition
    ([s * n]) and two format specifications of f-strings: [{table:25s}]
    pads a name to 25 columns and [{count:,}] writes a number with a comma
    after every third digit from the right.  The file defines them on
    strings and proves that the formats lose nothing: the padded name has
    the width asked for, and the number can be read back from its grouped
    form. *)

From Stdlib Require Import List String Ascii NArith Lia.
From stdpp Require Import base tactics option list strings pretty.
From S2P Require Import Prelude.

Local Open Scope string_scope.
Local Open Scope list_scope.

(** ** The formats *)

(** The newline character. *)
Definition nl : string := String (ascii_of_nat 10) "".

(** [s * n] on strings. *)
Fixpoint str_mul (s : string) (n : nat) : string :=
  match n with
  | O => ""
  | S n' => s +:+ str_mul s n'
  end.

(** The format [{s:25s}]: the string, padded with spaces on the right to
    the width. *)
Definition ljust (width : nat) (s : string) : string :=
  s +:+ str_mul " " (width - String.length s).

(** A comma after every third digit of a number written right to left. *)
Fixpoint group_digits (digits : list ascii) : list ascii :=
  match digits with
  | a :: b :: c :: ((_ :: _) as rest) =>
      a :: b :: c :: ","%char :: group_digits rest
  | _ => digits
  end.

(** The format [{n:,}]. *)
Definition format_thousands (n : nat) : string :=
  string_of_list_ascii
    (rev (group_digits (rev (list_ascii_of_string (pretty n))))).

(** ** Reading a number back *)

(** The value of a decimal digit, from its code (48 is the code of the
    character 0). *)
Definition digit_value (c : ascii) : option N :=
  let code := N_of_ascii c in
  if ((48 <=? code) && (code <=? 57))%N then Some (code - 48)%N else None.

(** The number a sequence of digits denotes after the digits that gave
    [acc]; [None] when a character is not a digit. *)
Fixpoint parse_digits (acc : N) (cs : list ascii) : option N :=
  match cs with
  | [] => Some acc
  | c :: cs' =>
      match digit_value c with
      | Some d => parse_digits (acc * 10 + d) cs'
      | None => None
      end
  end.

(** The characters of a grouped number without the commas. *)
Definition ungroup (cs : list ascii) : list ascii :=
  filter (fun c => c <> ","%char) cs.

(** What [int(s.replace(',', ''))] returns: the number, when [s] is a
    non-empty sequence of digits and commas. *)
Definition parse_thousands (s : string) : option nat :=
  match ungroup (list_ascii_of_string s) with
  | [] => None
  | cs => N.to_nat <$> parse_digits 0 cs
  end.

(** ** Theorems *)

Lemma string_length_app (s1 s2 : string) :
  String.length (s1 +:+ s2) = String.length s1 + String.length s2.
Proof.
  induction s1 as [|c s1 IH]; [reflexivity |].
  change (String c s1 +:+ s2) with (String c (s1 +:+ s2)).
  cbn [String.length]. rewrite IH. reflexivity.
Qed.

Lemma str_mul_length (s : string) (n : nat) :
  String.length (str_mul s n) = n * String.length s.
Proof.
  induction n as [|n IH]; cbn; [reflexivity |].
  rewrite string_length_app, IH. reflexivity.
Qed.

(** A padded string has the width asked for, or its own when it is
    longer: padding never truncates. *)
Lemma ljust_length (width : nat) (s : string) :
  String.length (ljust width s) = Nat.max width (String.length s).
Proof.
  unfold ljust. rewrite string_length_app, str_mul_length. cbn. lia.
Qed.

Lemma digit_value_char (d : N) :
  (d < 10)%N -> digit_value (pretty_N_char d) = Some d.
Proof.
  intros H.
  assert (d = 0 \/ d = 1 \/ d = 2 \/ d = 3 \/ d = 4 \/ d = 5 \/ d = 6
          \/ d = 7 \/ d = 8 \/ d = 9)%N as Hd by lia.
  repeat destruct Hd as [->|Hd]; try reflexivity. subst. reflexivity.
Qed.

Lemma pretty_N_char_digit (d : N) : pretty_N_char d <> ","%char.
Proof. unfold pretty_N_char. repeat case_match; discriminate. Qed.

(** Digits read after [acc] shift it by their number of places. *)
Lemma parse_digits_app (acc : N) (ds : list ascii) (v : N) (c : ascii)
    (d : N) :
  parse_digits acc ds = Some v -> digit_value c = Some d ->
  parse_digits acc (ds ++ [c]) = Some (v * 10 + d)%N.
Proof.
  revert acc. induction ds as [|x ds IH]; intros acc H Hc; cbn in *.
  - simplify_eq. rewrite Hc. reflexivity.
  - destruct (digit_value x); [| discriminate]. exact (IH _ H Hc).
Qed.

(** The digits [pretty] writes in front of [s] are digits, at least one
    for a positive number, and they denote the number. *)
Lemma pretty_N_go_digits (x : N) (s : string) :
  exists ds,
    list_ascii_of_string (pretty_N_go x s) = ds ++ list_ascii_of_string s
    /\ Forall (fun c => c <> ","%char) ds
    /\ ((0 < x)%N -> ds <> [])
    /\ parse_digits 0 ds = Some x.
Proof.
  revert s. induction (N.lt_wf_0 x) as [x _ IH]. intros s.
  destruct (decide (0 < x)%N) as [Hx|Hx].
  - rewrite pretty_N_go_step by exact Hx.
    destruct (IH (x `div` 10)%N (N.div_lt x 10 Hx eq_refl)
                (String (pretty_N_char (x `mod` 10)) s))
      as (ds & E & Hds & _ & Hv).
    exists (ds ++ [pretty_N_char (x `mod` 10)]). repeat split.
    + rewrite E, <- app_assoc. reflexivity.
    + apply Forall_app. split; [exact Hds |].
      apply Forall_singleton, pretty_N_char_digit.
    + intros _ H. by apply app_nil in H as [_ ?].
    + rewrite (parse_digits_app 0 ds _ _ _ Hv
                 (digit_value_char _ (N.mod_lt x 10 ltac:(lia)))).
      f_equal. pose proof (N.div_mod x 10 ltac:(lia)). lia.
  - assert (x = 0%N) as -> by lia. exists []. rewrite pretty_N_go_0.
    repeat split; [constructor | lia].
Qed.

Lemma ungroup_clean (ds : list ascii) :
  Forall (fun c => c <> ","%char) ds -> ungroup ds = ds.
Proof.
  unfold ungroup. induction 1 as [|c ds Hc _ IH]; [reflexivity |].
  rewrite filter_cons_True, IH by exact Hc. reflexivity.
Qed.

(** Grouping only inserts commas. *)
Lemma ungroup_group_digits (ds : list ascii) :
  Forall (fun c => c <> ","%char) ds -> ungroup (group_digits ds) = ds.
Proof.
  remember (length ds) as n eqn:En. revert ds En.
  induction n as [n IH] using lt_wf_ind. intros ds -> Hds.
  destruct ds as [|a [|b [|c [|d rest]]]];
    try (apply ungroup_clean; exact Hds).
  change (group_digits (a :: b :: c :: d :: rest))
    with (a :: b :: c :: ","%char :: group_digits (d :: rest)).
  apply Forall_cons in Hds as [Ha Hds]. apply Forall_cons in Hds as [Hb Hds].
  apply Forall_cons in Hds as [Hc Hds].
  specialize (IH (length (d :: rest)) ltac:(cbn; lia) _ eq_refl Hds).
  unfold ungroup in *. rewrite !filter_cons_True by assumption.
  rewrite filter_cons_False by (intros H; exact (H eq_refl)).
  rewrite IH. reflexivity.
Qed.

Lemma ungroup_rev (cs : list ascii) : ungroup (rev cs) = rev (ungroup cs).
Proof.
  unfold ungroup. induction cs as [|c cs IH]; [reflexivity |].
  cbn [rev]. rewrite filter_app, IH.
  destruct (decide (c <> ","%char)) as [H|H].
  - rewrite !filter_cons_True by exact H. reflexivity.
  - rewrite !filter_cons_False by exact H. apply app_nil_r.
Qed.

(** The characters of a formatted number, without the commas, are the
    digits of the number. *)
Lemma ungroup_format_thousands (n : nat) :
  Forall (fun c => c <> ","%char) (list_ascii_of_string (pretty n)) ->
  ungroup (list_ascii_of_string (format_thousands n))
  = list_ascii_of_string (pretty n).
Proof.
  intros Hds. unfold format_thousands.
  rewrite list_ascii_of_string_of_list_ascii, ungroup_rev.
  rewrite ungroup_group_digits, rev_involutive; [reflexivity |].
  apply List.Forall_rev, Hds.
Qed.

(** Round trip of the format [{count:,}]: reading a formatted number back,
    with the commas removed, gives the number. *)
Lemma parse_format_thousands (n : nat) :
  parse_thousands (format_thousands n) = Some n.
Proof.
  unfold parse_thousands.
  destruct (decide (n = 0)) as [->|Hn]; [reflexivity |].
  destruct (pretty_N_go_digits (N.of_nat n) "")
    as (ds & E & Hds & Hne & Hv).
  assert (list_ascii_of_string (pretty n) = ds) as Ep.
  { unfold pretty, pretty_nat, pretty, pretty_N.
    rewrite decide_False by lia. rewrite E. apply app_nil_r. }
  rewrite ungroup_format_thousands, Ep by (rewrite Ep; exact Hds).
  destruct ds as [|c ds]; [destruct (Hne ltac:(lia) eq_refl) |].
  rewrite Hv. cbn. f_equal. lia.
Qed.
