(* ===== verification/Schema.v ===== *)
(** * Schema: the records the loader writes

    One record type per table, with the keys of the dict literal the script
    appends for each row (a key that is always [None] in the script is an
    [option] that is always [None] here), and [Table], the content of one
    database table.  Each record lives in a module of its own so that the
    fields keep the names of the columns. *)

From Stdlib Require Import QArith ZArith List String.
From stdpp Require Import base tactics option list strings.
From S2P Require Import Prelude.

(** A row of [country_metadata]: the four columns of [countries_data] and
    the column [population_2023] added afterwards. *)
Module Country.
Record t : Type := mk {
  country_code : string;
  country_name : string;
  region : string;
  income_group : string;
  population_2023 : option Z;
}.
End Country.

(** A row of [gdp_data]. *)
Module GdpRow.
Record t : Type := mk {
  country_code : string;
  year : Z;
  gdp_per_capita_current_usd : Q;
  gdp_total_current_usd : option Q;
  gdp_growth_annual_pct : Q;
}.
End GdpRow.

(** A row of [inequality_metrics]. *)
Module InequalityRow.
Record t : Type := mk {
  country_code : string;
  year : Z;
  gini_coefficient : Q;
  income_share_lowest_20pct : Q;
  income_share_highest_20pct : Q;
  palma_ratio : Q;
}.
End InequalityRow.

(** A row of [poverty_indicators]. *)
Module PovertyRow.
Record t : Type := mk {
  country_code : string;
  year : Z;
  poverty_headcount_215_pct : Q;
  poverty_headcount_365_pct : Q;
  poverty_headcount_685_pct : Q;
  poverty_gap : option Q;
}.
End PovertyRow.

(** A row of [trade_education]. *)
Module TradeEduRow.
Record t : Type := mk {
  country_code : string;
  year : Z;
  trade_pct_gdp : Q;
  secondary_enrollment_rate : Q;
  tertiary_enrollment_rate : Q;
  government_expenditure_education_pct : Q;
}.
End TradeEduRow.

(** The content of a table: the rows of the data frame written to it. *)
Inductive Table : Type :=
| CountryTable (rows : list Country.t)
| GdpTable (rows : list GdpRow.t)
| InequalityTable (rows : list InequalityRow.t)
| PovertyTable (rows : list PovertyRow.t)
| TradeEduTable (rows : list TradeEduRow.t).

(** [SELECT COUNT( * ) FROM table]. *)
Definition table_count (t : Table) : nat :=
  match t with
  | CountryTable rows => length rows
  | GdpTable rows => length rows
  | InequalityTable rows => length rows
  | PovertyTable rows => length rows
  | TradeEduTable rows => length rows
  end.

(** The name under which the script stores a table of each kind. *)
Definition table_kind (t : Table) : string :=
  match t with
  | CountryTable _ => "country_metadata"
  | GdpTable _ => "gdp_data"
  | InequalityTable _ => "inequality_metrics"
  | PovertyTable _ => "poverty_indicators"
  | TradeEduTable _ => "trade_education"
  end%string.

(** ** Decidable equality *)

#[export] Instance Q_eq_dec : EqDecision Q.
Proof. solve_decision. Defined.

#[export] Instance Country_eq_dec : EqDecision Country.t.
Proof. solve_decision. Defined.

#[export] Instance GdpRow_eq_dec : EqDecision GdpRow.t.
Proof. solve_decision. Defined.

#[export] Instance InequalityRow_eq_dec : EqDecision InequalityRow.t.
Proof. solve_decision. Defined.

#[export] Instance PovertyRow_eq_dec : EqDecision PovertyRow.t.
Proof. solve_decision. Defined.

#[export] Instance TradeEduRow_eq_dec : EqDecision TradeEduRow.t.
Proof. solve_decision. Defined.

#[export] Instance Table_eq_dec : EqDecision Table.
Proof. solve_decision. Defined.
