(* ===== verification/Frames.v ===== *)
(** * Frames: the tables as the database receives them

    The loaders build each table as a list of dict literals, hand the list
    to [pd.DataFrame] and write the frame with [to_sql].  The other files
    keep a row as a typed record ([Schema]); this file gives the view the
    database has of it: a frame with named columns whose cells are [None],
    a string, an integer or a float.

    - [Cell], [Dict], [Frame]: the values of a dict literal, a dict literal
      with its keys in the order written, a frame.
    - [gdp_dict], [inequality_dict], [poverty_dict],
      [trade_education_dict]: the dict literal each generator appends,
      as a function of the typed row; [country_dict]: a row of the frame
      of the catalog, which is built from a dict of columns.
    - [frame_of_dicts]: [pd.DataFrame] on a list of dicts (the columns are
      the keys in the order of their first appearance, a missing key is an
      empty cell, and a frame built from no dict has no column).
    - the class [Tabular] packs the columns of a row type, its dict and
      the decoder of the dict with their laws; [table_frame] is the frame
      of a table and [table_of_frame] reads a table back.

    The theorems say that the typed rows and the frames carry the same
    information ([frame_of_rows_roundtrip], [table_frame_roundtrip]), and
    what the frame of a uniform list of dicts is
    ([frame_of_dicts_uniform]). *)

From Stdlib Require Import QArith ZArith List String.
From stdpp Require Import base tactics option list strings.
From S2P Require Import Prelude Schema.

Local Open Scope string_scope.
Local Open Scope list_scope.

(** ** Cells, dicts and frames *)

(** A value of a dict literal of the script, and the storage class SQLite
    gives it. *)
Inductive Cell : Type :=
| CNull
| CText (s : string)
| CInt (z : Z)
| CReal (q : Q).

Inductive StorageClass : Type := SNull | SText | SInteger | SReal.

#[export] Instance Cell_eq_dec : EqDecision Cell.
Proof. solve_decision. Defined.

#[export] Instance StorageClass_eq_dec : EqDecision StorageClass.
Proof. solve_decision. Defined.

Definition cell_class (c : Cell) : StorageClass :=
  match c with
  | CNull => SNull
  | CText _ => SText
  | CInt _ => SInteger
  | CReal _ => SReal
  end.

(** A dict literal: the keys in the order they are written. *)
Definition Dict : Type := list (string * Cell).

Fixpoint dict_lookup (key : string) (d : Dict) : option Cell :=
  match d with
  | [] => None
  | (k, v) :: d' => if decide (k = key) then Some v else dict_lookup key d'
  end.

(** The cell of a column in the row of a dict: empty where the dict has
    not the key. *)
Definition cell_of (key : string) (d : Dict) : Cell :=
  default CNull (dict_lookup key d).

Record Frame : Type := mkFrame {
  f_columns : list string;
  f_data : list (list Cell);
}.

(** The keys of a dict that are not yet columns become columns, in the
    order of the dict. *)
Definition add_keys (seen : list string) (d : Dict) : list string :=
  foldl (fun acc kv => if decide (kv.1 ∈ acc) then acc else acc ++ [kv.1])
    seen d.

Definition union_keys (rs : list Dict) : list string := foldl add_keys [] rs.

(** [pd.DataFrame(data)] for a list of dicts. *)
Definition frame_of_dicts (rs : list Dict) : Frame :=
  let cols := union_keys rs in
  mkFrame cols (map (fun d => map (fun key => cell_of key d) cols) rs).

(** The rows of a frame, as dicts. *)
Definition frame_dicts (f : Frame) : list Dict :=
  map (zip (f_columns f)) (f_data f).

(** A frame is rectangular and its columns have distinct names. *)
Definition frame_ok (f : Frame) : Prop :=
  NoDup (f_columns f)
  /\ Forall (fun row => length row = length (f_columns f)) (f_data f).

(** ** The dict literals of the loaders *)

Definition option_cell {A} (cell : A -> Cell) (o : option A) : Cell :=
  match o with
  | Some a => cell a
  | None => CNull
  end.

Definition country_dict (c : Country.t) : Dict :=
  [("country_code", CText (Country.country_code c));
   ("country_name", CText (Country.country_name c));
   ("region", CText (Country.region c));
   ("income_group", CText (Country.income_group c));
   ("population_2023", option_cell CInt (Country.population_2023 c))].

Definition gdp_dict (r : GdpRow.t) : Dict :=
  [("country_code", CText (GdpRow.country_code r));
   ("year", CInt (GdpRow.year r));
   ("gdp_per_capita_current_usd", CReal (GdpRow.gdp_per_capita_current_usd r));
   ("gdp_total_current_usd",
    option_cell CReal (GdpRow.gdp_total_current_usd r));
   ("gdp_growth_annual_pct", CReal (GdpRow.gdp_growth_annual_pct r))].

Definition inequality_dict (r : InequalityRow.t) : Dict :=
  [("country_code", CText (InequalityRow.country_code r));
   ("year", CInt (InequalityRow.year r));
   ("gini_coefficient", CReal (InequalityRow.gini_coefficient r));
   ("income_share_lowest_20pct",
    CReal (InequalityRow.income_share_lowest_20pct r));
   ("income_share_highest_20pct",
    CReal (InequalityRow.income_share_highest_20pct r));
   ("palma_ratio", CReal (InequalityRow.palma_ratio r))].

Definition poverty_dict (r : PovertyRow.t) : Dict :=
  [("country_code", CText (PovertyRow.country_code r));
   ("year", CInt (PovertyRow.year r));
   ("poverty_headcount_215_pct",
    CReal (PovertyRow.poverty_headcount_215_pct r));
   ("poverty_headcount_365_pct",
    CReal (PovertyRow.poverty_headcount_365_pct r));
   ("poverty_headcount_685_pct",
    CReal (PovertyRow.poverty_headcount_685_pct r));
   ("poverty_gap", option_cell CReal (PovertyRow.poverty_gap r))].

Definition trade_education_dict (r : TradeEduRow.t) : Dict :=
  [("country_code", CText (TradeEduRow.country_code r));
   ("year", CInt (TradeEduRow.year r));
   ("trade_pct_gdp", CReal (TradeEduRow.trade_pct_gdp r));
   ("secondary_enrollment_rate",
    CReal (TradeEduRow.secondary_enrollment_rate r));
   ("tertiary_enrollment_rate",
    CReal (TradeEduRow.tertiary_enrollment_rate r));
   ("government_expenditure_education_pct",
    CReal (TradeEduRow.government_expenditure_education_pct r))].

(** The keys of the dicts. *)
Definition country_columns : list string :=
  ["country_code"; "country_name"; "region"; "income_group";
   "population_2023"].

Definition gdp_columns : list string :=
  ["country_code"; "year"; "gdp_per_capita_current_usd";
   "gdp_total_current_usd"; "gdp_growth_annual_pct"].

Definition inequality_columns : list string :=
  ["country_code"; "year"; "gini_coefficient"; "income_share_lowest_20pct";
   "income_share_highest_20pct"; "palma_ratio"].

Definition poverty_columns : list string :=
  ["country_code"; "year"; "poverty_headcount_215_pct";
   "poverty_headcount_365_pct"; "poverty_headcount_685_pct"; "poverty_gap"].

Definition trade_education_columns : list string :=
  ["country_code"; "year"; "trade_pct_gdp"; "secondary_enrollment_rate";
   "tertiary_enrollment_rate"; "government_expenditure_education_pct"].

(** ** Reading a dict back *)

Definition text_cell (c : Cell) : option string :=
  match c with CText s => Some s | _ => None end.

Definition int_cell (c : Cell) : option Z :=
  match c with CInt z => Some z | _ => None end.

Definition real_cell (c : Cell) : option Q :=
  match c with CReal q => Some q | _ => None end.

(** A cell that may be empty. *)
Definition nullable {A} (read : Cell -> option A) (c : Cell)
  : option (option A) :=
  match c with
  | CNull => Some None
  | _ => Some <$> read c
  end.

(** The values of a dict whose keys are [cols], in order. *)
Definition dict_values (cols : list string) (d : Dict) : option (list Cell) :=
  if decide (d.*1 = cols) then Some d.*2 else None.

Definition country_of_dict (d : Dict) : option Country.t :=
  match dict_values country_columns d with
  | Some [a; b; c; e; f] =>
      a ← text_cell a; b ← text_cell b; c ← text_cell c; e ← text_cell e;
      f ← nullable int_cell f; Some (Country.mk a b c e f)
  | _ => None
  end.

Definition gdp_of_dict (d : Dict) : option GdpRow.t :=
  match dict_values gdp_columns d with
  | Some [a; b; c; e; f] =>
      a ← text_cell a; b ← int_cell b; c ← real_cell c;
      e ← nullable real_cell e; f ← real_cell f; Some (GdpRow.mk a b c e f)
  | _ => None
  end.

Definition inequality_of_dict (d : Dict) : option InequalityRow.t :=
  match dict_values inequality_columns d with
  | Some [a; b; c; e; f; g] =>
      a ← text_cell a; b ← int_cell b; c ← real_cell c; e ← real_cell e;
      f ← real_cell f; g ← real_cell g; Some (InequalityRow.mk a b c e f g)
  | _ => None
  end.

Definition poverty_of_dict (d : Dict) : option PovertyRow.t :=
  match dict_values poverty_columns d with
  | Some [a; b; c; e; f; g] =>
      a ← text_cell a; b ← int_cell b; c ← real_cell c; e ← real_cell e;
      f ← real_cell f; g ← nullable real_cell g;
      Some (PovertyRow.mk a b c e f g)
  | _ => None
  end.

Definition trade_education_of_dict (d : Dict) : option TradeEduRow.t :=
  match dict_values trade_education_columns d with
  | Some [a; b; c; e; f; g] =>
      a ← text_cell a; b ← int_cell b; c ← real_cell c; e ← real_cell e;
      f ← real_cell f; g ← real_cell g; Some (TradeEduRow.mk a b c e f g)
  | _ => None
  end.

(** ** Row types that have a dict *)

(** A row type with the dict literal of its rows: the keys do not depend
    on the row, they are pairwise distinct, and the dict can be read
    back. *)
Class Tabular (R : Type) : Type := {
  columns : list string;
  to_dict : R -> Dict;
  of_dict : Dict -> option R;
  columns_NoDup : NoDup columns;
  to_dict_keys r : (to_dict r).*1 = columns;
  of_to_dict r : of_dict (to_dict r) = Some r;
}.
Arguments columns R {_}.

(** The three laws of a dict literal, by computation. *)
Ltac tabular_laws :=
  first [ apply (bool_decide_unpack _); vm_compute; exact I
        | intros [];
          repeat match goal with o : option _ |- _ => destruct o end;
          reflexivity ].

#[export, refine] Instance country_tabular : Tabular Country.t :=
  {| columns := country_columns; to_dict := country_dict;
     of_dict := country_of_dict |}.
Proof. all: tabular_laws. Defined.

#[export, refine] Instance gdp_tabular : Tabular GdpRow.t :=
  {| columns := gdp_columns; to_dict := gdp_dict; of_dict := gdp_of_dict |}.
Proof. all: tabular_laws. Defined.

#[export, refine] Instance inequality_tabular : Tabular InequalityRow.t :=
  {| columns := inequality_columns; to_dict := inequality_dict;
     of_dict := inequality_of_dict |}.
Proof. all: tabular_laws. Defined.

#[export, refine] Instance poverty_tabular : Tabular PovertyRow.t :=
  {| columns := poverty_columns; to_dict := poverty_dict;
     of_dict := poverty_of_dict |}.
Proof. all: tabular_laws. Defined.

#[export, refine] Instance trade_education_tabular : Tabular TradeEduRow.t :=
  {| columns := trade_education_columns; to_dict := trade_education_dict;
     of_dict := trade_education_of_dict |}.
Proof. all: tabular_laws. Defined.

(** ** The frame of a table *)

(** The frame of a list of rows: [pd.DataFrame(data)]. *)
Definition frame_of_rows {R} `{Tabular R} (rows : list R) : Frame :=
  frame_of_dicts (to_dict <$> rows).

Definition rows_of_frame {R} `{Tabular R} (f : Frame) : option (list R) :=
  mapM of_dict (frame_dicts f).

(** The frame handed to [to_sql].  The frame of the catalog is built from
    a dict of columns, so it has its columns even without a row. *)
Definition table_frame (t : Table) : Frame :=
  match t with
  | CountryTable rows =>
      mkFrame (columns Country.t) ((fun c => (to_dict c).*2) <$> rows)
  | GdpTable rows => frame_of_rows rows
  | InequalityTable rows => frame_of_rows rows
  | PovertyTable rows => frame_of_rows rows
  | TradeEduTable rows => frame_of_rows rows
  end.

(** The table of a frame stored under [name]. *)
Definition table_of_frame (name : string) (f : Frame) : option Table :=
  if decide (name = "country_metadata") then CountryTable <$> rows_of_frame f
  else if decide (name = "gdp_data") then GdpTable <$> rows_of_frame f
  else if decide (name = "inequality_metrics")
       then InequalityTable <$> rows_of_frame f
  else if decide (name = "poverty_indicators")
       then PovertyTable <$> rows_of_frame f
  else if decide (name = "trade_education")
       then TradeEduTable <$> rows_of_frame f
  else None.

(** ** The frame of a uniform list of dicts *)

Lemma add_keys_fresh (seen : list string) (d : Dict) :
  NoDup (seen ++ d.*1) -> add_keys seen d = seen ++ d.*1.
Proof.
  revert seen. induction d as [|[k v] d IH]; intros seen Hnd; cbn.
  - symmetry. apply app_nil_r.
  - change (add_keys (if decide (k ∈ seen) then seen else seen ++ [k]) d
            = seen ++ k :: d.*1).
    apply NoDup_app in Hnd as Hparts. destruct Hparts as (_ & Hk & _).
    destruct (decide (k ∈ seen)) as [Hin|_];
      [destruct (Hk k Hin); left |].
    rewrite IH, <- app_assoc; [reflexivity |].
    rewrite <- app_assoc. exact Hnd.
Qed.

Lemma add_keys_known (seen : list string) (d : Dict) :
  (forall k, k ∈ d.*1 -> k ∈ seen) -> add_keys seen d = seen.
Proof.
  induction d as [|[k v] d IH]; intros Hk; [reflexivity |].
  change (add_keys (if decide (k ∈ seen) then seen else seen ++ [k]) d = seen).
  destruct (decide (k ∈ seen)) as [_|Hout]; [| destruct Hout; apply Hk; left].
  apply IH. intros k' Hk'. apply Hk. right. exact Hk'.
Qed.

Lemma union_keys_uniform (cols : list string) (rs : list Dict) :
  NoDup cols -> rs <> [] -> Forall (fun d => d.*1 = cols) rs ->
  union_keys rs = cols.
Proof.
  intros Hnd Hne Hrs. destruct Hrs as [|d rs Hd Hrs]; [done |].
  unfold union_keys. cbn [foldl].
  rewrite (add_keys_fresh [] d) by (rewrite Hd; exact Hnd). cbn [app].
  rewrite Hd. clear d Hd Hne.
  induction Hrs as [|d rs Hd _ IH]; [reflexivity |]. cbn [foldl].
  rewrite add_keys_known; [exact IH |]. intros k. rewrite Hd. exact id.
Qed.

(** The cells of a dict under its own keys are its values. *)
Lemma cells_of_dict (d : Dict) :
  NoDup d.*1 -> map (fun key => cell_of key d) d.*1 = d.*2.
Proof.
  induction d as [|[k v] d IH]; intros Hnd; [reflexivity |].
  apply NoDup_cons in Hnd as [Hk Hnd]. cbn [fmap list_fmap fst snd map].
  unfold cell_of at 1. cbn [dict_lookup]. rewrite decide_True by reflexivity.
  cbn [default]. f_equal. rewrite <- (IH Hnd).
  apply map_ext_in. intros key Hkey%list_elem_of_In. unfold cell_of.
  cbn [dict_lookup]. rewrite decide_False by (intros ->; exact (Hk Hkey)).
  reflexivity.
Qed.

(** The frame of dicts that all have the keys [cols]: the columns are
    [cols] and each row holds the values of its dict. *)
Lemma frame_of_dicts_uniform (cols : list string) (rs : list Dict) :
  NoDup cols -> rs <> [] -> Forall (fun d => d.*1 = cols) rs ->
  frame_of_dicts rs = mkFrame cols ((fun d => d.*2) <$> rs).
Proof.
  intros Hnd Hne Hrs. unfold frame_of_dicts.
  rewrite (union_keys_uniform cols rs Hnd Hne Hrs). f_equal.
  apply Forall_fmap_ext_1. eapply Forall_impl; [exact Hrs |]. intros d Hd.
  rewrite <- Hd. apply cells_of_dict. rewrite Hd. exact Hnd.
Qed.

(** ** Rows and frames carry the same information *)

Section Roundtrip.
Context {R : Type} `{Tabular R}.

Lemma to_dicts_uniform (rows : list R) :
  Forall (fun d : Dict => d.*1 = columns R) (to_dict <$> rows).
Proof. apply Forall_fmap, Forall_true. intros r. apply to_dict_keys. Qed.

(** The frame of the rows: their columns, and one row of values each;
    without any row, a frame without columns. *)
Lemma frame_of_rows_shape (rows : list R) :
  frame_of_rows rows
  = match rows with
    | [] => mkFrame [] []
    | _ => mkFrame (columns R) ((fun r => (to_dict r).*2) <$> rows)
    end.
Proof.
  destruct rows as [|r rows]; [reflexivity |]. unfold frame_of_rows.
  rewrite (frame_of_dicts_uniform (columns R)); try done.
  - rewrite <- list_fmap_compose. reflexivity.
  - apply columns_NoDup.
  - apply to_dicts_uniform.
Qed.

(** The dicts of a frame of rows are the dicts of the rows. *)
Lemma frame_dicts_rows (cols : list string) (rows : list R) :
  cols = columns R ->
  frame_dicts (mkFrame cols ((fun r => (to_dict r).*2) <$> rows))
  = to_dict <$> rows.
Proof.
  intros ->. unfold frame_dicts. cbn [f_columns f_data].
  rewrite <- list_fmap_compose. apply list_fmap_ext. intros _ r _. cbn.
  rewrite <- (to_dict_keys r). apply zip_fst_snd.
Qed.

Lemma frame_of_rows_data (rows : list R) :
  f_data (frame_of_rows rows) = (fun r => (to_dict r).*2) <$> rows.
Proof. rewrite frame_of_rows_shape. destruct rows; reflexivity. Qed.

Lemma frame_of_rows_columns (rows : list R) :
  rows <> [] -> f_columns (frame_of_rows rows) = columns R.
Proof. rewrite frame_of_rows_shape. destruct rows; [done | reflexivity]. Qed.

Lemma rows_of_frame_values (rows : list R) :
  rows_of_frame (mkFrame (columns R) ((fun r => (to_dict r).*2) <$> rows))
  = Some rows.
Proof.
  unfold rows_of_frame. rewrite frame_dicts_rows by reflexivity.
  apply mapM_fmap_Some, of_to_dict.
Qed.

Lemma frame_of_rows_roundtrip (rows : list R) :
  rows_of_frame (frame_of_rows rows) = Some rows.
Proof.
  rewrite frame_of_rows_shape.
  destruct rows as [|r rows]; [reflexivity | apply rows_of_frame_values].
Qed.

Lemma frame_of_rows_ok (rows : list R) : frame_ok (frame_of_rows rows).
Proof.
  rewrite frame_of_rows_shape.
  destruct rows as [|r rows]; [split; constructor |].
  split; [apply columns_NoDup |]. cbn [f_data f_columns].
  apply Forall_fmap, Forall_true. intros r'. cbn.
  rewrite <- (to_dict_keys r'), !length_fmap. reflexivity.
Qed.

End Roundtrip.


