(* ===== verification/World.v ===== *)
(** * World: the state the loader acts on and its primitive operations

    The script acts on three things outside its own variables: the global
    random generator, the database behind the connection [conn], and the
    console.  [World] holds them; [Py A] is a computation over it that may
    raise one of the exceptions the script can meet.

    The generator is an interface: [RandomSource] gives the stream of values
    [random.random()] returns and promises that each lies in [[0, 1)].  The
    storage is an interface too: [Storage] says which tables can be written,
    so that a failing write is a behaviour of the model.  [Host] stands for
    the file system and for the SQL engine running a script the sources do
    not contain ([schema.sql]): whether the database file can be opened,
    whether the script can be read, what it leaves in the database and
    whether it fails. *)

From Stdlib Require Import QArith Lqa ZArith List String.
From stdpp Require Import base tactics option list strings gmap.
From S2P Require Import Prelude PyNum Effects Schema.

Local Open Scope Q_scope.
Local Open Scope py_scope.

(** ** Exceptions *)

Inductive Exn : Type :=
| KeyError (key : string)
| ValueError (msg : string)
| FileNotFoundError (path : string)
| DatabaseError (msg : string).

#[export] Instance Exn_eq_dec : EqDecision Exn.
Proof. solve_decision. Defined.

(** ** Interfaces to the environment *)

(** The values [random.random()] returns, in the order of the calls. *)
Class RandomSource : Type := {
  draw : nat -> Q;
  draw_unit : forall n, 0 <= draw n /\ draw n < 1;
}.

(** Whether a write to the named table succeeds. *)
Class Storage : Type := {
  write_ok : string -> bool;
}.

(** The files the script reads and the SQL scripts it executes: whether a
    database file can be opened or created, the content of a file when it
    can be opened, and for a script the tables it leaves behind and whether
    it ran to its end. *)
Class Host : Type := {
  can_connect : string -> bool;
  file_content : string -> option string;
  script_effect : string -> gmap string Table -> gmap string Table;
  script_ok : string -> gmap string Table -> bool;
}.

(** ** State *)

Record World : Type := mkWorld {
  rng_pos : nat;                 (* calls of random.random() so far *)
  db : gmap string Table;        (* the tables behind the connection *)
  console : list string;         (* the lines printed so far *)
  traces : list Exn;             (* the tracebacks printed on stderr *)
  conn_open : bool;              (* conn.close() has not been called *)
}.

Definition Py (A : Type) : Type := M World Exn A.

Definition advance_rng (w : World) : World :=
  mkWorld (S (rng_pos w)) (db w) (console w) (traces w) (conn_open w).

(** The state after [k] more calls of [random.random()]. *)
Definition advance_rng_by (k : nat) (w : World) : World :=
  mkWorld (k + rng_pos w) (db w) (console w) (traces w) (conn_open w).

Definition set_table (name : string) (t : Table) (w : World) : World :=
  mkWorld (rng_pos w) (<[name := t]> (db w)) (console w) (traces w)
    (conn_open w).

Definition add_line (line : string) (w : World) : World :=
  mkWorld (rng_pos w) (db w) (console w ++ [line]) (traces w) (conn_open w).

Definition close_conn (w : World) : World :=
  mkWorld (rng_pos w) (db w) (console w) (traces w) false.

Definition open_conn (w : World) : World :=
  mkWorld (rng_pos w) (db w) (console w) (traces w) true.

Definition set_db (tables : gmap string Table) (w : World) : World :=
  mkWorld (rng_pos w) tables (console w) (traces w) (conn_open w).

Definition add_trace (e : Exn) (w : World) : World :=
  mkWorld (rng_pos w) (db w) (console w) (traces w ++ [e]) (conn_open w).

(** [str(e)]: the text an f-string shows for an exception. *)
Definition exn_str (e : Exn) : string :=
  match e with
  | KeyError key => "'" +:+ key +:+ "'"
  | ValueError msg => msg
  | FileNotFoundError path =>
      "[Errno 2] No such file or directory: '" +:+ path +:+ "'"
  | DatabaseError msg => msg
  end.

(** What [sqlite3.connect] raises when it cannot open the file. *)
Definition connect_error : Exn :=
  DatabaseError "unable to open database file".

(** ** Primitive operations *)

Section Primitives.
Context {RS : RandomSource} {ST : Storage} {HO : Host}.

(** [random.random()]: the next value of the stream. *)
Definition random_random : Py Q :=
  fun w => (Ok (draw (rng_pos w)), advance_rng w).

(** [random.uniform(a, b)], which CPython computes as
    [a + (b - a) * random()]. *)
Definition random_uniform (a b : Q) : Py Q :=
  u <- random_random ;; ret (a + (b - a) * u).

(** [print(line)]. *)
Definition print (line : string) : Py unit := modify (add_line line).

(** [d[key]] on a dict with string keys. *)
Definition dict_get {V} (d : gmap string V) (key : string) : Py V :=
  match d !! key with
  | Some v => ret v
  | None => raise (KeyError key)
  end.

(** [df.to_sql(name, conn, if_exists='replace', index=False)]: the table is
    dropped if it exists and created from the rows of the frame. *)
Definition to_sql (name : string) (t : Table) : Py unit :=
  fun w =>
    if negb (conn_open w) then
      (Raise (DatabaseError "Cannot operate on a closed database."), w)
    else if negb (write_ok name) then
      (Raise (DatabaseError name), w)
    else (Ok tt, set_table name t w).

(** [pd.read_sql("SELECT COUNT( * ) as cnt FROM name", conn)['cnt'][0]]. *)
Definition read_count (name : string) : Py nat :=
  fun w =>
    if negb (conn_open w) then
      (Raise (DatabaseError "Cannot operate on a closed database."), w)
    else
      match db w !! name with
      | Some t => (Ok (table_count t), w)
      | None => (Raise (DatabaseError name), w)
      end.

(** [conn.close()]. *)
Definition conn_close : Py unit := modify close_conn.

(** [sqlite3.connect(path)]: a new connection to the database file, or
    [sqlite3.OperationalError] (a [DatabaseError]) when the file can be
    neither opened nor created. *)
Definition sqlite3_connect (path : string) : Py unit :=
  fun w =>
    if can_connect path then (Ok tt, open_conn w)
    else (Raise connect_error, w).

(** [open(path, 'r').read()]. *)
Definition open_read (path : string) : Py string :=
  match file_content path with
  | Some text => ret text
  | None => raise (FileNotFoundError path)
  end.

(** [conn.executescript(script)]: the statements that ran stay in effect
    when a later one fails. *)
Definition executescript (script : string) : Py unit :=
  fun w =>
    if negb (conn_open w) then
      (Raise (DatabaseError "Cannot operate on a closed database."), w)
    else
      let w' := set_db (script_effect script (db w)) w in
      if script_ok script (db w) then (Ok tt, w')
      else (Raise (DatabaseError "executescript"), w').

(** [traceback.print_exc()], in the handler of [e]. *)
Definition traceback_print_exc (e : Exn) : Py unit := modify (add_trace e).

End Primitives.

(** ** What each primitive leaves unchanged *)

(** [same_store w w']: the database and the connection are those of [w]. *)
Definition same_store (w w' : World) : Prop :=
  db w' = db w /\ conn_open w' = conn_open w.

(** [extends_console w w']: [w'] printed the lines of [w] and then more. *)
Definition extends_console (w w' : World) : Prop :=
  exists more, console w' = console w ++ more.

Lemma advance_rng_by_0 w : advance_rng_by 0 w = w.
Proof. destruct w. reflexivity. Qed.

Lemma advance_rng_by_S k w : advance_rng (advance_rng_by k w) = advance_rng_by (S k) w.
Proof. reflexivity. Qed.

Lemma advance_rng_by_1 w : advance_rng w = advance_rng_by 1 w.
Proof. reflexivity. Qed.

Lemma advance_rng_by_add j k w :
  advance_rng_by j (advance_rng_by k w) = advance_rng_by (k + j) w.
Proof. unfold advance_rng_by. cbn. f_equal. lia. Qed.

(** Two advances of one state agree when the counts do. *)
Lemma advance_rng_by_eq j k w : j = k -> advance_rng_by j w = advance_rng_by k w.
Proof. intros ->. reflexivity. Qed.

(** A loop whose iterations each consume a number of draws consumes their
    sum. *)
Lemma foldl_advance_rng_by {A} (k : A -> nat) (xs : list A) w :
  foldl (fun w x => advance_rng_by (k x) w) w xs
  = advance_rng_by (list_sum (map k xs)) w.
Proof.
  revert w. induction xs as [|x xs IH]; intros w; cbn.
  - symmetry. apply advance_rng_by_0.
  - rewrite IH, advance_rng_by_add. reflexivity.
Qed.

Lemma list_sum_const {A} (n : nat) (xs : list A) :
  list_sum (map (fun _ => n) xs) = (n * length xs)%nat.
Proof. unfold list_sum. induction xs as [|x xs IH]; cbn; [| rewrite IH]; nia. Qed.

Lemma same_store_refl w : same_store w w.
Proof. split; reflexivity. Qed.

Lemma same_store_trans w1 w2 w3 :
  same_store w1 w2 -> same_store w2 w3 -> same_store w1 w3.
Proof. intros [? ?] [? ?]. split; congruence. Qed.

Lemma same_store_advance w : same_store w (advance_rng w).
Proof. split; reflexivity. Qed.

Lemma same_store_add_line line w : same_store w (add_line line w).
Proof. split; reflexivity. Qed.

#[export] Instance same_store_preorder : PreOrder same_store.
Proof. split; [exact same_store_refl | exact same_store_trans]. Qed.

#[export] Hint Resolve same_store_refl same_store_advance same_store_add_line : py.
#[export] Hint Rewrite advance_rng_by_S advance_rng_by_1 advance_rng_by_add : py.

(** Normalise nested advances of the generator and compare the counts. *)
Ltac rng_eq :=
  autorewrite with py; try reflexivity; apply advance_rng_by_eq; cbn; lia.

(** ** Rules for the primitives *)

Section PrimitiveRules.
Context {RS : RandomSource} {ST : Storage}.

(** A uniform draw lies between its bounds and consumes one value. *)
Lemma uniform_range (a b : Q) (n : nat) :
  a <= b -> a <= a + (b - a) * draw n /\ a + (b - a) * draw n <= b.
Proof. intros Hab. destruct (draw_unit n). split; nra. Qed.

Lemma wp_random_uniform (a b : Q) (Q : result Exn Q -> World -> Prop) w :
  a <= b ->
  (forall v, a <= v /\ v <= b -> Q (Ok v) (advance_rng w)) ->
  wp (random_uniform a b) Q w.
Proof. intros Hab HQ. apply HQ, uniform_range, Hab. Qed.

Lemma wp_print (line : string) (Q : result Exn unit -> World -> Prop) w :
  Q (Ok tt) (add_line line w) -> wp (print line) Q w.
Proof. exact id. Qed.

Lemma wp_dict_get_Some {V} (d : gmap string V) key v
    (Q : result Exn V -> World -> Prop) w :
  d !! key = Some v -> Q (Ok v) w -> wp (dict_get d key) Q w.
Proof. intros H HQ. unfold dict_get. rewrite H. exact HQ. Qed.

Lemma wp_dict_get_None {V} (d : gmap string V) key
    (Q : result Exn V -> World -> Prop) w :
  d !! key = None -> Q (Raise (KeyError key)) w -> wp (dict_get d key) Q w.
Proof. intros H HQ. unfold dict_get. rewrite H. exact HQ. Qed.

Lemma wp_to_sql (name : string) (t : Table)
    (Q : result Exn unit -> World -> Prop) w :
  conn_open w = true -> write_ok name = true ->
  Q (Ok tt) (set_table name t w) -> wp (to_sql name t) Q w.
Proof.
  intros Ho Hw HQ. unfold wp, run_result, run_state, to_sql.
  rewrite Ho, Hw. exact HQ.
Qed.

Lemma wp_to_sql_fails (name : string) (t : Table)
    (Q : result Exn unit -> World -> Prop) w :
  conn_open w = true -> write_ok name = false ->
  Q (Raise (DatabaseError name)) w -> wp (to_sql name t) Q w.
Proof.
  intros Ho Hw HQ. unfold wp, run_result, run_state, to_sql.
  rewrite Ho, Hw. exact HQ.
Qed.


End PrimitiveRules.

(** ** Computations that leave the database and the connection alone *)

(** The state after printing the lines of a list in order. *)
Definition add_lines (lines : list string) (w : World) : World :=
  foldl (fun w line => add_line line w) w lines.

Lemma console_add_lines (lines : list string) (w : World) :
  console (add_lines lines w) = console w ++ lines.
Proof.
  revert w. induction lines as [|l lines IH]; intros w; cbn.
  - symmetry. apply app_nil_r.
  - unfold add_lines in IH. rewrite IH. cbn. rewrite <- app_assoc. reflexivity.
Qed.

Lemma rng_pos_add_lines (lines : list string) (w : World) :
  rng_pos (add_lines lines w) = rng_pos w.
Proof.
  revert w. induction lines as [|l lines IH]; intros w; [reflexivity |].
  cbn. unfold add_lines in IH. rewrite IH. reflexivity.
Qed.

Lemma traces_add_lines (lines : list string) (w : World) :
  traces (add_lines lines w) = traces w.
Proof.
  revert w. induction lines as [|l lines IH]; intros w; [reflexivity |].
  cbn. unfold add_lines in IH. rewrite IH. reflexivity.
Qed.

Lemma same_store_add_lines (lines : list string) (w : World) :
  same_store w (add_lines lines w).
Proof.
  revert w. induction lines as [|l lines IH]; intros w; cbn; [reflexivity |].
  etransitivity; [apply (same_store_add_line l) | apply IH].
Qed.

Section KeepsStore.
Context {RS : RandomSource} {ST : Storage}.

(** [keeps_store c]: whatever its outcome, [c] ends with the tables and
    the connection it started with. *)
Definition keeps_store {A} (c : Py A) : Prop :=
  forall w, same_store w (run_state c w).

Lemma keeps_store_ret {A} (a : A) : keeps_store (ret a).
Proof. intros w. reflexivity. Qed.

Lemma keeps_store_print (line : string) : keeps_store (print line).
Proof. intros w. apply same_store_add_line. Qed.

Lemma keeps_store_read_count (name : string) : keeps_store (read_count name).
Proof.
  intros w. unfold run_state, read_count.
  destruct (negb _); [reflexivity |]. destruct (db w !! name); reflexivity.
Qed.

Lemma keeps_store_traceback (e : Exn) : keeps_store (traceback_print_exc e).
Proof. intros w. split; reflexivity. Qed.

Lemma keeps_store_bind {A B} (c : Py A) (k : A -> Py B) :
  keeps_store c -> (forall a, keeps_store (k a)) -> keeps_store (bind c k).
Proof.
  intros Hc Hk w. specialize (Hc w). unfold run_state, bind in *.
  destruct (c w) as [[a|e] w']; cbn in *; [| exact Hc].
  etransitivity; [exact Hc | apply Hk].
Qed.

Lemma keeps_store_for_acc {A B} (xs : list A) (body : A -> B -> Py B) acc :
  (forall x acc, keeps_store (body x acc)) -> keeps_store (for_acc xs body acc).
Proof.
  intros Hbody. revert acc.
  induction xs as [|x xs IH]; intros acc; cbn [for_acc].
  - apply keeps_store_ret.
  - apply keeps_store_bind; [apply Hbody | exact IH].
Qed.

Lemma keeps_store_for_each {A} (xs : list A) (body : A -> Py unit) :
  (forall x, keeps_store (body x)) -> keeps_store (for_each xs body).
Proof. intros H. apply keeps_store_for_acc. intros x _. apply H. Qed.

Lemma keeps_store_try_except {A} (c : Py A) (h : Exn -> Py A) :
  keeps_store c -> (forall e, keeps_store (h e)) ->
  keeps_store (try_except c h).
Proof.
  intros Hc Hh w. specialize (Hc w). unfold run_state, try_except in *.
  destruct (c w) as [[a|e] w']; cbn in *; [exact Hc |].
  etransitivity; [exact Hc | apply Hh].
Qed.

(** A computation that keeps the store establishes what only depends on
    the store. *)
Lemma wp_keeps_store {A} (c : Py A) (Q : result Exn A -> World -> Prop) w :
  keeps_store c -> (forall r w', same_store w w' -> Q r w') -> wp c Q w.
Proof. intros Hc HQ. apply HQ, Hc. Qed.

End KeepsStore.

#[export] Hint Resolve keeps_store_ret keeps_store_print keeps_store_read_count
  keeps_store_traceback keeps_store_bind keeps_store_for_each
  keeps_store_try_except : py.

(** ** Loops that append a block per element and only draw *)

Section BlockLoops.
Context {A B : Type} (body : A -> list B -> Py (list B)).
Context (R : A -> list B -> Prop) (k : A -> nat).

(** The body, at [x]: it appends a block related to [x] and makes [k x]
    draws. *)
Definition appends_block (x : A) : Prop :=
  forall acc w,
    wp (body x acc)
       (returns (fun acc' w' =>
          exists out, acc' = acc ++ out /\ R x out
                      /\ w' = advance_rng_by (k x) w)) w.

Lemma for_acc_blocks_run (xs : list A) (data : list B) (w : World) :
  (forall x, x ∈ xs -> appends_block x) ->
  exists rows,
    blocks_table R xs rows
    /\ for_acc xs body data w
       = (Ok (data ++ rows), advance_rng_by (list_sum (map k xs)) w).
Proof.
  intros Hbody.
  destruct (wp_returns_inv _ _ _
              (wp_for_acc_blocks body R (fun x => advance_rng_by (k x)) xs
                 data w (fun x acc s Hx => Hbody x Hx acc s)))
    as (data' & w' & Hrun & blocks & -> & HR & ->).
  exists (concat blocks). split; [exists blocks; auto |].
  rewrite Hrun, foldl_advance_rng_by. reflexivity.
Qed.

(** The loop leaves at the first element whose body raises at once. *)
Lemma for_acc_blocks_raises (good rest : list A) (x : A) (e : Exn)
    (data : list B) (w : World) :
  (forall x, x ∈ good -> appends_block x) ->
  (forall acc w, body x acc w = (Raise e, w)) ->
  for_acc (good ++ x :: rest) body data w
  = (Raise e, advance_rng_by (list_sum (map k good)) w).
Proof.
  intros Hgood Hx.
  destruct (for_acc_blocks_run good data w Hgood) as (rows & _ & Hrun).
  rewrite for_acc_app. unfold bind at 1. rewrite Hrun.
  cbn [for_acc]. unfold bind. rewrite Hx. reflexivity.
Qed.

End BlockLoops.

(** ** The shape the four generators share

    Each generator prints a line, runs a loop over the catalog that appends
    rows to a list, writes the list to its table and prints the number of
    rows.  [load_table] is that shape, with the loop body, the table and the
    two lines as parameters; each generator is an instance of it, and the
    lemmas below say what the shape does on each exit once the loop is
    known. *)

Section Loader.
Context {RS : RandomSource} {ST : Storage} {A B : Type}.
Context (body : A -> list B -> Py (list B)) (mk : list B -> Table).
Context (name line : string) (closing : nat -> string).

Definition load_table (xs : list A) : Py unit :=
  print line ;;
  data <- for_acc xs body [] ;;
  to_sql name (mk data) ;;
  print (closing (length data)).

(** The state a run ends in when nothing fails and the loop made [k]
    draws. *)
Definition table_loaded (k : nat) (rows : list B) (w : World) : World :=
  add_line (closing (length rows))
    (set_table name (mk rows) (advance_rng_by k (add_line line w))).

Context (xs : list A) (w : World).

Lemma load_table_ok (rows : list B) (k : nat) :
  conn_open w = true -> write_ok name = true ->
  for_acc xs body [] (add_line line w)
  = (Ok rows, advance_rng_by k (add_line line w)) ->
  load_table xs w = (Ok tt, table_loaded k rows w).
Proof.
  intros Ho Hw Hloop. unfold load_table, bind at 1, print, modify.
  unfold bind at 1. rewrite Hloop. unfold bind, to_sql.
  cbn [conn_open advance_rng_by add_line]. rewrite Ho, Hw. reflexivity.
Qed.

Lemma load_table_write_fails (rows : list B) (k : nat) :
  conn_open w = true -> write_ok name = false ->
  for_acc xs body [] (add_line line w)
  = (Ok rows, advance_rng_by k (add_line line w)) ->
  load_table xs w
  = (Raise (DatabaseError name), advance_rng_by k (add_line line w)).
Proof.
  intros Ho Hw Hloop. unfold load_table, bind at 1, print, modify.
  unfold bind at 1. rewrite Hloop. unfold bind, to_sql.
  cbn [conn_open advance_rng_by add_line]. rewrite Ho, Hw. reflexivity.
Qed.

Lemma load_table_raises (e : Exn) (w' : World) :
  for_acc xs body [] (add_line line w) = (Raise e, w') ->
  load_table xs w = (Raise e, w').
Proof.
  intros Hloop. unfold load_table, bind at 1, print, modify.
  unfold bind at 1. rewrite Hloop. reflexivity.
Qed.

(** Both outcomes of a run whose loop returns, on an open connection. *)
Lemma load_table_outcome (rows : list B) (k : nat) :
  conn_open w = true ->
  for_acc xs body [] (add_line line w)
  = (Ok rows, advance_rng_by k (add_line line w)) ->
  load_table xs w
  = if write_ok name then (Ok tt, table_loaded k rows w)
    else (Raise (DatabaseError name), advance_rng_by k (add_line line w)).
Proof.
  intros Ho Hloop. destruct (write_ok name) eqn:Hw.
  - apply load_table_ok; assumption.
  - apply (load_table_write_fails rows); assumption.
Qed.

(** Nothing after the loop touches the generator. *)
Lemma load_table_rng_pos (r : result Exn (list B)) (w' : World) :
  for_acc xs body [] (add_line line w) = (r, w') ->
  rng_pos (run_state (load_table xs) w) = rng_pos w'.
Proof.
  intros Hloop. unfold run_state, load_table, bind at 1, print, modify.
  unfold bind at 1. rewrite Hloop. destruct r as [rows|e]; [| reflexivity].
  unfold bind, to_sql. repeat destruct (negb _); reflexivity.
Qed.

End Loader.

(** What [table_loaded] leaves in each part of the state. *)
Lemma table_loaded_parts {B} (mk : list B -> Table) (name line : string)
    (closing : nat -> string) (k : nat) (rows : list B) (w : World) :
  let w' := table_loaded mk name line closing k rows w in
  db w' = <[name := mk rows]> (db w)
  /\ rng_pos w' = (k + rng_pos w)%nat
  /\ console w' = console w ++ [line; closing (length rows)]
  /\ conn_open w' = conn_open w.
Proof. cbn. rewrite <- app_assoc. auto. Qed.

Lemma table_loaded_traces {B} (mk : list B -> Table) (name line : string)
    (closing : nat -> string) (k : nat) (rows : list B) (w : World) :
  traces (table_loaded mk name line closing k rows w) = traces w.
Proof. reflexivity. Qed.

(** ** The contract of a loader

    What [main] relies on when it calls a loader: on a catalog the loader
    accepts and an open connection, the loader generates rows that satisfy
    its specification, drawing a number of values that depends on the
    catalog only; then the write decides between the two outcomes.  Each
    generator file proves that its function is a [Loader] for its
    contract; [Main] is proved from the contracts. *)

Record Contract (A B : Type) : Type := mkContract {
  c_table : string;                    (* the table written *)
  c_mk : list B -> Table;              (* its rows as a table *)
  c_line : string;                     (* the line printed first *)
  c_closing : nat -> string;           (* the line printed last *)
  c_accepts : list A -> Prop;          (* the catalogs it does not raise on *)
  c_rows : list A -> list B -> Prop;   (* the rows it may generate *)
  c_draws : list A -> nat;             (* the draws it makes *)
}.

Arguments mkContract {A B}.
Arguments c_table {A B}.
Arguments c_mk {A B}.
Arguments c_line {A B}.
Arguments c_closing {A B}.
Arguments c_accepts {A B}.
Arguments c_rows {A B}.
Arguments c_draws {A B}.

(** The states of the two outcomes. *)
Definition c_loaded {A B} (C : Contract A B) (xs : list A) (rows : list B)
    (w : World) : World :=
  table_loaded (c_mk C) (c_table C) (c_line C) (c_closing C) (c_draws C xs)
    rows w.

Definition c_failed {A B} (C : Contract A B) (xs : list A) (w : World)
  : World :=
  advance_rng_by (c_draws C xs) (add_line (c_line C) w).

Class Loader `{RS : RandomSource} `{ST : Storage} {A B : Type}
    (C : Contract A B) (run : list A -> Py unit) : Prop :=
  loader_outcome :
    forall xs w, c_accepts C xs -> conn_open w = true ->
      exists rows,
        c_rows C xs rows
        /\ run xs w
           = if write_ok (c_table C) then (Ok tt, c_loaded C xs rows w)
             else (Raise (DatabaseError (c_table C)), c_failed C xs w).

(** [adds_table t c w]: from [w] the statement [c] leaves the connection
    open and drops no table, and when it returns normally the table [t] is
    in the database. *)
Definition adds_table {A} (t : string) (c : Py A) (w : World) : Prop :=
  conn_open (run_state c w) = true
  /\ (forall t', is_Some (db w !! t') -> is_Some (db (run_state c w) !! t'))
  /\ (forall a, run_result c w = Ok a -> is_Some (db (run_state c w) !! t)).

(** What follows from the contract alone. *)
Section LoaderFacts.
Context `{RS : RandomSource} `{ST : Storage} {A B : Type}.
Context (C : Contract A B) (run : list A -> Py unit) `{!Loader C run}.
Context (xs : list A) (w : World).
Hypothesis accepted : c_accepts C xs.
Hypothesis conn_is_open : conn_open w = true.

(** The draws do not depend on the outcome of the write. *)
Lemma loader_draws :
  rng_pos (run_state (run xs) w) = (c_draws C xs + rng_pos w)%nat.
Proof.
  destruct (loader_outcome xs w accepted conn_is_open) as (rows & _ & E).
  unfold run_state. rewrite E. destruct (write_ok _); reflexivity.
Qed.

(** The connection stays open. *)
Lemma loader_keeps_connection : conn_open (run_state (run xs) w) = true.
Proof.
  destruct (loader_outcome xs w accepted conn_is_open) as (rows & _ & E).
  unfold run_state. rewrite E. destruct (write_ok _); exact conn_is_open.
Qed.

(** No other table is touched. *)
Lemma loader_other_tables (name : string) :
  name <> c_table C -> db (run_state (run xs) w) !! name = db w !! name.
Proof.
  intros Hne.
  destruct (loader_outcome xs w accepted conn_is_open) as (rows & _ & E).
  unfold run_state. rewrite E. destruct (write_ok _); [| reflexivity].
  cbn. apply lookup_insert_ne. congruence.
Qed.

(** The table is replaced exactly when the write succeeds. *)
Lemma loader_table :
  exists rows,
    c_rows C xs rows
    /\ db (run_state (run xs) w) !! c_table C
       = if write_ok (c_table C) then Some (c_mk C rows)
         else db w !! c_table C.
Proof.
  destruct (loader_outcome xs w accepted conn_is_open) as (rows & Hr & E).
  exists rows. split; [exact Hr |].
  unfold run_state. rewrite E. destruct (write_ok _); [| reflexivity].
  cbn. apply lookup_insert_eq.
Qed.

(** A loader adds its table. *)
Lemma loader_adds_table : adds_table (c_table C) (run xs) w.
Proof.
  split; [exact loader_keeps_connection | split].
  - intros t' Hs. destruct (decide (t' = c_table C)) as [->|Hne];
      [| rewrite loader_other_tables; assumption].
    destruct loader_table as (rows & _ & E). rewrite E.
    destruct (write_ok _); eauto.
  - intros a Ha.
    destruct (loader_outcome xs w accepted conn_is_open) as (rows & _ & E).
    unfold run_result, run_state in *. rewrite E in *.
    destruct (write_ok _); [| discriminate].
    cbn. rewrite lookup_insert_eq. eauto.
Qed.

End LoaderFacts.

(** ** Progress of a run

    [advanced k lines w w']: from [w] to [w'] the script drew [k] random
    numbers and printed [lines]; it printed no traceback and left the
    connection as it was.  Each function that builds a state extends the
    progress made so far, so the progress of a nested state is found by
    [eauto with py]. *)

Definition advanced (k : nat) (lines : list string) (w w' : World) : Prop :=
  rng_pos w' = (k + rng_pos w)%nat /\ console w' = console w ++ lines
  /\ traces w' = traces w /\ conn_open w' = conn_open w.

Lemma advanced_refl (w : World) : advanced 0 [] w w.
Proof. repeat split. symmetry. apply app_nil_r. Qed.

Lemma advanced_eq k lines k' lines' (w w' : World) :
  advanced k lines w w' -> k = k' -> lines = lines' ->
  advanced k' lines' w w'.
Proof. intros H <- <-. exact H. Qed.

Section Advanced.
Context (k : nat) (lines : list string) (w w1 : World).
Hypothesis so_far : advanced k lines w w1.

Lemma advanced_add_line (line : string) :
  advanced k (lines ++ [line]) w (add_line line w1).
Proof.
  destruct so_far as (Hr & Hc & Ht & Ho). repeat split; cbn; try assumption.
  rewrite Hc, <- app_assoc. reflexivity.
Qed.

Lemma advanced_advance_rng_by (j : nat) :
  advanced (k + j) lines w (advance_rng_by j w1).
Proof.
  destruct so_far as (Hr & Hc & Ht & Ho). repeat split; cbn; try assumption.
  rewrite Hr. lia.
Qed.

Lemma advanced_set_table (name : string) (t : Table) :
  advanced k lines w (set_table name t w1).
Proof. exact so_far. Qed.

Lemma advanced_set_db (tables : gmap string Table) :
  advanced k lines w (set_db tables w1).
Proof. exact so_far. Qed.

Lemma advanced_add_lines (more : list string) :
  advanced k (lines ++ more) w (add_lines more w1).
Proof.
  destruct so_far as (Hr & Hc & Ht & Ho).
  destruct (same_store_add_lines more w1) as [_ Ho'].
  repeat split;
    rewrite ?rng_pos_add_lines, ?console_add_lines, ?traces_add_lines, ?Ho';
    try assumption.
  rewrite Hc, <- app_assoc. reflexivity.
Qed.

Lemma advanced_table_loaded {B} (mk : list B -> Table) (name line : string)
    (closing : nat -> string) (j : nat) (rows : list B) :
  advanced (k + j) (lines ++ [line; closing (length rows)]) w
    (table_loaded mk name line closing j rows w1).
Proof.
  destruct so_far as (Hr & Hc & Ht & Ho).
  destruct (table_loaded_parts mk name line closing j rows w1)
    as (_ & Hr' & Hc' & Ho').
  repeat split; rewrite ?Hr', ?Hc', ?Ho', ?table_loaded_traces;
    try assumption; [rewrite Hr; lia |].
  rewrite Hc, <- app_assoc. reflexivity.
Qed.

End Advanced.

#[export] Hint Resolve advanced_refl advanced_add_line advanced_advance_rng_by
  advanced_set_table advanced_set_db advanced_add_lines advanced_table_loaded
  : py.

(** Closing or opening the connection changes nothing else. *)
Lemma close_conn_parts (w : World) :
  db (close_conn w) = db w /\ rng_pos (close_conn w) = rng_pos w
  /\ console (close_conn w) = console w /\ traces (close_conn w) = traces w
  /\ conn_open (close_conn w) = false.
Proof. repeat split. Qed.

Lemma open_conn_parts (w : World) :
  db (open_conn w) = db w /\ rng_pos (open_conn w) = rng_pos w
  /\ console (open_conn w) = console w /\ traces (open_conn w) = traces w
  /\ conn_open (open_conn w) = true.
Proof. repeat split. Qed.

(** ** A concrete environment, for running the model *)

(** A stream given in thousandths: call [n] returns [f n mod 1000 / 1000]. *)
Definition milli_draw (f : nat -> Z) (n : nat) : Q :=
  inject_Z (f n mod 1000) / 1000.

Lemma milli_draw_unit (f : nat -> Z) (n : nat) :
  0 <= milli_draw f n /\ milli_draw f n < 1.
Proof.
  unfold milli_draw.
  pose proof (Z.mod_pos_bound (f n) 1000 eq_refl) as [Hlo Hhi].
  apply inject_Z_le in Hlo. apply inject_Z_lt in Hhi.
  change (inject_Z 0) with 0 in Hlo. change (inject_Z 1000) with 1000 in Hhi.
  split; qlra.
Qed.

Definition milli_source (f : nat -> Z) : RandomSource :=
  {| draw := milli_draw f; draw_unit := milli_draw_unit f |}.

(** A linear congruential stream. *)
Definition lcg_source : RandomSource :=
  milli_source (fun n => (7919 * Z.of_nat n + 13)%Z).

(** The stream that replays a list of thousandths, then returns zeros. *)
Definition replay_source (l : list Z) : RandomSource :=
  milli_source (fun n => nth n l 0%Z).

(** A storage on which every write succeeds. *)
Definition reliable_storage : Storage := {| write_ok := fun _ => true |}.

(** A storage on which the writes to one table fail. *)
Definition failing_storage (bad : string) : Storage :=
  {| write_ok := fun name => negb (String.eqb name bad) |}.

(** A host on which every file holds [text] and every script runs to its
    end and leaves the tables as they are. *)
Definition plain_host (text : string) : Host :=
  {| can_connect := fun _ => true;
     file_content := fun _ => Some text;
     script_effect := fun _ tables => tables;
     script_ok := fun _ _ => true |}.

(** A host without any file, on which a database can be created. *)
Definition empty_host : Host :=
  {| can_connect := fun _ => true;
     file_content := fun _ => None;
     script_effect := fun _ tables => tables;
     script_ok := fun _ _ => true |}.

(** A host on which every script fails after dropping every table. *)
Definition broken_host (text : string) : Host :=
  {| can_connect := fun _ => true;
     file_content := fun _ => Some text;
     script_effect := fun _ _ => ∅;
     script_ok := fun _ _ => false |}.

(** A host on which no database file can be opened or created (a
    directory that cannot be written, say). *)
Definition readonly_host (text : string) : Host :=
  {| can_connect := fun _ => false;
     file_content := fun _ => Some text;
     script_effect := fun _ tables => tables;
     script_ok := fun _ _ => true |}.

(** The state before the script has done anything: an open connection to
    an empty database. *)
Definition initial_world : World := mkWorld 0 ∅ [] [] true.

