(* ===== verification/Locality.v ===== *)
(** * Locality: what a generator reads of the random stream

    The script draws every number from the one global generator of the
    module [random].  A loader therefore depends on the loaders that ran
    before it, but only through the position they left the generator at:
    the loop of a loader reads the stream from that position on and nothing
    else of the state.

    [reads c1 c2] relates a computation run under one stream to the same
    computation run under another: [c1] changes nothing but the position,
    by a number of draws [k], and when the two streams agree on the [k]
    positions that [c1] reads, [c2] returns what [c1] returns and makes the
    same draws, from every state at the same position.  The judgement has
    one rule per construct the loops of the script are written with, so a
    loop body is related to itself by following its text ([reads_auto]).
    From a related body the file derives what a whole loader does under
    two streams ([load_table_reads]). *)

From Stdlib Require Import QArith ZArith List String Lia.
From stdpp Require Import base tactics option list strings gmap.
From S2P Require Import Prelude PyNum Effects Schema World.

Local Open Scope py_scope.

(** ** Two streams that agree on a segment *)

Section Reads.
Context (RS1 RS2 : RandomSource).

(** The two streams return the same values at the positions from [a] up
    to, and not including, [b]. *)
Definition agree (a b : nat) : Prop :=
  forall n, (a <= n < b)%nat ->
            draw (RandomSource := RS1) n = draw (RandomSource := RS2) n.

Definition reads {A} (c1 c2 : Py A) : Prop :=
  forall w1 w2, rng_pos w1 = rng_pos w2 ->
    exists k,
      run_state c1 w1 = advance_rng_by k w1
      /\ (agree (rng_pos w1) (k + rng_pos w1) ->
          c2 w2 = (run_result c1 w1, advance_rng_by k w2)).

(** The rows a loop generates from a position of the first stream: what
    [for_acc xs body []] returns in any state at that position. *)
Definition generated {A B} (body : A -> list B -> Py (list B)) (xs : list A)
    (pos : nat) : result Exn (list B) :=
  run_result (for_acc xs body []) (mkWorld pos ∅ [] [] true).

(** The position a loop leaves the generator at. *)
Definition generated_end {A B} (body : A -> list B -> Py (list B))
    (xs : list A) (pos : nat) : nat :=
  rng_pos (run_state (for_acc xs body []) (mkWorld pos ∅ [] [] true)).

(** ** Rules *)

Lemma agree_mono (a b a' b' : nat) :
  (a <= a')%nat -> (b' <= b)%nat -> agree a b -> agree a' b'.
Proof. intros Ha Hb H n Hn. apply H. lia. Qed.

Lemma agree_empty (a : nat) : agree a a.
Proof. intros n Hn. lia. Qed.

Lemma reads_ret {A} (a : A) : reads (ret a) (ret a).
Proof.
  intros w1 w2 _. exists 0%nat. unfold run_state, run_result, ret. cbn.
  rewrite !advance_rng_by_0. auto.
Qed.

Lemma reads_raise {A} (e : Exn) : reads (raise (A := A) e) (raise e).
Proof.
  intros w1 w2 _. exists 0%nat. unfold run_state, run_result, raise. cbn.
  rewrite !advance_rng_by_0. auto.
Qed.

Lemma reads_dict_get {V} (d : gmap string V) (key : string) :
  reads (dict_get d key) (dict_get d key).
Proof.
  unfold dict_get. destruct (d !! key); [apply reads_ret | apply reads_raise].
Qed.

Lemma reads_random_random :
  reads (random_random (RS := RS1)) (random_random (RS := RS2)).
Proof.
  intros w1 w2 Hpos. exists 1%nat. split; [reflexivity |].
  intros Hag. unfold random_random, run_result. cbn [fst].
  rewrite <- Hpos, (Hag (rng_pos w1)) by lia. reflexivity.
Qed.

Lemma reads_bind {A B} (c1 c2 : Py A) (f1 f2 : A -> Py B) :
  reads c1 c2 -> (forall a, reads (f1 a) (f2 a)) ->
  reads (bind c1 f1) (bind c2 f2).
Proof.
  intros Hc Hf w1 w2 Hpos. destruct (Hc w1 w2 Hpos) as (k1 & Hs1 & H1).
  unfold run_state, run_result, bind in *.
  destruct (c1 w1) as [[a|e] w1'] eqn:E1; cbn [fst snd] in *; subst w1'.
  - destruct (Hf a (advance_rng_by k1 w1) (advance_rng_by k1 w2))
      as (k2 & Hs2 & H2); [cbn; congruence |].
    exists (k1 + k2)%nat. rewrite <- !advance_rng_by_add. split; [exact Hs2 |].
    intros Hag. rewrite H1 by (eapply agree_mono; [| | exact Hag]; lia).
    apply H2. eapply agree_mono; [| | exact Hag]; cbn; lia.
  - exists k1. split; [reflexivity |]. intros Hag. rewrite (H1 Hag).
    reflexivity.
Qed.

Lemma reads_random_uniform (a b : Q) :
  reads (random_uniform (RS := RS1) a b) (random_uniform (RS := RS2) a b).
Proof.
  apply reads_bind; [apply reads_random_random | intros u; apply reads_ret].
Qed.

Lemma reads_for_acc {A B} (xs : list A) (body1 body2 : A -> B -> Py B)
    (acc : B) :
  (forall x acc, reads (body1 x acc) (body2 x acc)) ->
  reads (for_acc xs body1 acc) (for_acc xs body2 acc).
Proof.
  intros Hbody. revert acc.
  induction xs as [|x xs IH]; intros acc; cbn [for_acc];
    [apply reads_ret | apply reads_bind; [apply Hbody | exact IH]].
Qed.

End Reads.

#[export] Hint Resolve reads_ret reads_raise reads_dict_get
  reads_random_uniform : py.

(** Relate a loop body to itself by following its text. *)
Ltac reads_step :=
  lazymatch goal with
  | |- reads _ _ (bind _ _) (bind _ _) => apply reads_bind; [| intros ?]
  | |- reads _ _ (for_acc _ _ _) (for_acc _ _ _) =>
      apply reads_for_acc; intros ? ?
  | |- reads _ _ (if ?b then _ else _) _ => destruct b
  | |- reads _ _ (match ?x with _ => _ end) _ => destruct x
  | |- reads _ _ _ _ => solve [auto with py]
  end.

Ltac reads_auto := cbv zeta; repeat reads_step.

(** ** One stream: a generator reads the position only *)

Section OneStream.
Context {RS : RandomSource}.

Lemma agree_refl (a b : nat) : agree RS RS a b.
Proof. intros n _. reflexivity. Qed.

(** A computation related to itself does the same from every state at the
    same position. *)
Lemma reads_state_independent {A} (c : Py A) (w1 w2 : World) :
  reads RS RS c c -> rng_pos w1 = rng_pos w2 ->
  run_result c w2 = run_result c w1
  /\ exists k, run_state c w1 = advance_rng_by k w1
               /\ run_state c w2 = advance_rng_by k w2.
Proof.
  intros Hc Hpos. destruct (Hc w1 w2 Hpos) as (k & Hs & H).
  specialize (H (agree_refl _ _)). unfold run_result, run_state in *.
  rewrite H. eauto.
Qed.

(** The rows of a loop are those generated from the position of the
    state. *)
Lemma for_acc_generated {A B} (body : A -> list B -> Py (list B))
    (xs : list A) (w : World) :
  (forall x acc, reads RS RS (body x acc) (body x acc)) ->
  for_acc xs body [] w
  = (generated body xs (rng_pos w),
     advance_rng_by (generated_end body xs (rng_pos w) - rng_pos w) w).
Proof.
  intros Hbody. unfold generated, generated_end.
  destruct (reads_for_acc RS RS xs body body [] Hbody
              (mkWorld (rng_pos w) ∅ [] [] true) w eq_refl) as (k & Hs & H).
  rewrite (H (agree_refl _ _)), Hs. cbn [rng_pos advance_rng_by].
  f_equal. apply advance_rng_by_eq. lia.
Qed.

End OneStream.

(** ** Two streams: a loader *)

Section Loader.
Context (RS1 RS2 : RandomSource) {ST : Storage} {A B : Type}.
Context (body1 body2 : A -> list B -> Py (list B)) (mk : list B -> Table).
Context (name line : string) (closing : nat -> string).
Hypothesis body_reads : forall x acc, reads RS1 RS2 (body1 x acc) (body2 x acc).

(** What a loader does after its loop. *)
Definition finish_table (r : result Exn (list B)) : Py unit :=
  match r with
  | Ok data => to_sql name (mk data) ;; print (closing (length data))
  | Raise e => raise e
  end.

(** A loader under two streams, from two states at the same position: the
    loop of the first makes [k] draws, and when the streams agree on them
    the second loader finishes with the rows of the first. *)
Lemma load_table_reads (xs : list A) (w1 w2 : World) :
  rng_pos w1 = rng_pos w2 ->
  exists k r,
    load_table body1 mk name line closing xs w1
    = finish_table r (advance_rng_by k (add_line line w1))
    /\ (agree RS1 RS2 (rng_pos w1) (k + rng_pos w1) ->
        load_table body2 mk name line closing xs w2
        = finish_table r (advance_rng_by k (add_line line w2))).
Proof.
  intros Hpos.
  destruct (reads_for_acc RS1 RS2 xs body1 body2 [] body_reads
              (add_line line w1) (add_line line w2) Hpos) as (k & Hs & H).
  exists k, (run_result (for_acc xs body1 []) (add_line line w1)).
  unfold load_table, bind at 1, print, modify. unfold bind at 1.
  unfold run_state, run_result in *.
  destruct (for_acc xs body1 [] (add_line line w1)) as [r w1'] eqn:E1.
  cbn [fst snd] in *. subst w1'. split; [destruct r; reflexivity |].
  intros Hag. unfold bind at 1, print, modify. unfold bind at 1.
  rewrite (H Hag). destruct r; reflexivity.
Qed.

(** Finishing does not touch the generator. *)
Lemma finish_table_rng_pos (r : result Exn (list B)) (w : World) :
  rng_pos (run_state (finish_table r) w) = rng_pos w.
Proof.
  destruct r as [data|e]; [| reflexivity].
  unfold run_state, finish_table, bind, to_sql, print, modify.
  repeat destruct (negb _); reflexivity.
Qed.

(** Finishing returns normally only after it has written the rows. *)
Lemma finish_table_ok (r : result Exn (list B)) (w w' : World) :
  finish_table r w = (Ok tt, w') ->
  exists data, r = Ok data /\ db w' !! name = Some (mk data).
Proof.
  destruct r as [data|e]; [| discriminate]. intros E. exists data.
  split; [reflexivity |]. revert E.
  unfold finish_table, bind, to_sql, print, modify.
  repeat destruct (negb _); intros [= <-]. cbn. apply lookup_insert_eq.
Qed.

(** From one state, the second loader does what the first does. *)
Lemma load_table_local (xs : list A) (w : World) :
  agree RS1 RS2 (rng_pos w)
    (rng_pos (run_state (load_table body1 mk name line closing xs) w)) ->
  load_table body2 mk name line closing xs w
  = load_table body1 mk name line closing xs w.
Proof.
  destruct (load_table_reads xs w w eq_refl) as (k & r & E1 & E2).
  intros Hag. rewrite E1, E2; [reflexivity |].
  unfold run_state in Hag. rewrite E1 in Hag.
  change (snd (finish_table r ?s)) with (run_state (finish_table r) s) in Hag.
  rewrite finish_table_rng_pos in Hag. exact Hag.
Qed.

(** From two states at the same position, when both loaders return
    normally and the streams agree on the draws of the first, they have
    written the same table. *)
Lemma loaded_rows_agree (xs : list A) (w1 w2 : World) (k1 k2 : nat)
    (rows1 rows2 : list B) :
  rng_pos w1 = rng_pos w2 ->
  load_table body1 mk name line closing xs w1
  = (Ok tt, table_loaded mk name line closing k1 rows1 w1) ->
  load_table body2 mk name line closing xs w2
  = (Ok tt, table_loaded mk name line closing k2 rows2 w2) ->
  agree RS1 RS2 (rng_pos w1) (k1 + rng_pos w1) ->
  mk rows2 = mk rows1.
Proof.
  intros Hpos H1 H2 Hag.
  destruct (load_table_reads xs w1 w2 Hpos) as (k & r & E1 & E2).
  rewrite H1 in E1. symmetry in E1.
  pose proof (finish_table_rng_pos r (advance_rng_by k (add_line line w1)))
    as Hk.
  unfold run_state in Hk. rewrite E1 in Hk. cbn in Hk.
  assert (k = k1) as -> by lia.
  rewrite H2 in E2. specialize (E2 Hag). symmetry in E2.
  destruct (finish_table_ok _ _ _ E1) as (data & -> & L1).
  destruct (finish_table_ok _ _ _ E2) as (data' & [= <-] & L2).
  cbn in L1, L2. rewrite lookup_insert_eq in L1, L2. congruence.
Qed.

(** The same, for loaders whose outcome is known up to the write. *)
Lemma loaded_rows_agree_if (xs : list A) (w1 w2 : World) (k : nat)
    (rows1 rows2 : list B) (x1 x2 : result Exn unit * World) (pos : nat) :
  rng_pos w1 = pos -> rng_pos w2 = pos ->
  load_table body1 mk name line closing xs w1
  = (if write_ok name
     then (Ok tt, table_loaded mk name line closing k rows1 w1) else x1) ->
  load_table body2 mk name line closing xs w2
  = (if write_ok name
     then (Ok tt, table_loaded mk name line closing k rows2 w2) else x2) ->
  write_ok name = true -> agree RS1 RS2 pos (k + pos) ->
  mk rows2 = mk rows1.
Proof.
  intros P1 P2 E1 E2 Hok Hag. rewrite Hok in E1, E2. subst pos.
  exact (loaded_rows_agree xs w1 w2 k k rows1 rows2 (eq_sym P2) E1 E2 Hag).
Qed.

End Loader.
