(* ===== verification/Blocks.v ===== *)
(** * Blocks: a table is the concatenation of the blocks of its entries

    Every loader builds its table in the list [data]: the loop over the
    catalog passes the list to the body, which appends the rows of one
    country and returns the list.  This file proves that the loop is a
    [concat] over the catalog: the rows a body appends do not depend on the
    list it is given ([appends]), so the table is the concatenation of the
    blocks each entry generates alone, from an empty list, at the position
    of the random stream where its draws start ([for_acc_table_blocks]);
    and the block of an entry is a function of the draws of that entry
    only ([block_at_local]). *)

From Stdlib Require Import QArith ZArith List String Lia.
From stdpp Require Import base tactics option list strings gmap.
From S2P Require Import Prelude PyNum Effects Schema World Locality.

Local Open Scope list_scope.
Local Open Scope py_scope.

(** ** Computations that append to the list they are given *)

Section Appends.
Context {B : Type}.

(** The result of a computation started from [acc], from its result when
    started from the empty list. *)
Definition prepend (acc : list B) (r : result Exn (list B))
  : result Exn (list B) :=
  match r with
  | Ok out => Ok (acc ++ out)
  | Raise e => Raise e
  end.

(** [f] does from [acc] what it does from the empty list, and returns
    [acc] followed by what it returns then. *)
Definition appends (f : list B -> Py (list B)) : Prop :=
  forall acc w, f acc w = (prepend acc (f [] w).1, (f [] w).2).

Lemma prepend_app (acc out : list B) (r : result Exn (list B)) :
  prepend acc (prepend out r) = prepend (acc ++ out) r.
Proof. destruct r; cbn; rewrite ?app_assoc; reflexivity. Qed.

Lemma appends_ret_app (l : list B) : appends (fun acc => ret (acc ++ l)).
Proof. intros acc w. reflexivity. Qed.

Lemma appends_ret : appends (fun acc => ret acc).
Proof. intros acc w. cbn. rewrite app_nil_r. reflexivity. Qed.

Lemma appends_raise (e : Exn) : appends (fun _ => raise e).
Proof. intros acc w. reflexivity. Qed.

Lemma appends_bind {A} (c : Py A) (f : A -> list B -> Py (list B)) :
  (forall a, appends (f a)) -> appends (fun acc => a <- c ;; f a acc).
Proof.
  intros Hf acc w. unfold bind.
  destruct (c w) as [[a|e] w']; [apply Hf | reflexivity].
Qed.

Lemma appends_for_acc {A} (xs : list A) (step : A -> list B -> Py (list B)) :
  (forall x, appends (step x)) -> appends (for_acc xs step).
Proof.
  intros Hstep. induction xs as [|x xs IH]; intros acc w; cbn [for_acc].
  - apply appends_ret.
  - unfold bind. rewrite (Hstep x acc w).
    destruct (step x [] w) as [[out|e] w'] eqn:E; cbn [prepend fst snd];
      [| reflexivity].
    rewrite (IH (acc ++ out) w'), (IH out w'). cbn [fst snd].
    rewrite prepend_app. reflexivity.
Qed.

End Appends.

#[export] Hint Resolve appends_ret_app appends_ret appends_raise : py.

(** Show that a loop body appends by following its text. *)
Ltac appends_step :=
  first
    [ solve [auto with py]
    | apply appends_for_acc; intros ?
    | apply appends_bind; intros ?
    | match goal with
      | |- appends (fun _ => if ?b then _ else _) => destruct b
      | |- appends (fun _ => match ?x with _ => _ end) => destruct x
      end ];
  cbv beta.

Ltac appends_auto := cbv zeta; repeat appends_step.

(** ** The blocks of a table *)

Section Blocks.
Context {RS : RandomSource} {A B : Type}.
Context (body : A -> list B -> Py (list B)).
Context (R : A -> list B -> Prop) (k : A -> nat).

(** The block of [x]: what the body returns from the empty list at the
    position [pos] of the stream. *)
Definition block_at (x : A) (pos : nat) : list B :=
  match run_result (body x []) (mkWorld pos ∅ [] [] true) with
  | Ok out => out
  | Raise _ => []
  end.

(** The blocks of the entries, each at the position where its draws
    start. *)
Fixpoint table_blocks (xs : list A) (pos : nat) : list (list B) :=
  match xs with
  | [] => []
  | x :: rest => block_at x pos :: table_blocks rest (k x + pos)
  end.

Hypothesis body_appends : forall x, appends (body x).
Hypothesis body_reads : forall x acc, reads RS RS (body x acc) (body x acc).

(** One iteration appends the block of its entry. *)
Lemma body_block (x : A) (data : list B) (w : World) :
  appends_block body R k x ->
  body x data w = (Ok (data ++ block_at x (rng_pos w)), advance_rng_by (k x) w).
Proof.
  intros Hx.
  destruct (wp_returns_inv _ _ _ (Hx [] w)) as (out & w' & E & _ & _ & _ & ->).
  rewrite (body_appends x data w), E. cbn [fst snd prepend]. unfold block_at.
  destruct (reads_state_independent (body x []) w
              (mkWorld (rng_pos w) ∅ [] [] true) (body_reads x []) eq_refl)
    as [-> _].
  unfold run_result. rewrite E. reflexivity.
Qed.

(** The loop returns the list it is given followed by the blocks of the
    entries, in order. *)
Lemma for_acc_table_blocks (xs : list A) (data : list B) (w : World) :
  (forall x, x ∈ xs -> appends_block body R k x) ->
  for_acc xs body data w
  = (Ok (data ++ concat (table_blocks xs (rng_pos w))),
     advance_rng_by (list_sum (map k xs)) w).
Proof.
  revert data w. induction xs as [|x xs IH]; intros data w Hxs;
    cbn [for_acc table_blocks concat map list_sum].
  - rewrite app_nil_r, advance_rng_by_0. reflexivity.
  - unfold bind. rewrite (body_block x data w) by (apply Hxs; left).
    rewrite IH by (intros y Hy; apply Hxs; right; exact Hy).
    rewrite advance_rng_by_add, <- app_assoc. reflexivity.
Qed.

(** A loader writes the blocks of the entries of its catalog. *)
Lemma load_table_blocks `{ST : Storage} (mk : list B -> Table)
    (name line : string) (closing : nat -> string) (xs : list A) (w : World) :
  conn_open w = true -> write_ok name = true ->
  (forall x, x ∈ xs -> appends_block body R k x) ->
  db (run_state (load_table body mk name line closing xs) w) !! name
  = Some (mk (concat (table_blocks xs (rng_pos w)))).
Proof.
  intros Ho Hw Hxs. unfold run_state.
  rewrite (load_table_ok body mk name line closing xs w
             (concat (table_blocks xs (rng_pos w))) (list_sum (map k xs)) Ho Hw
             (for_acc_table_blocks xs [] (add_line line w) Hxs)).
  cbn [snd]. destruct (table_loaded_parts mk name line closing (list_sum (map k xs))
              (concat (table_blocks xs (rng_pos w))) w) as [-> _].
  apply lookup_insert_eq.
Qed.

End Blocks.

(** ** The block of an entry reads the draws of that entry *)

Section BlockLocal.
Context (RS1 RS2 : RandomSource) {A B : Type}.
Context (body1 body2 : A -> list B -> Py (list B)).
Context (R : A -> list B -> Prop) (k : A -> nat).

Lemma block_at_local (x : A) (pos : nat) :
  appends_block body1 R k x ->
  reads RS1 RS2 (body1 x []) (body2 x []) ->
  agree RS1 RS2 pos (k x + pos) ->
  block_at body2 x pos = block_at body1 x pos.
Proof.
  intros Hx Hr Hag. set (w := mkWorld pos ∅ [] [] true).
  destruct (Hr w w eq_refl) as (j & Hs & H).
  destruct (wp_returns_inv _ _ _ (Hx [] w)) as (out & w' & E & _ & _ & _ & ->).
  unfold run_state in Hs. rewrite E in Hs. cbn [snd] in Hs.
  assert (j = k x) as -> by (apply (f_equal rng_pos) in Hs; cbn in Hs; lia).
  unfold block_at, run_result. fold w. rewrite (H Hag). reflexivity.
Qed.

End BlockLocal.
