(* ===== verification/Protocol.v ===== *)
(** * Protocol: what a run of the loader promises, as a machine

    The specification describes the loader as a single pass: the stages
    are called in a fixed sequence, each writes one table, the first
    failure aborts the run, is reported with a trace, and the connection is
    released on every outcome.  The code adds one path to this: a
    connection that cannot be made ends the run at once, with nothing to
    report and nothing to release.  This file states that as a labelled
    transition system over an abstract state (the phase of the run, whether
    the schema script has run, the tables written so far, whether the
    connection is held, the exception reported) and proves what follows
    from the rules alone: the invariant of the reachable states, the history
    of events that each state determines, that every run is finite and that
    every path ends with no connection held.  The file [Stages] shows
    that the statements of [main] obey these rules. *)

From Stdlib Require Import List String Lia.
From stdpp Require Import base tactics option list strings.
From S2P Require Import Prelude Effects Machine Schema World.

Local Open Scope string_scope.
Local Open Scope list_scope.

(** ** Events and abstract states *)

(** What a statement of [main] does, as seen from outside. *)
Inductive Event : Type :=
| EvBanner                    (* the banner is printed *)
| EvConnect                   (* the connection is made *)
| EvSchema                    (* the schema script ran to its end *)
| EvWrite (table : string)    (* a table was replaced *)
| EvSummary                   (* the row counts were printed *)
| EvRaise (e : Exn)           (* a statement raised *)
| EvReport (e : Exn)          (* the handler printed the error *)
| EvClose.                    (* the connection was released *)

#[export] Instance Event_eq_dec : EqDecision Event.
Proof. solve_decision. Defined.

(** [Aborted e]: the run ended before a connection was made, with [e]
    raised to the caller. *)
Inductive Phase : Type :=
| Idle | Ready | Trying | Handling (e : Exn) | Closing | Finished
| Aborted (e : Exn).

#[export] Instance Phase_eq_dec : EqDecision Phase.
Proof. solve_decision. Defined.

Record Proto : Type := mkProto {
  p_phase : Phase;
  p_schema : bool;               (* the schema script ran to its end *)
  p_written : list string;       (* the tables replaced, in order *)
  p_summary : bool;              (* the summary was printed *)
  p_conn : bool;                 (* the connection is held *)
  p_reported : option Exn;       (* the error the handler printed *)
}.

(** The order in which the tables are written. *)
Definition write_order : list string :=
  ["country_metadata"; "gdp_data"; "inequality_metrics";
   "poverty_indicators"; "trade_education"].

Definition proto_init : Proto := mkProto Idle false [] false false None.

(** ** The rules *)

Inductive pstep : Proto -> Event -> Proto -> Prop :=
| pstep_banner :
    pstep proto_init EvBanner (mkProto Ready false [] false false None)
| pstep_connect :
    pstep (mkProto Ready false [] false false None) EvConnect
          (mkProto Trying false [] false true None)
| pstep_refuse e :
    pstep (mkProto Ready false [] false false None) (EvRaise e)
          (mkProto (Aborted e) false [] false false None)
| pstep_schema :
    pstep (mkProto Trying false [] false true None) EvSchema
          (mkProto Trying true [] false true None)
| pstep_write ws t :
    write_order !! length ws = Some t ->
    pstep (mkProto Trying true ws false true None) (EvWrite t)
          (mkProto Trying true (ws ++ [t]) false true None)
| pstep_summary :
    pstep (mkProto Trying true write_order false true None) EvSummary
          (mkProto Closing true write_order true true None)
| pstep_raise sc ws e :
    pstep (mkProto Trying sc ws false true None) (EvRaise e)
          (mkProto (Handling e) sc ws false true None)
| pstep_report sc ws e :
    pstep (mkProto (Handling e) sc ws false true None) (EvReport e)
          (mkProto Closing sc ws false true (Some e))
| pstep_close sc ws sm r :
    pstep (mkProto Closing sc ws sm true r) EvClose
          (mkProto Finished sc ws sm false r).

#[export] Hint Constructors pstep : py.

(** ** The invariant of the reachable states *)

(** The connection is held exactly between [EvConnect] and [EvClose]. *)
Definition holds_conn (ph : Phase) : bool :=
  match ph with
  | Trying | Handling _ | Closing => true
  | Idle | Ready | Finished | Aborted _ => false
  end.

(** The phases in which a run has ended. *)
Definition ended (ph : Phase) : bool :=
  match ph with
  | Finished | Aborted _ => true
  | _ => false
  end.

(** The tables are written in the fixed order and only after the schema
    script; the summary is printed after the last table only; an error is
    reported when and only when the summary is not. *)
Definition proto_ok (p : Proto) : Prop :=
  p_written p `prefix_of` write_order
  /\ p_conn p = holds_conn (p_phase p)
  /\ (p_schema p = false -> p_written p = [])
  /\ match p_phase p with
     | Idle | Ready | Aborted _ =>
         p_schema p = false /\ p_summary p = false /\ p_reported p = None
     | Trying | Handling _ => p_summary p = false /\ p_reported p = None
     | Closing | Finished =>
         if p_summary p
         then p_written p = write_order /\ p_reported p = None
         else is_Some (p_reported p)
     end.

(** ** The history a state determines *)

(** The protocol is linear: a state is reached by one sequence of events
    only. *)
Definition proto_history (p : Proto) : list Event :=
  match p_phase p with
  | Idle => []
  | Ready => [EvBanner]
  | Aborted e => [EvBanner; EvRaise e]
  | ph =>
      [EvBanner; EvConnect]
      ++ (if p_schema p then [EvSchema] else [])
      ++ map EvWrite (p_written p)
      ++ (if p_summary p then [EvSummary] else [])
      ++ match ph with Handling e => [EvRaise e] | _ => [] end
      ++ match p_reported p with
         | Some e => [EvRaise e; EvReport e]
         | None => []
         end
      ++ match ph with Finished => [EvClose] | _ => [] end
  end.

(** The tables a sequence of events writes, in order. *)
Definition writes_of (ls : list Event) : list string :=
  omap (fun l => match l with EvWrite t => Some t | _ => None end) ls.

(** ** A measure of what is left to do *)

Definition proto_rank (p : Proto) : nat :=
  match p_phase p with
  | Idle => 6 + length write_order
  | Ready => 5 + length write_order
  | Trying =>
      3 + (if p_schema p then 0 else 1)
      + (length write_order - length (p_written p))
  | Handling _ => 2
  | Closing => 1
  | Finished | Aborted _ => 0
  end.

(** ** Theorems *)

Lemma proto_init_ok : proto_ok proto_init.
Proof. repeat split; cbn; auto using prefix_nil. Qed.

(** A write extends a prefix of the order by the next table. *)
Lemma write_order_next ws t :
  ws `prefix_of` write_order -> write_order !! length ws = Some t ->
  (ws ++ [t]) `prefix_of` write_order.
Proof.
  intros [rest E] Ht. rewrite E, lookup_app_r, Nat.sub_diag in Ht by lia.
  destruct rest as [|t' rest]; [discriminate |]. cbn in Ht. simplify_eq.
  exists rest. rewrite E, <- app_assoc. reflexivity.
Qed.

(** Every rule preserves the invariant. *)
Lemma proto_ok_stable : stable pstep proto_ok.
Proof.
  intros p l p' (Ho & Hc & Hs & Hph) Hstep.
  destruct Hstep as [| |e| |ws t Ht| |sc ws e|sc ws e|sc ws sm r];
    unfold proto_ok; cbn in *; repeat split;
    eauto using write_order_next, prefix_nil; try done.
Qed.

Lemma proto_reachable_ok ls p : run pstep proto_init ls p -> proto_ok p.
Proof.
  intros H. exact (run_invariant proto_ok_stable H proto_init_ok).
Qed.

(** Every rule extends the history of its source by its label. *)
Lemma proto_history_step p l p' :
  pstep p l p' -> proto_history p' = proto_history p ++ [l].
Proof.
  destruct 1; unfold proto_history; cbn; try reflexivity;
    try (rewrite map_app; cbn; rewrite <- !app_assoc; reflexivity);
    destruct sc; try destruct sm; try destruct r; cbn;
    rewrite ?app_nil_r, <- ?app_assoc; cbn; rewrite <- ?app_assoc;
    reflexivity.
Qed.

Lemma proto_run_history ls p :
  run pstep proto_init ls p -> ls = proto_history p.
Proof.
  intros H.
  apply (run_history (fun ls p => ls = proto_history p)) in H;
    [exact H | | reflexivity].
  intros ls' s l s' -> Hstep. symmetry. apply proto_history_step, Hstep.
Qed.

Lemma writes_of_app ls ls' : writes_of (ls ++ ls') = writes_of ls ++ writes_of ls'.
Proof. apply omap_app. Qed.

Lemma writes_of_map ts : writes_of (map EvWrite ts) = ts.
Proof.
  unfold writes_of. induction ts as [|t ts IH]; cbn; [| rewrite IH]; reflexivity.
Qed.

(** The writes of a history are the tables of its state. *)
Lemma writes_of_history p :
  proto_ok p -> writes_of (proto_history p) = p_written p.
Proof.
  intros (_ & _ & Hs & Hph). unfold proto_history.
  destruct p as [ph sc ws sm cn r]; cbn in *.
  destruct ph; cbn in *;
    try (destruct Hph as (Hsc & _); symmetry; exact (Hs Hsc));
    destruct sc, sm, r; cbn; rewrite ?writes_of_app, ?writes_of_map; cbn;
    rewrite ?app_nil_r; reflexivity.
Qed.

(** The tables are written in the fixed order, whatever the run. *)
Lemma proto_writes_in_order ls p :
  run pstep proto_init ls p -> writes_of ls `prefix_of` write_order.
Proof.
  intros H. pose proof (proto_reachable_ok _ _ H) as Hok.
  rewrite (proto_run_history _ _ H), (writes_of_history _ Hok). apply Hok.
Qed.

(** Every rule decreases the measure. *)
Lemma proto_rank_step p l p' : pstep p l p' -> proto_rank p' < proto_rank p.
Proof.
  destruct 1 as [| | | |ws t Ht| | | |]; unfold proto_rank; cbn; try lia.
  apply lookup_lt_Some in Ht. rewrite length_app. cbn in *. lia.
Qed.

(** No run has more than eleven events. *)
Lemma proto_run_bounded ls p : run pstep proto_init ls p -> length ls <= 11.
Proof.
  intros H. pose proof (run_measure proto_rank proto_rank_step H) as Hm.
  cbn in Hm. lia.
Qed.

(** A state of the invariant in which the run has not ended has a rule
    that applies. *)
Lemma proto_progress p :
  proto_ok p -> ended (p_phase p) = true \/ exists l p', pstep p l p'.
Proof.
  intros (Ho & Hc & Hs & Hph).
  destruct p as [ph sc ws sm cn r]; cbn in *. subst cn.
  destruct ph; cbn in *; [| | | | | left; reflexivity..]; right;
    try (destruct Hph as (-> & -> & ->); rewrite (Hs eq_refl));
    try (destruct Hph as (-> & ->)).
  - eexists _, _. apply pstep_banner.
  - eexists _, _. apply pstep_connect.
  - exists (EvRaise (ValueError "")). eexists. apply pstep_raise.
  - eexists _, _. apply pstep_report.
  - eexists _, _. apply pstep_close.
Qed.

(** A final state of the invariant is one in which the run has ended, and
    it holds no connection. *)
Lemma proto_final_finished p :
  proto_ok p -> final pstep p -> ended (p_phase p) = true /\ p_conn p = false.
Proof.
  intros Hok Hfin. destruct (proto_progress _ Hok) as [E|(l & p' & Hs)];
    [| destruct (Hfin _ _ Hs)].
  destruct Hok as (_ & Hc & _). rewrite Hc. by destruct (p_phase p).
Qed.

(** The two ways a run ends: after the summary, or after the report of the
    first exception. *)
Inductive proto_ending : list Event -> Prop :=
| ending_summary : proto_ending [EvSummary; EvClose]
| ending_report e : proto_ending [EvRaise e; EvReport e; EvClose].

(** The events of a finished run: the banner, the connection, the schema
    script if it ran to its end, the writes of a prefix of the tables in
    their order, and one of the two endings; the summary ends a run only
    after the last table.  (The events of an aborted run are the banner
    and the exception: [proto_history] says so by definition.) *)
Lemma proto_finished_history p :
  proto_ok p -> p_phase p = Finished ->
  exists tail,
    proto_history p
    = [EvBanner; EvConnect] ++ (if p_schema p then [EvSchema] else [])
      ++ map EvWrite (p_written p) ++ tail
    /\ proto_ending tail
    /\ (tail = [EvSummary; EvClose] ->
        p_schema p = true /\ p_written p = write_order).
Proof.
  intros (_ & _ & Hs & Hph) E. unfold proto_history.
  destruct p as [ph sc ws sm cn r]. cbn in *. subst ph.
  destruct sm; [destruct Hph as (-> & ->) | destruct Hph as (e & ->)].
  - exists [EvSummary; EvClose]. repeat split; [constructor |].
    destruct sc; [reflexivity | discriminate (Hs eq_refl)].
  - exists [EvRaise e; EvReport e; EvClose]. cbn.
    repeat split; first [discriminate | constructor].
Qed.

(** Every path from a state of the invariant ends with the run ended, and
    so with no connection held. *)
Lemma proto_eventually_finished p :
  proto_ok p -> eventually pstep (fun p => ended (p_phase p) = true) p.
Proof.
  apply (eventually_measure proto_rank _ proto_rank_step proto_ok_stable).
  exact proto_progress.
Qed.
