(* ===== verification/Catalog.v ===== *)
(** * Catalog: the country reference table ([load_country_metadata])

    The script writes the catalog column by column, as a dict of four lists,
    and lets [pd.DataFrame] turn it into rows; pandas refuses columns of
    different lengths.  The model keeps the columns as the script has them,
    builds the rows with the same check, adds the column [population_2023]
    and writes the table.  The theorems show that the construction cannot
    fail on the script's data, what the catalog holds (48 rows, unique codes,
    income groups and regions that every generator knows), and what the
    function does to the database and the console on each exit. *)

From Stdlib Require Import QArith ZArith List String.
From stdpp Require Import base tactics option list strings gmap pretty.
From S2P Require Import Prelude PyNum Effects Schema World.

Local Open Scope string_scope.
Local Open Scope py_scope.

(** ** The columns of [countries_data] *)

Definition country_code_column : list string :=
  ["USA"; "GBR"; "DEU"; "FRA"; "JPN"; "CHN"; "IND"; "BRA"; "ZAF"; "NGA";
   "KEN"; "ETH"; "MEX"; "ARG"; "CHL"; "POL"; "CZE"; "HUN"; "RUS"; "TUR";
   "IDN"; "THA"; "VNM"; "PHL"; "EGY"; "MAR"; "GHA"; "TZA"; "UGA"; "RWA";
   "SWE"; "NOR"; "DNK"; "FIN"; "NLD"; "BEL"; "AUT"; "CHE"; "ITA"; "ESP";
   "PRT"; "GRC"; "CAN"; "AUS"; "NZL"; "KOR"; "SGP"; "MYS"].

Definition country_name_column : list string :=
  ["United States"; "United Kingdom"; "Germany"; "France"; "Japan"; "China";
   "India"; "Brazil"; "South Africa"; "Nigeria"; "Kenya"; "Ethiopia";
   "Mexico"; "Argentina"; "Chile"; "Poland"; "Czech Republic"; "Hungary";
   "Russia"; "Turkey"; "Indonesia"; "Thailand"; "Vietnam"; "Philippines";
   "Egypt"; "Morocco"; "Ghana"; "Tanzania"; "Uganda"; "Rwanda"; "Sweden";
   "Norway"; "Denmark"; "Finland"; "Netherlands"; "Belgium"; "Austria";
   "Switzerland"; "Italy"; "Spain"; "Portugal"; "Greece"; "Canada";
   "Australia"; "New Zealand"; "South Korea"; "Singapore"; "Malaysia"].

Definition region_column : list string :=
  ["North America"; "Europe & Central Asia"; "Europe & Central Asia";
   "Europe & Central Asia"; "East Asia & Pacific"; "East Asia & Pacific";
   "South Asia"; "Latin America & Caribbean"; "Sub-Saharan Africa";
   "Sub-Saharan Africa"; "Sub-Saharan Africa"; "Sub-Saharan Africa";
   "Latin America & Caribbean"; "Latin America & Caribbean";
   "Latin America & Caribbean"; "Europe & Central Asia";
   "Europe & Central Asia"; "Europe & Central Asia"; "Europe & Central Asia";
   "Europe & Central Asia"; "East Asia & Pacific"; "East Asia & Pacific";
   "East Asia & Pacific"; "East Asia & Pacific";
   "Middle East & North Africa"; "Middle East & North Africa";
   "Sub-Saharan Africa"; "Sub-Saharan Africa"; "Sub-Saharan Africa";
   "Sub-Saharan Africa"; "Europe & Central Asia"; "Europe & Central Asia";
   "Europe & Central Asia"; "Europe & Central Asia"; "Europe & Central Asia";
   "Europe & Central Asia"; "Europe & Central Asia"; "Europe & Central Asia";
   "Europe & Central Asia"; "Europe & Central Asia"; "Europe & Central Asia";
   "Europe & Central Asia"; "North America"; "East Asia & Pacific";
   "East Asia & Pacific"; "East Asia & Pacific"; "East Asia & Pacific";
   "East Asia & Pacific"].

Definition income_group_column : list string :=
  ["High income"; "High income"; "High income"; "High income"; "High income";
   "Upper middle income"; "Lower middle income"; "Upper middle income";
   "Upper middle income"; "Lower middle income"; "Lower middle income";
   "Low income"; "Upper middle income"; "Upper middle income"; "High income";
   "High income"; "High income"; "High income"; "Upper middle income";
   "Upper middle income"; "Upper middle income"; "Upper middle income";
   "Lower middle income"; "Lower middle income"; "Lower middle income";
   "Lower middle income"; "Lower middle income"; "Lower middle income";
   "Low income"; "Low income"; "High income"; "High income"; "High income";
   "High income"; "High income"; "High income"; "High income"; "High income";
   "High income"; "High income"; "High income"; "High income"; "High income";
   "High income"; "High income"; "High income"; "High income";
   "Upper middle income"].

(** The dict [countries_data]: one list per column. *)
Module Columns.
Record t : Type := mk {
  country_code : list string;
  country_name : list string;
  region : list string;
  income_group : list string;
}.
End Columns.

Definition countries_data : Columns.t :=
  Columns.mk country_code_column country_name_column region_column
    income_group_column.

(** ** Building the frame *)

(** The rows of a frame whose columns have one length. *)
Fixpoint frame_rows (codes names regions groups : list string)
  : list (string * string * string * string) :=
  match codes, names, regions, groups with
  | c :: codes', n :: names', r :: regions', g :: groups' =>
      (c, n, r, g) :: frame_rows codes' names' regions' groups'
  | _, _, _, _ => []
  end.

(** [pd.DataFrame(d)] for a dict of lists: a [ValueError] unless all
    columns have the same length. *)
Definition DataFrame (d : Columns.t)
  : Py (list (string * string * string * string)) :=
  let n := length (Columns.country_code d) in
  if bool_decide (length (Columns.country_name d) = n
                  /\ length (Columns.region d) = n
                  /\ length (Columns.income_group d) = n)
  then ret (frame_rows (Columns.country_code d) (Columns.country_name d)
              (Columns.region d) (Columns.income_group d))
  else raise (ValueError "All arrays must be of the same length").

(** [df['population_2023'] = v]: the new column holds [v] in every row. *)
Definition assign_population_2023 (v : option Z)
    (df : list (string * string * string * string)) : list Country.t :=
  map (fun '(c, n, r, g) => Country.mk c n r g v) df.

(** The catalog: the rows of the frame the function returns. *)
Definition catalog : list Country.t :=
  assign_population_2023 None
    (frame_rows country_code_column country_name_column region_column
       income_group_column).

(** ** [load_country_metadata] *)

Section Load.
Context {RS : RandomSource} {ST : Storage}.

Definition load_country_metadata : Py (list Country.t) :=
  print "Loading country metadata..." ;;
  df <- DataFrame countries_data ;;
  let df := assign_population_2023 None df in
  to_sql "country_metadata" (CountryTable df) ;;
  print ("✓ Loaded " +:+ pretty (length df) +:+ " countries") ;;
  ret df.

End Load.

(** ** What the generators know *)

(** The income groups that are keys of [gdp_ranges]. *)
Definition income_groups : list string :=
  ["High income"; "Upper middle income"; "Lower middle income"; "Low income"].

(** The regions that are keys of [gini_ranges]. *)
Definition regions : list string :=
  ["Latin America & Caribbean"; "Sub-Saharan Africa";
   "Middle East & North Africa"; "South Asia"; "East Asia & Pacific";
   "Europe & Central Asia"; "North America"].

(** Every entry has an income group that is a key of [gdp_ranges]. *)
Definition known_income_groups (countries : list Country.t) : Prop :=
  Forall (fun c => Country.income_group c ∈ income_groups) countries.

(** Every entry has a region that is a key of [gini_ranges]. *)
Definition known_regions (countries : list Country.t) : Prop :=
  Forall (fun c => Country.region c ∈ regions) countries.

(** The country codes are pairwise distinct. *)
Definition unique_codes (countries : list Country.t) : Prop :=
  NoDup (map Country.country_code countries).

(** A catalog every generator accepts. *)
Definition well_formed (countries : list Country.t) : Prop :=
  unique_codes countries /\ known_income_groups countries
  /\ known_regions countries.

#[export] Instance known_income_groups_dec countries :
  Decision (known_income_groups countries).
Proof. unfold known_income_groups. apply _. Defined.

#[export] Instance known_regions_dec countries :
  Decision (known_regions countries).
Proof. unfold known_regions. apply _. Defined.

#[export] Instance unique_codes_dec countries : Decision (unique_codes countries).
Proof. unfold unique_codes. apply _. Defined.

#[export] Instance well_formed_dec countries : Decision (well_formed countries).
Proof. unfold well_formed. apply _. Defined.

(** The state [load_country_metadata] ends in when nothing fails. *)
Definition catalog_loaded (w : World) : World :=
  add_line "✓ Loaded 48 countries"
    (set_table "country_metadata" (CountryTable catalog)
       (add_line "Loading country metadata..." w)).

(** The number of catalog entries of one income group. *)
Definition count_income_group (g : string) (countries : list Country.t) : nat :=
  length (filter (fun c => Country.income_group c = g) countries).

(** ** Theorems *)

Lemma frame_rows_length (codes names regions groups : list string) :
  length names = length codes -> length regions = length codes ->
  length groups = length codes ->
  length (frame_rows codes names regions groups) = length codes.
Proof.
  revert names regions groups.
  induction codes as [|c codes IH]; intros [|n names] [|r regions] [|g groups];
    cbn; try discriminate; try reflexivity.
  intros [=Hn] [=Hr] [=Hg]. f_equal. apply IH; assumption.
Qed.

Lemma frame_rows_codes (codes names regions groups : list string) :
  length names = length codes -> length regions = length codes ->
  length groups = length codes ->
  map (fun '(c, _, _, _) => c) (frame_rows codes names regions groups) = codes.
Proof.
  revert names regions groups.
  induction codes as [|c codes IH]; intros [|n names] [|r regions] [|g groups];
    cbn; try discriminate; try reflexivity.
  intros [=Hn] [=Hr] [=Hg]. f_equal. apply IH; assumption.
Qed.

(** [catalog_loaded] extends the progress made so far. *)
Lemma advanced_catalog_loaded k lines (w w1 : World) :
  advanced k lines w w1 ->
  advanced k
    (lines ++ ["Loading country metadata..."; "✓ Loaded 48 countries"])%list
    w (catalog_loaded w1).
Proof.
  intros H. unfold catalog_loaded.
  eapply advanced_eq; [eauto with py | reflexivity |].
  rewrite <- app_assoc. reflexivity.
Qed.

#[export] Hint Resolve advanced_catalog_loaded : py.

Section LoadFacts.
Context {RS : RandomSource} {ST : Storage}.

(** [pd.DataFrame] builds one row per entry when the columns agree. *)
Lemma DataFrame_ok (d : Columns.t) (w : World) :
  length (Columns.country_name d) = length (Columns.country_code d) ->
  length (Columns.region d) = length (Columns.country_code d) ->
  length (Columns.income_group d) = length (Columns.country_code d) ->
  exists rows,
    DataFrame d w = (Ok rows, w)
    /\ length rows = length (Columns.country_code d)
    /\ map (fun '(c, _, _, _) => c) rows = Columns.country_code d.
Proof.
  intros Hn Hr Hg. unfold DataFrame.
  rewrite bool_decide_eq_true_2 by tauto.
  eexists. split; [reflexivity |].
  split; [apply frame_rows_length | apply frame_rows_codes]; assumption.
Qed.

(** [pd.DataFrame] raises when a column is shorter or longer. *)
Lemma DataFrame_ragged (d : Columns.t) (w : World) :
  ~ (length (Columns.country_name d) = length (Columns.country_code d)
     /\ length (Columns.region d) = length (Columns.country_code d)
     /\ length (Columns.income_group d) = length (Columns.country_code d)) ->
  DataFrame d w
  = (Raise (ValueError "All arrays must be of the same length"), w).
Proof.
  intros H. unfold DataFrame. rewrite bool_decide_eq_false_2 by exact H.
  reflexivity.
Qed.

(** The frame of the script's own columns is the catalog. *)
Lemma DataFrame_countries_data (w : World) :
  DataFrame countries_data w
  = (Ok (frame_rows country_code_column country_name_column region_column
           income_group_column), w).
Proof. reflexivity. Qed.

(** A run on an open connection: the outcome depends on the write only. *)
Lemma load_country_metadata_run (w : World) :
  conn_open w = true ->
  load_country_metadata w
  = if write_ok "country_metadata" then (Ok catalog, catalog_loaded w)
    else (Raise (DatabaseError "country_metadata"),
          add_line "Loading country metadata..." w).
Proof.
  intros Ho. unfold load_country_metadata, bind, print, modify.
  rewrite DataFrame_countries_data. fold catalog.
  unfold to_sql. cbn [conn_open add_line]. rewrite Ho.
  destruct (write_ok "country_metadata"); reflexivity.
Qed.

(** On an open connection to a writable table, the columns of the
    script pass the equal-length check of [pd.DataFrame]; the function
    returns the catalog, replaces [country_metadata] by it, prints its two
    lines, the second with the count 48, and draws no random number. *)
Theorem load_country_metadata_ok (w : World) :
  conn_open w = true -> write_ok "country_metadata" = true ->
  load_country_metadata w = (Ok catalog, catalog_loaded w).
Proof.
  intros Ho Hw. rewrite (load_country_metadata_run w Ho), Hw. reflexivity.
Qed.

(** When the write to [country_metadata] fails, the function raises
    the database error after its first line: no table is touched and the
    second line is not printed. *)
Theorem load_country_metadata_write_fails (w : World) :
  conn_open w = true -> write_ok "country_metadata" = false ->
  load_country_metadata w
  = (Raise (DatabaseError "country_metadata"),
     add_line "Loading country metadata..." w).
Proof.
  intros Ho Hw. rewrite (load_country_metadata_run w Ho), Hw. reflexivity.
Qed.

End LoadFacts.

(** The catalog has 48 rows. *)
Lemma catalog_length : length catalog = 48%nat.
Proof. reflexivity. Qed.

Lemma catalog_unique_codes : unique_codes catalog.
Proof. by_decide. Qed.

Lemma catalog_known_income_groups : known_income_groups catalog.
Proof. by_decide. Qed.

Lemma catalog_known_regions : known_regions catalog.
Proof. by_decide. Qed.

(** The catalog the script builds has 48 entries, its country codes
    are pairwise distinct, every income group is a key of [gdp_ranges] and
    every region is a key of [gini_ranges]: no generator can raise
    [KeyError] on it. *)
Theorem catalog_well_formed :
  length catalog = 48%nat /\ unique_codes catalog
  /\ known_income_groups catalog /\ known_regions catalog.
Proof.
  split; [exact catalog_length |]. split; [exact catalog_unique_codes |].
  split; [exact catalog_known_income_groups | exact catalog_known_regions].
Qed.

(** The catalog has 26 high-income entries, 10 upper-middle, 9 lower-middle
    and 3 low-income ones. *)
Lemma catalog_income_group_counts :
  map (fun g => count_income_group g catalog) income_groups
  = [26; 10; 9; 3]%nat.
Proof. vm_compute. reflexivity. Qed.

(** ** The theorems at concrete inputs *)

Lemma load_country_metadata_ok_witness :
  load_country_metadata (ST := reliable_storage) initial_world
  = (Ok catalog, catalog_loaded initial_world).
Proof.
  apply (load_country_metadata_ok (ST := reliable_storage) initial_world);
    reflexivity.
Defined.

Lemma load_country_metadata_write_fails_witness :
  load_country_metadata (ST := failing_storage "country_metadata")
    initial_world
  = (Raise (DatabaseError "country_metadata"),
     add_line "Loading country metadata..." initial_world).
Proof.
  apply (load_country_metadata_write_fails
           (ST := failing_storage "country_metadata") initial_world);
    reflexivity.
Defined.
