(* ===== verification/Gdp.v ===== *)
(** * Gdp: the GDP generator ([load_gdp_data])

    For each country the script looks up the range of its income group in
    [gdp_ranges] (a [KeyError] for a group that is not a key), draws a base
    value, and for each year from 2015 to 2023 draws a growth rate of the
    income group, replaces it by a draw from [[-5, -2]] in 2020, and appends
    the row [base * (1 + growth/100) ** (year - 2015)].

    The file holds the model of the function, the specification
    [gdp_table_spec] of the table it writes, the proof that every run on a
    catalog of known income groups writes such a table, and the properties
    of such tables. *)

From Stdlib Require Import QArith Lqa ZArith List String.
From stdpp Require Import base tactics option list strings gmap pretty.
From S2P Require Import Prelude PyNum Effects Schema World Catalog.

Local Open Scope string_scope.
Local Open Scope Q_scope.
Local Open Scope py_scope.

(** ** The model *)

(** Base GDP per capita by income group. *)
Definition gdp_ranges : gmap string (Q * Q) :=
  {[ "High income" := (40000, 80000);
     "Upper middle income" := (8000, 20000);
     "Lower middle income" := (2000, 8000);
     "Low income" := (500, 2000) ]}.

Section Model.
Context {RS : RandomSource} {ST : Storage}.

(** The growth rate of an ordinary year: the if / elif chain on the income
    group, whose last branch takes every other string. *)
Definition sample_growth (income_group : string) : Py Q :=
  if String.eqb income_group "High income" then random_uniform 1 3
  else if String.eqb income_group "Upper middle income" then random_uniform 3 7
  else if String.eqb income_group "Lower middle income" then random_uniform 4 8
  else random_uniform 3 6.

(** The body of the loop over the years: one row appended to [data]. *)
Definition gdp_year (country_code income_group : string) (base_gdp : Q)
    (year : Z) (data : list GdpRow.t) : Py (list GdpRow.t) :=
  growth <- sample_growth income_group ;;
  growth <- (if (year =? 2020)%Z then random_uniform (-5) (-2)
             else ret growth) ;;
  let years_since_base := (year - 2015)%Z in
  let gdp := base_gdp * py_pow (1 + growth / 100) years_since_base in
  ret (data ++ [GdpRow.mk country_code year (py_round gdp 2) None
                  (py_round growth 2)])%list.

(** The body of the loop over the countries. *)
Definition gdp_country (country : Country.t) (data : list GdpRow.t)
  : Py (list GdpRow.t) :=
  let country_code := Country.country_code country in
  let income_group := Country.income_group country in
  range <- dict_get gdp_ranges income_group ;;
  let min_gdp := fst range in
  let max_gdp := snd range in
  base_gdp <- random_uniform min_gdp max_gdp ;;
  for_acc (py_range 2015 2024) (gdp_year country_code income_group base_gdp)
    data.

Definition load_gdp_data (countries : list Country.t) : Py unit :=
  print "Creating GDP data..." ;;
  data <- for_acc countries gdp_country [] ;;
  to_sql "gdp_data" (GdpTable data) ;;
  print ("✓ Loaded " +:+ pretty (length data) +:+ " GDP records").

End Model.

(** ** The specification *)

(** The range the growth of an ordinary year is drawn from. *)
Definition growth_range (income_group : string) : Q * Q :=
  if String.eqb income_group "High income" then (1, 3)
  else if String.eqb income_group "Upper middle income" then (3, 7)
  else if String.eqb income_group "Lower middle income" then (4, 8)
  else (3, 6).

(** The growth rates a row of the given year may be built from. *)
Definition growth_ok (income_group : string) (year : Z) (growth : Q) : Prop :=
  if (year =? 2020)%Z then -5 <= growth /\ growth <= -2
  else fst (growth_range income_group) <= growth
       /\ growth <= snd (growth_range income_group).

(** The row of [year] for country [c] with base value [base]. *)
Definition gdp_row_spec (c : Country.t) (base : Q) (year : Z) (r : GdpRow.t)
  : Prop :=
  GdpRow.country_code r = Country.country_code c
  /\ GdpRow.year r = year
  /\ GdpRow.gdp_total_current_usd r = None
  /\ exists growth,
       growth_ok (Country.income_group c) year growth
       /\ GdpRow.gdp_per_capita_current_usd r
          = py_round (base * py_pow (1 + growth / 100) (year - 2015)) 2
       /\ GdpRow.gdp_growth_annual_pct r = py_round growth 2.

(** The nine rows of a country: one base value in the range of the income
    group, one row per year in increasing order. *)
Definition gdp_block_spec (c : Country.t) (rows : list GdpRow.t) : Prop :=
  exists range base,
    gdp_ranges !! Country.income_group c = Some range
    /\ fst range <= base /\ base <= snd range
    /\ Forall2 (gdp_row_spec c base) (py_range 2015 2024) rows.

(** The table: the blocks of the countries in catalog order. *)
Definition gdp_table_spec (countries : list Country.t) (rows : list GdpRow.t)
  : Prop :=
  blocks_table gdp_block_spec countries rows.

(** The row of one year, as the block the loop over the years appends. *)
Definition gdp_year_block (c : Country.t) (base : Q) (year : Z)
    (out : list GdpRow.t) : Prop :=
  exists r, out = [r] /\ gdp_row_spec c base year r.

(** The draws of one year: the ordinary rate, and in 2020 the rate that
    replaces it. *)
Definition gdp_year_draws (year : Z) : nat :=
  if (year =? 2020)%Z then 2 else 1.

(** A catalog entry whose income group no generator knows. *)
Definition atlantis : Country.t :=
  Country.mk "ATL" "Atlantis" "Europe & Central Asia" "Unclassified" None.

(** The key of a row of the table. *)
Definition gdp_key (r : GdpRow.t) : string * Z :=
  (GdpRow.country_code r, GdpRow.year r).

(** The line printed after the write, for a table of [n] rows. *)
Definition gdp_closing (n : nat) : string :=
  "✓ Loaded " +:+ pretty n +:+ " GDP records".

(** The state [load_gdp_data] ends in when nothing fails: 11 draws per
    country, the table replaced, two lines printed. *)
Definition gdp_loaded (n : nat) (rows : list GdpRow.t) (w : World) : World :=
  add_line ("✓ Loaded " +:+ pretty (length rows) +:+ " GDP records")
    (set_table "gdp_data" (GdpTable rows)
       (advance_rng_by (11 * n) (add_line "Creating GDP data..." w))).

(** ** The ranges *)

Lemma gdp_ranges_known (g : string) :
  g ∈ income_groups ->
  exists range, gdp_ranges !! g = Some range
                /\ fst range <= snd range /\ 500 <= fst range.
Proof.
  unfold income_groups. rewrite !elem_of_cons, elem_of_nil.
  intros [->|[->|[->|[->|[]]]]]; eexists; (split; [reflexivity |]);
    cbn; split; lra.
Qed.

(** The bounds of every range are whole numbers, at least 500. *)
Lemma gdp_ranges_on_grid (g : string) (range : Q * Q) :
  gdp_ranges !! g = Some range ->
  on_grid 2 (fst range) /\ on_grid 2 (snd range) /\ 500 <= fst range.
Proof.
  unfold gdp_ranges. intros H.
  repeat (apply lookup_insert_Some in H as [[_ <-]|[_ H]];
          [repeat split; (reflexivity || (cbn; lra)) |]).
  apply lookup_singleton_Some in H as [_ <-].
  repeat split; (reflexivity || (cbn; lra)).
Qed.

Lemma gdp_ranges_unknown (g : string) :
  g ∉ income_groups -> gdp_ranges !! g = None.
Proof.
  unfold income_groups, gdp_ranges. rewrite !not_elem_of_cons.
  intros (H1 & H2 & H3 & H4 & _).
  rewrite !lookup_insert_ne by congruence.
  apply lookup_singleton_ne. congruence.
Qed.

Lemma growth_range_ordered (g : string) :
  fst (growth_range g) <= snd (growth_range g).
Proof. unfold growth_range. repeat destruct (String.eqb _ _); cbn; lra. Qed.

(** Every ordinary growth rate is at least one per cent and at most eight. *)
Lemma growth_range_bounds (g : string) :
  1 <= fst (growth_range g) /\ snd (growth_range g) <= 8.
Proof. unfold growth_range. repeat destruct (String.eqb _ _); cbn; split; lra. Qed.

(** ** The model meets the specification *)

Section Refinement.
Context {RS : RandomSource} {ST : Storage}.

(** The if / elif chain draws from the range of the income group. *)
Lemma sample_growth_uniform (g : string) :
  sample_growth g = random_uniform (fst (growth_range g)) (snd (growth_range g)).
Proof.
  unfold sample_growth, growth_range.
  repeat destruct (String.eqb _ _); reflexivity.
Qed.

(** One iteration of the loop over the years appends the row of the year;
    it draws twice in 2020 and once in every other year. *)
Lemma gdp_year_spec (c : Country.t) (base : Q) (year : Z) :
  appends_block
    (gdp_year (Country.country_code c) (Country.income_group c) base)
    (gdp_year_block c base) gdp_year_draws year.
Proof.
  intros data w. unfold gdp_year, gdp_year_draws, gdp_year_block.
  rewrite sample_growth_uniform.
  apply wp_bind, wp_random_uniform; [apply growth_range_ordered |].
  intros g Hg. cbn beta iota. destruct (year =? 2020)%Z eqn:Hy.
  - apply wp_bind, wp_random_uniform; [lra |]. intros g' Hg'. cbn beta iota.
    apply wp_ret. cbn. eexists. split; [reflexivity |]. split; [| rng_eq].
    eexists. split; [reflexivity |]. repeat split.
    exists g'. unfold growth_ok. rewrite Hy. auto.
  - apply wp_bind, wp_ret, wp_ret. cbn.
    eexists. split; [reflexivity |]. split; [| rng_eq].
    eexists. split; [reflexivity |]. repeat split.
    exists g. unfold growth_ok. rewrite Hy. auto.
Qed.

(** One iteration of the loop over the countries appends the block of the
    country and makes 11 draws. *)
Lemma gdp_country_spec (c : Country.t) :
  Country.income_group c ∈ income_groups ->
  appends_block gdp_country gdp_block_spec (fun _ => 11%nat) c.
Proof.
  intros (range & Hr & Hord & _)%gdp_ranges_known data w. unfold gdp_country.
  apply wp_bind, (wp_dict_get_Some _ _ _ _ _ Hr).
  apply wp_bind, wp_random_uniform; [exact Hord |].
  intros base Hbase. cbn beta iota.
  destruct (for_acc_blocks_run _ _ _ (py_range 2015 2024) data (advance_rng w)
              (fun year _ => gdp_year_spec c base year))
    as (rows & (outs & -> & Hrows) & Hrun).
  apply (wp_run _ _ _ _ _ Hrun). cbn. eexists. split; [reflexivity |].
  split; [| rng_eq]. exists range, base. split; [exact Hr |].
  split; [tauto |]. split; [tauto |]. apply Forall2_concat_singletons, Hrows.
Qed.

(** [load_gdp_data] is an instance of the shape the generators share. *)
Lemma load_gdp_data_shape (countries : list Country.t) :
  load_gdp_data countries
  = load_table gdp_country GdpTable "gdp_data" "Creating GDP data..."
      gdp_closing countries.
Proof. reflexivity. Qed.

Lemma gdp_loaded_shape (n : nat) (rows : list GdpRow.t) (w : World) :
  gdp_loaded n rows w
  = table_loaded GdpTable "gdp_data" "Creating GDP data..." gdp_closing
      (11 * n) rows w.
Proof. reflexivity. Qed.

(** The loop over the countries appends their blocks in order and makes
    11 draws per country. *)
Lemma gdp_loop_run (countries : list Country.t) data w :
  known_income_groups countries ->
  exists rows,
    gdp_table_spec countries rows
    /\ for_acc countries gdp_country data w
       = (Ok (data ++ rows)%list, advance_rng_by (11 * length countries) w).
Proof.
  intros Hk.
  destruct (for_acc_blocks_run gdp_country gdp_block_spec (fun _ => 11%nat)
              countries data w
              (fun c Hc => gdp_country_spec c (proj1 (Forall_forall _ _) Hk c Hc)))
    as (rows & Hspec & Hrun).
  exists rows. split; [exact Hspec |]. rewrite Hrun, list_sum_const. reflexivity.
Qed.

(** A run on a catalog of known income groups, over an open connection to
    a writable table, ends normally in [gdp_loaded] for a table that
    satisfies the specification. *)
Lemma gdp_run (countries : list Country.t) (w : World) :
  conn_open w = true -> write_ok "gdp_data" = true ->
  known_income_groups countries ->
  exists rows,
    gdp_table_spec countries rows
    /\ load_gdp_data countries w = (Ok tt, gdp_loaded (length countries) rows w).
Proof.
  intros Ho Hw Hk.
  destruct (gdp_loop_run countries [] (add_line "Creating GDP data..." w) Hk)
    as (rows & Hspec & Hrun).
  exists rows. split; [exact Hspec |].
  rewrite load_gdp_data_shape, gdp_loaded_shape.
  apply load_table_ok; assumption.
Qed.

(** Both outcomes of a run on an open connection: the rows are generated,
    then the write decides. *)
Lemma gdp_outcome (countries : list Country.t) (w : World) :
  conn_open w = true -> known_income_groups countries ->
  exists rows,
    gdp_table_spec countries rows
    /\ load_gdp_data countries w
       = if write_ok "gdp_data"
         then (Ok tt, gdp_loaded (length countries) rows w)
         else (Raise (DatabaseError "gdp_data"),
               advance_rng_by (11 * length countries)
                 (add_line "Creating GDP data..." w)).
Proof.
  intros Ho Hk.
  destruct (gdp_loop_run countries [] (add_line "Creating GDP data..." w) Hk)
    as (rows & Hspec & Hrun).
  exists rows. split; [exact Hspec |].
  rewrite load_gdp_data_shape, gdp_loaded_shape.
  apply load_table_outcome; assumption.
Qed.

End Refinement.

(** ** The contract

    [load_gdp_data] is a loader of [gdp_data]: it accepts the catalogs of
    known income groups, generates tables that satisfy [gdp_table_spec] and
    makes 11 draws per country. *)

Definition gdp_contract : Contract Country.t GdpRow.t :=
  {| c_table := "gdp_data";
     c_mk := GdpTable;
     c_line := "Creating GDP data...";
     c_closing := gdp_closing;
     c_accepts := known_income_groups;
     c_rows := gdp_table_spec;
     c_draws := fun countries => (11 * length countries)%nat |}.

#[export] Instance gdp_loader `{RS : RandomSource} `{ST : Storage} :
  Loader gdp_contract load_gdp_data.
Proof.
  intros countries w Hk Ho.
  destruct (gdp_outcome countries w Ho Hk) as (rows & Hspec & E).
  exists rows. split; [exact Hspec |]. rewrite gdp_loaded_shape in E. exact E.
Qed.

(** ** Properties of a table that satisfies the specification *)

Lemma growth_range_on_grid (g : string) :
  on_grid 2 (fst (growth_range g)) /\ on_grid 2 (snd (growth_range g)).
Proof.
  unfold growth_range. repeat destruct (String.eqb _ _); split; reflexivity.
Qed.

Lemma gdp_block_length c rows : gdp_block_spec c rows -> length rows = 9%nat.
Proof.
  intros (range & base & _ & _ & _ & H). apply Forall2_length in H.
  rewrite <- H. reflexivity.
Qed.

Lemma gdp_table_length countries rows :
  gdp_table_spec countries rows -> length rows = (9 * length countries)%nat.
Proof.
  intros (blocks & -> & H). rewrite (Forall2_length _ _ _ H).
  apply length_concat_uniform. eapply Forall2_Forall_r, H.
  intros c b _. apply gdp_block_length.
Qed.

(** A row of a block is the row of one of the nine years. *)
Lemma gdp_block_row c rows r :
  gdp_block_spec c rows -> r ∈ rows ->
  exists range base year,
    gdp_ranges !! Country.income_group c = Some range
    /\ fst range <= base /\ base <= snd range
    /\ (2015 <= year < 2024)%Z /\ gdp_row_spec c base year r.
Proof.
  intros (range & base & Hrange & Hlo & Hhi & Hrows) Hr.
  destruct (Forall2_elem_of_r _ _ _ _ Hrows Hr) as (year & Hy & Hrow).
  exists range, base, year. apply py_range_elem_of in Hy. tauto.
Qed.

(** A row of a block carries the code of the block's country. *)
Lemma gdp_block_code c rows r :
  gdp_block_spec c rows -> r ∈ rows ->
  GdpRow.country_code r = Country.country_code c.
Proof.
  intros Hb Hr. destruct (gdp_block_row _ _ _ Hb Hr) as (? & ? & ? & H).
  apply H.
Qed.

(** A row of the table is the row of some year of some country. *)
Lemma gdp_table_row countries rows r :
  gdp_table_spec countries rows -> r ∈ rows ->
  exists c range base year,
    c ∈ countries /\ gdp_ranges !! Country.income_group c = Some range
    /\ fst range <= base /\ base <= snd range
    /\ (2015 <= year < 2024)%Z /\ gdp_row_spec c base year r.
Proof.
  intros (blocks & -> & H) Hr.
  destruct (Forall2_concat_elem_of _ _ _ _ H Hr) as (c & b & Hc & Hb & Hrb).
  destruct (gdp_block_row _ _ _ Hb Hrb) as (range & base & year & Hrow).
  exists c, range, base, year. tauto.
Qed.

Lemma gdp_row_growth_2020 c base year r :
  gdp_row_spec c base year r -> year = 2020%Z ->
  -5 <= GdpRow.gdp_growth_annual_pct r /\ GdpRow.gdp_growth_annual_pct r <= -2.
Proof.
  intros (_ & _ & _ & g & Hg & _ & ->) ->. unfold growth_ok in Hg. cbn in Hg.
  apply (py_round_between (-5) (-2)); [reflexivity | reflexivity | exact Hg].
Qed.

Lemma gdp_row_growth_ordinary c base year r :
  gdp_row_spec c base year r -> year <> 2020%Z ->
  fst (growth_range (Country.income_group c)) <= GdpRow.gdp_growth_annual_pct r
  /\ GdpRow.gdp_growth_annual_pct r <= snd (growth_range (Country.income_group c)).
Proof.
  intros (_ & _ & _ & g & Hg & _ & ->) Hy. unfold growth_ok in Hg.
  rewrite (proj2 (Z.eqb_neq _ _) Hy) in Hg.
  destruct (growth_range_on_grid (Country.income_group c)).
  apply py_round_between; assumption.
Qed.

(** The row of 2015 holds the base value, rounded. *)
Lemma gdp_row_base_year c base r :
  gdp_row_spec c base 2015 r ->
  GdpRow.gdp_per_capita_current_usd r = py_round base 2.
Proof.
  intros (_ & _ & _ & g & _ & -> & _). apply py_round_proper; [| reflexivity].
  change (2015 - 2015)%Z with 0%Z. rewrite py_pow_0. ring.
Qed.

(** With a base of at least 500, a value built from a 2020 growth rate,
    five years out, rounds below a value built from an ordinary one. *)
Lemma gdp_dip_values (base g1 g2 : Q) (k : Z) :
  500 <= base -> -5 <= g1 /\ g1 <= -2 -> 1 <= g2 -> (0 <= k)%Z ->
  py_round (base * py_pow (1 + g1 / 100) (2020 - 2015)) 2
  < py_round (base * py_pow (1 + g2 / 100) k) 2.
Proof.
  intros Hb [Hlo Hhi] Hg2 Hk.
  assert (py_pow (1 + g1 / 100) (2020 - 2015) <= 1 + g1 / 100) as H1
    by (apply py_pow_le_base; [lia | qlra | qlra]).
  assert (1 <= py_pow (1 + g2 / 100) k) as H2
    by (apply py_pow_ge_1; [exact Hk | qlra]).
  apply Qlt_le_trans with (py_round base 2); [| apply py_round_mono; nra].
  apply Qle_lt_trans with (py_round ((98 # 100) * base) 2).
  - apply py_round_mono. revert H1.
    generalize (py_pow (1 + g1 / 100) (2020 - 2015)). qlra.
  - apply py_round_gap. change (pow10 2) with 100. lra.
Qed.

(** Inside a block the value of 2020 is the smallest. *)
Lemma gdp_block_dip c rows r1 r2 :
  gdp_block_spec c rows -> r1 ∈ rows -> r2 ∈ rows ->
  GdpRow.year r1 = 2020%Z -> GdpRow.year r2 <> 2020%Z ->
  GdpRow.gdp_per_capita_current_usd r1 < GdpRow.gdp_per_capita_current_usd r2.
Proof.
  intros (range & base & Hrange & Hlo & Hhi & Hrows) Hr1 Hr2 Hy1 Hy2.
  destruct (gdp_ranges_on_grid _ _ Hrange) as (_ & _ & H500).
  destruct (Forall2_elem_of_r _ _ _ _ Hrows Hr1)
    as (y1 & _ & _ & Hy1' & _ & g1 & Hg1 & -> & _).
  destruct (Forall2_elem_of_r _ _ _ _ Hrows Hr2)
    as (y2 & Hin2%py_range_elem_of & _ & Hy2' & _ & g2 & Hg2 & -> & _).
  rewrite Hy1 in Hy1'. rewrite Hy2' in Hy2. subst y1.
  unfold growth_ok in Hg1, Hg2. cbn in Hg1.
  rewrite (proj2 (Z.eqb_neq _ _) Hy2) in Hg2.
  destruct (growth_range_bounds (Country.income_group c)).
  apply gdp_dip_values; [lra | exact Hg1 | lra | lia].
Qed.

(** Inside a block the years are pairwise distinct. *)
Lemma gdp_block_keys c rows :
  gdp_block_spec c rows -> NoDup (map gdp_key rows).
Proof.
  intros (range & base & _ & _ & _ & Hrows).
  apply (NoDup_fmap_1 snd).
  enough (snd <$> map gdp_key rows = py_range 2015 2024) as ->
    by apply py_range_NoDup.
  induction Hrows as [|y r ys rs (_ & Hy & _) _ IH]; [reflexivity |].
  cbn. rewrite Hy. f_equal. exact IH.
Qed.

(** In a table over a catalog of distinct codes, rows with one code lie in
    the block of one country. *)
Lemma gdp_table_same_block countries rows r1 r2 :
  unique_codes countries -> gdp_table_spec countries rows ->
  r1 ∈ rows -> r2 ∈ rows -> GdpRow.country_code r1 = GdpRow.country_code r2 ->
  exists c b, c ∈ countries /\ gdp_block_spec c b /\ r1 ∈ b /\ r2 ∈ b.
Proof.
  intros Hu (blocks & -> & HR).
  apply (Forall2_concat_same_block gdp_block_spec Country.country_code
           GdpRow.country_code gdp_block_code); assumption.
Qed.

Lemma gdp_table_keys countries rows :
  unique_codes countries -> gdp_table_spec countries rows ->
  NoDup (map gdp_key rows).
Proof.
  intros Hu (blocks & -> & HR).
  apply (NoDup_concat_blocks gdp_block_spec Country.country_code
           GdpRow.country_code gdp_block_code gdp_key countries blocks);
    [| | exact Hu | exact HR].
  - intros r1 r2 [= H _]. exact H.
  - intros c b. apply gdp_block_keys.
Qed.

(** ** What a run of [load_gdp_data] guarantees

    The theorems of this section are about one run: from a state [w] with
    an open connection, on a storage that accepts writes to [gdp_data], over
    a catalog whose income groups are keys of [gdp_ranges]. *)

Section Run.
Context {RS : RandomSource} {ST : Storage}.
Context (countries : list Country.t) (w : World).
Hypothesis conn_is_open : conn_open w = true.
Hypothesis table_writable : write_ok "gdp_data" = true.
Hypothesis groups_known : known_income_groups countries.

(** C1. The run returns normally; it replaces the table [gdp_data] by rows
    that satisfy [gdp_table_spec] (one block of nine yearly rows per
    country, in catalog order, each block built from one base value in the
    range of the income group), consumes 11 random draws per country, prints
    its two lines and leaves every other table and the connection as they
    were. *)
Theorem load_gdp_data_writes_table :
  exists rows w',
    load_gdp_data countries w = (Ok tt, w')
    /\ gdp_table_spec countries rows
    /\ db w' = <["gdp_data" := GdpTable rows]> (db w)
    /\ rng_pos w' = (11 * length countries + rng_pos w)%nat
    /\ console w'
       = (console w
          ++ ["Creating GDP data...";
              "✓ Loaded " +:+ pretty (length rows) +:+ " GDP records"])%list
    /\ conn_open w' = true.
Proof.
  destruct (gdp_run countries w conn_is_open table_writable groups_known)
    as (rows & Hspec & Hrun).
  exists rows, (gdp_loaded (length countries) rows w).
  split; [exact Hrun |]. split; [exact Hspec |].
  cbn. rewrite <- app_assoc. auto.
Qed.

(** C2. Whatever the income group, every row of year 2020 the run writes
    has a growth rate between -5 and -2 per cent. *)
Theorem load_gdp_data_covid_growth :
  exists rows,
    load_gdp_data countries w = (Ok tt, gdp_loaded (length countries) rows w)
    /\ forall r, r ∈ rows -> GdpRow.year r = 2020%Z ->
         -5 <= GdpRow.gdp_growth_annual_pct r
         /\ GdpRow.gdp_growth_annual_pct r <= -2.
Proof.
  destruct (gdp_run countries w conn_is_open table_writable groups_known)
    as (rows & Hspec & Hrun).
  exists rows. split; [exact Hrun |]. intros r Hr Hy.
  destruct (gdp_table_row _ _ _ Hspec Hr)
    as (c & range & base & year & _ & _ & _ & _ & _ & Hrow).
  apply (gdp_row_growth_2020 c base year r Hrow).
  destruct Hrow as (_ & <- & _). exact Hy.
Qed.

(** The run writes nine rows per country. *)
Theorem load_gdp_data_row_count :
  exists rows,
    load_gdp_data countries w = (Ok tt, gdp_loaded (length countries) rows w)
    /\ length rows = (9 * length countries)%nat.
Proof.
  destruct (gdp_run countries w conn_is_open table_writable groups_known)
    as (rows & Hspec & Hrun).
  exists rows. split; [exact Hrun | apply gdp_table_length, Hspec].
Qed.

(** When the country codes are pairwise distinct, the GDP per capita a
    country has in 2020 is strictly below the one it has in every other
    year: the 2020 row compounds a negative rate over five years, every
    other row a positive rate. *)
Theorem load_gdp_data_covid_dip :
  unique_codes countries ->
  exists rows,
    load_gdp_data countries w = (Ok tt, gdp_loaded (length countries) rows w)
    /\ forall r1 r2, r1 ∈ rows -> r2 ∈ rows ->
         GdpRow.country_code r1 = GdpRow.country_code r2 ->
         GdpRow.year r1 = 2020%Z -> GdpRow.year r2 <> 2020%Z ->
         GdpRow.gdp_per_capita_current_usd r1
         < GdpRow.gdp_per_capita_current_usd r2.
Proof.
  intros Hu.
  destruct (gdp_run countries w conn_is_open table_writable groups_known)
    as (rows & Hspec & Hrun).
  exists rows. split; [exact Hrun |]. intros r1 r2 Hr1 Hr2 Hcode.
  destruct (gdp_table_same_block _ _ _ _ Hu Hspec Hr1 Hr2 Hcode)
    as (c & b & _ & Hb & Hb1 & Hb2).
  apply (gdp_block_dip c b); assumption.
Qed.

(** Every row of a year other than 2020 has a growth rate in the range
    of its country's income group: 1 to 3 per cent for high income, 3 to 7
    for upper middle, 4 to 8 for lower middle, 3 to 6 for low income. *)
Theorem load_gdp_data_growth_by_group :
  exists rows,
    load_gdp_data countries w = (Ok tt, gdp_loaded (length countries) rows w)
    /\ forall r, r ∈ rows -> GdpRow.year r <> 2020%Z ->
         exists c, c ∈ countries
           /\ GdpRow.country_code r = Country.country_code c
           /\ fst (growth_range (Country.income_group c))
              <= GdpRow.gdp_growth_annual_pct r
           /\ GdpRow.gdp_growth_annual_pct r
              <= snd (growth_range (Country.income_group c)).
Proof.
  destruct (gdp_run countries w conn_is_open table_writable groups_known)
    as (rows & Hspec & Hrun).
  exists rows. split; [exact Hrun |]. intros r Hr Hy.
  destruct (gdp_table_row _ _ _ Hspec Hr)
    as (c & range & base & year & Hc & _ & _ & _ & _ & Hrow).
  exists c. split; [exact Hc |]. split; [apply Hrow |].
  apply (gdp_row_growth_ordinary c base year r Hrow).
  destruct Hrow as (_ & <- & _). exact Hy.
Qed.

(** When the country codes are pairwise distinct, no two rows of the
    table share the key (country_code, year). *)
Theorem load_gdp_data_keys_unique :
  unique_codes countries ->
  exists rows,
    load_gdp_data countries w = (Ok tt, gdp_loaded (length countries) rows w)
    /\ NoDup (map gdp_key rows).
Proof.
  intros Hu.
  destruct (gdp_run countries w conn_is_open table_writable groups_known)
    as (rows & Hspec & Hrun).
  exists rows. split; [exact Hrun | exact (gdp_table_keys _ _ Hu Hspec)].
Qed.

(** The GDP per capita of a 2015 row lies in the range [gdp_ranges]
    gives for the income group of the row's country. *)
Theorem load_gdp_data_base_year :
  exists rows,
    load_gdp_data countries w = (Ok tt, gdp_loaded (length countries) rows w)
    /\ forall r, r ∈ rows -> GdpRow.year r = 2015%Z ->
         exists c range, c ∈ countries
           /\ GdpRow.country_code r = Country.country_code c
           /\ gdp_ranges !! Country.income_group c = Some range
           /\ fst range <= GdpRow.gdp_per_capita_current_usd r
           /\ GdpRow.gdp_per_capita_current_usd r <= snd range.
Proof.
  destruct (gdp_run countries w conn_is_open table_writable groups_known)
    as (rows & Hspec & Hrun).
  exists rows. split; [exact Hrun |]. intros r Hr Hy.
  destruct (gdp_table_row _ _ _ Hspec Hr)
    as (c & range & base & year & Hc & Hrange & Hlo & Hhi & _ & Hrow).
  exists c, range. split; [exact Hc |]. split; [apply Hrow |].
  split; [exact Hrange |].
  assert (year = 2015%Z) as -> by (destruct Hrow as (_ & <- & _); exact Hy).
  rewrite (gdp_row_base_year c base r Hrow).
  destruct (gdp_ranges_on_grid _ _ Hrange) as (Hg1 & Hg2 & _).
  apply py_round_between; auto.
Qed.

End Run.

(** ** The other exits *)

Section Exits.
Context {RS : RandomSource} {ST : Storage}.

(** The loop stops at the first country whose income group is unknown. *)
Lemma gdp_loop_key_error (good rest : list Country.t) (c : Country.t) data w :
  known_income_groups good -> Country.income_group c ∉ income_groups ->
  for_acc (good ++ c :: rest) gdp_country data w
  = (Raise (KeyError (Country.income_group c)),
     advance_rng_by (11 * length good) w).
Proof.
  intros Hk Hc. rewrite <- (list_sum_const 11 good).
  apply (for_acc_blocks_raises gdp_country gdp_block_spec).
  - intros c' Hc'. apply gdp_country_spec, (proj1 (Forall_forall _ _) Hk c' Hc').
  - intros acc w'. unfold gdp_country, bind, dict_get.
    rewrite (gdp_ranges_unknown _ Hc). reflexivity.
Qed.

(** C37. On a catalog whose first entry with an income group that is not a
    key of [gdp_ranges] is [c], the run raises [KeyError] for that group
    after the 11 draws of each earlier country; it has printed its first
    line only and has written no table. *)
Theorem load_gdp_data_key_error (good rest : list Country.t) (c : Country.t)
    (w : World) :
  known_income_groups good -> Country.income_group c ∉ income_groups ->
  load_gdp_data (good ++ c :: rest) w
  = (Raise (KeyError (Country.income_group c)),
     advance_rng_by (11 * length good) (add_line "Creating GDP data..." w)).
Proof.
  intros Hk Hc. rewrite load_gdp_data_shape.
  apply load_table_raises, gdp_loop_key_error; assumption.
Qed.

(** When the write to [gdp_data] fails, the run raises the database
    error after generating every row: all draws are consumed, the table
    keeps its earlier content and the closing line is not printed. *)
Theorem load_gdp_data_write_fails (countries : list Country.t) (w : World) :
  conn_open w = true -> write_ok "gdp_data" = false ->
  known_income_groups countries ->
  load_gdp_data countries w
  = (Raise (DatabaseError "gdp_data"),
     advance_rng_by (11 * length countries)
       (add_line "Creating GDP data..." w)).
Proof.
  intros Ho Hw Hk.
  destruct (gdp_loop_run countries [] (add_line "Creating GDP data..." w) Hk)
    as (rows & _ & Hrun).
  rewrite load_gdp_data_shape. eapply load_table_write_fails; eassumption.
Qed.

(** C40. Whether or not the table can be written, a run over a catalog of
    known income groups consumes exactly 11 random draws per country: one
    for the base value, one per year, and one more in 2020, where the
    ordinary rate is drawn and then discarded. *)
Theorem load_gdp_data_draws (countries : list Country.t) (w : World) :
  known_income_groups countries ->
  rng_pos (run_state (load_gdp_data countries) w)
  = (11 * length countries + rng_pos w)%nat.
Proof.
  intros Hk.
  destruct (gdp_loop_run countries [] (add_line "Creating GDP data..." w) Hk)
    as (rows & _ & Hrun).
  rewrite load_gdp_data_shape, (load_table_rng_pos _ _ _ _ _ _ _ _ _ Hrun).
  reflexivity.
Qed.

End Exits.

(** ** The theorems at concrete inputs

    The script's catalog, the linear congruential stream and the initial
    state satisfy the hypotheses of every theorem above. *)

Lemma load_gdp_data_writes_table_witness :
  exists rows w',
    load_gdp_data (RS := lcg_source) (ST := reliable_storage) catalog
      initial_world = (Ok tt, w')
    /\ gdp_table_spec catalog rows
    /\ db w' = <["gdp_data" := GdpTable rows]> (db initial_world)
    /\ rng_pos w' = 528%nat
    /\ console w'
       = ["Creating GDP data...";
          "✓ Loaded " +:+ pretty (length rows) +:+ " GDP records"]
    /\ conn_open w' = true.
Proof.
  apply (load_gdp_data_writes_table (RS := lcg_source)
           (ST := reliable_storage) catalog initial_world);
    [reflexivity | reflexivity | by_decide].
Defined.

Lemma load_gdp_data_covid_growth_witness :
  exists rows,
    load_gdp_data (RS := lcg_source) (ST := reliable_storage) catalog
      initial_world = (Ok tt, gdp_loaded 48 rows initial_world)
    /\ forall r, r ∈ rows -> GdpRow.year r = 2020%Z ->
         -5 <= GdpRow.gdp_growth_annual_pct r
         /\ GdpRow.gdp_growth_annual_pct r <= -2.
Proof.
  apply (load_gdp_data_covid_growth (RS := lcg_source)
           (ST := reliable_storage) catalog initial_world);
    [reflexivity | reflexivity | by_decide].
Defined.

Lemma load_gdp_data_row_count_witness :
  exists rows,
    load_gdp_data (RS := lcg_source) (ST := reliable_storage) catalog
      initial_world = (Ok tt, gdp_loaded 48 rows initial_world)
    /\ length rows = 432%nat.
Proof.
  apply (load_gdp_data_row_count (RS := lcg_source)
           (ST := reliable_storage) catalog initial_world);
    [reflexivity | reflexivity | by_decide].
Defined.

Lemma load_gdp_data_covid_dip_witness :
  exists rows,
    load_gdp_data (RS := lcg_source) (ST := reliable_storage) catalog
      initial_world = (Ok tt, gdp_loaded 48 rows initial_world)
    /\ forall r1 r2, r1 ∈ rows -> r2 ∈ rows ->
         GdpRow.country_code r1 = GdpRow.country_code r2 ->
         GdpRow.year r1 = 2020%Z -> GdpRow.year r2 <> 2020%Z ->
         GdpRow.gdp_per_capita_current_usd r1
         < GdpRow.gdp_per_capita_current_usd r2.
Proof.
  apply (load_gdp_data_covid_dip (RS := lcg_source)
           (ST := reliable_storage) catalog initial_world);
    [reflexivity | reflexivity | by_decide | by_decide].
Defined.

Lemma load_gdp_data_growth_by_group_witness :
  exists rows,
    load_gdp_data (RS := lcg_source) (ST := reliable_storage) catalog
      initial_world = (Ok tt, gdp_loaded 48 rows initial_world)
    /\ forall r, r ∈ rows -> GdpRow.year r <> 2020%Z ->
         exists c, c ∈ catalog
           /\ GdpRow.country_code r = Country.country_code c
           /\ fst (growth_range (Country.income_group c))
              <= GdpRow.gdp_growth_annual_pct r
           /\ GdpRow.gdp_growth_annual_pct r
              <= snd (growth_range (Country.income_group c)).
Proof.
  apply (load_gdp_data_growth_by_group (RS := lcg_source)
           (ST := reliable_storage) catalog initial_world);
    [reflexivity | reflexivity | by_decide].
Defined.

Lemma load_gdp_data_keys_unique_witness :
  exists rows,
    load_gdp_data (RS := lcg_source) (ST := reliable_storage) catalog
      initial_world = (Ok tt, gdp_loaded 48 rows initial_world)
    /\ NoDup (map gdp_key rows).
Proof.
  apply (load_gdp_data_keys_unique (RS := lcg_source)
           (ST := reliable_storage) catalog initial_world);
    [reflexivity | reflexivity | by_decide | by_decide].
Defined.

Lemma load_gdp_data_base_year_witness :
  exists rows,
    load_gdp_data (RS := lcg_source) (ST := reliable_storage) catalog
      initial_world = (Ok tt, gdp_loaded 48 rows initial_world)
    /\ forall r, r ∈ rows -> GdpRow.year r = 2015%Z ->
         exists c range, c ∈ catalog
           /\ GdpRow.country_code r = Country.country_code c
           /\ gdp_ranges !! Country.income_group c = Some range
           /\ fst range <= GdpRow.gdp_per_capita_current_usd r
           /\ GdpRow.gdp_per_capita_current_usd r <= snd range.
Proof.
  apply (load_gdp_data_base_year (RS := lcg_source)
           (ST := reliable_storage) catalog initial_world);
    [reflexivity | reflexivity | by_decide].
Defined.

Lemma load_gdp_data_key_error_witness :
  load_gdp_data (RS := lcg_source) (ST := reliable_storage)
    (take 2 catalog ++ atlantis :: drop 2 catalog) initial_world
  = (Raise (KeyError "Unclassified"),
     advance_rng_by 22 (add_line "Creating GDP data..." initial_world)).
Proof.
  apply (load_gdp_data_key_error (RS := lcg_source) (ST := reliable_storage)
           (take 2 catalog) (drop 2 catalog) atlantis initial_world);
    by_decide.
Defined.

Lemma load_gdp_data_write_fails_witness :
  load_gdp_data (RS := lcg_source) (ST := failing_storage "gdp_data") catalog
    initial_world
  = (Raise (DatabaseError "gdp_data"),
     advance_rng_by 528 (add_line "Creating GDP data..." initial_world)).
Proof.
  apply (load_gdp_data_write_fails (RS := lcg_source)
           (ST := failing_storage "gdp_data") catalog initial_world);
    [reflexivity | reflexivity | by_decide].
Defined.

Lemma load_gdp_data_draws_witness :
  rng_pos (run_state (load_gdp_data (RS := lcg_source)
                        (ST := reliable_storage) catalog) initial_world)
  = 528%nat.
Proof.
  apply (load_gdp_data_draws (RS := lcg_source) (ST := reliable_storage)
           catalog initial_world).
  by_decide.
Defined.
