(* ===== verification/Inequality.v ===== *)
(** * Inequality: the inequality generator ([load_inequality_data])

    For each country the script looks up the Gini range of its region in
    [gini_ranges] (a [KeyError] for a region that is not a key), draws a base
    Gini, and for each of the five survey years perturbs it by a draw from
    [[-3, 3]], clamps the result to [[20, 70]], draws the two income shares
    and computes the Palma ratio from the shares as drawn, before rounding.

    The divisor [lowest_20 * 2] is at least 8, so the division of the script
    cannot raise; the model divides in the rationals. *)

From Stdlib Require Import QArith Lqa ZArith List String.
From stdpp Require Import base tactics option list strings gmap pretty.
From S2P Require Import Prelude PyNum Effects Schema World Catalog.

Local Open Scope string_scope.
Local Open Scope Q_scope.
Local Open Scope py_scope.

(** ** The model *)

(** Gini coefficients by region. *)
Definition gini_ranges : gmap string (Q * Q) :=
  {[ "Latin America & Caribbean" := (45, 55);
     "Sub-Saharan Africa" := (40, 65);
     "Middle East & North Africa" := (35, 42);
     "South Asia" := (32, 38);
     "East Asia & Pacific" := (30, 45);
     "Europe & Central Asia" := (25, 38);
     "North America" := (38, 42) ]}.

(** The survey years: every second year. *)
Definition years : list Z := [2015; 2017; 2019; 2021; 2023]%Z.

Section Model.
Context {RS : RandomSource} {ST : Storage}.

(** The body of the loop over the survey years. *)
Definition inequality_year (country_code : string) (base_gini : Q) (year : Z)
    (data : list InequalityRow.t) : Py (list InequalityRow.t) :=
  noise <- random_uniform (-3) 3 ;;
  let gini := base_gini + noise in
  let gini := py_max 20 (py_min 70 gini) in
  lowest_20 <- random_uniform 4 9 ;;
  highest_20 <- random_uniform 40 55 ;;
  let palma := py_round (highest_20 / (lowest_20 * 2)) 2 in
  ret (data ++ [InequalityRow.mk country_code year (py_round gini 2)
                  (py_round lowest_20 2) (py_round highest_20 2) palma])%list.

(** The body of the loop over the countries. *)
Definition inequality_country (country : Country.t)
    (data : list InequalityRow.t) : Py (list InequalityRow.t) :=
  let country_code := Country.country_code country in
  let region := Country.region country in
  range <- dict_get gini_ranges region ;;
  let min_gini := fst range in
  let max_gini := snd range in
  base_gini <- random_uniform min_gini max_gini ;;
  for_acc years (inequality_year country_code base_gini) data.

Definition load_inequality_data (countries : list Country.t) : Py unit :=
  print "Creating inequality data..." ;;
  data <- for_acc countries inequality_country [] ;;
  to_sql "inequality_metrics" (InequalityTable data) ;;
  print ("✓ Loaded " +:+ pretty (length data) +:+ " inequality records").

End Model.

(** ** The specification *)

(** The row of [year] for country [c] with base Gini [base]: the values
    drawn are within their ranges and the columns are computed from them. *)
Definition inequality_row_spec (c : Country.t) (base : Q) (year : Z)
    (r : InequalityRow.t) : Prop :=
  InequalityRow.country_code r = Country.country_code c
  /\ InequalityRow.year r = year
  /\ exists noise lowest_20 highest_20,
       (-3 <= noise /\ noise <= 3)
       /\ (4 <= lowest_20 /\ lowest_20 <= 9)
       /\ (40 <= highest_20 /\ highest_20 <= 55)
       /\ InequalityRow.gini_coefficient r
          = py_round (py_max 20 (py_min 70 (base + noise))) 2
       /\ InequalityRow.income_share_lowest_20pct r = py_round lowest_20 2
       /\ InequalityRow.income_share_highest_20pct r = py_round highest_20 2
       /\ InequalityRow.palma_ratio r
          = py_round (highest_20 / (lowest_20 * 2)) 2.

(** The five rows of a country: one base Gini in the range of the region,
    one row per survey year in increasing order. *)
Definition inequality_block_spec (c : Country.t) (rows : list InequalityRow.t)
  : Prop :=
  exists range base,
    gini_ranges !! Country.region c = Some range
    /\ fst range <= base /\ base <= snd range
    /\ Forall2 (inequality_row_spec c base) years rows.

(** The table: the blocks of the countries in catalog order. *)
Definition inequality_table_spec (countries : list Country.t)
    (rows : list InequalityRow.t) : Prop :=
  blocks_table inequality_block_spec countries rows.

(** The row of one year, as the block the loop over the years appends. *)
Definition inequality_year_block (c : Country.t) (base : Q) (year : Z)
    (out : list InequalityRow.t) : Prop :=
  exists r, out = [r] /\ inequality_row_spec c base year r.

(** The key of a row of the table. *)
Definition inequality_key (r : InequalityRow.t) : string * Z :=
  (InequalityRow.country_code r, InequalityRow.year r).

(** The line printed after the write, for a table of [n] rows. *)
Definition inequality_closing (n : nat) : string :=
  "✓ Loaded " +:+ pretty n +:+ " inequality records".

(** The state [load_inequality_data] ends in when nothing fails: 16 draws
    per country, the table replaced, two lines printed. *)
Definition inequality_loaded (n : nat) (rows : list InequalityRow.t)
    (w : World) : World :=
  add_line ("✓ Loaded " +:+ pretty (length rows) +:+ " inequality records")
    (set_table "inequality_metrics" (InequalityTable rows)
       (advance_rng_by (16 * n)
          (add_line "Creating inequality data..." w))).

(** A catalog entry whose region has no Gini range. *)
Definition antarctica : Country.t :=
  Country.mk "ATA" "Antarctica" "Antarctic" "High income" None.

(** A stream under which a share that rounds changes the Palma ratio: the
    first survey year draws [lowest_20 = 4.01] and [highest_20 = 40.225]. *)
Definition palma_stream : list Z := [0; 500; 2; 15]%Z.

(** ** The ranges *)

(** Every range is ordered and lies within [[25, 65]]. *)
Lemma gini_ranges_bounds (region : string) (range : Q * Q) :
  gini_ranges !! region = Some range ->
  fst range <= snd range /\ 25 <= fst range /\ snd range <= 65
  /\ on_grid 2 (fst range - 3) /\ on_grid 2 (snd range + 3).
Proof.
  unfold gini_ranges. intros H.
  repeat (apply lookup_insert_Some in H as [[_ <-]|[_ H]];
          [cbn; repeat split; (reflexivity || lra) |]).
  apply lookup_singleton_Some in H as [_ <-].
  cbn; repeat split; (reflexivity || lra).
Qed.

Lemma gini_ranges_known (region : string) :
  region ∈ regions -> exists range, gini_ranges !! region = Some range.
Proof.
  unfold regions. rewrite !elem_of_cons, elem_of_nil.
  intros [->|[->|[->|[->|[->|[->|[->|[]]]]]]]]; eexists; reflexivity.
Qed.

Lemma gini_ranges_unknown (region : string) :
  region ∉ regions -> gini_ranges !! region = None.
Proof.
  unfold regions, gini_ranges. rewrite !not_elem_of_cons.
  intros (H1 & H2 & H3 & H4 & H5 & H6 & H7 & _).
  rewrite !lookup_insert_ne by congruence.
  apply lookup_singleton_ne. congruence.
Qed.

(** ** The model meets the specification *)

Section Refinement.
Context {RS : RandomSource} {ST : Storage}.

(** One iteration of the loop over the years appends the row of the year
    and makes three draws. *)
Lemma inequality_year_spec (c : Country.t) (base : Q) (year : Z) :
  appends_block (inequality_year (Country.country_code c) base)
    (inequality_year_block c base) (fun _ => 3%nat) year.
Proof.
  intros data w. unfold inequality_year, inequality_year_block.
  apply wp_bind, wp_random_uniform; [lra |]. intros noise Hn. cbn beta iota.
  apply wp_bind, wp_random_uniform; [lra |]. intros low Hl. cbn beta iota.
  apply wp_bind, wp_random_uniform; [lra |]. intros high Hh. cbn beta iota.
  apply wp_ret. cbn. eexists. split; [reflexivity |]. split; [| rng_eq].
  eexists. split; [reflexivity |]. split; [reflexivity |].
  split; [reflexivity |]. exists noise, low, high. cbn. auto 10.
Qed.

(** One iteration of the loop over the countries appends the block of the
    country and makes 16 draws. *)
Lemma inequality_country_spec (c : Country.t) :
  Country.region c ∈ regions ->
  appends_block inequality_country inequality_block_spec (fun _ => 16%nat) c.
Proof.
  intros (range & Hr)%gini_ranges_known data w.
  destruct (gini_ranges_bounds _ _ Hr) as (Hord & _).
  unfold inequality_country.
  apply wp_bind, (wp_dict_get_Some _ _ _ _ _ Hr).
  apply wp_bind, wp_random_uniform; [exact Hord |].
  intros base Hbase. cbn beta iota.
  destruct (for_acc_blocks_run _ _ _ years data (advance_rng w)
              (fun year _ => inequality_year_spec c base year))
    as (rows & (outs & -> & Hrows) & Hrun).
  apply (wp_run _ _ _ _ _ Hrun). cbn. eexists. split; [reflexivity |].
  split; [| rng_eq]. exists range, base. split; [exact Hr |].
  split; [tauto |]. split; [tauto |]. apply Forall2_concat_singletons, Hrows.
Qed.

(** [load_inequality_data] is an instance of the shape the generators
    share. *)
Lemma load_inequality_data_shape (countries : list Country.t) :
  load_inequality_data countries
  = load_table inequality_country InequalityTable "inequality_metrics"
      "Creating inequality data..." inequality_closing countries.
Proof. reflexivity. Qed.

Lemma inequality_loaded_shape (n : nat) (rows : list InequalityRow.t) w :
  inequality_loaded n rows w
  = table_loaded InequalityTable "inequality_metrics"
      "Creating inequality data..." inequality_closing (16 * n) rows w.
Proof. reflexivity. Qed.

(** The loop over the countries appends their blocks in order and makes
    16 draws per country. *)
Lemma inequality_loop_run (countries : list Country.t) data w :
  known_regions countries ->
  exists rows,
    inequality_table_spec countries rows
    /\ for_acc countries inequality_country data w
       = (Ok (data ++ rows)%list, advance_rng_by (16 * length countries) w).
Proof.
  intros Hk.
  destruct (for_acc_blocks_run inequality_country inequality_block_spec
              (fun _ => 16%nat) countries data w
              (fun c Hc =>
                 inequality_country_spec c (proj1 (Forall_forall _ _) Hk c Hc)))
    as (rows & Hspec & Hrun).
  exists rows. split; [exact Hspec |]. rewrite Hrun, list_sum_const. reflexivity.
Qed.

(** A run on a catalog of known regions, over an open connection to a
    writable table, ends normally in [inequality_loaded] for a table that
    satisfies the specification. *)
Lemma inequality_run (countries : list Country.t) (w : World) :
  conn_open w = true -> write_ok "inequality_metrics" = true ->
  known_regions countries ->
  exists rows,
    inequality_table_spec countries rows
    /\ load_inequality_data countries w
       = (Ok tt, inequality_loaded (length countries) rows w).
Proof.
  intros Ho Hw Hk.
  destruct (inequality_loop_run countries []
              (add_line "Creating inequality data..." w) Hk)
    as (rows & Hspec & Hrun).
  exists rows. split; [exact Hspec |].
  rewrite load_inequality_data_shape, inequality_loaded_shape.
  apply load_table_ok; assumption.
Qed.

(** Both outcomes of a run on an open connection: the rows are generated,
    then the write decides. *)
Lemma inequality_outcome (countries : list Country.t) (w : World) :
  conn_open w = true -> known_regions countries ->
  exists rows,
    inequality_table_spec countries rows
    /\ load_inequality_data countries w
       = if write_ok "inequality_metrics"
         then (Ok tt, inequality_loaded (length countries) rows w)
         else (Raise (DatabaseError "inequality_metrics"),
               advance_rng_by (16 * length countries)
                 (add_line "Creating inequality data..." w)).
Proof.
  intros Ho Hk.
  destruct (inequality_loop_run countries []
              (add_line "Creating inequality data..." w) Hk)
    as (rows & Hspec & Hrun).
  exists rows. split; [exact Hspec |].
  rewrite load_inequality_data_shape, inequality_loaded_shape.
  apply load_table_outcome; assumption.
Qed.

End Refinement.

(** ** The contract

    [load_inequality_data] is a loader of [inequality_metrics]: it accepts
    the catalogs of known regions, generates tables that satisfy
    [inequality_table_spec] and makes 16 draws per country. *)

Definition inequality_contract : Contract Country.t InequalityRow.t :=
  {| c_table := "inequality_metrics";
     c_mk := InequalityTable;
     c_line := "Creating inequality data...";
     c_closing := inequality_closing;
     c_accepts := known_regions;
     c_rows := inequality_table_spec;
     c_draws := fun countries => (16 * length countries)%nat |}.

#[export] Instance inequality_loader `{RS : RandomSource} `{ST : Storage} :
  Loader inequality_contract load_inequality_data.
Proof.
  intros countries w Hk Ho.
  destruct (inequality_outcome countries w Ho Hk) as (rows & Hspec & E).
  exists rows. split; [exact Hspec |].
  rewrite inequality_loaded_shape in E. exact E.
Qed.

(** ** Properties of a table that satisfies the specification *)

Lemma inequality_block_length c rows :
  inequality_block_spec c rows -> length rows = 5%nat.
Proof.
  intros (range & base & _ & _ & _ & H). apply Forall2_length in H.
  rewrite <- H. reflexivity.
Qed.

(** A row of a block is the row of one of the survey years. *)
Lemma inequality_block_row c rows r :
  inequality_block_spec c rows -> r ∈ rows ->
  exists range base year,
    gini_ranges !! Country.region c = Some range
    /\ fst range <= base /\ base <= snd range
    /\ year ∈ years /\ inequality_row_spec c base year r.
Proof.
  intros (range & base & Hrange & Hlo & Hhi & Hrows) Hr.
  destruct (Forall2_elem_of_r _ _ _ _ Hrows Hr) as (year & Hy & Hrow).
  exists range, base, year. tauto.
Qed.

Lemma inequality_block_code c rows r :
  inequality_block_spec c rows -> r ∈ rows ->
  InequalityRow.country_code r = Country.country_code c.
Proof.
  intros Hb Hr. destruct (inequality_block_row _ _ _ Hb Hr) as (? & ? & ? & H).
  apply H.
Qed.

(** A row of the table is the row of some survey year of some country. *)
Lemma inequality_table_row countries rows r :
  inequality_table_spec countries rows -> r ∈ rows ->
  exists c range base year,
    c ∈ countries /\ gini_ranges !! Country.region c = Some range
    /\ fst range <= base /\ base <= snd range
    /\ year ∈ years /\ inequality_row_spec c base year r.
Proof.
  intros Hspec Hr.
  destruct (blocks_table_elem_of _ _ _ _ Hspec Hr) as (c & b & Hc & Hb & Hrb).
  destruct (inequality_block_row _ _ _ Hb Hrb) as (range & base & year & Hrow).
  exists c, range, base, year. tauto.
Qed.

(** The clamp keeps the Gini of a row within [[20, 70]]. *)
Lemma inequality_row_gini c base year r :
  inequality_row_spec c base year r ->
  20 <= InequalityRow.gini_coefficient r
  /\ InequalityRow.gini_coefficient r <= 70.
Proof.
  intros (_ & _ & noise & low & high & _ & _ & _ & -> & _).
  apply (py_round_between 20 70); [reflexivity | reflexivity |].
  apply py_clamp_bounds. lra.
Qed.

(** With a base in a range of [gini_ranges], the perturbed value is
    already within [[22, 68]]: the clamp returns its argument. *)
Lemma gini_clamp_identity (region : string) (range : Q * Q) (base noise : Q) :
  gini_ranges !! region = Some range ->
  fst range <= base /\ base <= snd range -> -3 <= noise /\ noise <= 3 ->
  py_max 20 (py_min 70 (base + noise)) == base + noise.
Proof.
  intros (_ & Hlo & Hhi & _)%gini_ranges_bounds Hb Hn.
  apply py_clamp_inside. lra.
Qed.

(** The Gini of a row is within three points of the range of the region. *)
Lemma inequality_row_gini_region c range base year r :
  gini_ranges !! Country.region c = Some range ->
  fst range <= base /\ base <= snd range ->
  inequality_row_spec c base year r ->
  fst range - 3 <= InequalityRow.gini_coefficient r
  /\ InequalityRow.gini_coefficient r <= snd range + 3.
Proof.
  intros Hrange Hb (_ & _ & noise & low & high & Hn & _ & _ & -> & _).
  rewrite (py_round_proper _ _ (gini_clamp_identity _ _ _ _ Hrange Hb Hn)
             2%nat 2%nat eq_refl).
  destruct (gini_ranges_bounds _ _ Hrange) as (_ & _ & _ & Hg1 & Hg2).
  apply py_round_between; [exact Hg1 | exact Hg2 | lra].
Qed.

(** The quotient of shares within their ranges. *)
Lemma palma_quotient_bounds (low high : Q) :
  4 <= low /\ low <= 9 -> 40 <= high /\ high <= 55 ->
  2.22 <= high / (low * 2) /\ high / (low * 2) <= 6.88.
Proof.
  intros Hl Hh.
  assert (high / (low * 2) * (low * 2) == high) as Hq by (field; lra).
  revert Hq. generalize (high / (low * 2)). intros q Hq. split; nra.
Qed.

(** The shares of a row are within their ranges, and the Palma ratio is
    computed from the shares as drawn. *)
Lemma inequality_row_shares c base year r :
  inequality_row_spec c base year r ->
  exists lowest_20 highest_20,
    (4 <= lowest_20 /\ lowest_20 <= 9)
    /\ (40 <= highest_20 /\ highest_20 <= 55)
    /\ InequalityRow.income_share_lowest_20pct r = py_round lowest_20 2
    /\ InequalityRow.income_share_highest_20pct r = py_round highest_20 2
    /\ InequalityRow.palma_ratio r = py_round (highest_20 / (lowest_20 * 2)) 2
    /\ 2.22 <= InequalityRow.palma_ratio r
    /\ InequalityRow.palma_ratio r <= 6.88.
Proof.
  intros (_ & _ & noise & low & high & _ & Hl & Hh & _ & H1 & H2 & H3).
  exists low, high. repeat (split; [assumption |]). rewrite H3.
  apply (py_round_between 2.22 6.88); [reflexivity | reflexivity |].
  apply palma_quotient_bounds; assumption.
Qed.

(** Inside a block the years are pairwise distinct. *)
Lemma inequality_block_keys c rows :
  inequality_block_spec c rows -> NoDup (map inequality_key rows).
Proof.
  intros (range & base & _ & _ & _ & Hrows).
  apply (NoDup_fmap_1 snd).
  enough (snd <$> map inequality_key rows = years) as -> by (by_decide).
  induction Hrows as [|y r ys rs (_ & Hy & _) _ IH]; [reflexivity |].
  cbn. rewrite Hy. f_equal. exact IH.
Qed.

Lemma inequality_table_keys countries rows :
  unique_codes countries -> inequality_table_spec countries rows ->
  NoDup (map inequality_key rows).
Proof.
  intros Hu Hspec.
  apply (blocks_table_NoDup inequality_block_spec Country.country_code
           InequalityRow.country_code inequality_block_code inequality_key
           countries rows); [| | exact Hu | exact Hspec].
  - intros r1 r2 [= H _]. exact H.
  - intros c b. apply inequality_block_keys.
Qed.

(** ** What a run of [load_inequality_data] guarantees

    The theorems of this section are about one run: from a state [w] with
    an open connection, on a storage that accepts writes to
    [inequality_metrics], over a catalog whose regions are keys of
    [gini_ranges]. *)

Section Run.
Context {RS : RandomSource} {ST : Storage}.
Context (countries : list Country.t) (w : World).
Hypothesis conn_is_open : conn_open w = true.
Hypothesis table_writable : write_ok "inequality_metrics" = true.
Hypothesis regions_known : known_regions countries.

(** C30. The run returns normally; it replaces the table
    [inequality_metrics] by rows that satisfy [inequality_table_spec] (one
    block of five survey-year rows per country, in catalog order, each block
    built from one base Gini in the range of the region), consumes 16 random
    draws per country, prints its two lines and leaves every other table and
    the connection as they were. *)
Theorem load_inequality_data_writes_table :
  exists rows w',
    load_inequality_data countries w = (Ok tt, w')
    /\ inequality_table_spec countries rows
    /\ db w' = <["inequality_metrics" := InequalityTable rows]> (db w)
    /\ rng_pos w' = (16 * length countries + rng_pos w)%nat
    /\ console w'
       = (console w
          ++ ["Creating inequality data...";
              "✓ Loaded " +:+ pretty (length rows)
              +:+ " inequality records"])%list
    /\ conn_open w' = true.
Proof.
  destruct (inequality_run countries w conn_is_open table_writable
              regions_known) as (rows & Hspec & Hrun).
  exists rows, (inequality_loaded (length countries) rows w).
  split; [exact Hrun |]. split; [exact Hspec |].
  cbn. rewrite <- app_assoc. auto.
Qed.

(** C3. Every row the run writes has a Gini coefficient between 20 and
    70. *)
Theorem load_inequality_data_gini_bounds :
  exists rows,
    load_inequality_data countries w
    = (Ok tt, inequality_loaded (length countries) rows w)
    /\ forall r, r ∈ rows ->
         20 <= InequalityRow.gini_coefficient r
         /\ InequalityRow.gini_coefficient r <= 70.
Proof.
  destruct (inequality_run countries w conn_is_open table_writable
              regions_known) as (rows & Hspec & Hrun).
  exists rows. split; [exact Hrun |]. intros r Hr.
  destruct (inequality_table_row _ _ _ Hspec Hr)
    as (c & range & base & year & _ & _ & _ & _ & _ & Hrow).
  exact (inequality_row_gini c base year r Hrow).
Qed.

(** C4. Every row the run writes holds the rounded shares of a lowest
    share drawn in [[4, 9]] and a highest share drawn in [[40, 55]], and its
    Palma ratio is the rounded quotient [highest / (2 * lowest)] of the
    shares as drawn; the ratio lies between 2.22 and 6.88. *)
Theorem load_inequality_data_palma :
  exists rows,
    load_inequality_data countries w
    = (Ok tt, inequality_loaded (length countries) rows w)
    /\ forall r, r ∈ rows ->
         exists lowest_20 highest_20,
           (4 <= lowest_20 /\ lowest_20 <= 9)
           /\ (40 <= highest_20 /\ highest_20 <= 55)
           /\ InequalityRow.income_share_lowest_20pct r = py_round lowest_20 2
           /\ InequalityRow.income_share_highest_20pct r
              = py_round highest_20 2
           /\ InequalityRow.palma_ratio r
              = py_round (highest_20 / (lowest_20 * 2)) 2
           /\ 2.22 <= InequalityRow.palma_ratio r
           /\ InequalityRow.palma_ratio r <= 6.88.
Proof.
  destruct (inequality_run countries w conn_is_open table_writable
              regions_known) as (rows & Hspec & Hrun).
  exists rows. split; [exact Hrun |]. intros r Hr.
  destruct (inequality_table_row _ _ _ Hspec Hr)
    as (c & range & base & year & _ & _ & _ & _ & _ & Hrow).
  exact (inequality_row_shares c base year r Hrow).
Qed.

(** The run writes five rows per country. *)
Theorem load_inequality_data_row_count :
  exists rows,
    load_inequality_data countries w
    = (Ok tt, inequality_loaded (length countries) rows w)
    /\ length rows = (5 * length countries)%nat.
Proof.
  destruct (inequality_run countries w conn_is_open table_writable
              regions_known) as (rows & Hspec & Hrun).
  exists rows. split; [exact Hrun |].
  apply (blocks_table_length inequality_block_spec 5 countries rows);
    [exact inequality_block_length | exact Hspec].
Qed.

(** The Gini coefficient of every row is within three points of the
    range [gini_ranges] gives for the region of the row's country. *)
Theorem load_inequality_data_gini_by_region :
  exists rows,
    load_inequality_data countries w
    = (Ok tt, inequality_loaded (length countries) rows w)
    /\ forall r, r ∈ rows ->
         exists c range, c ∈ countries
           /\ InequalityRow.country_code r = Country.country_code c
           /\ gini_ranges !! Country.region c = Some range
           /\ fst range - 3 <= InequalityRow.gini_coefficient r
           /\ InequalityRow.gini_coefficient r <= snd range + 3.
Proof.
  destruct (inequality_run countries w conn_is_open table_writable
              regions_known) as (rows & Hspec & Hrun).
  exists rows. split; [exact Hrun |]. intros r Hr.
  destruct (inequality_table_row _ _ _ Hspec Hr)
    as (c & range & base & year & Hc & Hrange & Hlo & Hhi & _ & Hrow).
  exists c, range. split; [exact Hc |]. split; [apply Hrow |].
  split; [exact Hrange |].
  exact (inequality_row_gini_region c range base year r Hrange
           (conj Hlo Hhi) Hrow).
Qed.

(** C36. The clamp [max(20, min(70, gini))] never changes a value: in
    every row the run writes, the Gini coefficient is the rounded sum of a
    base in the region's range and a perturbation in [[-3, 3]]. *)
Theorem load_inequality_data_clamp_inactive :
  exists rows,
    load_inequality_data countries w
    = (Ok tt, inequality_loaded (length countries) rows w)
    /\ forall r, r ∈ rows ->
         exists c range base noise, c ∈ countries
           /\ gini_ranges !! Country.region c = Some range
           /\ (fst range <= base /\ base <= snd range)
           /\ (-3 <= noise /\ noise <= 3)
           /\ InequalityRow.gini_coefficient r = py_round (base + noise) 2.
Proof.
  destruct (inequality_run countries w conn_is_open table_writable
              regions_known) as (rows & Hspec & Hrun).
  exists rows. split; [exact Hrun |]. intros r Hr.
  destruct (inequality_table_row _ _ _ Hspec Hr)
    as (c & range & base & year & Hc & Hrange & Hlo & Hhi & _ & Hrow).
  destruct Hrow as (_ & _ & noise & low & high & Hn & _ & _ & Hg & _).
  exists c, range, base, noise. repeat (split; [tauto |]). rewrite Hg.
  apply py_round_proper; [| reflexivity].
  exact (gini_clamp_identity _ _ _ _ Hrange (conj Hlo Hhi) Hn).
Qed.

(** When the country codes are pairwise distinct, no two rows of the
    table share the key (country_code, year). *)
Theorem load_inequality_data_keys_unique :
  unique_codes countries ->
  exists rows,
    load_inequality_data countries w
    = (Ok tt, inequality_loaded (length countries) rows w)
    /\ NoDup (map inequality_key rows).
Proof.
  intros Hu.
  destruct (inequality_run countries w conn_is_open table_writable
              regions_known) as (rows & Hspec & Hrun).
  exists rows. split; [exact Hrun | exact (inequality_table_keys _ _ Hu Hspec)].
Qed.

End Run.

(** ** The other exits *)

Section Exits.
Context {RS : RandomSource} {ST : Storage}.

(** The loop stops at the first country whose region is unknown. *)
Lemma inequality_loop_key_error (good rest : list Country.t) (c : Country.t)
    data w :
  known_regions good -> Country.region c ∉ regions ->
  for_acc (good ++ c :: rest) inequality_country data w
  = (Raise (KeyError (Country.region c)), advance_rng_by (16 * length good) w).
Proof.
  intros Hk Hc. rewrite <- (list_sum_const 16 good).
  apply (for_acc_blocks_raises inequality_country inequality_block_spec).
  - intros c' Hc'.
    apply inequality_country_spec, (proj1 (Forall_forall _ _) Hk c' Hc').
  - intros acc w'. unfold inequality_country, bind, dict_get.
    rewrite (gini_ranges_unknown _ Hc). reflexivity.
Qed.

(** On a catalog whose first entry with a region that is not a key of
    [gini_ranges] is [c], the run raises [KeyError] for that region after
    the 16 draws of each earlier country; it has printed its first line
    only and has written no table. *)
Theorem load_inequality_data_key_error (good rest : list Country.t)
    (c : Country.t) (w : World) :
  known_regions good -> Country.region c ∉ regions ->
  load_inequality_data (good ++ c :: rest) w
  = (Raise (KeyError (Country.region c)),
     advance_rng_by (16 * length good)
       (add_line "Creating inequality data..." w)).
Proof.
  intros Hk Hc. rewrite load_inequality_data_shape.
  apply load_table_raises, inequality_loop_key_error; assumption.
Qed.

(** Whether or not the table can be written, a run over a catalog of
    known regions consumes exactly 16 random draws per country: one for the
    base Gini and three for each of the five survey years. *)
Theorem load_inequality_data_draws (countries : list Country.t) (w : World) :
  known_regions countries ->
  rng_pos (run_state (load_inequality_data countries) w)
  = (16 * length countries + rng_pos w)%nat.
Proof.
  intros Hk.
  destruct (inequality_loop_run countries []
              (add_line "Creating inequality data..." w) Hk)
    as (rows & _ & Hrun).
  rewrite load_inequality_data_shape,
    (load_table_rng_pos _ _ _ _ _ _ _ _ _ Hrun).
  reflexivity.
Qed.

End Exits.

(** ** The stored Palma ratio is not the ratio of the stored shares *)


(** ** The theorems at concrete inputs

    The script's catalog, the linear congruential stream and the initial
    state satisfy the hypotheses of every theorem above. *)

Lemma load_inequality_data_writes_table_witness :
  exists rows w',
    load_inequality_data (RS := lcg_source) (ST := reliable_storage) catalog
      initial_world = (Ok tt, w')
    /\ inequality_table_spec catalog rows
    /\ db w'
       = <["inequality_metrics" := InequalityTable rows]> (db initial_world)
    /\ rng_pos w' = 768%nat
    /\ console w'
       = ["Creating inequality data...";
          "✓ Loaded " +:+ pretty (length rows) +:+ " inequality records"]
    /\ conn_open w' = true.
Proof.
  apply (load_inequality_data_writes_table (RS := lcg_source)
           (ST := reliable_storage) catalog initial_world);
    [reflexivity | reflexivity | by_decide].
Defined.

Lemma load_inequality_data_gini_bounds_witness :
  exists rows,
    load_inequality_data (RS := lcg_source) (ST := reliable_storage) catalog
      initial_world = (Ok tt, inequality_loaded 48 rows initial_world)
    /\ forall r, r ∈ rows ->
         20 <= InequalityRow.gini_coefficient r
         /\ InequalityRow.gini_coefficient r <= 70.
Proof.
  apply (load_inequality_data_gini_bounds (RS := lcg_source)
           (ST := reliable_storage) catalog initial_world);
    [reflexivity | reflexivity | by_decide].
Defined.

Lemma load_inequality_data_palma_witness :
  exists rows,
    load_inequality_data (RS := lcg_source) (ST := reliable_storage) catalog
      initial_world = (Ok tt, inequality_loaded 48 rows initial_world)
    /\ forall r, r ∈ rows ->
         exists lowest_20 highest_20,
           (4 <= lowest_20 /\ lowest_20 <= 9)
           /\ (40 <= highest_20 /\ highest_20 <= 55)
           /\ InequalityRow.income_share_lowest_20pct r = py_round lowest_20 2
           /\ InequalityRow.income_share_highest_20pct r
              = py_round highest_20 2
           /\ InequalityRow.palma_ratio r
              = py_round (highest_20 / (lowest_20 * 2)) 2
           /\ 2.22 <= InequalityRow.palma_ratio r
           /\ InequalityRow.palma_ratio r <= 6.88.
Proof.
  apply (load_inequality_data_palma (RS := lcg_source)
           (ST := reliable_storage) catalog initial_world);
    [reflexivity | reflexivity | by_decide].
Defined.

Lemma load_inequality_data_row_count_witness :
  exists rows,
    load_inequality_data (RS := lcg_source) (ST := reliable_storage) catalog
      initial_world = (Ok tt, inequality_loaded 48 rows initial_world)
    /\ length rows = 240%nat.
Proof.
  apply (load_inequality_data_row_count (RS := lcg_source)
           (ST := reliable_storage) catalog initial_world);
    [reflexivity | reflexivity | by_decide].
Defined.

Lemma load_inequality_data_gini_by_region_witness :
  exists rows,
    load_inequality_data (RS := lcg_source) (ST := reliable_storage) catalog
      initial_world = (Ok tt, inequality_loaded 48 rows initial_world)
    /\ forall r, r ∈ rows ->
         exists c range, c ∈ catalog
           /\ InequalityRow.country_code r = Country.country_code c
           /\ gini_ranges !! Country.region c = Some range
           /\ fst range - 3 <= InequalityRow.gini_coefficient r
           /\ InequalityRow.gini_coefficient r <= snd range + 3.
Proof.
  apply (load_inequality_data_gini_by_region (RS := lcg_source)
           (ST := reliable_storage) catalog initial_world);
    [reflexivity | reflexivity | by_decide].
Defined.

Lemma load_inequality_data_clamp_inactive_witness :
  exists rows,
    load_inequality_data (RS := lcg_source) (ST := reliable_storage) catalog
      initial_world = (Ok tt, inequality_loaded 48 rows initial_world)
    /\ forall r, r ∈ rows ->
         exists c range base noise, c ∈ catalog
           /\ gini_ranges !! Country.region c = Some range
           /\ (fst range <= base /\ base <= snd range)
           /\ (-3 <= noise /\ noise <= 3)
           /\ InequalityRow.gini_coefficient r = py_round (base + noise) 2.
Proof.
  apply (load_inequality_data_clamp_inactive (RS := lcg_source)
           (ST := reliable_storage) catalog initial_world);
    [reflexivity | reflexivity | by_decide].
Defined.

Lemma load_inequality_data_keys_unique_witness :
  exists rows,
    load_inequality_data (RS := lcg_source) (ST := reliable_storage) catalog
      initial_world = (Ok tt, inequality_loaded 48 rows initial_world)
    /\ NoDup (map inequality_key rows).
Proof.
  apply (load_inequality_data_keys_unique (RS := lcg_source)
           (ST := reliable_storage) catalog initial_world);
    [reflexivity | reflexivity | by_decide | by_decide].
Defined.

Lemma load_inequality_data_key_error_witness :
  load_inequality_data (RS := lcg_source) (ST := reliable_storage)
    (take 2 catalog ++ antarctica :: drop 2 catalog) initial_world
  = (Raise (KeyError "Antarctic"),
     advance_rng_by 32 (add_line "Creating inequality data..." initial_world)).
Proof.
  apply (load_inequality_data_key_error (RS := lcg_source)
           (ST := reliable_storage) (take 2 catalog) (drop 2 catalog)
           antarctica initial_world);
    by_decide.
Defined.

Lemma load_inequality_data_draws_witness :
  rng_pos (run_state (load_inequality_data (RS := lcg_source)
                        (ST := reliable_storage) catalog) initial_world)
  = 768%nat.
Proof.
  apply (load_inequality_data_draws (RS := lcg_source)
           (ST := reliable_storage) catalog initial_world).
  by_decide.
Defined.
