(* ===== verification/Poverty.v ===== *)
(** * Poverty: the poverty generator ([load_poverty_data])

    A country whose income group is one of the three groups of the list on
    line 203 gets three base headcount rates, drawn from the ranges of its
    group, and one row per survey year in which each base is multiplied by
    the factor [1 - ((year - 2015) / 8) * 0.15].  Every other country, high
    income or of a group the script does not know, is passed over: no row,
    no draw and no error.

    The three bases of a country are drawn independently from ranges that
    overlap, so the rates of one row need not increase with the poverty
    line; the file proves the order over the years and exhibits a run in
    which the order across the lines fails. *)

From Stdlib Require Import QArith Lqa ZArith List String.
From stdpp Require Import base tactics option list strings gmap pretty.
From S2P Require Import Prelude PyNum Effects Schema World Catalog.

Local Open Scope string_scope.
Local Open Scope Q_scope.
Local Open Scope py_scope.

(** ** The model *)

(** The survey years. *)
Definition poverty_years : list Z := [2015; 2017; 2019; 2021; 2023]%Z.

(** The income groups that get poverty records. *)
Definition poverty_groups : list string :=
  ["Low income"; "Lower middle income"; "Upper middle income"].

(** The factor of a survey year: a reduction of 15 per cent over the eight
    years from 2015 to 2023.  [/] is the true division of Python. *)
Definition reduction_factor (year : Z) : Q :=
  let years_since_2015 := inject_Z (year - 2015) / 8 in
  1 - years_since_2015 * 0.15.

Section Model.
Context {RS : RandomSource} {ST : Storage}.

(** The base rates by income level: the if / elif chain, whose last branch
    takes upper middle income. *)
Definition sample_base_rates (income_group : string) : Py (Q * Q * Q) :=
  if String.eqb income_group "Low income" then
    base_215 <- random_uniform 40 70 ;;
    base_365 <- random_uniform 60 85 ;;
    base_685 <- random_uniform 75 95 ;;
    ret (base_215, base_365, base_685)
  else if String.eqb income_group "Lower middle income" then
    base_215 <- random_uniform 10 40 ;;
    base_365 <- random_uniform 25 60 ;;
    base_685 <- random_uniform 50 80 ;;
    ret (base_215, base_365, base_685)
  else
    base_215 <- random_uniform 1 15 ;;
    base_365 <- random_uniform 5 30 ;;
    base_685 <- random_uniform 15 50 ;;
    ret (base_215, base_365, base_685).

(** The body of the loop over the survey years. *)
Definition poverty_year (country_code : string) (base_215 base_365 base_685 : Q)
    (year : Z) (data : list PovertyRow.t) : Py (list PovertyRow.t) :=
  let reduction_factor := reduction_factor year in
  ret (data ++ [PovertyRow.mk country_code year
                  (py_round (base_215 * reduction_factor) 2)
                  (py_round (base_365 * reduction_factor) 2)
                  (py_round (base_685 * reduction_factor) 2)
                  None])%list.

(** The body of the loop over the countries. *)
Definition poverty_country (country : Country.t) (data : list PovertyRow.t)
  : Py (list PovertyRow.t) :=
  let country_code := Country.country_code country in
  let income_group := Country.income_group country in
  if bool_decide (income_group ∈ poverty_groups) then
    bases <- sample_base_rates income_group ;;
    let '(base_215, base_365, base_685) := bases in
    for_acc poverty_years (poverty_year country_code base_215 base_365 base_685)
      data
  else ret data.

Definition load_poverty_data (countries : list Country.t) : Py unit :=
  print "Creating poverty data..." ;;
  data <- for_acc countries poverty_country [] ;;
  to_sql "poverty_indicators" (PovertyTable data) ;;
  print ("✓ Loaded " +:+ pretty (length data) +:+ " poverty records").

End Model.

(** ** The specification *)

(** A country that gets poverty records. *)
Definition eligible (c : Country.t) : Prop :=
  Country.income_group c ∈ poverty_groups.

#[export] Instance eligible_dec c : Decision (eligible c).
Proof. unfold eligible. apply _. Defined.

(** The ranges the three base rates of an income group are drawn from, by
    increasing poverty line. *)
Definition base_ranges (income_group : string) : (Q * Q) * (Q * Q) * (Q * Q) :=
  if String.eqb income_group "Low income" then ((40, 70), (60, 85), (75, 95))
  else if String.eqb income_group "Lower middle income" then
    ((10, 40), (25, 60), (50, 80))
  else ((1, 15), (5, 30), (15, 50)).

Definition in_range (range : Q * Q) (x : Q) : Prop :=
  fst range <= x /\ x <= snd range.

(** Bases within the ranges of an income group. *)
Definition bases_ok (income_group : string) (bases : Q * Q * Q) : Prop :=
  let '(r_215, r_365, r_685) := base_ranges income_group in
  let '(base_215, base_365, base_685) := bases in
  in_range r_215 base_215 /\ in_range r_365 base_365
  /\ in_range r_685 base_685.

(** The row of a survey year for given bases. *)
Definition poverty_row (country_code : string) (bases : Q * Q * Q) (year : Z)
  : PovertyRow.t :=
  let '(base_215, base_365, base_685) := bases in
  PovertyRow.mk country_code year
    (py_round (base_215 * reduction_factor year) 2)
    (py_round (base_365 * reduction_factor year) 2)
    (py_round (base_685 * reduction_factor year) 2)
    None.

(** The rows of a country: none when it is not eligible, else the rows of
    the five survey years in order, from one triple of bases. *)
Definition poverty_block_spec (c : Country.t) (rows : list PovertyRow.t)
  : Prop :=
  if decide (eligible c) then
    exists bases,
      bases_ok (Country.income_group c) bases
      /\ rows = map (poverty_row (Country.country_code c) bases) poverty_years
  else rows = [].

(** The table: the blocks of the countries in catalog order. *)
Definition poverty_table_spec (countries : list Country.t)
    (rows : list PovertyRow.t) : Prop :=
  blocks_table poverty_block_spec countries rows.

(** The draws a country takes. *)
Definition poverty_draws (c : Country.t) : nat :=
  if decide (eligible c) then 3%nat else 0%nat.

(** The rows a country gets. *)
Definition poverty_rows (c : Country.t) : nat :=
  if decide (eligible c) then 5%nat else 0%nat.

(** The key of a row of the table. *)
Definition poverty_key (r : PovertyRow.t) : string * Z :=
  (PovertyRow.country_code r, PovertyRow.year r).

(** The line printed after the write, for a table of [n] rows. *)
Definition poverty_closing (n : nat) : string :=
  "✓ Loaded " +:+ pretty n +:+ " poverty records".

(** The state [load_poverty_data] ends in when nothing fails, after [k]
    draws. *)
Definition poverty_loaded (k : nat) (rows : list PovertyRow.t) (w : World)
  : World :=
  add_line ("✓ Loaded " +:+ pretty (length rows) +:+ " poverty records")
    (set_table "poverty_indicators" (PovertyTable rows)
       (advance_rng_by k (add_line "Creating poverty data..." w))).

(** The number of draws of a run: three per eligible country. *)
Definition poverty_total_draws (countries : list Country.t) : nat :=
  (3 * length (filter eligible countries))%nat.

(** A catalog entry of an income group the script does not know. *)
Definition lemuria : Country.t :=
  Country.mk "LEM" "Lemuria" "South Asia" "Unclassified" None.

(** A stream under which the rate at the lowest line exceeds the rate at
    the middle line: the first eligible country of the catalog, of upper
    middle income, draws [base_215 = 14.86] and [base_365 = 5.25]. *)
Definition crossing_stream : list Z := [990; 10; 500]%Z.

(** ** The decay factor *)

Lemma reduction_factor_2015 : reduction_factor 2015 == 1.
Proof. reflexivity. Qed.

Lemma reduction_factor_2023 : reduction_factor 2023 == 0.85.
Proof. reflexivity. Qed.

(** The factor is affine in the year, with slope [- 0.15 / 8]. *)
Lemma reduction_factor_affine (year : Z) :
  reduction_factor year == 1 - (3 # 160) * (inject_Z year - 2015).
Proof.
  unfold reduction_factor. cbv zeta. unfold Z.sub.
  rewrite inject_Z_plus, inject_Z_opp. change (inject_Z 2015) with 2015.
  field.
Qed.

(** A later year has a factor smaller by at least [0.15 / 8]. *)
Lemma reduction_factor_step (y1 y2 : Z) :
  (y1 < y2)%Z -> reduction_factor y2 + (3 # 160) <= reduction_factor y1.
Proof.
  intros H. rewrite !reduction_factor_affine.
  assert (inject_Z y1 + 1 <= inject_Z y2) as Hq.
  { rewrite <- inject_Z_succ. apply inject_Z_le. lia. }
  lra.
Qed.

(** Between 2015 and 2023 the factor lies between 0.85 and 1. *)
Lemma reduction_factor_bounds (year : Z) :
  (2015 <= year <= 2023)%Z ->
  0.85 <= reduction_factor year /\ reduction_factor year <= 1.
Proof.
  intros [H1 H2]. rewrite reduction_factor_affine.
  apply inject_Z_le in H1, H2.
  change (inject_Z 2015) with 2015 in H1.
  change (inject_Z 2023) with 2023 in H2. split; lra.
Qed.

Lemma poverty_years_range (year : Z) :
  year ∈ poverty_years -> (2015 <= year <= 2023)%Z.
Proof.
  unfold poverty_years. rewrite !elem_of_cons, elem_of_nil.
  intros [->|[->|[->|[->|[->|[]]]]]]; lia.
Qed.

(** ** The base ranges *)

(** The cases of the if / elif chain on an eligible group. *)
Lemma poverty_groups_cases (g : string) :
  g ∈ poverty_groups ->
  g = "Low income" \/ g = "Lower middle income" \/ g = "Upper middle income".
Proof.
  unfold poverty_groups. rewrite !elem_of_cons, elem_of_nil. tauto.
Qed.

(** Whatever the group, each base lies between 1 and 95. *)
Lemma bases_ok_bounds (g : string) (b1 b2 b3 : Q) :
  bases_ok g (b1, b2, b3) ->
  (1 <= b1 /\ b1 <= 95) /\ (1 <= b2 /\ b2 <= 95) /\ (1 <= b3 /\ b3 <= 95).
Proof.
  unfold bases_ok, base_ranges, in_range.
  repeat destruct (String.eqb _ _); cbn; intros H; repeat split; lra.
Qed.

(** ** The model meets the specification *)

Section Refinement.
Context {RS : RandomSource} {ST : Storage}.

(** The chain draws three bases within the ranges of the group. *)
Lemma sample_base_rates_spec (g : string) (w : World) :
  wp (sample_base_rates g)
     (returns (fun bases w' => bases_ok g bases /\ w' = advance_rng_by 3 w)) w.
Proof.
  unfold sample_base_rates, bases_ok, base_ranges, in_range.
  repeat destruct (String.eqb _ _);
    (apply wp_bind, wp_random_uniform; [lra |]; intros b1 H1; cbn beta iota;
     apply wp_bind, wp_random_uniform; [lra |]; intros b2 H2; cbn beta iota;
     apply wp_bind, wp_random_uniform; [lra |]; intros b3 H3; cbn beta iota;
     apply wp_ret; cbn; split; [tauto | rng_eq]).
Qed.

(** The loop over the survey years appends the five rows and draws
    nothing. *)
Lemma poverty_years_run (code : string) (b1 b2 b3 : Q) data (w : World) :
  for_acc poverty_years (poverty_year code b1 b2 b3) data w
  = (Ok (data ++ map (poverty_row code (b1, b2, b3)) poverty_years)%list, w).
Proof. apply for_acc_pure. reflexivity. Qed.

(** One iteration of the loop over the countries: three draws and five
    rows for an eligible country, nothing for any other. *)
Lemma poverty_country_spec (c : Country.t) :
  appends_block poverty_country poverty_block_spec poverty_draws c.
Proof.
  intros data w. unfold poverty_country, poverty_block_spec, poverty_draws.
  fold (eligible c). destruct (decide (eligible c)) as [He|He].
  - rewrite bool_decide_eq_true_2 by exact He.
    eapply wp_bind_returns; [apply sample_base_rates_spec |].
    intros [[b1 b2] b3] w' [Hb ->].
    apply (wp_run _ _ _ _ _ (poverty_years_run _ b1 b2 b3 data _)). cbn.
    eexists. split; [reflexivity |]. split; [| reflexivity].
    exists (b1, b2, b3). split; [exact Hb | reflexivity].
  - rewrite bool_decide_eq_false_2 by exact He.
    apply wp_ret. cbn. exists []. rewrite app_nil_r, advance_rng_by_0. auto.
Qed.

(** [load_poverty_data] is an instance of the shape the generators
    share. *)
Lemma load_poverty_data_shape (countries : list Country.t) :
  load_poverty_data countries
  = load_table poverty_country PovertyTable "poverty_indicators"
      "Creating poverty data..." poverty_closing countries.
Proof. reflexivity. Qed.

Lemma poverty_loaded_shape (k : nat) (rows : list PovertyRow.t) w :
  poverty_loaded k rows w
  = table_loaded PovertyTable "poverty_indicators"
      "Creating poverty data..." poverty_closing k rows w.
Proof. reflexivity. Qed.

(** The loop over the countries, on any catalog: it cannot raise. *)
Lemma poverty_loop_run (countries : list Country.t) data w :
  exists rows,
    poverty_table_spec countries rows
    /\ for_acc countries poverty_country data w
       = (Ok (data ++ rows)%list,
          advance_rng_by (poverty_total_draws countries) w).
Proof.
  destruct (for_acc_blocks_run poverty_country poverty_block_spec
              poverty_draws countries data w
              (fun c _ => poverty_country_spec c))
    as (rows & Hspec & Hrun).
  exists rows. split; [exact Hspec |]. rewrite Hrun.
  unfold poverty_draws, poverty_total_draws. rewrite list_sum_filter.
  reflexivity.
Qed.

(** A run over an open connection to a writable table ends normally in
    [poverty_loaded] for a table that satisfies the specification. *)
Lemma poverty_run (countries : list Country.t) (w : World) :
  conn_open w = true -> write_ok "poverty_indicators" = true ->
  exists rows,
    poverty_table_spec countries rows
    /\ load_poverty_data countries w
       = (Ok tt, poverty_loaded (poverty_total_draws countries) rows w).
Proof.
  intros Ho Hw.
  destruct (poverty_loop_run countries []
              (add_line "Creating poverty data..." w))
    as (rows & Hspec & Hrun).
  exists rows. split; [exact Hspec |].
  rewrite load_poverty_data_shape, poverty_loaded_shape.
  apply load_table_ok; assumption.
Qed.

(** Both outcomes of a run on an open connection: the rows are generated,
    then the write decides. *)
Lemma poverty_outcome (countries : list Country.t) (w : World) :
  conn_open w = true ->
  exists rows,
    poverty_table_spec countries rows
    /\ load_poverty_data countries w
       = if write_ok "poverty_indicators"
         then (Ok tt, poverty_loaded (poverty_total_draws countries) rows w)
         else (Raise (DatabaseError "poverty_indicators"),
               advance_rng_by (poverty_total_draws countries)
                 (add_line "Creating poverty data..." w)).
Proof.
  intros Ho.
  destruct (poverty_loop_run countries []
              (add_line "Creating poverty data..." w))
    as (rows & Hspec & Hrun).
  exists rows. split; [exact Hspec |].
  rewrite load_poverty_data_shape, poverty_loaded_shape.
  apply load_table_outcome; assumption.
Qed.

End Refinement.

(** ** The contract

    [load_poverty_data] is a loader of [poverty_indicators]: it accepts
    every catalog, generates tables that satisfy [poverty_table_spec] and
    makes three draws per eligible country. *)

Definition poverty_contract : Contract Country.t PovertyRow.t :=
  {| c_table := "poverty_indicators";
     c_mk := PovertyTable;
     c_line := "Creating poverty data...";
     c_closing := poverty_closing;
     c_accepts := fun _ => True;
     c_rows := poverty_table_spec;
     c_draws := poverty_total_draws |}.

#[export] Instance poverty_loader `{RS : RandomSource} `{ST : Storage} :
  Loader poverty_contract load_poverty_data.
Proof.
  intros countries w _ Ho.
  destruct (poverty_outcome countries w Ho) as (rows & Hspec & E).
  exists rows. split; [exact Hspec |]. rewrite poverty_loaded_shape in E.
  exact E.
Qed.

(** ** Properties of a table that satisfies the specification *)

Lemma poverty_row_year code bases year :
  PovertyRow.year (poverty_row code bases year) = year.
Proof. destruct bases as [[b1 b2] b3]. reflexivity. Qed.

Lemma poverty_row_code code bases year :
  PovertyRow.country_code (poverty_row code bases year) = code.
Proof. destruct bases as [[b1 b2] b3]. reflexivity. Qed.

Lemma poverty_block_length c rows :
  poverty_block_spec c rows -> length rows = poverty_rows c.
Proof.
  unfold poverty_block_spec, poverty_rows.
  destruct (decide (eligible c)); [intros (bases & _ & ->) | intros ->];
    reflexivity.
Qed.

(** A block that holds a row is the block of an eligible country. *)
Lemma poverty_block_inv c rows r :
  poverty_block_spec c rows -> r ∈ rows ->
  eligible c
  /\ exists bases,
       bases_ok (Country.income_group c) bases
       /\ rows = map (poverty_row (Country.country_code c) bases) poverty_years.
Proof.
  unfold poverty_block_spec. destruct (decide (eligible c)) as [He|He].
  - intros H _. split; [exact He | exact H].
  - intros -> H%elem_of_nil. contradiction.
Qed.

(** A row of a block is the row of one of the survey years. *)
Lemma poverty_block_row c rows r :
  poverty_block_spec c rows -> r ∈ rows ->
  exists bases year,
    bases_ok (Country.income_group c) bases /\ year ∈ poverty_years
    /\ r = poverty_row (Country.country_code c) bases year.
Proof.
  intros Hb Hr. destruct (poverty_block_inv _ _ _ Hb Hr) as (_ & bases & Hok & ->).
  apply list_elem_of_fmap in Hr as (year & -> & Hy). eauto.
Qed.

Lemma poverty_block_code c rows r :
  poverty_block_spec c rows -> r ∈ rows ->
  PovertyRow.country_code r = Country.country_code c.
Proof.
  intros Hb Hr. destruct (poverty_block_row _ _ _ Hb Hr) as (? & ? & _ & _ & ->).
  apply poverty_row_code.
Qed.

(** A row of the table is the row of a survey year of an eligible
    country. *)
Lemma poverty_table_row countries rows r :
  poverty_table_spec countries rows -> r ∈ rows ->
  exists c bases year,
    c ∈ countries /\ eligible c
    /\ bases_ok (Country.income_group c) bases /\ year ∈ poverty_years
    /\ r = poverty_row (Country.country_code c) bases year.
Proof.
  intros Hspec Hr.
  destruct (blocks_table_elem_of _ _ _ _ Hspec Hr) as (c & b & Hc & Hb & Hrb).
  destruct (poverty_block_inv _ _ _ Hb Hrb) as (He & _).
  destruct (poverty_block_row _ _ _ Hb Hrb) as (bases & year & H).
  exists c, bases, year. tauto.
Qed.

(** Two rows of one country come from one triple of bases. *)
Lemma poverty_table_pair countries rows r1 r2 :
  unique_codes countries -> poverty_table_spec countries rows ->
  r1 ∈ rows -> r2 ∈ rows ->
  PovertyRow.country_code r1 = PovertyRow.country_code r2 ->
  exists c bases,
    c ∈ countries /\ bases_ok (Country.income_group c) bases
    /\ r1 = poverty_row (Country.country_code c) bases (PovertyRow.year r1)
    /\ r2 = poverty_row (Country.country_code c) bases (PovertyRow.year r2).
Proof.
  intros Hu Hspec H1 H2 Hk.
  destruct (blocks_table_same_block poverty_block_spec Country.country_code
              PovertyRow.country_code poverty_block_code countries rows r1 r2
              Hu Hspec H1 H2 Hk) as (c & b & Hc & Hb & Hb1 & Hb2).
  destruct (poverty_block_inv _ _ _ Hb Hb1) as (_ & bases & Hok & ->).
  apply list_elem_of_fmap in Hb1 as (y1 & -> & _).
  apply list_elem_of_fmap in Hb2 as (y2 & -> & _).
  exists c, bases. rewrite !poverty_row_year. auto.
Qed.

(** With a base of at least one, the rounded rate of a later year is
    strictly smaller: the unrounded rates differ by more than one unit of
    the second decimal. *)
Lemma rate_decreases (base : Q) (y1 y2 : Z) :
  1 <= base -> (y1 < y2)%Z ->
  py_round (base * reduction_factor y2) 2
  < py_round (base * reduction_factor y1) 2.
Proof.
  intros Hb Hy. apply py_round_gap.
  pose proof (reduction_factor_step _ _ Hy) as Hs.
  change (pow10 2) with 100. nra.
Qed.

(** A rate of a survey year lies between 0.85 and 95. *)
Lemma rate_bounds (base : Q) (year : Z) :
  1 <= base /\ base <= 95 -> year ∈ poverty_years ->
  0.85 <= py_round (base * reduction_factor year) 2
  /\ py_round (base * reduction_factor year) 2 <= 95.
Proof.
  intros Hb Hy%poverty_years_range%reduction_factor_bounds.
  apply (py_round_between 0.85 95); [reflexivity | reflexivity |]. nra.
Qed.

(** Inside a block the years are pairwise distinct. *)
Lemma poverty_block_keys c rows :
  poverty_block_spec c rows -> NoDup (map poverty_key rows).
Proof.
  unfold poverty_block_spec.
  destruct (decide (eligible c)); [| intros ->; constructor].
  intros (bases & _ & ->). apply (NoDup_fmap_1 snd).
  enough (snd <$> map poverty_key
                    (map (poverty_row (Country.country_code c) bases)
                       poverty_years) = poverty_years) as -> by (by_decide).
  destruct bases as [[b1 b2] b3]. reflexivity.
Qed.

Lemma poverty_table_keys countries rows :
  unique_codes countries -> poverty_table_spec countries rows ->
  NoDup (map poverty_key rows).
Proof.
  intros Hu Hspec.
  apply (blocks_table_NoDup poverty_block_spec Country.country_code
           PovertyRow.country_code poverty_block_code poverty_key
           countries rows); [| | exact Hu | exact Hspec].
  - intros r1 r2 [= H _]. exact H.
  - intros c b. apply poverty_block_keys.
Qed.

Lemma poverty_table_length countries rows :
  poverty_table_spec countries rows ->
  length rows = (5 * length (filter eligible countries))%nat.
Proof.
  intros Hspec.
  rewrite (blocks_table_length_sum poverty_block_spec poverty_rows countries
             rows poverty_block_length Hspec).
  apply list_sum_filter.
Qed.

(** ** What a run of [load_poverty_data] guarantees

    The theorems of this section are about one run: from a state [w] with
    an open connection, on a storage that accepts writes to
    [poverty_indicators], over any catalog. *)

Section Run.
Context {RS : RandomSource} {ST : Storage}.
Context (countries : list Country.t) (w : World).
Hypothesis conn_is_open : conn_open w = true.
Hypothesis table_writable : write_ok "poverty_indicators" = true.

(** C31. Whatever the income groups of the catalog, the run returns
    normally; it replaces the table [poverty_indicators] by rows that
    satisfy [poverty_table_spec] (for each eligible country, in catalog
    order, the rows of the five survey years built from one triple of bases
    in the ranges of its group; nothing for any other country), consumes
    three random draws per eligible country, prints its two lines and
    leaves every other table and the connection as they were. *)
Theorem load_poverty_data_writes_table :
  exists rows w',
    load_poverty_data countries w = (Ok tt, w')
    /\ poverty_table_spec countries rows
    /\ db w' = <["poverty_indicators" := PovertyTable rows]> (db w)
    /\ rng_pos w' = (3 * length (filter eligible countries) + rng_pos w)%nat
    /\ console w'
       = (console w ++ ["Creating poverty data...";
                        poverty_closing (length rows)])%list
    /\ conn_open w' = true.
Proof.
  destruct (poverty_run countries w conn_is_open table_writable)
    as (rows & Hspec & Hrun).
  exists rows. eexists. split; [exact Hrun |]. split; [exact Hspec |].
  rewrite poverty_loaded_shape.
  destruct (table_loaded_parts PovertyTable "poverty_indicators"
              "Creating poverty data..." poverty_closing
              (poverty_total_draws countries) rows w) as (Hd & Hr & Hc & Ho).
  rewrite Ho. auto.
Qed.

(** C5. When the country codes are pairwise distinct, each of the three
    headcount rates of a country strictly decreases as the year
    increases. *)
Theorem load_poverty_data_decreasing :
  unique_codes countries ->
  exists rows,
    load_poverty_data countries w
    = (Ok tt, poverty_loaded (poverty_total_draws countries) rows w)
    /\ forall r1 r2, r1 ∈ rows -> r2 ∈ rows ->
         PovertyRow.country_code r1 = PovertyRow.country_code r2 ->
         (PovertyRow.year r1 < PovertyRow.year r2)%Z ->
         PovertyRow.poverty_headcount_215_pct r2
         < PovertyRow.poverty_headcount_215_pct r1
         /\ PovertyRow.poverty_headcount_365_pct r2
            < PovertyRow.poverty_headcount_365_pct r1
         /\ PovertyRow.poverty_headcount_685_pct r2
            < PovertyRow.poverty_headcount_685_pct r1.
Proof.
  intros Hu.
  destruct (poverty_run countries w conn_is_open table_writable)
    as (rows & Hspec & Hrun).
  exists rows. split; [exact Hrun |]. intros r1 r2 H1 H2 Hk Hy.
  destruct (poverty_table_pair _ _ _ _ Hu Hspec H1 H2 Hk)
    as (c & [[b1 b2] b3] & _ & Hok & E1 & E2).
  destruct (bases_ok_bounds _ _ _ _ Hok) as ((? & _) & (? & _) & (? & _)).
  rewrite E1, E2. cbn. repeat split; apply rate_decreases; assumption.
Qed.

(** C6. When the country codes are pairwise distinct, the table holds no
    row for a country that is not of low, lower middle or upper middle
    income: none for a high-income country, and none for a country of a
    group the script does not know. *)
Theorem load_poverty_data_eligible_only :
  unique_codes countries ->
  exists rows,
    load_poverty_data countries w
    = (Ok tt, poverty_loaded (poverty_total_draws countries) rows w)
    /\ forall c r, c ∈ countries -> ~ eligible c -> r ∈ rows ->
         PovertyRow.country_code r <> Country.country_code c.
Proof.
  intros Hu.
  destruct (poverty_run countries w conn_is_open table_writable)
    as (rows & Hspec & Hrun).
  exists rows. split; [exact Hrun |]. intros c r Hc Hne Hr Hcode.
  destruct (poverty_table_row _ _ _ Hspec Hr)
    as (c' & bases & year & Hc' & He & _ & _ & ->).
  rewrite poverty_row_code in Hcode.
  rewrite <- (NoDup_fmap_elem_of_eq _ _ _ _ Hu Hc' Hc Hcode) in Hne.
  exact (Hne He).
Qed.

(** The run writes five rows per eligible country. *)
Theorem load_poverty_data_row_count :
  exists rows,
    load_poverty_data countries w
    = (Ok tt, poverty_loaded (poverty_total_draws countries) rows w)
    /\ length rows = (5 * length (filter eligible countries))%nat.
Proof.
  destruct (poverty_run countries w conn_is_open table_writable)
    as (rows & Hspec & Hrun).
  exists rows. split; [exact Hrun | exact (poverty_table_length _ _ Hspec)].
Qed.

(** C38. Every headcount rate the run writes is a percentage: it lies
    between 0.85 and 95. *)
Theorem load_poverty_data_rate_bounds :
  exists rows,
    load_poverty_data countries w
    = (Ok tt, poverty_loaded (poverty_total_draws countries) rows w)
    /\ forall r, r ∈ rows ->
         (0.85 <= PovertyRow.poverty_headcount_215_pct r
          /\ PovertyRow.poverty_headcount_215_pct r <= 95)
         /\ (0.85 <= PovertyRow.poverty_headcount_365_pct r
             /\ PovertyRow.poverty_headcount_365_pct r <= 95)
         /\ (0.85 <= PovertyRow.poverty_headcount_685_pct r
             /\ PovertyRow.poverty_headcount_685_pct r <= 95).
Proof.
  destruct (poverty_run countries w conn_is_open table_writable)
    as (rows & Hspec & Hrun).
  exists rows. split; [exact Hrun |]. intros r Hr.
  destruct (poverty_table_row _ _ _ Hspec Hr)
    as (c & [[b1 b2] b3] & year & _ & _ & Hok & Hy & ->).
  destruct (bases_ok_bounds _ _ _ _ Hok) as (H1 & H2 & H3).
  cbn. repeat split; apply rate_bounds; assumption.
Qed.

(** When the country codes are pairwise distinct, no two rows of the
    table share the key (country_code, year). *)
Theorem load_poverty_data_keys_unique :
  unique_codes countries ->
  exists rows,
    load_poverty_data countries w
    = (Ok tt, poverty_loaded (poverty_total_draws countries) rows w)
    /\ NoDup (map poverty_key rows).
Proof.
  intros Hu.
  destruct (poverty_run countries w conn_is_open table_writable)
    as (rows & Hspec & Hrun).
  exists rows. split; [exact Hrun | exact (poverty_table_keys _ _ Hu Hspec)].
Qed.

End Run.

(** ** The other exits *)

Section Exits.
Context {RS : RandomSource} {ST : Storage}.

(** When the write to [poverty_indicators] fails, the run raises the
    database error after generating every row: all draws are consumed, the
    table keeps its earlier content and the closing line is not printed. *)
Theorem load_poverty_data_write_fails (countries : list Country.t) (w : World) :
  conn_open w = true -> write_ok "poverty_indicators" = false ->
  load_poverty_data countries w
  = (Raise (DatabaseError "poverty_indicators"),
     advance_rng_by (3 * length (filter eligible countries))
       (add_line "Creating poverty data..." w)).
Proof.
  intros Ho Hw.
  destruct (poverty_loop_run countries []
              (add_line "Creating poverty data..." w))
    as (rows & _ & Hrun).
  rewrite load_poverty_data_shape.
  apply (load_table_write_fails _ _ _ _ _ _ _ rows); assumption.
Qed.

(** On every catalog and whether or not the table can be written, a
    run consumes exactly three random draws per eligible country and none
    for any other: the loop over the survey years draws nothing. *)
Theorem load_poverty_data_draws (countries : list Country.t) (w : World) :
  rng_pos (run_state (load_poverty_data countries) w)
  = (3 * length (filter eligible countries) + rng_pos w)%nat.
Proof.
  destruct (poverty_loop_run countries []
              (add_line "Creating poverty data..." w))
    as (rows & _ & Hrun).
  rewrite load_poverty_data_shape,
    (load_table_rng_pos _ _ _ _ _ _ _ _ _ Hrun).
  reflexivity.
Qed.

End Exits.

(** ** The rates of a row need not increase with the poverty line *)


(** ** The theorems at concrete inputs

    The script's catalog has 22 eligible countries: a run draws 66 numbers
    and writes 110 rows. *)

Lemma load_poverty_data_writes_table_witness :
  exists rows w',
    load_poverty_data (RS := lcg_source) (ST := reliable_storage) catalog
      initial_world = (Ok tt, w')
    /\ poverty_table_spec catalog rows
    /\ db w' = <["poverty_indicators" := PovertyTable rows]> (db initial_world)
    /\ rng_pos w' = 66%nat
    /\ console w'
       = ["Creating poverty data..."; poverty_closing (length rows)]
    /\ conn_open w' = true.
Proof.
  apply (load_poverty_data_writes_table (RS := lcg_source)
           (ST := reliable_storage) catalog initial_world); reflexivity.
Defined.

Lemma load_poverty_data_decreasing_witness :
  exists rows,
    load_poverty_data (RS := lcg_source) (ST := reliable_storage) catalog
      initial_world = (Ok tt, poverty_loaded 66 rows initial_world)
    /\ forall r1 r2, r1 ∈ rows -> r2 ∈ rows ->
         PovertyRow.country_code r1 = PovertyRow.country_code r2 ->
         (PovertyRow.year r1 < PovertyRow.year r2)%Z ->
         PovertyRow.poverty_headcount_215_pct r2
         < PovertyRow.poverty_headcount_215_pct r1
         /\ PovertyRow.poverty_headcount_365_pct r2
            < PovertyRow.poverty_headcount_365_pct r1
         /\ PovertyRow.poverty_headcount_685_pct r2
            < PovertyRow.poverty_headcount_685_pct r1.
Proof.
  apply (load_poverty_data_decreasing (RS := lcg_source)
           (ST := reliable_storage) catalog initial_world);
    [reflexivity | reflexivity | by_decide].
Defined.

Lemma load_poverty_data_eligible_only_witness :
  exists rows,
    load_poverty_data (RS := lcg_source) (ST := reliable_storage) catalog
      initial_world = (Ok tt, poverty_loaded 66 rows initial_world)
    /\ forall c r, c ∈ catalog -> ~ eligible c -> r ∈ rows ->
         PovertyRow.country_code r <> Country.country_code c.
Proof.
  apply (load_poverty_data_eligible_only (RS := lcg_source)
           (ST := reliable_storage) catalog initial_world);
    [reflexivity | reflexivity | by_decide].
Defined.

Lemma load_poverty_data_row_count_witness :
  exists rows,
    load_poverty_data (RS := lcg_source) (ST := reliable_storage) catalog
      initial_world = (Ok tt, poverty_loaded 66 rows initial_world)
    /\ length rows = 110%nat.
Proof.
  apply (load_poverty_data_row_count (RS := lcg_source)
           (ST := reliable_storage) catalog initial_world); reflexivity.
Defined.

Lemma load_poverty_data_rate_bounds_witness :
  exists rows,
    load_poverty_data (RS := lcg_source) (ST := reliable_storage) catalog
      initial_world = (Ok tt, poverty_loaded 66 rows initial_world)
    /\ forall r, r ∈ rows ->
         (0.85 <= PovertyRow.poverty_headcount_215_pct r
          /\ PovertyRow.poverty_headcount_215_pct r <= 95)
         /\ (0.85 <= PovertyRow.poverty_headcount_365_pct r
             /\ PovertyRow.poverty_headcount_365_pct r <= 95)
         /\ (0.85 <= PovertyRow.poverty_headcount_685_pct r
             /\ PovertyRow.poverty_headcount_685_pct r <= 95).
Proof.
  apply (load_poverty_data_rate_bounds (RS := lcg_source)
           (ST := reliable_storage) catalog initial_world); reflexivity.
Defined.

Lemma load_poverty_data_keys_unique_witness :
  exists rows,
    load_poverty_data (RS := lcg_source) (ST := reliable_storage) catalog
      initial_world = (Ok tt, poverty_loaded 66 rows initial_world)
    /\ NoDup (map poverty_key rows).
Proof.
  apply (load_poverty_data_keys_unique (RS := lcg_source)
           (ST := reliable_storage) catalog initial_world);
    [reflexivity | reflexivity | by_decide].
Defined.

Lemma load_poverty_data_write_fails_witness :
  load_poverty_data (RS := lcg_source)
    (ST := failing_storage "poverty_indicators") catalog initial_world
  = (Raise (DatabaseError "poverty_indicators"),
     advance_rng_by 66 (add_line "Creating poverty data..." initial_world)).
Proof.
  apply (load_poverty_data_write_fails (RS := lcg_source)
           (ST := failing_storage "poverty_indicators") catalog
           initial_world); reflexivity.
Defined.
