(* ===== verification/TradeEdu.v ===== *)
(** * TradeEdu: the trade and education generator ([load_trade_education])

    For each country the script draws a base trade openness and, by income
    group, a base secondary enrollment, a base tertiary enrollment and a
    base education expenditure; the last branch of the if / elif chain
    takes low income and every group the script does not know.  For each
    year from 2015 to 2023 it adds 0.5 points per year to the secondary
    rate, capped at 105, and 0.3 points per year to the tertiary rate, and
    perturbs trade and expenditure by a fresh draw each.

    The two draws of a year are made while the dict literal is evaluated,
    in the order of its keys: the trade perturbation first, the expenditure
    perturbation second. *)

From Stdlib Require Import QArith Lqa ZArith List String.
From stdpp Require Import base tactics option list strings gmap pretty.
From S2P Require Import Prelude PyNum Effects Schema World Catalog.

Local Open Scope string_scope.
Local Open Scope Q_scope.
Local Open Scope py_scope.

(** ** The model *)

Section Model.
Context {RS : RandomSource} {ST : Storage}.

(** Education enrollment by income level: the if / elif chain. *)
Definition sample_education (income_group : string) : Py (Q * Q * Q) :=
  if String.eqb income_group "High income" then
    sec_enrollment <- random_uniform 95 105 ;;
    ter_enrollment <- random_uniform 60 90 ;;
    gov_edu_exp <- random_uniform 4 6 ;;
    ret (sec_enrollment, ter_enrollment, gov_edu_exp)
  else if String.eqb income_group "Upper middle income" then
    sec_enrollment <- random_uniform 75 95 ;;
    ter_enrollment <- random_uniform 30 60 ;;
    gov_edu_exp <- random_uniform 3.5 5.5 ;;
    ret (sec_enrollment, ter_enrollment, gov_edu_exp)
  else if String.eqb income_group "Lower middle income" then
    sec_enrollment <- random_uniform 50 80 ;;
    ter_enrollment <- random_uniform 15 40 ;;
    gov_edu_exp <- random_uniform 3 5 ;;
    ret (sec_enrollment, ter_enrollment, gov_edu_exp)
  else
    sec_enrollment <- random_uniform 30 60 ;;
    ter_enrollment <- random_uniform 5 20 ;;
    gov_edu_exp <- random_uniform 2 4 ;;
    ret (sec_enrollment, ter_enrollment, gov_edu_exp).

(** The body of the loop over the years. *)
Definition trade_education_year (country_code : string)
    (base_trade sec_enrollment ter_enrollment gov_edu_exp : Q) (year : Z)
    (data : list TradeEduRow.t) : Py (list TradeEduRow.t) :=
  let years_since_2015 := (year - 2015)%Z in
  let sec_improvement := sec_enrollment + inject_Z years_since_2015 * 0.5 in
  let ter_improvement := ter_enrollment + inject_Z years_since_2015 * 0.3 in
  trade_noise <- random_uniform (-10) 10 ;;
  gov_noise <- random_uniform (-0.5) 0.5 ;;
  ret (data ++ [TradeEduRow.mk country_code year
                  (py_round (base_trade + trade_noise) 2)
                  (py_round (py_min 105 sec_improvement) 2)
                  (py_round ter_improvement 2)
                  (py_round (gov_edu_exp + gov_noise) 2)])%list.

(** The body of the loop over the countries. *)
Definition trade_education_country (country : Country.t)
    (data : list TradeEduRow.t) : Py (list TradeEduRow.t) :=
  let country_code := Country.country_code country in
  let income_group := Country.income_group country in
  base_trade <- random_uniform 40 150 ;;
  education <- sample_education income_group ;;
  let '(sec_enrollment, ter_enrollment, gov_edu_exp) := education in
  for_acc (py_range 2015 2024)
    (trade_education_year country_code base_trade sec_enrollment
       ter_enrollment gov_edu_exp) data.

Definition load_trade_education (countries : list Country.t) : Py unit :=
  print "Creating trade and education data..." ;;
  data <- for_acc countries trade_education_country [] ;;
  to_sql "trade_education" (TradeEduTable data) ;;
  print ("✓ Loaded " +:+ pretty (length data) +:+ " trade/education records").

End Model.

(** ** The specification *)

(** The ranges of the base secondary enrollment, tertiary enrollment and
    education expenditure of an income group. *)
Definition education_ranges (income_group : string)
  : (Q * Q) * (Q * Q) * (Q * Q) :=
  if String.eqb income_group "High income" then ((95, 105), (60, 90), (4, 6))
  else if String.eqb income_group "Upper middle income" then
    ((75, 95), (30, 60), (3.5, 5.5))
  else if String.eqb income_group "Lower middle income" then
    ((50, 80), (15, 40), (3, 5))
  else ((30, 60), (5, 20), (2, 4)).

(** The base values of a country: trade, secondary, tertiary,
    expenditure. *)
Record Bases : Type := mkBases {
  b_trade : Q;
  b_secondary : Q;
  b_tertiary : Q;
  b_expenditure : Q;
}.

(** Base values within the ranges of an income group. *)
Definition bases_in_range (income_group : string) (b : Bases) : Prop :=
  let '(r_sec, r_ter, r_gov) := education_ranges income_group in
  (40 <= b_trade b /\ b_trade b <= 150)
  /\ (fst r_sec <= b_secondary b /\ b_secondary b <= snd r_sec)
  /\ (fst r_ter <= b_tertiary b /\ b_tertiary b <= snd r_ter)
  /\ (fst r_gov <= b_expenditure b /\ b_expenditure b <= snd r_gov).

(** The secondary and tertiary rates of a year, which no draw enters. *)
Definition secondary_rate (b : Bases) (year : Z) : Q :=
  py_round (py_min 105 (b_secondary b + inject_Z (year - 2015) * 0.5)) 2.

Definition tertiary_rate (b : Bases) (year : Z) : Q :=
  py_round (b_tertiary b + inject_Z (year - 2015) * 0.3) 2.

(** The row of [year] for country [c] with base values [b]. *)
Definition trade_education_row_spec (c : Country.t) (b : Bases) (year : Z)
    (r : TradeEduRow.t) : Prop :=
  TradeEduRow.country_code r = Country.country_code c
  /\ TradeEduRow.year r = year
  /\ TradeEduRow.secondary_enrollment_rate r = secondary_rate b year
  /\ TradeEduRow.tertiary_enrollment_rate r = tertiary_rate b year
  /\ exists trade_noise gov_noise,
       (-10 <= trade_noise /\ trade_noise <= 10)
       /\ (-0.5 <= gov_noise /\ gov_noise <= 0.5)
       /\ TradeEduRow.trade_pct_gdp r = py_round (b_trade b + trade_noise) 2
       /\ TradeEduRow.government_expenditure_education_pct r
          = py_round (b_expenditure b + gov_noise) 2.

(** The nine rows of a country: base values in the ranges of the income
    group, one row per year in increasing order. *)
Definition trade_education_block_spec (c : Country.t)
    (rows : list TradeEduRow.t) : Prop :=
  exists b,
    bases_in_range (Country.income_group c) b
    /\ Forall2 (trade_education_row_spec c b) (py_range 2015 2024) rows.

(** The table: the blocks of the countries in catalog order. *)
Definition trade_education_table_spec (countries : list Country.t)
    (rows : list TradeEduRow.t) : Prop :=
  blocks_table trade_education_block_spec countries rows.

(** The row of one year, as the block the loop over the years appends. *)
Definition trade_education_year_block (c : Country.t) (b : Bases) (year : Z)
    (out : list TradeEduRow.t) : Prop :=
  exists r, out = [r] /\ trade_education_row_spec c b year r.

(** The key of a row of the table. *)
Definition trade_education_key (r : TradeEduRow.t) : string * Z :=
  (TradeEduRow.country_code r, TradeEduRow.year r).

(** The line printed after the write, for a table of [n] rows. *)
Definition trade_education_closing (n : nat) : string :=
  "✓ Loaded " +:+ pretty n +:+ " trade/education records".

(** The state [load_trade_education] ends in when nothing fails: 22 draws
    per country, the table replaced, two lines printed. *)
Definition trade_education_loaded (n : nat) (rows : list TradeEduRow.t)
    (w : World) : World :=
  add_line ("✓ Loaded " +:+ pretty (length rows)
            +:+ " trade/education records")
    (set_table "trade_education" (TradeEduTable rows)
       (advance_rng_by (22 * n)
          (add_line "Creating trade and education data..." w))).

(** A catalog entry of an income group the script does not know. *)
Definition hyperborea : Country.t :=
  Country.mk "HYP" "Hyperborea" "Europe & Central Asia" "Unclassified" None.

(** A stream under which the cap of the secondary rate is reached: the
    first country, of high income, draws a base secondary enrollment of
    104.99. *)
Definition capped_stream : list Z := [0; 999]%Z.

(** ** The ranges *)

(** Whatever the group, the base values lie in these intervals. *)
Lemma bases_in_range_bounds (g : string) (b : Bases) :
  bases_in_range g b ->
  (40 <= b_trade b /\ b_trade b <= 150)
  /\ (30 <= b_secondary b /\ b_secondary b <= 105)
  /\ (5 <= b_tertiary b /\ b_tertiary b <= 90)
  /\ (2 <= b_expenditure b /\ b_expenditure b <= 6).
Proof.
  unfold bases_in_range, education_ranges.
  repeat destruct (String.eqb _ _); cbn; intros H; repeat split; lra.
Qed.

(** A group that is none of the three named in the chain gets the ranges
    of low income. *)
Lemma education_ranges_else (g : string) :
  g ∉ ["High income"; "Upper middle income"; "Lower middle income"] ->
  education_ranges g = ((30, 60), (5, 20), (2, 4)).
Proof.
  rewrite !not_elem_of_cons. intros (H1 & H2 & H3 & _).
  unfold education_ranges.
  rewrite !(proj2 (String.eqb_neq _ _)) by assumption. reflexivity.
Qed.

(** The years of the loop. *)
Lemma year_offset_bounds (year : Z) :
  year ∈ py_range 2015 2024 ->
  0 <= inject_Z (year - 2015) /\ inject_Z (year - 2015) <= 8.
Proof.
  intros [H1 H2]%py_range_elem_of.
  split; [change 0 with (inject_Z 0) | change 8 with (inject_Z 8)];
    apply inject_Z_le; lia.
Qed.

(** ** The model meets the specification *)

Section Refinement.
Context {RS : RandomSource} {ST : Storage}.

(** The chain draws three base values within the ranges of the group. *)
Lemma sample_education_spec (g : string) (w : World) :
  wp (sample_education g)
     (returns (fun e w' =>
        (forall base_trade, 40 <= base_trade /\ base_trade <= 150 ->
           bases_in_range g (mkBases base_trade e.1.1 e.1.2 e.2))
        /\ w' = advance_rng_by 3 w)) w.
Proof.
  unfold sample_education, bases_in_range, education_ranges.
  repeat destruct (String.eqb _ _);
    (apply wp_bind, wp_random_uniform; [lra |]; intros b1 H1; cbn beta iota;
     apply wp_bind, wp_random_uniform; [lra |]; intros b2 H2; cbn beta iota;
     apply wp_bind, wp_random_uniform; [lra |]; intros b3 H3; cbn beta iota;
     apply wp_ret; cbn; split; [tauto | rng_eq]).
Qed.

(** One iteration of the loop over the years appends the row of the year
    and makes two draws. *)
Lemma trade_education_year_spec (c : Country.t) (b : Bases) (year : Z) :
  appends_block
    (trade_education_year (Country.country_code c) (b_trade b)
       (b_secondary b) (b_tertiary b) (b_expenditure b))
    (trade_education_year_block c b) (fun _ => 2%nat) year.
Proof.
  intros data w. unfold trade_education_year, trade_education_year_block.
  cbv zeta.
  apply wp_bind, wp_random_uniform; [lra |]. intros tn Ht. cbn beta iota.
  apply wp_bind, wp_random_uniform; [lra |]. intros gn Hg. cbn beta iota.
  apply wp_ret. cbn. eexists. split; [reflexivity |]. split; [| rng_eq].
  eexists. split; [reflexivity |]. repeat (split; [reflexivity |]).
  exists tn, gn. cbn. auto.
Qed.

(** One iteration of the loop over the countries appends the block of the
    country and makes 22 draws, whatever the income group. *)
Lemma trade_education_country_spec (c : Country.t) :
  appends_block trade_education_country trade_education_block_spec
    (fun _ => 22%nat) c.
Proof.
  intros data w. unfold trade_education_country.
  apply wp_bind, wp_random_uniform; [lra |]. intros bt Hbt. cbn beta iota.
  eapply wp_bind_returns; [apply sample_education_spec |].
  intros [[s t] x] w' [Hb ->]. specialize (Hb bt Hbt). cbn in Hb.
  destruct (for_acc_blocks_run _ _ _ (py_range 2015 2024) data
              (advance_rng_by 3 (advance_rng w))
              (fun year _ =>
                 trade_education_year_spec c (mkBases bt s t x) year))
    as (rows & (outs & -> & Hrows) & Hrun).
  cbn [b_trade b_secondary b_tertiary b_expenditure] in Hrun.
  apply (wp_run _ _ _ _ _ Hrun). cbn. eexists. split; [reflexivity |].
  split; [| rng_eq]. exists (mkBases bt s t x). split; [exact Hb |].
  apply Forall2_concat_singletons, Hrows.
Qed.

(** [load_trade_education] is an instance of the shape the generators
    share. *)
Lemma load_trade_education_shape (countries : list Country.t) :
  load_trade_education countries
  = load_table trade_education_country TradeEduTable "trade_education"
      "Creating trade and education data..." trade_education_closing
      countries.
Proof. reflexivity. Qed.

Lemma trade_education_loaded_shape (n : nat) (rows : list TradeEduRow.t) w :
  trade_education_loaded n rows w
  = table_loaded TradeEduTable "trade_education"
      "Creating trade and education data..." trade_education_closing
      (22 * n) rows w.
Proof. reflexivity. Qed.

(** The loop over the countries, on any catalog: it cannot raise. *)
Lemma trade_education_loop_run (countries : list Country.t) data w :
  exists rows,
    trade_education_table_spec countries rows
    /\ for_acc countries trade_education_country data w
       = (Ok (data ++ rows)%list, advance_rng_by (22 * length countries) w).
Proof.
  destruct (for_acc_blocks_run trade_education_country
              trade_education_block_spec (fun _ => 22%nat) countries data w
              (fun c _ => trade_education_country_spec c))
    as (rows & Hspec & Hrun).
  exists rows. split; [exact Hspec |]. rewrite Hrun, list_sum_const.
  reflexivity.
Qed.

(** A run over an open connection to a writable table ends normally in
    [trade_education_loaded] for a table that satisfies the
    specification. *)
Lemma trade_education_run (countries : list Country.t) (w : World) :
  conn_open w = true -> write_ok "trade_education" = true ->
  exists rows,
    trade_education_table_spec countries rows
    /\ load_trade_education countries w
       = (Ok tt, trade_education_loaded (length countries) rows w).
Proof.
  intros Ho Hw.
  destruct (trade_education_loop_run countries []
              (add_line "Creating trade and education data..." w))
    as (rows & Hspec & Hrun).
  exists rows. split; [exact Hspec |].
  rewrite load_trade_education_shape, trade_education_loaded_shape.
  apply load_table_ok; assumption.
Qed.

(** Both outcomes of a run on an open connection: the rows are generated,
    then the write decides. *)
Lemma trade_education_outcome (countries : list Country.t) (w : World) :
  conn_open w = true ->
  exists rows,
    trade_education_table_spec countries rows
    /\ load_trade_education countries w
       = if write_ok "trade_education"
         then (Ok tt, trade_education_loaded (length countries) rows w)
         else (Raise (DatabaseError "trade_education"),
               advance_rng_by (22 * length countries)
                 (add_line "Creating trade and education data..." w)).
Proof.
  intros Ho.
  destruct (trade_education_loop_run countries []
              (add_line "Creating trade and education data..." w))
    as (rows & Hspec & Hrun).
  exists rows. split; [exact Hspec |].
  rewrite load_trade_education_shape, trade_education_loaded_shape.
  apply load_table_outcome; assumption.
Qed.

End Refinement.

(** ** The contract

    [load_trade_education] is a loader of [trade_education]: it accepts
    every catalog, generates tables that satisfy
    [trade_education_table_spec] and makes 22 draws per country. *)

Definition trade_education_contract : Contract Country.t TradeEduRow.t :=
  {| c_table := "trade_education";
     c_mk := TradeEduTable;
     c_line := "Creating trade and education data...";
     c_closing := trade_education_closing;
     c_accepts := fun _ => True;
     c_rows := trade_education_table_spec;
     c_draws := fun countries => (22 * length countries)%nat |}.

#[export] Instance trade_education_loader `{RS : RandomSource}
    `{ST : Storage} :
  Loader trade_education_contract load_trade_education.
Proof.
  intros countries w _ Ho.
  destruct (trade_education_outcome countries w Ho) as (rows & Hspec & E).
  exists rows. split; [exact Hspec |].
  rewrite trade_education_loaded_shape in E. exact E.
Qed.

(** ** The enrollment rates *)

(** The cap: whatever the base and the year, the secondary rate is at
    most 105. *)
Lemma secondary_rate_cap (b : Bases) (year : Z) : secondary_rate b year <= 105.
Proof.
  unfold secondary_rate.
  apply Qle_trans with (py_round 105 2); [| apply Qle_lteq; right; reflexivity].
  apply py_round_mono. apply py_min_spec.
Qed.

(** From a base of at least [lo], in a year of the loop, the secondary
    rate is at least [lo]. *)
Lemma secondary_rate_floor (lo : Q) (b : Bases) (year : Z) :
  on_grid 2 lo -> lo <= 105 -> lo <= b_secondary b ->
  year ∈ py_range 2015 2024 -> lo <= secondary_rate b year.
Proof.
  unfold on_grid. intros Hg H105 Hlo [Hy _]%year_offset_bounds.
  unfold secondary_rate.
  apply Qle_trans with (py_round lo 2); [rewrite Hg; lra |].
  apply py_round_mono.
  destruct (py_min_spec 105 (b_secondary b + inject_Z (year - 2015) * 0.5))
    as (_ & _ & [-> | ->]); lra.
Qed.

(** The secondary rate does not decrease over the years. *)
Lemma secondary_rate_mono (b : Bases) (y1 y2 : Z) :
  (y1 <= y2)%Z -> secondary_rate b y1 <= secondary_rate b y2.
Proof.
  intros H. unfold secondary_rate. apply py_round_mono.
  assert (inject_Z (y1 - 2015) <= inject_Z (y2 - 2015)) as Hq
    by (apply inject_Z_le; lia).
  unfold py_min. repeat destruct (Qlt_le_dec _ _); lra.
Qed.

(** The tertiary rate strictly increases over the years: 0.3 points a year
    is more than one unit of the second decimal. *)
Lemma tertiary_rate_increases (b : Bases) (y1 y2 : Z) :
  (y1 < y2)%Z -> tertiary_rate b y1 < tertiary_rate b y2.
Proof.
  intros H. unfold tertiary_rate. apply py_round_gap.
  assert (inject_Z (y1 - 2015) + 1 <= inject_Z (y2 - 2015)) as Hq.
  { rewrite <- inject_Z_succ. apply inject_Z_le. lia. }
  change (pow10 2) with 100. lra.
Qed.

(** From a base in [[lo, hi]], in a year of the loop, the tertiary rate is
    in [[lo, hi + 2.4]]. *)
Lemma tertiary_rate_bounds (lo hi : Q) (b : Bases) (year : Z) :
  on_grid 2 lo -> on_grid 2 (hi + 2.4) ->
  lo <= b_tertiary b /\ b_tertiary b <= hi ->
  year ∈ py_range 2015 2024 ->
  lo <= tertiary_rate b year /\ tertiary_rate b year <= hi + 2.4.
Proof.
  intros Hlo Hhi Hb Hy%year_offset_bounds. unfold tertiary_rate.
  apply py_round_between; [exact Hlo | exact Hhi | lra].
Qed.

(** ** Properties of a table that satisfies the specification *)

Lemma trade_education_block_length c rows :
  trade_education_block_spec c rows -> length rows = 9%nat.
Proof.
  intros (b & _ & H). apply Forall2_length in H. rewrite <- H. reflexivity.
Qed.

(** A row of a block is the row of one of the years. *)
Lemma trade_education_block_row c rows r :
  trade_education_block_spec c rows -> r ∈ rows ->
  exists b year,
    bases_in_range (Country.income_group c) b
    /\ year ∈ py_range 2015 2024 /\ trade_education_row_spec c b year r.
Proof.
  intros (b & Hb & Hrows) Hr.
  destruct (Forall2_elem_of_r _ _ _ _ Hrows Hr) as (year & Hy & Hrow).
  exists b, year. auto.
Qed.

Lemma trade_education_block_code c rows r :
  trade_education_block_spec c rows -> r ∈ rows ->
  TradeEduRow.country_code r = Country.country_code c.
Proof.
  intros Hb Hr.
  destruct (trade_education_block_row _ _ _ Hb Hr) as (? & ? & _ & _ & H).
  apply H.
Qed.

(** A row of the table is the row of some year of some country. *)
Lemma trade_education_table_row countries rows r :
  trade_education_table_spec countries rows -> r ∈ rows ->
  exists c b year,
    c ∈ countries /\ bases_in_range (Country.income_group c) b
    /\ year ∈ py_range 2015 2024 /\ trade_education_row_spec c b year r.
Proof.
  intros Hspec Hr.
  destruct (blocks_table_elem_of _ _ _ _ Hspec Hr) as (c & rs & Hc & Hb & Hrb).
  destruct (trade_education_block_row _ _ _ Hb Hrb) as (b & year & H).
  exists c, b, year. tauto.
Qed.

(** Two rows of one country come from the same base values. *)
Lemma trade_education_table_pair countries rows r1 r2 :
  unique_codes countries -> trade_education_table_spec countries rows ->
  r1 ∈ rows -> r2 ∈ rows ->
  TradeEduRow.country_code r1 = TradeEduRow.country_code r2 ->
  exists c b,
    c ∈ countries /\ bases_in_range (Country.income_group c) b
    /\ trade_education_row_spec c b (TradeEduRow.year r1) r1
    /\ trade_education_row_spec c b (TradeEduRow.year r2) r2.
Proof.
  intros Hu Hspec H1 H2 Hk.
  destruct (blocks_table_same_block trade_education_block_spec
              Country.country_code TradeEduRow.country_code
              trade_education_block_code countries rows r1 r2
              Hu Hspec H1 H2 Hk) as (c & rs & Hc & (b & Hb & Hrows) & Hb1 & Hb2).
  destruct (Forall2_elem_of_r _ _ _ _ Hrows Hb1) as (y1 & _ & Hr1).
  destruct (Forall2_elem_of_r _ _ _ _ Hrows Hb2) as (y2 & _ & Hr2).
  exists c, b. split; [exact Hc |]. split; [exact Hb |].
  rewrite (proj1 (proj2 Hr1)), (proj1 (proj2 Hr2)). auto.
Qed.

(** The four columns of a row, whatever the income group. *)
Lemma trade_education_row_ranges c b year r :
  bases_in_range (Country.income_group c) b -> year ∈ py_range 2015 2024 ->
  trade_education_row_spec c b year r ->
  (30 <= TradeEduRow.trade_pct_gdp r /\ TradeEduRow.trade_pct_gdp r <= 160)
  /\ (30 <= TradeEduRow.secondary_enrollment_rate r
      /\ TradeEduRow.secondary_enrollment_rate r <= 105)
  /\ (5 <= TradeEduRow.tertiary_enrollment_rate r
      /\ TradeEduRow.tertiary_enrollment_rate r <= 92.4)
  /\ (1.5 <= TradeEduRow.government_expenditure_education_pct r
      /\ TradeEduRow.government_expenditure_education_pct r <= 6.5).
Proof.
  intros (Ht & Hs & Hte & Hg)%bases_in_range_bounds Hy
    (_ & _ & -> & -> & tn & gn & Htn & Hgn & -> & ->).
  split; [apply py_round_between; [reflexivity | reflexivity | lra] |].
  split; [split; [apply secondary_rate_floor; (reflexivity || tauto || lra)
                 | apply secondary_rate_cap] |].
  split; [apply (tertiary_rate_bounds 5 90); (reflexivity || assumption) |].
  apply py_round_between; [reflexivity | reflexivity | lra].
Qed.

(** Inside a block the years are pairwise distinct. *)
Lemma trade_education_block_keys c rows :
  trade_education_block_spec c rows -> NoDup (map trade_education_key rows).
Proof.
  intros (b & _ & Hrows). apply (NoDup_fmap_1 snd).
  enough (snd <$> map trade_education_key rows = py_range 2015 2024) as ->
    by apply py_range_NoDup.
  induction Hrows as [|y r ys rs (_ & Hy & _) _ IH]; [reflexivity |].
  cbn. rewrite Hy. f_equal. exact IH.
Qed.

Lemma trade_education_table_keys countries rows :
  unique_codes countries -> trade_education_table_spec countries rows ->
  NoDup (map trade_education_key rows).
Proof.
  intros Hu Hspec.
  apply (blocks_table_NoDup trade_education_block_spec Country.country_code
           TradeEduRow.country_code trade_education_block_code
           trade_education_key countries rows); [| | exact Hu | exact Hspec].
  - intros r1 r2 [= H _]. exact H.
  - intros c b. apply trade_education_block_keys.
Qed.

(** ** What a run of [load_trade_education] guarantees

    The theorems of this section are about one run: from a state [w] with
    an open connection, on a storage that accepts writes to
    [trade_education], over any catalog. *)

Section Run.
Context {RS : RandomSource} {ST : Storage}.
Context (countries : list Country.t) (w : World).
Hypothesis conn_is_open : conn_open w = true.
Hypothesis table_writable : write_ok "trade_education" = true.

(** C32. Whatever the income groups of the catalog, the run returns
    normally; it replaces the table [trade_education] by rows that satisfy
    [trade_education_table_spec] (one block of nine yearly rows per
    country, in catalog order, each block built from one set of base
    values in the ranges of the income group), consumes 22 random draws
    per country, prints its two lines and leaves every other table and the
    connection as they were. *)
Theorem load_trade_education_writes_table :
  exists rows w',
    load_trade_education countries w = (Ok tt, w')
    /\ trade_education_table_spec countries rows
    /\ db w' = <["trade_education" := TradeEduTable rows]> (db w)
    /\ rng_pos w' = (22 * length countries + rng_pos w)%nat
    /\ console w'
       = (console w ++ ["Creating trade and education data...";
                        trade_education_closing (length rows)])%list
    /\ conn_open w' = true.
Proof.
  destruct (trade_education_run countries w conn_is_open table_writable)
    as (rows & Hspec & Hrun).
  exists rows. eexists. split; [exact Hrun |]. split; [exact Hspec |].
  rewrite trade_education_loaded_shape.
  destruct (table_loaded_parts TradeEduTable "trade_education"
              "Creating trade and education data..." trade_education_closing
              (22 * length countries) rows w) as (Hd & Hr & Hc & Ho).
  rewrite Ho. auto.
Qed.

(** C7. Every row the run writes has a secondary enrollment rate of at
    most 105. *)
Theorem load_trade_education_secondary_cap :
  exists rows,
    load_trade_education countries w
    = (Ok tt, trade_education_loaded (length countries) rows w)
    /\ forall r, r ∈ rows -> TradeEduRow.secondary_enrollment_rate r <= 105.
Proof.
  destruct (trade_education_run countries w conn_is_open table_writable)
    as (rows & Hspec & Hrun).
  exists rows. split; [exact Hrun |]. intros r Hr.
  destruct (trade_education_table_row _ _ _ Hspec Hr)
    as (c & b & year & _ & _ & _ & _ & _ & -> & _).
  apply secondary_rate_cap.
Qed.

(** The run writes nine rows per country. *)
Theorem load_trade_education_row_count :
  exists rows,
    load_trade_education countries w
    = (Ok tt, trade_education_loaded (length countries) rows w)
    /\ length rows = (9 * length countries)%nat.
Proof.
  destruct (trade_education_run countries w conn_is_open table_writable)
    as (rows & Hspec & Hrun).
  exists rows. split; [exact Hrun |].
  apply (blocks_table_length trade_education_block_spec 9 countries rows);
    [exact trade_education_block_length | exact Hspec].
Qed.

(** In every row, trade lies between 30 and 160 per cent of GDP, the
    secondary rate between 30 and 105, the tertiary rate between 5 and
    92.4 and the education expenditure between 1.5 and 6.5. *)
Theorem load_trade_education_ranges :
  exists rows,
    load_trade_education countries w
    = (Ok tt, trade_education_loaded (length countries) rows w)
    /\ forall r, r ∈ rows ->
         (30 <= TradeEduRow.trade_pct_gdp r
          /\ TradeEduRow.trade_pct_gdp r <= 160)
         /\ (30 <= TradeEduRow.secondary_enrollment_rate r
             /\ TradeEduRow.secondary_enrollment_rate r <= 105)
         /\ (5 <= TradeEduRow.tertiary_enrollment_rate r
             /\ TradeEduRow.tertiary_enrollment_rate r <= 92.4)
         /\ (1.5 <= TradeEduRow.government_expenditure_education_pct r
             /\ TradeEduRow.government_expenditure_education_pct r <= 6.5).
Proof.
  destruct (trade_education_run countries w conn_is_open table_writable)
    as (rows & Hspec & Hrun).
  exists rows. split; [exact Hrun |]. intros r Hr.
  destruct (trade_education_table_row _ _ _ Hspec Hr)
    as (c & b & year & _ & Hb & Hy & Hrow).
  exact (trade_education_row_ranges c b year r Hb Hy Hrow).
Qed.

(** When the country codes are pairwise distinct, the enrollment
    rates of a country improve over the years: the secondary rate never
    decreases and the tertiary rate strictly increases. *)
Theorem load_trade_education_enrollment_trend :
  unique_codes countries ->
  exists rows,
    load_trade_education countries w
    = (Ok tt, trade_education_loaded (length countries) rows w)
    /\ forall r1 r2, r1 ∈ rows -> r2 ∈ rows ->
         TradeEduRow.country_code r1 = TradeEduRow.country_code r2 ->
         (TradeEduRow.year r1 < TradeEduRow.year r2)%Z ->
         TradeEduRow.secondary_enrollment_rate r1
         <= TradeEduRow.secondary_enrollment_rate r2
         /\ TradeEduRow.tertiary_enrollment_rate r1
            < TradeEduRow.tertiary_enrollment_rate r2.
Proof.
  intros Hu.
  destruct (trade_education_run countries w conn_is_open table_writable)
    as (rows & Hspec & Hrun).
  exists rows. split; [exact Hrun |]. intros r1 r2 H1 H2 Hk Hy.
  destruct (trade_education_table_pair _ _ _ _ Hu Hspec H1 H2 Hk)
    as (c & b & _ & _ & (_ & _ & -> & -> & _) & (_ & _ & -> & -> & _)).
  split; [apply secondary_rate_mono; lia | apply tertiary_rate_increases, Hy].
Qed.

(** A country whose income group is none of high, upper middle and
    lower middle income, whether low income or a group the script does not
    know, gets the enrollment ranges of low income: with pairwise distinct
    country codes, its secondary rate is at most 64 and its tertiary rate
    at most 22.4. *)
Theorem load_trade_education_else_branch :
  unique_codes countries ->
  exists rows,
    load_trade_education countries w
    = (Ok tt, trade_education_loaded (length countries) rows w)
    /\ forall c r, c ∈ countries ->
         Country.income_group c
           ∉ ["High income"; "Upper middle income"; "Lower middle income"] ->
         r ∈ rows -> TradeEduRow.country_code r = Country.country_code c ->
         TradeEduRow.secondary_enrollment_rate r <= 64
         /\ TradeEduRow.tertiary_enrollment_rate r <= 22.4.
Proof.
  intros Hu.
  destruct (trade_education_run countries w conn_is_open table_writable)
    as (rows & Hspec & Hrun).
  exists rows. split; [exact Hrun |]. intros c r Hc Hg Hr Hcode.
  destruct (trade_education_table_row _ _ _ Hspec Hr)
    as (c' & b & year & Hc' & Hb & Hy & Hrow).
  rewrite (proj1 Hrow) in Hcode.
  rewrite (NoDup_fmap_elem_of_eq _ _ _ _ Hu Hc' Hc Hcode) in Hb.
  unfold bases_in_range in Hb. rewrite (education_ranges_else _ Hg) in Hb.
  destruct Hrow as (_ & _ & -> & -> & _). cbn in Hb.
  split; [| apply (tertiary_rate_bounds 5 20); (reflexivity || tauto)].
  pose proof (year_offset_bounds _ Hy) as Ho. unfold secondary_rate.
  apply (py_round_between 0 64); [reflexivity | reflexivity |].
  destruct (py_min_spec 105 (b_secondary b + inject_Z (year - 2015) * 0.5))
    as (_ & Hle & [E | E]); lra.
Qed.

(** When the country codes are pairwise distinct, no two rows of the
    table share the key (country_code, year). *)
Theorem load_trade_education_keys_unique :
  unique_codes countries ->
  exists rows,
    load_trade_education countries w
    = (Ok tt, trade_education_loaded (length countries) rows w)
    /\ NoDup (map trade_education_key rows).
Proof.
  intros Hu.
  destruct (trade_education_run countries w conn_is_open table_writable)
    as (rows & Hspec & Hrun).
  exists rows.
  split; [exact Hrun | exact (trade_education_table_keys _ _ Hu Hspec)].
Qed.

End Run.

(** ** The other exits *)

Section Exits.
Context {RS : RandomSource} {ST : Storage}.

(** When the write to [trade_education] fails, the run raises the
    database error after generating every row: all draws are consumed, the
    table keeps its earlier content and the closing line is not printed. *)
Theorem load_trade_education_write_fails (countries : list Country.t)
    (w : World) :
  conn_open w = true -> write_ok "trade_education" = false ->
  load_trade_education countries w
  = (Raise (DatabaseError "trade_education"),
     advance_rng_by (22 * length countries)
       (add_line "Creating trade and education data..." w)).
Proof.
  intros Ho Hw.
  destruct (trade_education_loop_run countries []
              (add_line "Creating trade and education data..." w))
    as (rows & _ & Hrun).
  rewrite load_trade_education_shape.
  apply (load_table_write_fails _ _ _ _ _ _ _ rows); assumption.
Qed.

(** On every catalog and whether or not the table can be written, a
    run consumes exactly 22 random draws per country: four for the base
    values and two in each of the nine years. *)
Theorem load_trade_education_draws (countries : list Country.t) (w : World) :
  rng_pos (run_state (load_trade_education countries) w)
  = (22 * length countries + rng_pos w)%nat.
Proof.
  destruct (trade_education_loop_run countries []
              (add_line "Creating trade and education data..." w))
    as (rows & _ & Hrun).
  rewrite load_trade_education_shape,
    (load_table_rng_pos _ _ _ _ _ _ _ _ _ Hrun).
  reflexivity.
Qed.

End Exits.

(** ** The cap of the secondary rate is reached *)

(** Unlike the clamp of the Gini coefficient, the cap at 105 changes
    values: under [capped_stream] the first country, of high income, has a
    base secondary enrollment of 104.99, which its 2015 row stores, and its
    2016 row stores 105 where the uncapped rate would be 105.49. *)
Theorem load_trade_education_cap_reached :
  exists r1 r2 rest,
    db (run_state (load_trade_education (RS := replay_source capped_stream)
                     (ST := reliable_storage) (take 1 catalog))
          initial_world) !! "trade_education"
    = Some (TradeEduTable (r1 :: r2 :: rest))
    /\ TradeEduRow.year r1 = 2015%Z /\ TradeEduRow.year r2 = 2016%Z
    /\ TradeEduRow.secondary_enrollment_rate r1 == 104.99
    /\ TradeEduRow.secondary_enrollment_rate r2 == 105
    /\ TradeEduRow.secondary_enrollment_rate r2
       < py_round (TradeEduRow.secondary_enrollment_rate r1 + 0.5) 2.
Proof.
  do 3 eexists. split; [vm_compute; reflexivity |].
  vm_compute. repeat split; reflexivity.
Qed.

(** ** The theorems at concrete inputs

    The script's catalog with one entry of an unknown income group added,
    the linear congruential stream and the initial state satisfy the
    hypotheses of every theorem above. *)

Lemma load_trade_education_writes_table_witness :
  exists rows w',
    load_trade_education (RS := lcg_source) (ST := reliable_storage) catalog
      initial_world = (Ok tt, w')
    /\ trade_education_table_spec catalog rows
    /\ db w' = <["trade_education" := TradeEduTable rows]> (db initial_world)
    /\ rng_pos w' = 1056%nat
    /\ console w'
       = ["Creating trade and education data...";
          trade_education_closing (length rows)]
    /\ conn_open w' = true.
Proof.
  apply (load_trade_education_writes_table (RS := lcg_source)
           (ST := reliable_storage) catalog initial_world); reflexivity.
Defined.

Lemma load_trade_education_secondary_cap_witness :
  exists rows,
    load_trade_education (RS := lcg_source) (ST := reliable_storage) catalog
      initial_world = (Ok tt, trade_education_loaded 48 rows initial_world)
    /\ forall r, r ∈ rows -> TradeEduRow.secondary_enrollment_rate r <= 105.
Proof.
  apply (load_trade_education_secondary_cap (RS := lcg_source)
           (ST := reliable_storage) catalog initial_world); reflexivity.
Defined.

Lemma load_trade_education_row_count_witness :
  exists rows,
    load_trade_education (RS := lcg_source) (ST := reliable_storage) catalog
      initial_world = (Ok tt, trade_education_loaded 48 rows initial_world)
    /\ length rows = 432%nat.
Proof.
  apply (load_trade_education_row_count (RS := lcg_source)
           (ST := reliable_storage) catalog initial_world); reflexivity.
Defined.

Lemma load_trade_education_ranges_witness :
  exists rows,
    load_trade_education (RS := lcg_source) (ST := reliable_storage) catalog
      initial_world = (Ok tt, trade_education_loaded 48 rows initial_world)
    /\ forall r, r ∈ rows ->
         (30 <= TradeEduRow.trade_pct_gdp r
          /\ TradeEduRow.trade_pct_gdp r <= 160)
         /\ (30 <= TradeEduRow.secondary_enrollment_rate r
             /\ TradeEduRow.secondary_enrollment_rate r <= 105)
         /\ (5 <= TradeEduRow.tertiary_enrollment_rate r
             /\ TradeEduRow.tertiary_enrollment_rate r <= 92.4)
         /\ (1.5 <= TradeEduRow.government_expenditure_education_pct r
             /\ TradeEduRow.government_expenditure_education_pct r <= 6.5).
Proof.
  apply (load_trade_education_ranges (RS := lcg_source)
           (ST := reliable_storage) catalog initial_world); reflexivity.
Defined.

Lemma load_trade_education_enrollment_trend_witness :
  exists rows,
    load_trade_education (RS := lcg_source) (ST := reliable_storage) catalog
      initial_world = (Ok tt, trade_education_loaded 48 rows initial_world)
    /\ forall r1 r2, r1 ∈ rows -> r2 ∈ rows ->
         TradeEduRow.country_code r1 = TradeEduRow.country_code r2 ->
         (TradeEduRow.year r1 < TradeEduRow.year r2)%Z ->
         TradeEduRow.secondary_enrollment_rate r1
         <= TradeEduRow.secondary_enrollment_rate r2
         /\ TradeEduRow.tertiary_enrollment_rate r1
            < TradeEduRow.tertiary_enrollment_rate r2.
Proof.
  apply (load_trade_education_enrollment_trend (RS := lcg_source)
           (ST := reliable_storage) catalog initial_world);
    [reflexivity | reflexivity | by_decide].
Defined.

Lemma load_trade_education_else_branch_witness :
  exists rows,
    load_trade_education (RS := lcg_source) (ST := reliable_storage)
      (hyperborea :: catalog) initial_world
    = (Ok tt, trade_education_loaded 49 rows initial_world)
    /\ forall c r, c ∈ hyperborea :: catalog ->
         Country.income_group c
           ∉ ["High income"; "Upper middle income"; "Lower middle income"] ->
         r ∈ rows -> TradeEduRow.country_code r = Country.country_code c ->
         TradeEduRow.secondary_enrollment_rate r <= 64
         /\ TradeEduRow.tertiary_enrollment_rate r <= 22.4.
Proof.
  apply (load_trade_education_else_branch (RS := lcg_source)
           (ST := reliable_storage) (hyperborea :: catalog) initial_world);
    [reflexivity | reflexivity | by_decide].
Defined.

Lemma load_trade_education_keys_unique_witness :
  exists rows,
    load_trade_education (RS := lcg_source) (ST := reliable_storage) catalog
      initial_world = (Ok tt, trade_education_loaded 48 rows initial_world)
    /\ NoDup (map trade_education_key rows).
Proof.
  apply (load_trade_education_keys_unique (RS := lcg_source)
           (ST := reliable_storage) catalog initial_world);
    [reflexivity | reflexivity | by_decide].
Defined.

Lemma load_trade_education_write_fails_witness :
  load_trade_education (RS := lcg_source)
    (ST := failing_storage "trade_education") catalog initial_world
  = (Raise (DatabaseError "trade_education"),
     advance_rng_by 1056
       (add_line "Creating trade and education data..." initial_world)).
Proof.
  apply (load_trade_education_write_fails (RS := lcg_source)
           (ST := failing_storage "trade_education") catalog initial_world);
    reflexivity.
Defined.
