(* ===== verification/Main.v ===== *)
(** * Main: the entry point ([main])

    [main] prints a banner, connects to the database and, inside
    [try / except Exception / finally], runs the schema script, the five
    loaders in their fixed order and the summary of row counts.  The
    handler prints the message of the exception and its traceback; the
    [finally] clause closes the connection on every path of [try].  The
    call of [sqlite3.connect] stands before [try]: when it raises, the
    exception leaves [main].

    The schema script is not part of the sources: what it does to the
    database is a parameter ([Host]), and every theorem holds whatever it
    does. *)

From Stdlib Require Import QArith Lqa ZArith List String Ascii.
From stdpp Require Import base tactics option list strings gmap pretty.
From S2P Require Import Prelude PyNum Effects Format Schema World Catalog.
From S2P Require Import Gdp Inequality Poverty TradeEdu.

Local Open Scope string_scope.
Local Open Scope list_scope.
Local Open Scope py_scope.

(** ** The model *)

Definition DB_PATH : string := "global_inequality.db".

(** The tables of the summary, in the order of the script. *)
Definition tables : list string :=
  ["country_metadata"; "gdp_data"; "inequality_metrics";
   "poverty_indicators"; "trade_education"].

Section Model.
Context {RS : RandomSource} {ST : Storage} {HO : Host}.

(** The body of the loop of the summary. *)
Definition summary_line (table : string) : Py unit :=
  count <- read_count table ;;
  print (ljust 25 table +:+ ": " +:+ format_thousands count +:+ " rows").

(** The first statements of [try]: the schema script is read and run. *)
Definition create_schema : Py unit :=
  print "Creating database schema..." ;;
  script <- open_read "schema.sql" ;;
  executescript script ;;
  print ("✓ Schema created" +:+ nl).

(** The last statements of [try]: the row counts and the closing text. *)
Definition print_summary : Py unit :=
  print (nl +:+ str_mul "=" 70) ;;
  print "DATA LOADING SUMMARY" ;;
  print (str_mul "=" 70) ;;
  for_each tables summary_line ;;
  print (nl +:+ "✓ Database successfully created: " +:+ DB_PATH) ;;
  print (nl +:+ str_mul "=" 70) ;;
  print "NEXT STEPS" ;;
  print (str_mul "=" 70) ;;
  print "1. Open DB Browser for SQLite" ;;
  print "2. Load global_inequality.db" ;;
  print "3. Run queries from queries.sql" ;;
  print "4. Export results and build visualizations" ;;
  print (nl +:+ "Note: This is SAMPLE data for demonstration.") ;;
  print ("For real data, see instructions in README.md" +:+ nl).

(** The body of [try]. *)
Definition main_try : Py unit :=
  create_schema ;;
  countries <- load_country_metadata ;;
  load_gdp_data countries ;;
  load_inequality_data countries ;;
  load_poverty_data countries ;;
  load_trade_education countries ;;
  print_summary.

(** The handler of [except Exception as e]. *)
Definition main_except (e : Exn) : Py unit :=
  print (nl +:+ "✗ Error: " +:+ exn_str e) ;;
  traceback_print_exc e.

Definition main : Py unit :=
  print (nl +:+ str_mul "=" 70) ;;
  print "BASIC GLOBAL INEQUALITY DATABASE LOADER" ;;
  print "Sample data for SQL portfolio demonstration" ;;
  print (str_mul "=" 70 +:+ nl) ;;
  sqlite3_connect DB_PATH ;;
  try_finally (try_except main_try main_except) conn_close.

(** The guard that ends the file: [main] runs when the file is executed
    as a script ([__name__] is ["__main__"]) and not when it is imported. *)
Definition module_entry (name : string) : Py unit :=
  if String.eqb name "__main__" then main else ret tt.

End Model.

(** ** The specification *)

(** The four lines printed before the connection is made. *)
Definition banner : list string :=
  [nl +:+ str_mul "=" 70; "BASIC GLOBAL INEQUALITY DATABASE LOADER";
   "Sample data for SQL portfolio demonstration"; str_mul "=" 70 +:+ nl].

(** The state in which [try] starts. *)
Definition connected (w : World) : World := open_conn (add_lines banner w).

(** What [main] returns: nothing, or the exception of the connection. *)
Definition main_outcome `{HO : Host} : result Exn unit :=
  if can_connect DB_PATH then Ok tt else Raise connect_error.

(** The line the handler prints. *)
Definition error_line (e : Exn) : string := nl +:+ "✗ Error: " +:+ exn_str e.

(** The state [main] ends in when [try] raised [e] in state [w]. *)
Definition failed (e : Exn) (w : World) : World :=
  close_conn (add_trace e (add_line (error_line e) w)).

(** The state after the schema script has run. *)
Definition schema_created `{HO : Host} (script : string) (w : World) : World :=
  add_line ("✓ Schema created" +:+ nl)
    (set_db (script_effect script (db w))
       (add_line "Creating database schema..." w)).

(** The tables in place after a sequence of writes, each replacing its
    table, that stops at the first write that fails. *)
Fixpoint written_tables (ok : string -> bool) (steps : list (string * Table))
    (base : gmap string Table) : gmap string Table :=
  match steps with
  | [] => base
  | (name, t) :: rest =>
      if ok name then written_tables ok rest (<[name := t]> base) else base
  end.

(** The writes of a run, in the order of the script. *)
Definition load_steps (gdp : list GdpRow.t) (inequality : list InequalityRow.t)
    (poverty : list PovertyRow.t) (trade : list TradeEduRow.t)
  : list (string * Table) :=
  [("country_metadata", CountryTable catalog); ("gdp_data", GdpTable gdp);
   ("inequality_metrics", InequalityTable inequality);
   ("poverty_indicators", PovertyTable poverty);
   ("trade_education", TradeEduTable trade)].

(** The lines of the summary for given row counts. *)
Definition summary_lines (counts : list nat) : list string :=
  [nl +:+ str_mul "=" 70; "DATA LOADING SUMMARY"; str_mul "=" 70]
  ++ zip_with (fun table count =>
                 ljust 25 table +:+ ": " +:+ format_thousands count
                 +:+ " rows") tables counts
  ++ [nl +:+ "✓ Database successfully created: " +:+ DB_PATH;
      nl +:+ str_mul "=" 70; "NEXT STEPS"; str_mul "=" 70;
      "1. Open DB Browser for SQLite"; "2. Load global_inequality.db";
      "3. Run queries from queries.sql";
      "4. Export results and build visualizations";
      nl +:+ "Note: This is SAMPLE data for demonstration.";
      "For real data, see instructions in README.md" +:+ nl].

(** The row counts of a run on the script's catalog. *)
Definition expected_counts : list nat := [48; 432; 240; 110; 432]%nat.

(** ** The structure of [main] *)

Section Structure.
Context {RS : RandomSource} {ST : Storage} {HO : Host}.

(** The connection is made outside [try]: when it is refused the exception
    leaves [main] after the banner, and nothing else has happened.  Once
    the connection is made [main] returns normally whatever [try] does: on
    a raise the handler runs, and the connection is closed on both
    paths. *)
Lemma main_run (w : World) :
  main w
  = if can_connect DB_PATH then
      match main_try (connected w) with
      | (Ok _, w1) => (Ok tt, close_conn w1)
      | (Raise e, w1) => (Ok tt, failed e w1)
      end
    else (Raise connect_error, add_lines banner w).
Proof.
  unfold connected, add_lines, banner. cbn [foldl].
  unfold main, bind, print, sqlite3_connect, try_finally, try_except,
    conn_close, modify.
  cbn beta iota. destruct (can_connect DB_PATH); [| reflexivity].
  destruct (main_try _) as [[[]|e] w1]; reflexivity.
Qed.

(** The result of [main] depends on the connection only. *)
Lemma main_result (w : World) : run_result main w = main_outcome.
Proof.
  unfold run_result, main_outcome. rewrite main_run.
  destruct (can_connect DB_PATH); [| reflexivity].
  destruct (main_try _) as [[[]|e] w1]; reflexivity.
Qed.

(** Importing the module changes nothing; running it as a script is running
    [main], whose exception, if any, ends the script. *)
Lemma module_entry_run (name : string) (w : World) :
  run_result (module_entry name) w
  = (if String.eqb name "__main__" then main_outcome else Ok tt)
  /\ run_state (module_entry name) w
     = if String.eqb name "__main__" then run_state main w else w.
Proof.
  unfold module_entry. rewrite <- (main_result w).
  destruct (String.eqb _ _); split; reflexivity.
Qed.

Lemma create_schema_run (script : string) (w : World) :
  conn_open w = true -> file_content "schema.sql" = Some script ->
  create_schema w
  = if script_ok script (db w) then (Ok tt, schema_created script w)
    else (Raise (DatabaseError "executescript"),
          set_db (script_effect script (db w))
            (add_line "Creating database schema..." w)).
Proof.
  intros Ho Hf.
  unfold create_schema, bind, print, modify, open_read, executescript.
  rewrite Hf. cbn. rewrite Ho. cbn.
  destruct (script_ok script (db w)); reflexivity.
Qed.

Lemma create_schema_missing (w : World) :
  file_content "schema.sql" = None ->
  create_schema w
  = (Raise (FileNotFoundError "schema.sql"),
     add_line "Creating database schema..." w).
Proof.
  intros Hf. unfold create_schema, bind, print, modify, open_read.
  rewrite Hf. reflexivity.
Qed.

Lemma keeps_store_summary_line (table : string) :
  keeps_store (summary_line table).
Proof. unfold summary_line. auto with py. Qed.

(** Round trip of a line of the summary: for a table of the database,
    [summary_line] prints the name padded to 25 columns (never truncated),
    a colon and the row count in the format [{:,}], and the count can be
    read back from what is shown by removing the commas: the summary loses
    nothing of the counts, whatever their size. *)
Theorem summary_line_roundtrip (table : string) (t : Table) (w : World) :
  conn_open w = true -> db w !! table = Some t ->
  exists shown,
    summary_line table w
    = (Ok tt, add_line (ljust 25 table +:+ ": " +:+ shown +:+ " rows") w)
    /\ parse_thousands shown = Some (table_count t)
    /\ String.length (ljust 25 table) = Nat.max 25 (String.length table).
Proof.
  intros Ho Ht. exists (format_thousands (table_count t)).
  unfold summary_line, bind, read_count, print, modify. rewrite Ho, Ht.
  split; [reflexivity |].
  split; [apply parse_format_thousands | apply ljust_length].
Qed.

Lemma keeps_store_print_summary : keeps_store print_summary.
Proof.
  unfold print_summary.
  repeat (apply keeps_store_bind; [| intros ?]);
    auto using keeps_store_summary_line with py.
Qed.

(** The summary, on a database that holds the five tables. *)
Lemma print_summary_run (w : World) (ts : list Table) :
  conn_open w = true ->
  Forall2 (fun table t => db w !! table = Some t) tables ts ->
  print_summary w = (Ok tt, add_lines (summary_lines (map table_count ts)) w).
Proof.
  intros Ho H. unfold tables in H.
  repeat (apply Forall2_cons_inv_l in H as (? & ? & ? & H & ->)).
  apply Forall2_nil_inv_l in H as ->.
  unfold print_summary, for_each, tables. cbn [for_acc].
  unfold summary_line, bind, print, modify, read_count.
  repeat (cbn [conn_open db add_line]; rewrite Ho; cbn [negb];
          match goal with E : db w !! _ = Some _ |- _ => rewrite E; clear E end).
  reflexivity.
Qed.

End Structure.

(** ** The five loaders in sequence *)

(** The state after the five loaders, when every write succeeded. *)
Definition all_loaded (gdp : list GdpRow.t) (inequality : list InequalityRow.t)
    (poverty : list PovertyRow.t) (trade : list TradeEduRow.t) (w : World)
  : World :=
  trade_education_loaded (length catalog) trade
    (poverty_loaded (poverty_total_draws catalog) poverty
       (inequality_loaded (length catalog) inequality
          (gdp_loaded (length catalog) gdp (catalog_loaded w)))).

(** The tables of a run are generated from the script's catalog. *)
Definition tables_spec (gdp : list GdpRow.t) (inequality : list InequalityRow.t)
    (poverty : list PovertyRow.t) (trade : list TradeEduRow.t) : Prop :=
  gdp_table_spec catalog gdp /\ inequality_table_spec catalog inequality
  /\ poverty_table_spec catalog poverty
  /\ trade_education_table_spec catalog trade.

(** The row counts of tables generated from the catalog. *)
Lemma tables_spec_counts gdp inequality poverty trade :
  tables_spec gdp inequality poverty trade ->
  map table_count
    [CountryTable catalog; GdpTable gdp; InequalityTable inequality;
     PovertyTable poverty; TradeEduTable trade]
  = expected_counts.
Proof.
  intros (Hg & Hi & Hp & Ht). cbn [map table_count].
  rewrite (gdp_table_length _ _ Hg), (poverty_table_length _ _ Hp),
    (blocks_table_length _ 5 _ _ inequality_block_length Hi),
    (blocks_table_length _ 9 _ _ trade_education_block_length Ht).
  reflexivity.
Qed.

(** The five tables are in place after the loaders. *)
Lemma all_loaded_lookup gdp inequality poverty trade (w : World) :
  Forall2 (fun table t => db (all_loaded gdp inequality poverty trade w) !! table
                          = Some t) tables
    [CountryTable catalog; GdpTable gdp; InequalityTable inequality;
     PovertyTable poverty; TradeEduTable trade].
Proof.
  unfold tables, all_loaded, trade_education_loaded, poverty_loaded,
    inequality_loaded, gdp_loaded, catalog_loaded.
  cbn [db set_table add_line advance_rng_by].
  repeat (apply List.Forall2_cons;
          [repeat (rewrite lookup_insert_ne by discriminate);
           apply lookup_insert_eq |]).
  apply List.Forall2_nil.
Qed.

(** Expose the tables of a state built by the loaders. *)
Ltac store_simpl :=
  unfold all_loaded, trade_education_loaded, poverty_loaded, inequality_loaded,
    gdp_loaded, catalog_loaded, schema_created, failed, connected;
  cbn [db conn_open set_table set_db add_line add_trace advance_rng_by
       close_conn open_conn written_tables load_steps].

(** Read an outcome promised by a [Loader] at its contract's fields. *)
Ltac contract_simpl E :=
  unfold c_loaded, c_failed in E;
  cbn [c_table c_mk c_line c_closing c_draws gdp_contract inequality_contract
       poverty_contract trade_education_contract] in E.

Section Runs.
Context {RS : RandomSource} {ST : Storage} {HO : Host}.
Context (script : string) (w : World).
Hypothesis conn_is_open : conn_open w = true.
Hypothesis schema_exists : file_content "schema.sql" = Some script.
Hypothesis schema_runs : script_ok script (db w) = true.

(** The outcomes of the four generators when they generate the given rows,
    each from the state its predecessors leave when they succeed. *)
Definition generators_run (gdp : list GdpRow.t)
    (inequality : list InequalityRow.t) (poverty : list PovertyRow.t)
    (trade : list TradeEduRow.t) : Prop :=
  let w1 := catalog_loaded (schema_created script w) in
  let w2 := gdp_loaded (length catalog) gdp w1 in
  let w3 := inequality_loaded (length catalog) inequality w2 in
  let w4 := poverty_loaded (poverty_total_draws catalog) poverty w3 in
  load_gdp_data catalog w1
  = (if write_ok "gdp_data" then (Ok tt, w2)
     else (Raise (DatabaseError "gdp_data"),
           advance_rng_by (11 * length catalog)
             (add_line "Creating GDP data..." w1)))
  /\ load_inequality_data catalog w2
     = (if write_ok "inequality_metrics" then (Ok tt, w3)
        else (Raise (DatabaseError "inequality_metrics"),
              advance_rng_by (16 * length catalog)
                (add_line "Creating inequality data..." w2)))
  /\ load_poverty_data catalog w3
     = (if write_ok "poverty_indicators" then (Ok tt, w4)
        else (Raise (DatabaseError "poverty_indicators"),
              advance_rng_by (poverty_total_draws catalog)
                (add_line "Creating poverty data..." w3)))
  /\ load_trade_education catalog w4
     = (if write_ok "trade_education"
        then (Ok tt, all_loaded gdp inequality poverty trade
                       (schema_created script w))
        else (Raise (DatabaseError "trade_education"),
              advance_rng_by (22 * length catalog)
                (add_line "Creating trade and education data..." w4))).

Lemma generators_outcome :
  exists gdp inequality poverty trade,
    tables_spec gdp inequality poverty trade
    /\ generators_run gdp inequality poverty trade.
Proof.
  set (w1 := catalog_loaded (schema_created script w)).
  destruct (loader_outcome (C := gdp_contract) catalog w1
              catalog_known_income_groups conn_is_open) as (g & Hg & Eg).
  contract_simpl Eg. rewrite <- gdp_loaded_shape in Eg.
  set (w2 := gdp_loaded (length catalog) g w1) in *.
  destruct (loader_outcome (C := inequality_contract) catalog w2
              catalog_known_regions conn_is_open) as (i & Hi & Ei).
  contract_simpl Ei. rewrite <- inequality_loaded_shape in Ei.
  set (w3 := inequality_loaded (length catalog) i w2) in *.
  destruct (loader_outcome (C := poverty_contract) catalog w3 I conn_is_open)
    as (p & Hp & Ep).
  contract_simpl Ep. rewrite <- poverty_loaded_shape in Ep.
  set (w4 := poverty_loaded (poverty_total_draws catalog) p w3) in *.
  destruct (loader_outcome (C := trade_education_contract) catalog w4 I
              conn_is_open) as (t & Ht & Et).
  contract_simpl Et. rewrite <- trade_education_loaded_shape in Et.
  exists g, i, p, t. split; [repeat split; assumption |].
  repeat split; first [assumption | exact Et].
Qed.

(** The tables after [try], whichever write fails: the loaders before the
    first failing write have replaced their tables, the others have not
    run or have changed nothing, and the summary only reads. *)
Lemma main_try_store_of g i p t :
  generators_run g i p t ->
  db (run_state main_try w)
  = written_tables write_ok (load_steps g i p t) (script_effect script (db w)).
Proof.
  intros (Eg & Ei & Ep & Et).
  pose proof (create_schema_run script w conn_is_open schema_exists) as Ec.
  rewrite schema_runs in Ec.
  change (wp main_try
            (fun _ s => db s = written_tables write_ok (load_steps g i p t)
                                 (script_effect script (db w))) w).
  unfold main_try. apply wp_bind, (wp_run _ _ _ _ _ Ec).
  apply wp_bind,
    (wp_if_outcome _ _ _ _ _ _ _ _
       (load_country_metadata_run (schema_created script w) conn_is_open));
    intros H1; [| store_simpl; rewrite H1; reflexivity].
  apply wp_bind, (wp_if_outcome _ _ _ _ _ _ _ _ Eg);
    intros H2; [| store_simpl; rewrite H1, H2; reflexivity].
  apply wp_bind, (wp_if_outcome _ _ _ _ _ _ _ _ Ei);
    intros H3; [| store_simpl; rewrite H1, H2, H3; reflexivity].
  apply wp_bind, (wp_if_outcome _ _ _ _ _ _ _ _ Ep);
    intros H4; [| store_simpl; rewrite H1, H2, H3, H4; reflexivity].
  apply wp_bind, (wp_if_outcome _ _ _ _ _ _ _ _ Et);
    intros H5; [| store_simpl; rewrite H1, H2, H3, H4, H5; reflexivity].
  apply wp_keeps_store; [apply keeps_store_print_summary |].
  intros r w' [-> _]. store_simpl. rewrite H1, H2, H3, H4, H5. reflexivity.
Qed.

Lemma main_try_store :
  exists gdp inequality poverty trade,
    tables_spec gdp inequality poverty trade
    /\ db (run_state main_try w)
       = written_tables write_ok (load_steps gdp inequality poverty trade)
           (script_effect script (db w)).
Proof.
  destruct generators_outcome as (g & i & p & t & Hspec & Hrun).
  exists g, i, p, t. split; [exact Hspec | exact (main_try_store_of _ _ _ _ Hrun)].
Qed.

(** When every write succeeds, [try] ends normally after the summary. *)
Lemma main_try_success :
  (forall table, table ∈ tables -> write_ok table = true) ->
  exists gdp inequality poverty trade,
    tables_spec gdp inequality poverty trade
    /\ main_try w
       = (Ok tt,
          add_lines (summary_lines expected_counts)
            (all_loaded gdp inequality poverty trade
               (schema_created script w))).
Proof.
  intros Hw.
  destruct generators_outcome as (g & i & p & t & Hspec & Eg & Ei & Ep & Et).
  exists g, i, p, t. split; [exact Hspec |].
  pose proof (create_schema_run script w conn_is_open schema_exists) as Ec.
  pose proof (load_country_metadata_run (schema_created script w)
                conn_is_open) as E0.
  rewrite schema_runs in Ec.
  rewrite Hw in E0, Eg, Ei, Ep, Et by by_decide.
  unfold main_try, bind. rewrite Ec, E0, Eg, Ei, Ep, Et.
  rewrite (print_summary_run (all_loaded g i p t (schema_created script w)) _
             conn_is_open (all_loaded_lookup g i p t _)),
    (tables_spec_counts _ _ _ _ Hspec).
  reflexivity.
Qed.

End Runs.

(** ** Runs of [main] *)

(** What a successful run prints, from the banner to the closing text. *)
Definition loader_lines : list string :=
  ["Loading country metadata..."; "✓ Loaded 48 countries";
   "Creating GDP data..."; "✓ Loaded 432 GDP records";
   "Creating inequality data..."; "✓ Loaded 240 inequality records";
   "Creating poverty data..."; "✓ Loaded 110 poverty records";
   "Creating trade and education data...";
   "✓ Loaded 432 trade/education records"].

Definition success_output : list string :=
  banner
  ++ ["Creating database schema..."; "✓ Schema created" +:+ nl]
  ++ loader_lines ++ summary_lines expected_counts.

(** The state a successful run ends in. *)
Definition succeeded `{HO : Host} (script : string)
    (gdp : list GdpRow.t) (inequality : list InequalityRow.t)
    (poverty : list PovertyRow.t) (trade : list TradeEduRow.t) (w : World)
  : World :=
  close_conn
    (add_lines (summary_lines expected_counts)
       (all_loaded gdp inequality poverty trade
          (schema_created script (connected w)))).

(** The row counts read off lookups that succeed. *)
Lemma lookup_counts (m : gmap string Table) (names : list string)
    (ts : list Table) :
  Forall2 (fun name t => m !! name = Some t) names ts ->
  map (fun name => table_count <$> m !! name) names
  = map Some (map table_count ts).
Proof.
  induction 1 as [|name t names ts E _ IH]; [reflexivity |].
  cbn [map]. rewrite E, IH. reflexivity.
Qed.

(** Two sequences of writes leave tables that look the same through [f]
    under a name when the tables they write under it look the same. *)
Lemma written_tables_lookup_fmap {B} (f : Table -> B) (ok : string -> bool)
    (name : string) (steps steps' : list (string * Table))
    (base base' : gmap string Table) :
  Forall2 (fun s s' => s.1 = s'.1
                       /\ (s.1 = name -> ok name = true -> f s.2 = f s'.2))
    steps steps' ->
  f <$> base !! name = f <$> base' !! name ->
  f <$> written_tables ok steps base !! name
  = f <$> written_tables ok steps' base' !! name.
Proof.
  intros H. revert base base'.
  induction H as [|[n t] [n' t'] steps steps' [Hn Ht] _ IH];
    intros base base' Hb; cbn in *; [exact Hb |]. subst n'.
  destruct (ok n) eqn:Hok; [| exact Hb]. apply IH.
  destruct (decide (n = name)) as [->|Hne].
  - rewrite !lookup_insert_eq. cbn. rewrite (Ht eq_refl Hok). reflexivity.
  - rewrite !lookup_insert_ne by exact Hne. exact Hb.
Qed.

(** The state in which [try] starts: the banner is printed and the
    connection is open. *)
Lemma connected_parts (w : World) :
  db (connected w) = db w /\ rng_pos (connected w) = rng_pos w
  /\ console (connected w) = console w ++ banner
  /\ traces (connected w) = traces w /\ conn_open (connected w) = true.
Proof.
  unfold connected.
  destruct (open_conn_parts (add_lines banner w)) as (-> & -> & -> & -> & ->).
  rewrite rng_pos_add_lines, console_add_lines, traces_add_lines.
  destruct (same_store_add_lines banner w) as [-> _]. auto.
Qed.

Section MainRuns.
Context {RS : RandomSource} {ST : Storage} {HO : Host}.

(** A run with a schema script that can be read and runs, on a storage
    that accepts every write, ends in [succeeded]. *)
Lemma main_success_run (script : string) (w : World) :
  can_connect DB_PATH = true ->
  file_content "schema.sql" = Some script ->
  script_ok script (db w) = true ->
  (forall table, table ∈ tables -> write_ok table = true) ->
  exists gdp inequality poverty trade,
    tables_spec gdp inequality poverty trade
    /\ main w = (Ok tt, succeeded script gdp inequality poverty trade w).
Proof.
  intros Hcan Hf Hs Hw.
  destruct (connected_parts w) as (Hd & _ & _ & _ & Ho).
  rewrite <- Hd in Hs.
  destruct (main_try_success script (connected w) Ho Hf Hs Hw)
    as (g & i & p & t & Hspec & E).
  exists g, i, p, t. split; [exact Hspec |].
  rewrite main_run, Hcan, E. reflexivity.
Qed.

Lemma advanced_schema_created (script : string) k lines (w w1 : World) :
  advanced k lines w w1 ->
  advanced k
    (lines ++ ["Creating database schema..."; "✓ Schema created" +:+ nl])
    w (schema_created script w1).
Proof.
  intros H. unfold schema_created.
  eapply advanced_eq; [eauto with py | reflexivity |].
  rewrite <- app_assoc. reflexivity.
Qed.

(** The five loaders draw 2418 numbers and print their ten lines. *)
Lemma advanced_all_loaded gdp inequality poverty trade k lines (w w1 : World) :
  tables_spec gdp inequality poverty trade ->
  advanced k lines w w1 ->
  advanced (k + 2418) (lines ++ loader_lines) w
    (all_loaded gdp inequality poverty trade w1).
Proof.
  intros (Hg & Hi & Hp & Ht) H. unfold all_loaded.
  rewrite trade_education_loaded_shape, poverty_loaded_shape,
    inequality_loaded_shape, gdp_loaded_shape.
  eapply advanced_eq; [eauto 10 with py | |].
  - rewrite <- !Nat.add_assoc. f_equal.
  - rewrite (gdp_table_length _ _ Hg), (poverty_table_length _ _ Hp),
      (blocks_table_length _ 5 _ _ inequality_block_length Hi),
      (blocks_table_length _ 9 _ _ trade_education_block_length Ht).
    rewrite <- !app_assoc. reflexivity.
Qed.

(** The store of the state a successful run ends in. *)
Lemma succeeded_db (script : string) gdp inequality poverty trade w :
  db (succeeded script gdp inequality poverty trade w)
  = db (all_loaded gdp inequality poverty trade
          (schema_created script (connected w))).
Proof.
  unfold succeeded.
  rewrite (proj1 (close_conn_parts _)), (proj1 (same_store_add_lines _ _)).
  reflexivity.
Qed.

(** The tables of the state a successful run ends in. *)
Lemma succeeded_counts (script : string) gdp inequality poverty trade w :
  tables_spec gdp inequality poverty trade ->
  map (fun name =>
         table_count
           <$> db (succeeded script gdp inequality poverty trade w) !! name)
    tables
  = map Some expected_counts.
Proof.
  intros Hspec. rewrite <- (tables_spec_counts _ _ _ _ Hspec).
  apply lookup_counts. rewrite succeeded_db. apply all_loaded_lookup.
Qed.

(** The rest of the state a successful run ends in. *)
Lemma succeeded_parts (script : string) gdp inequality poverty trade w :
  tables_spec gdp inequality poverty trade ->
  let w' := succeeded script gdp inequality poverty trade w in
  rng_pos w' = (2418 + rng_pos w)%nat
  /\ console w' = console w ++ success_output
  /\ traces w' = traces w /\ conn_open w' = false.
Proof.
  intros Hspec.
  assert (advanced 2418
            (["Creating database schema..."; "✓ Schema created" +:+ nl]
             ++ loader_lines ++ summary_lines expected_counts)
            (connected w)
            (add_lines (summary_lines expected_counts)
               (all_loaded gdp inequality poverty trade
                  (schema_created script (connected w)))))
    as (Hr & Hc & Ht & _).
  { eapply advanced_eq;
      [apply advanced_add_lines, advanced_all_loaded,
         advanced_schema_created, advanced_refl; exact Hspec
      | reflexivity | rewrite <- !app_assoc; reflexivity]. }
  destruct (connected_parts w) as (_ & Hr0 & Hc0 & Ht0 & _).
  cbv zeta. unfold succeeded.
  destruct (close_conn_parts
              (add_lines (summary_lines expected_counts)
                 (all_loaded gdp inequality poverty trade
                    (schema_created script (connected w)))))
    as (_ & -> & -> & -> & ->).
  rewrite Hr, Hc, Ht, Hr0, Hc0, Ht0. unfold success_output.
  rewrite <- !app_assoc. auto.
Qed.

(** C8. Whatever the random stream, the storage, the files and the schema
    script, and from every state: once the connection is made [main]
    returns normally and leaves the connection closed, since every
    exception of the body is caught by the handler and [finally] runs on
    both paths; when the connection is refused, which happens outside
    [try], the exception leaves [main] uncaught after the banner, nothing
    is reported and nothing else has changed. *)
Theorem main_always_closes (w : World) :
  if can_connect DB_PATH
  then run_result main w = Ok tt /\ conn_open (run_state main w) = false
  else main w = (Raise connect_error, add_lines banner w).
Proof.
  unfold run_result, run_state. rewrite main_run.
  destruct (can_connect DB_PATH); [| reflexivity].
  destruct (main_try (connected w)) as [[[]|e] w1]; split; reflexivity.
Qed.

(** When the connection is made and the body of [try] raises [e], the
    handler prints the line
    with the message of [e] after everything printed so far, the
    traceback of [e] is printed, and the tables are left as they were
    when [e] was raised. *)
Theorem main_reports_failure (e : Exn) (w w1 : World) :
  can_connect DB_PATH = true ->
  main_try (connected w) = (Raise e, w1) ->
  console (run_state main w) = console w1 ++ [error_line e]
  /\ traces (run_state main w) = traces w1 ++ [e]
  /\ db (run_state main w) = db w1
  /\ rng_pos (run_state main w) = rng_pos w1.
Proof.
  intros Hcan E. unfold run_state. rewrite main_run, Hcan, E. auto.
Qed.

(** C39. When the connection is made and [schema.sql] cannot be opened, no
    loader runs: the tables
    are untouched, no random number is drawn, the console shows the
    banner, the line announcing the schema and the error line, and the
    connection is closed. *)
Theorem main_schema_missing (w : World) :
  can_connect DB_PATH = true ->
  file_content "schema.sql" = None ->
  db (run_state main w) = db w
  /\ rng_pos (run_state main w) = rng_pos w
  /\ console (run_state main w)
     = console w
       ++ banner
       ++ ["Creating database schema...";
           error_line (FileNotFoundError "schema.sql")]
  /\ traces (run_state main w) = traces w ++ [FileNotFoundError "schema.sql"]
  /\ conn_open (run_state main w) = false.
Proof.
  intros Hcan Hf.
  assert (main_try (connected w)
          = (Raise (FileNotFoundError "schema.sql"),
             add_line "Creating database schema..." (connected w))) as E.
  { unfold main_try, bind. rewrite (create_schema_missing _ Hf). reflexivity. }
  unfold run_state. rewrite main_run, Hcan, E.
  destruct (connected_parts w) as (Hd & Hr & Hc & Ht & _).
  revert Hd Hr Hc Ht. generalize (connected w). intros wc Hd Hr Hc Ht.
  cbn. rewrite Hd, Hr, Hc, Ht, <- !app_assoc. auto.
Qed.

(** C11. After a run that connects and whose schema script can be read and
    runs, the database holds the tables the script left, with each table replaced
    by the rows generated from the catalog for every loader up to the
    first whose write fails: a failure leaves the tables written before it
    in place and the later ones untouched. *)
Theorem main_tables_written (script : string) (w : World) :
  can_connect DB_PATH = true ->
  file_content "schema.sql" = Some script ->
  script_ok script (db w) = true ->
  exists gdp inequality poverty trade,
    tables_spec gdp inequality poverty trade
    /\ db (run_state main w)
       = written_tables write_ok (load_steps gdp inequality poverty trade)
           (script_effect script (db w)).
Proof.
  intros Hcan Hf Hs.
  destruct (connected_parts w) as (Hd & _ & _ & _ & Ho).
  rewrite <- Hd in Hs.
  destruct (main_try_store script (connected w) Ho Hf Hs)
    as (g & i & p & t & Hspec & Hdb).
  rewrite Hd in Hdb.
  exists g, i, p, t. split; [exact Hspec |]. rewrite <- Hdb.
  unfold run_state. rewrite main_run, Hcan.
  destruct (main_try (connected w)) as [[[]|e] w1]; reflexivity.
Qed.

(** C9. A run that connects and whose schema script can be read and runs,
    on a storage that accepts every write, leaves 48, 432, 240, 110 and 432 rows in the
    five tables, prints exactly [success_output], whatever the random
    stream, draws 2418 random numbers and prints no traceback. *)
Theorem main_success (script : string) (w : World) :
  can_connect DB_PATH = true ->
  file_content "schema.sql" = Some script ->
  script_ok script (db w) = true ->
  (forall table, table ∈ tables -> write_ok table = true) ->
  map (fun name => table_count <$> db (run_state main w) !! name) tables
  = map Some expected_counts
  /\ console (run_state main w) = console w ++ success_output
  /\ rng_pos (run_state main w) = (2418 + rng_pos w)%nat
  /\ traces (run_state main w) = traces w.
Proof.
  intros Hcan Hf Hs Hw.
  destruct (main_success_run script w Hcan Hf Hs Hw)
    as (g & i & p & t & Hspec & E).
  unfold run_state. rewrite E. cbn [snd].
  split; [exact (succeeded_counts _ _ _ _ _ _ Hspec) |].
  destruct (succeeded_parts script g i p t w Hspec) as (Hr & Hc & Ht & _).
  auto.
Qed.

(** C10. Running the loader twice replaces the tables and does not append
    to them: when both runs succeed, each of the five tables has after
    the second run the number of rows it had after the first. *)
Theorem main_rerun_stable (script : string) (w : World) :
  can_connect DB_PATH = true ->
  file_content "schema.sql" = Some script ->
  script_ok script (db w) = true ->
  script_ok script (db (run_state main w)) = true ->
  (forall table, table ∈ tables -> write_ok table = true) ->
  map (fun name =>
         table_count <$> db (run_state main (run_state main w)) !! name)
    tables
  = map (fun name => table_count <$> db (run_state main w) !! name) tables.
Proof.
  intros Hcan Hf Hs1 Hs2 Hw.
  destruct (main_success_run script w Hcan Hf Hs1 Hw)
    as (g & i & p & t & Hspec & E).
  destruct (main_success_run script (run_state main w) Hcan Hf Hs2 Hw)
    as (g' & i' & p' & t' & Hspec' & E').
  unfold run_state at 1. rewrite E'. unfold run_state at 2. rewrite E.
  cbn [snd].
  rewrite (succeeded_counts _ _ _ _ _ _ Hspec').
  symmetry. exact (succeeded_counts _ _ _ _ _ _ Hspec).
Qed.

End MainRuns.

(** ** The theorems at concrete inputs

    The runs below start from the initial state under the linear
    congruential stream: on a host without files, on a host whose schema
    script runs with a storage that refuses the writes to
    [inequality_metrics], and on a host and a storage on which everything
    succeeds. *)

(** A schema script, for the hosts that have one. *)
Definition sample_schema : string :=
  "CREATE TABLE IF NOT EXISTS country_metadata (country_code TEXT);".

(** Where the database file cannot be created the run is the banner and
    the exception: no handler runs, no traceback is recorded by [main], no
    table is touched. *)
Lemma main_refused_run :
  let final := run_state (main (RS := lcg_source) (ST := reliable_storage)
                            (HO := readonly_host sample_schema))
                 initial_world in
  run_result (main (RS := lcg_source) (ST := reliable_storage)
                (HO := readonly_host sample_schema)) initial_world
  = Raise connect_error
  /\ console final = banner /\ traces final = [] /\ db final = ∅.
Proof. repeat split. Qed.

Lemma main_reports_failure_witness :
  let w1 := add_line "Creating database schema..." (connected initial_world) in
  let final := run_state (main (RS := lcg_source) (ST := reliable_storage)
                            (HO := empty_host)) initial_world in
  console final = console w1 ++ [error_line (FileNotFoundError "schema.sql")]
  /\ traces final = traces w1 ++ [FileNotFoundError "schema.sql"]
  /\ db final = db w1 /\ rng_pos final = rng_pos w1.
Proof.
  apply (main_reports_failure (RS := lcg_source) (ST := reliable_storage)
           (HO := empty_host) (FileNotFoundError "schema.sql") initial_world);
    reflexivity.
Defined.

Lemma main_schema_missing_witness :
  let final := run_state (main (RS := lcg_source) (ST := reliable_storage)
                            (HO := empty_host)) initial_world in
  db final = ∅ /\ rng_pos final = 0%nat
  /\ console final
     = banner ++ ["Creating database schema...";
                  error_line (FileNotFoundError "schema.sql")]
  /\ traces final = [FileNotFoundError "schema.sql"]
  /\ conn_open final = false.
Proof.
  apply (main_schema_missing (RS := lcg_source) (ST := reliable_storage)
           (HO := empty_host) initial_world);
    reflexivity.
Defined.

Lemma main_tables_written_witness :
  exists gdp inequality poverty trade,
    tables_spec gdp inequality poverty trade
    /\ db (run_state (main (RS := lcg_source)
                        (ST := failing_storage "inequality_metrics")
                        (HO := plain_host sample_schema)) initial_world)
       = <["gdp_data" := GdpTable gdp]>
           (<["country_metadata" := CountryTable catalog]> ∅).
Proof.
  apply (main_tables_written (RS := lcg_source)
           (ST := failing_storage "inequality_metrics")
           (HO := plain_host sample_schema) sample_schema initial_world);
    reflexivity.
Defined.

Lemma main_success_witness :
  let final := run_state (main (RS := lcg_source) (ST := reliable_storage)
                            (HO := plain_host sample_schema)) initial_world in
  map (fun name => table_count <$> db final !! name) tables
  = map Some expected_counts
  /\ console final = success_output
  /\ rng_pos final = 2418%nat
  /\ traces final = [].
Proof.
  apply (main_success (RS := lcg_source) (ST := reliable_storage)
           (HO := plain_host sample_schema) sample_schema initial_world);
    [reflexivity | reflexivity | reflexivity | intros table _; reflexivity].
Defined.

Lemma main_rerun_stable_witness :
  let once := run_state (main (RS := lcg_source) (ST := reliable_storage)
                           (HO := plain_host sample_schema)) initial_world in
  let twice := run_state (main (RS := lcg_source) (ST := reliable_storage)
                            (HO := plain_host sample_schema)) once in
  map (fun name => table_count <$> db twice !! name) tables
  = map (fun name => table_count <$> db once !! name) tables.
Proof.
  apply (main_rerun_stable (RS := lcg_source) (ST := reliable_storage)
           (HO := plain_host sample_schema) sample_schema initial_world);
    [reflexivity | reflexivity | reflexivity | reflexivity
    | intros table _; reflexivity].
Defined.

Lemma summary_line_roundtrip_witness :
  let w := set_table "gdp_data" (GdpTable (replicate 1234 (GdpRow.mk "USA" 2015 1 None 1)))
             initial_world in
  exists shown,
    summary_line "gdp_data" w
    = (Ok tt, add_line (ljust 25 "gdp_data" +:+ ": " +:+ shown +:+ " rows") w)
    /\ parse_thousands shown = Some 1234%nat
    /\ String.length (ljust 25 "gdp_data") = 25%nat.
Proof.
  apply (summary_line_roundtrip "gdp_data"
           (GdpTable (replicate 1234 (GdpRow.mk "USA" 2015 1 None 1)))
           (set_table "gdp_data"
              (GdpTable (replicate 1234 (GdpRow.mk "USA" 2015 1 None 1))) initial_world));
    reflexivity.
Defined.
