(* ===== verification/Report.v ===== *)
(** * Report: what the body of [try] prints, whichever write fails

    [main] reports its progress on the console: each loader prints a line
    before it generates its rows and a line after its write.  When a write
    fails the run stops there: the loader has printed its first line and
    made its draws, and the summary is not printed.  [loaders_report]
    computes, from the outcome of each write, the lines of the loaders, the
    draws made and the exception raised; [main_try_report] says that this
    is what the body of [try] prints, draws and raises, whatever the random
    stream. *)

From Stdlib Require Import QArith ZArith List String Lia.
From stdpp Require Import base tactics option list strings gmap.
From S2P Require Import Prelude PyNum Effects Format Schema World Catalog.
From S2P Require Import Gdp Inequality Poverty TradeEdu Main.

Local Open Scope string_scope.
Local Open Scope list_scope.
Local Open Scope py_scope.

(** ** The report of the loaders *)

(** A loader as the console shows it: its table, the line it prints first,
    the line it prints after the write, and the draws it makes, on the
    catalog of the script. *)
Record Step : Type := mkStep {
  s_table : string;
  s_line : string;
  s_closing : string;
  s_draws : nat;
}.

Definition loader_steps : list Step :=
  [mkStep "country_metadata" "Loading country metadata..."
     "✓ Loaded 48 countries" 0;
   mkStep "gdp_data" "Creating GDP data..." "✓ Loaded 432 GDP records" 528;
   mkStep "inequality_metrics" "Creating inequality data..."
     "✓ Loaded 240 inequality records" 768;
   mkStep "poverty_indicators" "Creating poverty data..."
     "✓ Loaded 110 poverty records" 66;
   mkStep "trade_education" "Creating trade and education data..."
     "✓ Loaded 432 trade/education records" 1056].

Record Report : Type := mkReport {
  r_lines : list string;       (* the lines printed *)
  r_draws : nat;               (* the draws made *)
  r_error : option Exn;        (* the exception that stops the run *)
}.

(** The loaders run in order; the first whose write fails has printed its
    first line and made its draws, and no later loader runs. *)
Fixpoint loaders_report (ok : string -> bool) (steps : list Step) : Report :=
  match steps with
  | [] => mkReport [] 0 None
  | s :: rest =>
      if ok (s_table s) then
        let r := loaders_report ok rest in
        mkReport (s_line s :: s_closing s :: r_lines r)
          (s_draws s + r_draws r) (r_error r)
      else mkReport [s_line s] (s_draws s) (Some (DatabaseError (s_table s)))
  end.

(** What the body of [try] prints when the schema script has run. *)
Definition try_lines (r : Report) : list string :=
  ["Creating database schema..."; "✓ Schema created" +:+ nl]
  ++ r_lines r
  ++ match r_error r with
     | None => summary_lines expected_counts
     | Some _ => []
     end.

Definition report_result (r : Report) : result Exn unit :=
  match r_error r with
  | None => Ok tt
  | Some e => Raise e
  end.

(** ** The body of [try] *)

(** Rewrite the outcome of each write that is known into the report. *)
Ltac report_simpl :=
  unfold try_lines, report_result, loader_steps;
  repeat (cbn [loaders_report r_lines r_draws r_error s_table s_line s_closing
               s_draws];
          match goal with
          | H : write_ok _ = _ |- _ => rewrite H
          end);
  cbn [loaders_report r_lines r_draws r_error s_table s_line s_closing s_draws].

Section Try.
Context {RS : RandomSource} {ST : Storage} {HO : Host}.
Context (script : string) (w : World).
Context (g : list GdpRow.t) (i : list InequalityRow.t).
Context (p : list PovertyRow.t) (t : list TradeEduRow.t).
Hypothesis conn_is_open : conn_open w = true.
Hypothesis schema_exists : file_content "schema.sql" = Some script.
Hypothesis schema_runs : script_ok script (db w) = true.
Hypothesis rows_spec : tables_spec g i p t.
Hypothesis rows_run : generators_run script w g i p t.

(** The progress made when control is in a state built by the loaders:
    found from the state, then compared with the report. *)
Ltac progress_of_state :=
  unfold all_loaded, catalog_loaded, schema_created;
  rewrite ?trade_education_loaded_shape, ?poverty_loaded_shape,
    ?inequality_loaded_shape, ?gdp_loaded_shape;
  eapply advanced_eq; [eauto 40 with py | |];
  destruct rows_spec as (Hg & Hi & Hp & Ht);
  rewrite ?(gdp_table_length _ _ Hg), ?(poverty_table_length _ _ Hp),
    ?(blocks_table_length _ 5 _ _ inequality_block_length Hi),
    ?(blocks_table_length _ 9 _ _ trade_education_block_length Ht);
  [reflexivity | rewrite <- ?app_assoc; reflexivity].

(** The body of [try] ends as the report says: with its result, after its
    draws and its lines. *)
Lemma main_try_report :
  let r := loaders_report write_ok loader_steps in
  wp main_try
    (fun res s => res = report_result r
                  /\ advanced (r_draws r) (try_lines r) w s) w.
Proof.
  destruct rows_run as (Eg & Ei & Ep & Et). cbv zeta.
  pose proof (create_schema_run script w conn_is_open schema_exists) as Ec.
  rewrite schema_runs in Ec.
  unfold main_try. apply wp_bind, (wp_run _ _ _ _ _ Ec).
  apply wp_bind,
    (wp_if_outcome _ _ _ _ _ _ _ _
       (load_country_metadata_run (schema_created script w) conn_is_open));
    intros H1; [| report_simpl; split; [reflexivity | progress_of_state]].
  apply wp_bind, (wp_if_outcome _ _ _ _ _ _ _ _ Eg);
    intros H2; [| report_simpl; split; [reflexivity | progress_of_state]].
  apply wp_bind, (wp_if_outcome _ _ _ _ _ _ _ _ Ei);
    intros H3; [| report_simpl; split; [reflexivity | progress_of_state]].
  apply wp_bind, (wp_if_outcome _ _ _ _ _ _ _ _ Ep);
    intros H4; [| report_simpl; split; [reflexivity | progress_of_state]].
  apply wp_bind, (wp_if_outcome _ _ _ _ _ _ _ _ Et);
    intros H5; [| report_simpl; split; [reflexivity | progress_of_state]].
  apply (wp_run _ _ _ _ _
           (print_summary_run (all_loaded g i p t (schema_created script w)) _
              conn_is_open (all_loaded_lookup g i p t _))).
  rewrite (tables_spec_counts _ _ _ _ rows_spec).
  report_simpl. split; [reflexivity | progress_of_state].
Qed.

End Try.
