(* ===== verification/Observed.v ===== *)
(** * Observed: the whole of [main], on every host and storage

    [main] prints its banner, connects, runs the body of [try], handles
    its exception and closes the connection.  [main_observed] computes
    what a run shows (its result, the lines printed, the tracebacks, the
    number of draws, whether the connection is closed) from the host and
    the storage alone, and [main_tables] the tables it leaves from the rows
    the generators make.  [main_final] says that this is what [main] does,
    for every random stream; the theorems that follow read off it what a
    run shows when a write fails and what two runs on different random
    streams have in common. *)

From Stdlib Require Import QArith ZArith List String Lia.
From stdpp Require Import base tactics option list strings gmap.
From S2P Require Import Prelude PyNum Effects Format Schema World Catalog.
From S2P Require Import Gdp Inequality Poverty TradeEdu Main Report.

Local Open Scope string_scope.
Local Open Scope list_scope.
Local Open Scope py_scope.

(** ** What a run shows *)

(** What a run of [main] shows: its result, the lines it prints, the
    tracebacks, the draws it makes and whether it closes the connection. *)
Record Observed : Type := mkObserved {
  o_result : result Exn unit;
  o_lines : list string;
  o_traces : list Exn;
  o_draws : nat;
  o_closed : bool;
}.

(** A run that shows [o] and leaves [tables], from the state [w]. *)
Definition shows (o : Observed) (tables : gmap string Table) (w : World)
    (out : result Exn unit * World) : Prop :=
  out.1 = o_result o
  /\ rng_pos out.2 = (o_draws o + rng_pos w)%nat
  /\ db out.2 = tables
  /\ console out.2 = console w ++ o_lines o
  /\ traces out.2 = traces w ++ o_traces o
  /\ conn_open out.2 = conn_open w && negb (o_closed o).

Section Observed.
Context {ST : Storage} {HO : Host}.

(** The report of the body of [try] on a database that holds [tables]:
    the schema script is read and run first, and no loader runs when
    either fails. *)
Definition try_report (tables : gmap string Table) : Report :=
  match file_content "schema.sql" with
  | None =>
      mkReport ["Creating database schema..."] 0
        (Some (FileNotFoundError "schema.sql"))
  | Some script =>
      if script_ok script tables then
        let r := loaders_report write_ok loader_steps in
        mkReport (try_lines r) (r_draws r) (r_error r)
      else mkReport ["Creating database schema..."] 0
             (Some (DatabaseError "executescript"))
  end.

(** The tables the body of [try] leaves, from the rows generated. *)
Definition try_tables (g : list GdpRow.t) (i : list InequalityRow.t)
    (p : list PovertyRow.t) (t : list TradeEduRow.t)
    (tables : gmap string Table) : gmap string Table :=
  match file_content "schema.sql" with
  | None => tables
  | Some script =>
      if script_ok script tables then
        written_tables write_ok (load_steps g i p t)
          (script_effect script tables)
      else script_effect script tables
  end.

(** What [main] shows once the connection is made: the handler turns the
    exception of [try] into a line and a traceback, [main] returns
    normally and the connection is closed. *)
Definition observed_of (r : Report) : Observed :=
  mkObserved (Ok tt)
    (banner ++ r_lines r
     ++ match r_error r with Some e => [error_line e] | None => [] end)
    (match r_error r with Some e => [e] | None => [] end) (r_draws r) true.

(** A refused connection is raised to the caller after the banner. *)
Definition main_observed (tables : gmap string Table) : Observed :=
  if can_connect DB_PATH then observed_of (try_report tables)
  else mkObserved (Raise connect_error) banner [] 0 false.

Definition main_tables (g : list GdpRow.t) (i : list InequalityRow.t)
    (p : list PovertyRow.t) (t : list TradeEduRow.t)
    (tables : gmap string Table) : gmap string Table :=
  if can_connect DB_PATH then try_tables g i p t tables else tables.

End Observed.

(** ** [main] does what the report says *)

Section Main.
Context {RS : RandomSource} {ST : Storage} {HO : Host}.

(** The body of [try] on every host: its result, its progress and the
    tables it leaves. *)
Lemma main_try_observed (w : World) :
  conn_open w = true ->
  exists g i p t,
    tables_spec g i p t
    /\ wp main_try
         (fun res s =>
            let r := try_report (db w) in
            res = report_result r /\ advanced (r_draws r) (r_lines r) w s
            /\ db s = try_tables g i p t (db w)) w.
Proof.
  intros Ho. unfold try_report, try_tables.
  destruct (file_content "schema.sql") as [script|] eqn:Hf;
    [destruct (script_ok script (db w)) eqn:Hs |];
    [destruct (generators_outcome script w Ho) as (g & i & p & t & Hspec & Hrun)
    | destruct (generators_outcome "" w Ho) as (g & i & p & t & Hspec & _) ..];
    exists g, i, p, t; (split; [exact Hspec |]).
  - destruct (main_try_report script w g i p t Ho Hf Hs Hspec Hrun) as [Hr Ha].
    unfold wp. repeat split; [exact Hr | apply Ha ..|].
    exact (main_try_store_of script w Ho Hf Hs g i p t Hrun).
  - pose proof (create_schema_run script w Ho Hf) as E. rewrite Hs in E.
    unfold main_try. apply wp_bind, (wp_run _ _ _ _ _ E).
    repeat split; cbn; rewrite ?Nat.add_0_l; auto.
  - unfold main_try.
    apply wp_bind, (wp_run _ _ _ _ _ (create_schema_missing w Hf)).
    repeat split; cbn; rewrite ?Nat.add_0_l; auto.
Qed.

(** From the body of [try] to [main]: the banner before, the handler and
    the close after. *)
Lemma main_of_try (w : World) (r : Report) (tables : gmap string Table) :
  can_connect DB_PATH = true ->
  wp main_try
    (fun res s => res = report_result r
                  /\ advanced (r_draws r) (r_lines r) (connected w) s
                  /\ db s = tables) (connected w) ->
  shows (observed_of r) tables w (main w).
Proof.
  intros Hcan. unfold wp, run_result, run_state, report_result, shows.
  rewrite main_run, Hcan.
  destruct (connected_parts w) as (_ & Hr & Hc & Ht & Ho).
  destruct (main_try (connected w)) as [res w1]. cbn [fst snd].
  intros (-> & (Hp & Hcon & Htr & _) & Hdb).
  unfold observed_of, failed.
  destruct (r_error r) as [e|];
    cbn [fst snd o_result o_draws o_lines o_traces o_closed negb close_conn
         add_trace add_line rng_pos db console traces conn_open];
    rewrite Hp, Hcon, Htr, Hr, Hc, Ht, andb_false_r, <- ?app_assoc,
      ?app_nil_r; auto 10.
Qed.

(** The whole of [main], on every host and storage: what it shows is
    [main_observed], and it leaves the tables [main_tables] of rows
    generated from the catalog. *)
Lemma main_final (w : World) :
  exists g i p t,
    tables_spec g i p t
    /\ shows (main_observed (db w)) (main_tables g i p t (db w)) w (main w).
Proof.
  destruct (connected_parts w) as (Hd & _ & _ & _ & Ho).
  destruct (main_try_observed (connected w) Ho) as (g & i & p & t & Hspec & H).
  exists g, i, p, t. split; [exact Hspec |].
  unfold main_observed, main_tables.
  destruct (can_connect DB_PATH) eqn:Hcan.
  - rewrite <- Hd. exact (main_of_try w _ _ Hcan H).
  - rewrite main_run, Hcan. unfold shows.
    cbn [fst snd o_result o_draws o_lines o_traces o_closed negb].
    rewrite rng_pos_add_lines, console_add_lines, traces_add_lines,
      app_nil_r, andb_true_r.
    destruct (same_store_add_lines banner w) as [-> Ho']. auto 10.
Qed.

End Main.

(** ** A write that fails *)

(** The lines and the draws of loaders whose writes succeed. *)
Definition steps_lines (steps : list Step) : list string :=
  flat_map (fun d => [s_line d; s_closing d]) steps.

Definition steps_draws (steps : list Step) : nat :=
  sum_list (map s_draws steps).

(** The report stops at the first loader whose write fails. *)
Lemma loaders_report_stops (ok : string -> bool) (done : list Step) (s : Step)
    (rest : list Step) :
  Forall (fun d => ok (s_table d) = true) done ->
  ok (s_table s) = false ->
  loaders_report ok (done ++ s :: rest)
  = mkReport (steps_lines done ++ [s_line s]) (steps_draws done + s_draws s)
      (Some (DatabaseError (s_table s))).
Proof.
  intros Hdone Hfail.
  induction Hdone as [|d done Hd _ IH]; cbn [app loaders_report].
  - rewrite Hfail. reflexivity.
  - rewrite Hd, IH. cbn. rewrite Nat.add_assoc. reflexivity.
Qed.

Section FailedWrite.
Context {RS : RandomSource} {ST : Storage} {HO : Host}.

(** C16. When the write of a loader fails, after the writes of the loaders
    before it succeeded, [main] returns normally and closes the
    connection; the console shows the banner, the two lines of the schema,
    the two lines of each loader before, the first line of the loader
    that failed and the error line that names its table, and no summary;
    the traceback is printed; and the random generator has advanced by the
    draws of the loaders before and by all the draws of the loader that
    failed, which generates its rows before it writes. *)
Theorem main_stops_at_failed_write (script : string) (w : World)
    (done : list Step) (s : Step) (rest : list Step) :
  can_connect DB_PATH = true ->
  file_content "schema.sql" = Some script ->
  script_ok script (db w) = true ->
  loader_steps = done ++ s :: rest ->
  Forall (fun d => write_ok (s_table d) = true) done ->
  write_ok (s_table s) = false ->
  run_result main w = Ok tt
  /\ console (run_state main w)
     = console w ++ banner
       ++ ["Creating database schema..."; "✓ Schema created" +:+ nl]
       ++ steps_lines done
       ++ [s_line s; error_line (DatabaseError (s_table s))]
  /\ traces (run_state main w) = traces w ++ [DatabaseError (s_table s)]
  /\ rng_pos (run_state main w)
     = (steps_draws done + s_draws s + rng_pos w)%nat
  /\ conn_open (run_state main w) = false.
Proof.
  intros Hcan Hf Hs Hsteps Hdone Hfail.
  destruct (main_final w) as (g & i & p & t & _ & H).
  revert H. unfold shows, main_observed, try_report, run_result, run_state.
  rewrite Hcan, Hf, Hs, Hsteps, (loaders_report_stops _ _ _ _ Hdone Hfail).
  unfold observed_of, try_lines.
  cbn [o_result o_draws o_lines o_traces o_closed r_lines r_draws r_error
       negb].
  intros (-> & -> & _ & -> & -> & ->).
  rewrite andb_false_r, app_nil_r, <- !app_assoc. auto.
Qed.

End FailedWrite.

Lemma main_stops_at_failed_write_witness :
  let run := main (RS := lcg_source) (ST := failing_storage "inequality_metrics")
               (HO := plain_host sample_schema) initial_world in
  run.1 = Ok tt
  /\ console run.2
     = banner
       ++ ["Creating database schema..."; "✓ Schema created" +:+ nl;
           "Loading country metadata..."; "✓ Loaded 48 countries";
           "Creating GDP data..."; "✓ Loaded 432 GDP records";
           "Creating inequality data...";
           error_line (DatabaseError "inequality_metrics")]
  /\ traces run.2 = [DatabaseError "inequality_metrics"]
  /\ rng_pos run.2 = 1296%nat
  /\ conn_open run.2 = false.
Proof.
  apply (main_stops_at_failed_write (RS := lcg_source)
           (ST := failing_storage "inequality_metrics")
           (HO := plain_host sample_schema) sample_schema initial_world
           (take 2 loader_steps)
           (mkStep "inequality_metrics" "Creating inequality data..."
              "✓ Loaded 240 inequality records" 768)
           (drop 3 loader_steps));
    [reflexivity | reflexivity | reflexivity | reflexivity
    | repeat constructor | reflexivity].
Defined.

(** ** Two random streams *)

(** The row counts of the tables [main] leaves do not depend on the rows
    generated. *)
Lemma main_tables_counts `{ST : Storage} `{HO : Host} g i p t g' i' p' t'
    (tables : gmap string Table) (name : string) :
  tables_spec g i p t -> tables_spec g' i' p' t' ->
  table_count <$> main_tables g i p t tables !! name
  = table_count <$> main_tables g' i' p' t' tables !! name.
Proof.
  intros S S'. unfold main_tables, try_tables.
  destruct (can_connect DB_PATH); [| reflexivity].
  destruct (file_content "schema.sql") as [script|]; [| reflexivity].
  destruct (script_ok script tables); [| reflexivity].
  apply written_tables_lookup_fmap; [| reflexivity].
  pose proof (tables_spec_counts _ _ _ _ S) as C.
  pose proof (tables_spec_counts _ _ _ _ S') as C'.
  cbn [map table_count] in C, C'. rewrite <- C' in C.
  injection C as Hg Hi Hp Ht. unfold load_steps.
  repeat first [apply List.Forall2_cons | apply List.Forall2_nil];
    cbn [fst snd table_count]; auto.
Qed.

Section TwoStreams.
Context (RS1 RS2 : RandomSource) {ST : Storage} {HO : Host}.

(** C15. What a run shows does not depend on the random stream: on every
    host and storage and from every state, two runs of [main] on two
    random streams return the same result, print the same lines and the
    same tracebacks, make the same number of draws, leave the connection
    in the same state and leave tables of the same names with the same
    numbers of rows.  Only the values in the generated rows depend on the
    stream. *)
Theorem main_seed_independent (w : World) :
  let out1 := main (RS := RS1) w in
  let out2 := main (RS := RS2) w in
  out1.1 = out2.1
  /\ console out1.2 = console out2.2
  /\ traces out1.2 = traces out2.2
  /\ rng_pos out1.2 = rng_pos out2.2
  /\ conn_open out1.2 = conn_open out2.2
  /\ forall name, table_count <$> db out1.2 !! name
                  = table_count <$> db out2.2 !! name.
Proof.
  destruct (main_final (RS := RS1) w)
    as (g1 & i1 & p1 & t1 & S1 & Hr1 & Hp1 & Hd1 & Hc1 & Ht1 & Ho1).
  destruct (main_final (RS := RS2) w)
    as (g2 & i2 & p2 & t2 & S2 & Hr2 & Hp2 & Hd2 & Hc2 & Ht2 & Ho2).
  cbv zeta. rewrite Hr1, Hr2, Hp1, Hp2, Hd1, Hd2, Hc1, Hc2, Ht1, Ht2, Ho1, Ho2.
  repeat split. intros name. apply main_tables_counts; assumption.
Qed.

End TwoStreams.
