(* ===== verification/Independence.v ===== *)
(** * Independence: what each table depends on

    The specification presents the generators as independent stages with
    no shared state but the tables.  In the code they share the global
    generator of the module [random]: each loader starts drawing where the
    loader before it stopped.  This file says exactly how far the
    independence goes.

    - Each loader reads the stream only at the positions it consumes
      ([loaders_read_own_draws]), so in a run of [main] on the script's
      catalog each table is a function of one segment of the stream
      ([segments], [main_table_reads_segment]): 528 draws for [gdp_data],
      the next 768 for [inequality_metrics], the next 66 for
      [poverty_indicators], the last 1056 for [trade_education].
    - The segment of a loader starts where its predecessors stopped, so
      what a loader writes changes when a loader is put before it
      ([loaders_share_generator]).
    - Inside a table, the rows of a country are the block the body of the
      loop generates alone at the position where the draws of the
      countries before it end ([tables_are_country_blocks]), and that
      block reads the draws of its country only
      ([country_block_reads_own_draws]). *)

From Stdlib Require Import QArith ZArith List String Lia.
From stdpp Require Import base tactics option list strings gmap.
From S2P Require Import Prelude PyNum Effects Format Schema World Locality.
From S2P Require Import Blocks Catalog Gdp Inequality Poverty TradeEdu Main.

Local Open Scope string_scope.
Local Open Scope list_scope.
Local Open Scope py_scope.

(** ** The segments of a run of [main] *)

(** The positions of the stream, counted from the position at which
    [main] starts, that each loader reads on the script's catalog: first
    position, and first position after. *)
Definition segments : list (string * (nat * nat)) :=
  [("country_metadata", (0, 0)); ("gdp_data", (0, 528));
   ("inequality_metrics", (528, 1296)); ("poverty_indicators", (1296, 1362));
   ("trade_education", (1362, 2418))]%nat.

(** The four loaders, as functions of the stream. *)
Definition generators `{ST : Storage}
  : list (RandomSource -> list Country.t -> Py unit) :=
  [fun RS => load_gdp_data (RS := RS);
   fun RS => load_inequality_data (RS := RS);
   fun RS => load_poverty_data (RS := RS);
   fun RS => load_trade_education (RS := RS)].

(** ** The loop bodies read the stream only *)

Section Bodies.
Context (RS1 RS2 : RandomSource).

Lemma gdp_country_reads (c : Country.t) (data : list GdpRow.t) :
  reads RS1 RS2 (gdp_country (RS := RS1) c data)
    (gdp_country (RS := RS2) c data).
Proof. unfold gdp_country, gdp_year, sample_growth. reads_auto. Qed.

Lemma inequality_country_reads (c : Country.t) (data : list InequalityRow.t) :
  reads RS1 RS2 (inequality_country (RS := RS1) c data)
    (inequality_country (RS := RS2) c data).
Proof. unfold inequality_country, inequality_year. reads_auto. Qed.

Lemma poverty_country_reads (c : Country.t) (data : list PovertyRow.t) :
  reads RS1 RS2 (poverty_country (RS := RS1) c data)
    (poverty_country (RS := RS2) c data).
Proof.
  unfold poverty_country, poverty_year, sample_base_rates. reads_auto.
Qed.

Lemma trade_education_country_reads (c : Country.t)
    (data : list TradeEduRow.t) :
  reads RS1 RS2 (trade_education_country (RS := RS1) c data)
    (trade_education_country (RS := RS2) c data).
Proof.
  unfold trade_education_country, trade_education_year, sample_education.
  reads_auto.
Qed.

End Bodies.

#[export] Hint Resolve gdp_country_reads inequality_country_reads
  poverty_country_reads trade_education_country_reads : py.

(** ** The tables of a run under two streams *)

(** Two sequences of writes leave the same table under a name when they
    write the same tables under it. *)
Lemma written_tables_lookup (ok : string -> bool) (name : string)
    (steps steps' : list (string * Table)) (base base' : gmap string Table) :
  Forall2 (fun s s' => s.1 = s'.1
                       /\ (s.1 = name -> ok name = true -> s.2 = s'.2))
    steps steps' ->
  base !! name = base' !! name ->
  written_tables ok steps base !! name = written_tables ok steps' base' !! name.
Proof.
  intros H Hb.
  pose proof (written_tables_lookup_fmap id ok name steps steps' base base' H)
    as Hw.
  rewrite !option_fmap_id in Hw. exact (Hw Hb).
Qed.

(** ** Each loader reads the draws it makes *)

Section Loaders.
Context (RS1 RS2 : RandomSource) {ST : Storage}.

(** Each of the four loaders reads the random stream only at the
    positions it consumes: from any state and on any frame, when two
    streams agree from the position of the state up to the position at
    which the loader stops under the first, the loader does under the
    second exactly what it does under the first (same result, same rows
    written, same lines printed, same final position), whatever the two
    streams hold elsewhere. *)
Theorem loaders_read_own_draws (countries : list Country.t) (w : World) :
  Forall (fun run : RandomSource -> list Country.t -> Py unit =>
            agree RS1 RS2 (rng_pos w)
              (rng_pos (run_state (run RS1 countries) w)) ->
            run RS2 countries w = run RS1 countries w)
    generators.
Proof.
  unfold generators.
  repeat first [apply List.Forall_cons | apply List.Forall_nil];
    cbn beta; intros Hag;
    rewrite ?load_gdp_data_shape, ?load_inequality_data_shape,
      ?load_poverty_data_shape, ?load_trade_education_shape in *;
    apply (load_table_local RS1 RS2); auto with py.
Qed.

End Loaders.

(** ** The tables of [main] under two streams *)

Lemma poverty_draws_catalog : poverty_total_draws catalog = 66%nat.
Proof. reflexivity. Qed.

Section OneRun.
Context {RS : RandomSource} {ST : Storage} {HO : Host}.
Context (script : string) (w : World).
Hypothesis connects : can_connect DB_PATH = true.
Hypothesis schema_exists : file_content "schema.sql" = Some script.
Hypothesis schema_runs : script_ok script (db w) = true.

(** The database [main] leaves, from the rows the generators make. *)
Lemma main_db_of g i p t :
  generators_run script (connected w) g i p t ->
  db (run_state main w)
  = written_tables write_ok (load_steps g i p t) (script_effect script (db w)).
Proof.
  intros Hrun. destruct (connected_parts w) as (Hd & _ & _ & _ & Ho).
  assert (script_ok script (db (connected w)) = true) as Hs
    by (rewrite Hd; exact schema_runs).
  pose proof (main_try_store_of script (connected w) Ho schema_exists Hs
                g i p t Hrun) as Hdb.
  rewrite Hd in Hdb. rewrite <- Hdb. unfold run_state.
  rewrite main_run, connects.
  destruct (main_try (connected w)) as [[[]|e] w1]; reflexivity.
Qed.

(** The positions at which the loaders start, in a run on the catalog of
    the script. *)
Lemma generators_positions g i p :
  let w1 := catalog_loaded (schema_created script (connected w)) in
  let w2 := gdp_loaded (length catalog) g w1 in
  let w3 := inequality_loaded (length catalog) i w2 in
  let w4 := poverty_loaded (poverty_total_draws catalog) p w3 in
  rng_pos w1 = rng_pos w /\ rng_pos w2 = (528 + rng_pos w)%nat
  /\ rng_pos w3 = (1296 + rng_pos w)%nat /\ rng_pos w4 = (1362 + rng_pos w)%nat.
Proof.
  destruct (connected_parts w) as (_ & Hr & _).
  rewrite catalog_length, poverty_draws_catalog.
  unfold poverty_loaded, inequality_loaded, gdp_loaded, catalog_loaded,
    schema_created.
  cbn [rng_pos add_line set_table set_db advance_rng_by]. rewrite Hr. lia.
Qed.

End OneRun.

Section TwoRuns.
Context (RS1 RS2 : RandomSource) {ST : Storage} {HO : Host}.
Context (script : string) (w : World).
Context (g1 g2 : list GdpRow.t) (i1 i2 : list InequalityRow.t).
Context (p1 p2 : list PovertyRow.t) (t1 t2 : list TradeEduRow.t).
Hypothesis run1 : generators_run (RS := RS1) script (connected w) g1 i1 p1 t1.
Hypothesis run2 : generators_run (RS := RS2) script (connected w) g2 i2 p2 t2.

(** The equations of the two runs and the positions of their states. *)
Ltac two_runs :=
  destruct run1 as (Eg1 & Ei1 & Ep1 & Et1), run2 as (Eg2 & Ei2 & Ep2 & Et2);
  destruct (generators_positions script w g1 i1 p1) as (Pc & Pg1 & Pi1 & Pp1);
  destruct (generators_positions script w g2 i2 p2) as (_ & Pg2 & Pi2 & Pp2).

(** Apply [loaded_rows_agree_if] at the states of two positions. *)
Ltac same_rows rows_agree P1 P2 E1 E2 :=
  lazymatch type of P1 with
  | rng_pos ?wa = _ =>
      lazymatch type of P2 with
      | rng_pos ?wb = _ => refine (rows_agree wa wb _ _ _ _ _ _ P1 P2 E1 E2 _ _)
      end
  end.

(** The rows of a loader are the same in the two runs when its write
    succeeds and the streams agree on its segment. *)
Lemma gdp_rows_agree :
  write_ok "gdp_data" = true ->
  agree RS1 RS2 (0 + rng_pos w) (528 + rng_pos w) -> g1 = g2.
Proof.
  intros Hok Hag. two_runs. enough (GdpTable g2 = GdpTable g1) by congruence.
  rewrite (load_gdp_data_shape (RS := RS1)), gdp_loaded_shape in Eg1.
  rewrite (load_gdp_data_shape (RS := RS2)), gdp_loaded_shape in Eg2.
  same_rows (loaded_rows_agree_if RS1 RS2 _ _ GdpTable "gdp_data"
               "Creating GDP data..." gdp_closing
               (gdp_country_reads RS1 RS2) catalog) Pc Pc Eg1 Eg2;
    [exact Hok | rewrite catalog_length; exact Hag].
Qed.

Lemma inequality_rows_agree :
  write_ok "inequality_metrics" = true ->
  agree RS1 RS2 (528 + rng_pos w) (1296 + rng_pos w) -> i1 = i2.
Proof.
  intros Hok Hag. two_runs.
  enough (InequalityTable i2 = InequalityTable i1) by congruence.
  rewrite (load_inequality_data_shape (RS := RS1)),
    inequality_loaded_shape in Ei1.
  rewrite (load_inequality_data_shape (RS := RS2)),
    inequality_loaded_shape in Ei2.
  same_rows (loaded_rows_agree_if RS1 RS2 _ _ InequalityTable
               "inequality_metrics" "Creating inequality data..."
               inequality_closing (inequality_country_reads RS1 RS2) catalog)
    Pg1 Pg2 Ei1 Ei2;
    [exact Hok | rewrite catalog_length; exact Hag].
Qed.

Lemma poverty_rows_agree :
  write_ok "poverty_indicators" = true ->
  agree RS1 RS2 (1296 + rng_pos w) (1362 + rng_pos w) -> p1 = p2.
Proof.
  intros Hok Hag. two_runs.
  enough (PovertyTable p2 = PovertyTable p1) by congruence.
  rewrite (load_poverty_data_shape (RS := RS1)), poverty_loaded_shape in Ep1.
  rewrite (load_poverty_data_shape (RS := RS2)), poverty_loaded_shape in Ep2.
  same_rows (loaded_rows_agree_if RS1 RS2 _ _ PovertyTable
               "poverty_indicators" "Creating poverty data..."
               poverty_closing (poverty_country_reads RS1 RS2) catalog)
    Pi1 Pi2 Ep1 Ep2;
    [exact Hok | rewrite poverty_draws_catalog; exact Hag].
Qed.

Lemma trade_education_rows_agree :
  write_ok "trade_education" = true ->
  agree RS1 RS2 (1362 + rng_pos w) (2418 + rng_pos w) -> t1 = t2.
Proof.
  intros Hok Hag. two_runs.
  enough (TradeEduTable t2 = TradeEduTable t1) by congruence.
  unfold all_loaded in Et1, Et2.
  rewrite (load_trade_education_shape (RS := RS1)),
    trade_education_loaded_shape in Et1.
  rewrite (load_trade_education_shape (RS := RS2)),
    trade_education_loaded_shape in Et2.
  same_rows (loaded_rows_agree_if RS1 RS2 _ _ TradeEduTable "trade_education"
               "Creating trade and education data..." trade_education_closing
               (trade_education_country_reads RS1 RS2) catalog)
    Pp1 Pp2 Et1 Et2;
    [exact Hok | rewrite catalog_length; exact Hag].
Qed.

(** The writes of the two runs put the same table under a name when the
    streams agree on the segment of the name. *)
Lemma steps_agree (name : string) (a b : nat) :
  (name, (a, b)) ∈ segments ->
  agree RS1 RS2 (a + rng_pos w) (b + rng_pos w) ->
  Forall2 (fun s s' => s.1 = s'.1
                       /\ (s.1 = name -> write_ok name = true -> s.2 = s'.2))
    (load_steps g2 i2 p2 t2) (load_steps g1 i1 p1 t1).
Proof.
  intros Hin Hag. apply list_elem_of_In in Hin. unfold load_steps.
  repeat first [apply List.Forall2_cons | apply List.Forall2_nil];
    cbn [fst snd]; (split; [reflexivity |]); intros <- Hok;
    unfold segments in Hin; cbn [List.In] in Hin;
    repeat destruct Hin as [Hin|Hin]; simplify_eq; try contradiction;
    [reflexivity | f_equal; symmetry ..];
    eauto using gdp_rows_agree, inequality_rows_agree, poverty_rows_agree,
      trade_education_rows_agree.
Qed.

End TwoRuns.

Section Segments.
Context (RS1 RS2 : RandomSource) {ST : Storage} {HO : Host}.
Context (script : string) (w : World).
Hypothesis connects : can_connect DB_PATH = true.
Hypothesis schema_exists : file_content "schema.sql" = Some script.
Hypothesis schema_runs : script_ok script (db w) = true.

(** C14. In a run of [main] that connects and whose schema script runs, each
    table is a function of one segment of the random stream: counted from
    the position at which [main] starts, [gdp_data] of the draws 0 to 527,
    [inequality_metrics] of the draws 528 to 1295, [poverty_indicators] of
    the draws 1296 to 1361, [trade_education] of the draws 1362 to 2417,
    and [country_metadata] of none.  Two runs from the same state whose
    streams agree on the segment of a table leave the same table,
    whatever the streams hold elsewhere and whichever writes fail. *)
Theorem main_table_reads_segment (name : string) (a b : nat) :
  (name, (a, b)) ∈ segments ->
  agree RS1 RS2 (a + rng_pos w) (b + rng_pos w) ->
  db (run_state (main (RS := RS2)) w) !! name
  = db (run_state (main (RS := RS1)) w) !! name.
Proof.
  intros Hin Hag. destruct (connected_parts w) as (_ & _ & _ & _ & Ho).
  destruct (generators_outcome (RS := RS1) script (connected w) Ho)
    as (g1 & i1 & p1 & t1 & _ & H1).
  destruct (generators_outcome (RS := RS2) script (connected w) Ho)
    as (g2 & i2 & p2 & t2 & _ & H2).
  rewrite (main_db_of (RS := RS1) script w connects schema_exists schema_runs
             _ _ _ _ H1),
    (main_db_of (RS := RS2) script w connects schema_exists schema_runs
       _ _ _ _ H2).
  apply written_tables_lookup; [| reflexivity].
  exact (steps_agree RS1 RS2 script w _ _ _ _ _ _ _ _ H1 H2 name a b Hin Hag).
Qed.

End Segments.

(** ** The loaders share the generator *)

(** The first row of [inequality_metrics]. *)
Definition first_inequality_row (w : World) : option InequalityRow.t :=
  match db w !! "inequality_metrics" with
  | Some (InequalityTable (r :: _)) => Some r
  | _ => None
  end.


(** ** The rows of a country read the draws of that country *)

Section BodiesAppend.
Context {RS : RandomSource}.

Lemma gdp_country_appends (c : Country.t) : appends (gdp_country c).
Proof. unfold gdp_country, gdp_year. appends_auto. Qed.

Lemma inequality_country_appends (c : Country.t) :
  appends (inequality_country c).
Proof. unfold inequality_country, inequality_year. appends_auto. Qed.

Lemma poverty_country_appends (c : Country.t) : appends (poverty_country c).
Proof. unfold poverty_country, poverty_year. appends_auto. Qed.

Lemma trade_education_country_appends (c : Country.t) :
  appends (trade_education_country c).
Proof.
  unfold trade_education_country, trade_education_year. appends_auto.
Qed.

End BodiesAppend.

#[export] Hint Resolve gdp_country_appends inequality_country_appends
  poverty_country_appends trade_education_country_appends : py.

Section CountryBlocks.
Context {RS : RandomSource} {ST : Storage}.

(** C27. The loop of each loader is a [concat] over the catalog: on an
    open connection and a table that can be written, the table a loader
    leaves is the concatenation, in the order of the catalog, of the
    blocks each country generates alone (the body of the loop run on an
    empty list), the block of a country starting at the position of the
    random stream where the draws of the countries before it end: 11
    draws per country for [gdp_data], 16 for [inequality_metrics], 3 per
    eligible country for [poverty_indicators], 22 for [trade_education]. *)
Theorem tables_are_country_blocks (countries : list Country.t) (w : World) :
  conn_open w = true ->
  known_income_groups countries -> known_regions countries ->
  (forall table, table ∈ tables -> write_ok table = true) ->
  db (run_state (load_gdp_data countries) w) !! "gdp_data"
  = Some (GdpTable
            (concat (table_blocks gdp_country (fun _ => 11%nat) countries
                       (rng_pos w))))
  /\ db (run_state (load_inequality_data countries) w) !! "inequality_metrics"
     = Some (InequalityTable
               (concat (table_blocks inequality_country (fun _ => 16%nat)
                          countries (rng_pos w))))
  /\ db (run_state (load_poverty_data countries) w) !! "poverty_indicators"
     = Some (PovertyTable
               (concat (table_blocks poverty_country poverty_draws countries
                          (rng_pos w))))
  /\ db (run_state (load_trade_education countries) w) !! "trade_education"
     = Some (TradeEduTable
               (concat (table_blocks trade_education_country
                          (fun _ => 22%nat) countries (rng_pos w)))).
Proof.
  intros Ho Hg Hr Hw.
  rewrite load_gdp_data_shape, load_inequality_data_shape,
    load_poverty_data_shape, load_trade_education_shape.
  repeat split;
    [apply (load_table_blocks _ gdp_block_spec)
    | apply (load_table_blocks _ inequality_block_spec)
    | apply (load_table_blocks _ poverty_block_spec)
    | apply (load_table_blocks _ trade_education_block_spec)];
    auto with py; try (apply Hw; unfold tables; set_solver).
  - intros c Hc. apply gdp_country_spec.
    exact (proj1 (Forall_forall _ _) Hg c Hc).
  - intros c Hc. apply inequality_country_spec.
    exact (proj1 (Forall_forall _ _) Hr c Hc).
  - intros c _. apply poverty_country_spec.
  - intros c _. apply trade_education_country_spec.
Qed.

End CountryBlocks.

Section CountryLocal.
Context (RS1 RS2 : RandomSource).

(** C28. The block of a country is a function of the draws of that country
    only: when two random streams agree on the 11 positions from [pos]
    on, [gdp_country] generates the same block for the country at [pos]
    under both; likewise for the 16 draws of [inequality_country], the 3
    or 0 draws of [poverty_country] and the 22 draws of
    [trade_education_country].  With [tables_are_country_blocks], the rows
    of a country in a table do not depend on the draws made for any other
    country. *)
Theorem country_block_reads_own_draws (c : Country.t) (pos : nat) :
  Country.income_group c ∈ income_groups -> Country.region c ∈ regions ->
  (agree RS1 RS2 pos (11 + pos) ->
   block_at (gdp_country (RS := RS2)) c pos
   = block_at (gdp_country (RS := RS1)) c pos)
  /\ (agree RS1 RS2 pos (16 + pos) ->
      block_at (inequality_country (RS := RS2)) c pos
      = block_at (inequality_country (RS := RS1)) c pos)
  /\ (agree RS1 RS2 pos (poverty_draws c + pos) ->
      block_at (poverty_country (RS := RS2)) c pos
      = block_at (poverty_country (RS := RS1)) c pos)
  /\ (agree RS1 RS2 pos (22 + pos) ->
      block_at (trade_education_country (RS := RS2)) c pos
      = block_at (trade_education_country (RS := RS1)) c pos).
Proof.
  intros Hg Hr.
  repeat split; intros Hag;
    [apply (block_at_local RS1 RS2 _ _ gdp_block_spec (fun _ => 11%nat))
    | apply (block_at_local RS1 RS2 _ _ inequality_block_spec
               (fun _ => 16%nat))
    | apply (block_at_local RS1 RS2 _ _ poverty_block_spec poverty_draws)
    | apply (block_at_local RS1 RS2 _ _ trade_education_block_spec
               (fun _ => 22%nat))];
    auto with py.
  - apply gdp_country_spec, Hg.
  - apply inequality_country_spec, Hr.
  - apply poverty_country_spec.
  - apply trade_education_country_spec.
Qed.

End CountryLocal.

(** ** The theorems at concrete inputs *)

(** The stream of [lcg_source] on the positions from [a] to [b], and zero
    everywhere else. *)
Definition windowed_source (a b : nat) : RandomSource :=
  milli_source (fun n => if (a <=? n)%nat && (n <? b)%nat
                         then (7919 * Z.of_nat n + 13)%Z else 0%Z).

Lemma windowed_agree (a b : nat) : agree lcg_source (windowed_source a b) a b.
Proof.
  intros n [Ha Hb]. unfold lcg_source, windowed_source, milli_source.
  cbn [draw]. unfold milli_draw.
  destruct (Nat.leb_spec a n); [| lia]. destruct (Nat.ltb_spec n b); [| lia].
  reflexivity.
Qed.

Lemma tables_are_country_blocks_witness :
  db (run_state (load_gdp_data (RS := lcg_source) (ST := reliable_storage)
                   catalog) initial_world) !! "gdp_data"
  = Some (GdpTable
            (concat (table_blocks (gdp_country (RS := lcg_source))
                       (fun _ => 11%nat) catalog 0)))
  /\ db (run_state (load_inequality_data (RS := lcg_source)
                      (ST := reliable_storage) catalog) initial_world)
       !! "inequality_metrics"
     = Some (InequalityTable
               (concat (table_blocks (inequality_country (RS := lcg_source))
                          (fun _ => 16%nat) catalog 0)))
  /\ db (run_state (load_poverty_data (RS := lcg_source)
                      (ST := reliable_storage) catalog) initial_world)
       !! "poverty_indicators"
     = Some (PovertyTable
               (concat (table_blocks (poverty_country (RS := lcg_source))
                          poverty_draws catalog 0)))
  /\ db (run_state (load_trade_education (RS := lcg_source)
                      (ST := reliable_storage) catalog) initial_world)
       !! "trade_education"
     = Some (TradeEduTable
               (concat (table_blocks
                          (trade_education_country (RS := lcg_source))
                          (fun _ => 22%nat) catalog 0))).
Proof.
  apply (tables_are_country_blocks (RS := lcg_source) (ST := reliable_storage)
           catalog initial_world eq_refl catalog_known_income_groups
           catalog_known_regions).
  intros table _. reflexivity.
Defined.

(** The second country of the catalog, whose GDP draws are the positions 11
    to 21 of a run that starts at 0. *)
Lemma country_block_reads_own_draws_witness :
  let c := default atlantis (catalog !! 1%nat) in
  block_at (gdp_country (RS := windowed_source 11 22)) c 11
  = block_at (gdp_country (RS := lcg_source)) c 11.
Proof.
  intros c.
  destruct (country_block_reads_own_draws lcg_source (windowed_source 11 22)
              c 11) as (H & _).
  - apply (bool_decide_unpack _). vm_compute. exact I.
  - apply (bool_decide_unpack _). vm_compute. exact I.
  - exact (H (windowed_agree 11 22)).
Defined.

Lemma main_table_reads_segment_witness :
  db (run_state (main (RS := windowed_source 528 1296) (ST := reliable_storage)
                   (HO := plain_host sample_schema)) initial_world)
    !! "inequality_metrics"
  = db (run_state (main (RS := lcg_source) (ST := reliable_storage)
                     (HO := plain_host sample_schema)) initial_world)
      !! "inequality_metrics".
Proof.
  apply (main_table_reads_segment lcg_source (windowed_source 528 1296)
           (ST := reliable_storage) (HO := plain_host sample_schema)
           sample_schema initial_world eq_refl eq_refl eq_refl
           "inequality_metrics" 528 1296).
  - apply list_elem_of_In. cbn. auto.
  - exact (windowed_agree 528 1296).
Defined.
