(* ===== verification/Stages.v ===== *)
(** * Stages: [main] as a machine of statements

    [main] is a sequence of statements, two before [try], seven inside it,
    the handler and the [finally] clause.  [stage_next] runs one of them:
    from a stage and a state it gives the event the statement emits, the
    stage control goes to and the state it leaves.  The file proves that
    running the machine from the first stage is running [main]
    (equivalence), that the machine stops after at most eleven steps
    whatever the components do (termination), and that its steps obey the
    rules of [Protocol] (refinement), from which the order of the writes and
    the release of a connection that was made follow for every run. *)

From Stdlib Require Import QArith ZArith List String Lia.
From stdpp Require Import base tactics option list strings gmap.
From S2P Require Import Prelude PyNum Effects Machine Format Schema World.
From S2P Require Import Protocol Catalog Gdp Inequality Poverty TradeEdu Main.

Local Open Scope string_scope.
Local Open Scope list_scope.
Local Open Scope py_scope.

(** ** The machine *)

(** Where control is: before a statement of [main], or after its return.
    The loaders take the frame that [load_country_metadata] returned. *)
Inductive Stage : Type :=
| AtBanner
| AtConnect
| AtSchema
| AtCatalog
| AtGdp (countries : list Country.t)
| AtInequality (countries : list Country.t)
| AtPoverty (countries : list Country.t)
| AtTradeEdu (countries : list Country.t)
| AtSummary
| AtExcept (e : Exn)
| AtFinally (pending : option Exn)
| Returned (r : result Exn unit).

Definition Config : Type := Stage * World.

Section Model.
Context {RS : RandomSource} {ST : Storage} {HO : Host}.

(** The four [print] calls that open [main]. *)
Definition print_banner : Py unit :=
  print (nl +:+ str_mul "=" 70) ;;
  print "BASIC GLOBAL INEQUALITY DATABASE LOADER" ;;
  print "Sample data for SQL portfolio demonstration" ;;
  print (str_mul "=" 70 +:+ nl).

(** A statement before [try]: an exception leaves [main] at once. *)
Definition outside_try (c : Py unit) (l : Event) (st : Stage) (w : World)
  : Event * Config :=
  match c w with
  | (Ok _, w') => (l, (st, w'))
  | (Raise e, w') => (EvRaise e, (Returned (Raise e), w'))
  end.

(** A statement of [try]: an exception goes to the handler. *)
Definition inside_try {A} (c : Py A) (l : Event) (k : A -> Stage) (w : World)
  : Event * Config :=
  match c w with
  | (Ok a, w') => (l, (k a, w'))
  | (Raise e, w') => (EvRaise e, (AtExcept e, w'))
  end.

(** The handler: an exception raised in it is pending while [finally]
    runs. *)
Definition in_except (e : Exn) (w : World) : Event * Config :=
  match main_except e w with
  | (Ok _, w') => (EvReport e, (AtFinally None, w'))
  | (Raise e', w') => (EvRaise e', (AtFinally (Some e'), w'))
  end.

(** The [finally] clause: [main] returns, or raises what was pending. *)
Definition in_finally (pending : option Exn) (w : World) : Event * Config :=
  match conn_close w with
  | (Ok _, w') =>
      (EvClose,
       (Returned (match pending with Some e => Raise e | None => Ok tt end),
        w'))
  | (Raise e, w') => (EvRaise e, (Returned (Raise e), w'))
  end.

Definition stage_next (c : Config) : option (Event * Config) :=
  let (st, w) := c in
  match st with
  | AtBanner => Some (outside_try print_banner EvBanner AtConnect w)
  | AtConnect =>
      Some (outside_try (sqlite3_connect DB_PATH) EvConnect AtSchema w)
  | AtSchema => Some (inside_try create_schema EvSchema (fun _ => AtCatalog) w)
  | AtCatalog =>
      Some (inside_try load_country_metadata (EvWrite "country_metadata")
              AtGdp w)
  | AtGdp countries =>
      Some (inside_try (load_gdp_data countries) (EvWrite "gdp_data")
              (fun _ => AtInequality countries) w)
  | AtInequality countries =>
      Some (inside_try (load_inequality_data countries)
              (EvWrite "inequality_metrics") (fun _ => AtPoverty countries) w)
  | AtPoverty countries =>
      Some (inside_try (load_poverty_data countries)
              (EvWrite "poverty_indicators") (fun _ => AtTradeEdu countries) w)
  | AtTradeEdu countries =>
      Some (inside_try (load_trade_education countries)
              (EvWrite "trade_education") (fun _ => AtSummary) w)
  | AtSummary =>
      Some (inside_try print_summary EvSummary (fun _ => AtFinally None) w)
  | AtExcept e => Some (in_except e w)
  | AtFinally pending => Some (in_finally pending w)
  | Returned _ => None
  end.

(** The events of a run of [main] and the configuration it ends in. *)
Definition main_events (w : World) : list Event :=
  (exec stage_next 11 (AtBanner, w)).1.

Definition main_final (w : World) : Config :=
  (exec stage_next 11 (AtBanner, w)).2.

End Model.

(** The statements left before [main] returns, at most. *)
Definition stage_rank (st : Stage) : nat :=
  match st with
  | AtBanner => 11
  | AtConnect => 10
  | AtSchema => 9
  | AtCatalog => 8
  | AtGdp _ => 7
  | AtInequality _ => 6
  | AtPoverty _ => 5
  | AtTradeEdu _ => 4
  | AtSummary => 3
  | AtExcept _ => 2
  | AtFinally _ => 1
  | Returned _ => 0
  end.

(** ** The machine runs [main] *)

Section Equivalence.
Context {RS : RandomSource} {ST : Storage} {HO : Host}.

Lemma exec_finally n w :
  exec stage_next (S n) (AtFinally None, w)
  = ([EvClose], (Returned (Ok tt), close_conn w)).
Proof.
  rewrite (exec_step stage_next n (AtFinally None, w)
             (s' := (Returned (Ok tt), close_conn w)) eq_refl).
  rewrite exec_stopped by reflexivity. reflexivity.
Qed.

(** From the handler the machine reports, closes and returns. *)
Lemma exec_except n e w :
  exec stage_next (S (S n)) (AtExcept e, w)
  = ([EvReport e; EvClose], (Returned (Ok tt), failed e w)).
Proof.
  rewrite (exec_step stage_next (S n) (AtExcept e, w) (l := EvReport e)
             (s' := (AtFinally None,
                     add_trace e (add_line (error_line e) w))) eq_refl).
  rewrite exec_finally. reflexivity.
Qed.

(** The two statements before [try]: the banner, then the connection, or
    the exception that leaves [main]. *)
Lemma exec_prelude n w :
  exec stage_next (S (S n)) (AtBanner, w)
  = if can_connect DB_PATH
    then (EvBanner :: EvConnect
            :: (exec stage_next n (AtSchema, connected w)).1,
          (exec stage_next n (AtSchema, connected w)).2)
    else ([EvBanner; EvRaise connect_error],
          (Returned (Raise connect_error), add_lines banner w)).
Proof.
  rewrite (exec_step stage_next (S n) (AtBanner, w) (l := EvBanner)
             (s' := (AtConnect, add_lines banner w)) eq_refl).
  rewrite exec_S. cbn [stage_next]. unfold outside_try, sqlite3_connect.
  destruct (can_connect DB_PATH); [reflexivity |].
  rewrite exec_stopped by reflexivity. reflexivity.
Qed.

(** Run one statement of [try] on both sides; the branch of the raise is
    closed by the handler. *)
Ltac try_statement :=
  rewrite exec_S; cbn [stage_next]; unfold inside_try; unfold bind at 1;
  match goal with
  | |- context [match ?c ?w with _ => _ end] =>
      destruct (c w) as [[?|?] ?]; cbn [fst snd];
      [| rewrite exec_except; reflexivity]
  end.

(** Equivalence: the machine started at the first statement stops in the
    result and the state of [main]. *)
Lemma main_final_main (w : World) :
  main_final w = let (r, w') := main w in (Returned r, w').
Proof.
  unfold main_final.
  rewrite main_run, exec_prelude. destruct (can_connect DB_PATH);
    [| reflexivity].
  cbn [snd]. unfold main_try.
  do 6 try_statement.
  rewrite exec_S. cbn [stage_next]. unfold inside_try.
  destruct (print_summary _) as [[[]|e] w']; cbn [fst snd];
    [| rewrite exec_except; reflexivity].
  rewrite exec_finally. reflexivity.
Qed.

(** The configuration the machine stops in. *)
Lemma main_final_outcome (w : World) :
  main_final w = (Returned main_outcome, run_state main w).
Proof.
  rewrite main_final_main, <- (main_result w). unfold run_result, run_state.
  destruct (main w). reflexivity.
Qed.

End Equivalence.

(** ** Every step moves towards the return *)

Section Termination.
Context {RS : RandomSource} {ST : Storage} {HO : Host}.

Lemma stage_rank_step c l c' :
  fstep stage_next c l c' -> stage_rank c'.1 < stage_rank c.1.
Proof.
  destruct c as [st w]. unfold fstep, stage_next, outside_try, inside_try,
    in_except, in_finally.
  destruct st; intros E; simplify_eq;
    repeat match goal with
    | H : context [match ?c ?w with _ => _ end] |- _ =>
        destruct (c w) as [[?|?] ?]
    end; simplify_eq; cbn; lia.
Qed.

(** The machine has stopped exactly when [main] has returned. *)
Lemma stage_next_None c : stage_next c = None <-> exists r, c.1 = Returned r.
Proof.
  destruct c as [[] w]; cbn; split; try discriminate; eauto;
    intros [r Hr]; discriminate.
Qed.

End Termination.

(** ** The machine obeys the protocol *)

(** The abstract state while the loaders run: the schema is in place and
    the first [k] tables are written. *)
Definition trying (k : nat) : Proto :=
  mkProto Trying true (take k write_order) false true None.

(** The abstract states a stage stands for.  The loaders run on the
    catalog of the script. *)
Definition stage_abs (st : Stage) (p : Proto) : Prop :=
  match st with
  | AtBanner => p = proto_init
  | AtConnect => p = mkProto Ready false [] false false None
  | AtSchema => p = mkProto Trying false [] false true None
  | AtCatalog => p = trying 0
  | AtGdp countries => countries = catalog /\ p = trying 1
  | AtInequality countries => countries = catalog /\ p = trying 2
  | AtPoverty countries => countries = catalog /\ p = trying 3
  | AtTradeEdu countries => countries = catalog /\ p = trying 4
  | AtSummary => p = trying 5
  | AtExcept e => p_phase p = Handling e
  | AtFinally pending => pending = None /\ p_phase p = Closing
  | Returned (Ok _) => p_phase p = Finished
  | Returned (Raise e) => p_phase p = Aborted e
  end.

(** The tables of a list are in the database. *)
Definition present (ts : list string) (w : World) : Prop :=
  forall t, t ∈ ts -> is_Some (db w !! t).

(** Before the connection is made, and when it was refused, the state of
    the connection in [World] is not that of this run. *)
Definition stage_conn (st : Stage) (w : World) (p : Proto) : Prop :=
  match st with
  | AtBanner | AtConnect | Returned (Raise _) => True
  | _ => conn_open w = p_conn p
  end.

(** The simulation relation: the abstract state is one of the invariant,
    it is the one the stage stands for, the tables it counts as written are
    in the database and the connection is held when it says so. *)
Definition stage_rel (c : Config) (p : Proto) : Prop :=
  proto_ok p /\ stage_abs c.1 p /\ present (p_written p) c.2
  /\ stage_conn c.1 c.2 p.

(** A step of the machine is matched by the protocol. *)
Definition matched (p : Proto) (x : Event * Config) : Prop :=
  exists p', pstep p x.1 p' /\ stage_rel x.2 p'.

Lemma present_nil w : present [] w.
Proof. intros t H. by apply elem_of_nil in H. Qed.

Lemma present_app ts t w :
  present ts w -> is_Some (db w !! t) -> present (ts ++ [t]) w.
Proof.
  intros Hts Ht t' [H|H%list_elem_of_singleton]%elem_of_app;
    [apply Hts, H | by subst].
Qed.

Lemma present_mono ts w w' :
  (forall t, is_Some (db w !! t) -> is_Some (db w' !! t)) ->
  present ts w -> present ts w'.
Proof. intros Hdb H t Ht. apply Hdb, H, Ht. Qed.

(** A state of the invariant inside [try] has the form the rules expect. *)
Lemma proto_ok_trying p :
  proto_ok p -> p_phase p = Trying ->
  p = mkProto Trying (p_schema p) (p_written p) false true None.
Proof.
  destruct p as [ph sc ws sm cn r]. intros (_ & Hc & _ & Hph) E.
  cbn in *. subst ph. destruct Hph as (-> & ->). subst cn. reflexivity.
Qed.

Section Simulation.
Context {RS : RandomSource} {ST : Storage} {HO : Host}.

(** A statement of [try]: when its normal return is matched by a rule, the
    statement is matched on both outcomes, the raise by [pstep_raise]. *)
Lemma matched_inside_try {A} (c : Py A) (l : Event) (k : A -> Stage) w p p' :
  proto_ok p -> p_phase p = Trying -> pstep p l p' ->
  conn_open (run_state c w) = true ->
  present (p_written p) (run_state c w) ->
  (forall a, run_result c w = Ok a ->
     stage_abs (k a) p' /\ present (p_written p') (run_state c w)
     /\ stage_conn (k a) (run_state c w) p') ->
  matched p (inside_try c l k w).
Proof.
  intros Hok Hph Hstep Hconn Hpres Hret.
  unfold matched, inside_try, run_state, run_result in *.
  destruct (c w) as [[a|e] w']; cbn in *.
  - exists p'. destruct (Hret a eq_refl) as (Habs & Hp' & Hc').
    split; [exact Hstep |].
    split; [exact (proto_ok_stable _ _ _ Hok Hstep) | auto].
  - pose proof (proto_ok_trying p Hok Hph) as E.
    destruct p as [ph sc ws sm cn r]. cbn in *. simplify_eq.
    exists (mkProto (Handling e) sc ws false true None).
    split; [apply pstep_raise |].
    split; [exact (proto_ok_stable _ _ _ Hok (pstep_raise _ _ e)) |].
    cbn. auto.
Qed.

(** The schema script may drop tables; it leaves the connection alone. *)
Lemma create_schema_conn w :
  conn_open (run_state create_schema w) = conn_open w.
Proof.
  unfold run_state, create_schema, bind, print, modify, open_read,
    executescript.
  destruct (file_content _); cbn; [| reflexivity].
  destruct (conn_open w) eqn:E; cbn; [| exact E].
  destruct (script_ok _ _); exact E.
Qed.

Lemma matched_schema w p :
  proto_ok p -> p = mkProto Trying false [] false true None ->
  conn_open w = true ->
  matched p (inside_try create_schema EvSchema (fun _ => AtCatalog) w).
Proof.
  intros Hok -> Ho.
  apply (matched_inside_try _ _ _ _ _ (trying 0));
    auto using present_nil with py; [| intros _ _; unfold stage_conn];
    rewrite create_schema_conn; [exact Ho |].
  split; [reflexivity | split; [apply present_nil | exact Ho]].
Qed.

Lemma matched_catalog w :
  proto_ok (trying 0) -> conn_open w = true ->
  matched (trying 0)
    (inside_try load_country_metadata (EvWrite "country_metadata") AtGdp w).
Proof.
  intros Hok Ho. pose proof (load_country_metadata_run w Ho) as E.
  apply (matched_inside_try _ _ _ _ _ (trying 1)); auto using present_nil;
    [apply (pstep_write []); reflexivity | |];
    unfold run_state, run_result; rewrite E.
  - destruct (write_ok _); exact Ho.
  - destruct (write_ok _); [| discriminate]. intros a [= <-]. cbn.
    repeat split; [| exact Ho].
    apply (present_app []); [apply present_nil |].
    cbn. rewrite lookup_insert_eq. eauto.
Qed.

(** A loader is matched by the write of its table: this is proved from its
    contract. *)
Lemma matched_loader {B} (C : Contract Country.t B)
    (run : list Country.t -> Py unit) `{!Loader C run} (n : nat)
    (next : Stage) w :
  c_accepts C catalog -> write_order !! n = Some (c_table C) ->
  stage_abs next (trying (S n)) ->
  proto_ok (trying n) -> present (take n write_order) w ->
  conn_open w = true ->
  matched (trying n)
    (inside_try (run catalog) (EvWrite (c_table C)) (fun _ => next) w).
Proof.
  intros Hacc Hn Hnext Hok Hpres Ho.
  destruct (loader_adds_table C run catalog w Hacc Ho) as (Hc & Hkeep & Hadd).
  assert (take (S n) write_order = take n write_order ++ [c_table C]) as Et
    by exact (take_S_r _ _ _ Hn).
  apply (matched_inside_try _ _ _ _ _ (trying (S n))); auto.
  - unfold trying. rewrite Et. apply pstep_write.
    rewrite length_take_le; [exact Hn | apply lookup_lt_Some in Hn; lia].
  - exact (present_mono _ _ _ Hkeep Hpres).
  - intros a Ha. split; [exact Hnext | split].
    + unfold trying. cbn [p_written]. rewrite Et.
      apply present_app; [exact (present_mono _ _ _ Hkeep Hpres) | eauto].
    + destruct next as [| | | | | | | | | | |[]]; cbn; auto.
Qed.

Lemma matched_summary w :
  proto_ok (trying 5) -> present write_order w -> conn_open w = true ->
  matched (trying 5)
    (inside_try print_summary EvSummary (fun _ => AtFinally None) w).
Proof.
  intros Hok Hpres Ho. destruct (keeps_store_print_summary w) as [Hdb Hc].
  apply (matched_inside_try _ _ _ _ _
           (mkProto Closing true write_order true true None)); auto.
  - apply pstep_summary.
  - rewrite Hc. exact Ho.
  - intros t Ht. rewrite Hdb. apply Hpres, Ht.
  - intros _ _. cbn. rewrite Hc. repeat split; [| exact Ho].
    intros t Ht. rewrite Hdb. apply Hpres, Ht.
Qed.

Lemma matched_banner w :
  matched proto_init (outside_try print_banner EvBanner AtConnect w).
Proof.
  exists (mkProto Ready false [] false false None).
  split; [apply pstep_banner |].
  split; [exact (proto_ok_stable _ _ _ proto_init_ok pstep_banner) |].
  repeat split. apply present_nil.
Qed.

Lemma matched_connect w p :
  proto_ok p -> p = mkProto Ready false [] false false None ->
  matched p (outside_try (sqlite3_connect DB_PATH) EvConnect AtSchema w).
Proof.
  intros Hok ->. unfold matched, outside_try, sqlite3_connect.
  destruct (can_connect DB_PATH).
  - exists (mkProto Trying false [] false true None).
    split; [apply pstep_connect |].
    split; [exact (proto_ok_stable _ _ _ Hok pstep_connect) |].
    repeat split. apply present_nil.
  - exists (mkProto (Aborted connect_error) false [] false false None).
    split; [apply pstep_refuse |].
    split; [exact (proto_ok_stable _ _ _ Hok (pstep_refuse _)) |].
    repeat split. apply present_nil.
Qed.

(** The handler prints and traces: the report of the protocol. *)
Lemma matched_except e w p :
  proto_ok p -> p_phase p = Handling e -> present (p_written p) w ->
  conn_open w = p_conn p -> matched p (in_except e w).
Proof.
  intros Hok E Hpres Hconn. pose proof Hok as (_ & Hc & _ & Hph).
  destruct p as [ph sc ws sm cn r]. cbn in *. subst ph.
  destruct Hph as (-> & ->). destruct cn; [| discriminate].
  exists (mkProto Closing sc ws false true (Some e)).
  split; [apply pstep_report |].
  split; [exact (proto_ok_stable _ _ _ Hok (pstep_report _ _ e)) |].
  repeat split; assumption.
Qed.

(** The [finally] clause releases the connection. *)
Lemma matched_finally w p :
  proto_ok p -> p_phase p = Closing -> present (p_written p) w ->
  conn_open w = p_conn p -> matched p (in_finally None w).
Proof.
  intros Hok E Hpres Hconn. pose proof Hok as (_ & Hc & _).
  destruct p as [ph sc ws sm cn r]. cbn in *. subst ph.
  destruct cn; [| discriminate].
  exists (mkProto Finished sc ws sm false r).
  split; [apply pstep_close |].
  split; [exact (proto_ok_stable _ _ _ Hok (pstep_close _ _ _ _)) |].
  repeat split; assumption.
Qed.

(** Refinement: every step of the machine is a step of the protocol with
    the same event, from related states to related states. *)
Lemma stage_simulates : simulates (fstep stage_next) pstep stage_rel.
Proof.
  intros [st w] l c' p (Hok & Habs & Hpres & Hconn) Hstep.
  change (matched p (l, c')). unfold fstep in Hstep.
  destruct st; cbn [stage_abs stage_conn fst snd] in Habs, Hconn, Hpres;
    cbn [stage_next] in Hstep; try discriminate;
    apply (inj Some) in Hstep; rewrite <- Hstep; clear Hstep l c'.
  - subst p. apply matched_banner.
  - apply matched_connect; assumption.
  - apply matched_schema; try assumption. subst p. exact Hconn.
  - subst p. apply matched_catalog; assumption.
  - destruct Habs as [-> ->].
    exact (matched_loader gdp_contract load_gdp_data 1 (AtInequality catalog)
             w catalog_known_income_groups eq_refl (conj eq_refl eq_refl)
             Hok Hpres Hconn).
  - destruct Habs as [-> ->].
    exact (matched_loader inequality_contract load_inequality_data 2
             (AtPoverty catalog) w catalog_known_regions eq_refl
             (conj eq_refl eq_refl) Hok Hpres Hconn).
  - destruct Habs as [-> ->].
    exact (matched_loader poverty_contract load_poverty_data 3
             (AtTradeEdu catalog) w I eq_refl (conj eq_refl eq_refl)
             Hok Hpres Hconn).
  - destruct Habs as [-> ->].
    exact (matched_loader trade_education_contract load_trade_education 4
             AtSummary w I eq_refl eq_refl Hok Hpres Hconn).
  - subst p. apply matched_summary; assumption.
  - apply matched_except; assumption.
  - destruct Habs as [-> Hph]. apply matched_finally; assumption.
Qed.

Lemma stage_rel_init w : stage_rel (AtBanner, w) proto_init.
Proof.
  split; [exact proto_init_ok | repeat split]. apply present_nil.
Qed.

(** The events of a run of [main] are a run of the protocol, which ends in
    a state related to the one the machine stops in. *)
Lemma main_protocol_run (w : World) :
  exists p, run pstep proto_init (main_events w) p
            /\ stage_rel (main_final w) p.
Proof.
  exact (simulation_run proto_init stage_simulates
           (exec_run stage_next 11 (AtBanner, w)) (stage_rel_init w)).
Qed.

(** After a normal return the connection is released. *)
Lemma returned_closed (w : World) (p : Proto) :
  stage_rel (Returned (Ok tt), w) p -> conn_open w = false.
Proof.
  intros ((_ & Hc & _) & Habs & _ & Hconn). cbn in Habs, Hconn.
  rewrite Hconn, Hc, Habs. reflexivity.
Qed.

(** The run of the protocol that the events of [main] make, and the state
    of the protocol it ends in. *)
Lemma main_final_returned (w : World) :
  exists p, run pstep proto_init (main_events w) p
            /\ proto_ok p
            /\ stage_abs (Returned main_outcome) p
            /\ present (p_written p) (run_state main w)
            /\ (can_connect DB_PATH = true
                -> p_phase p = Finished
                   /\ conn_open (run_state main w) = false).
Proof.
  destruct (main_protocol_run w) as (p & Hrun & HR).
  rewrite main_final_outcome in HR. exists p.
  pose proof HR as (Hok & Habs & Hpres & _).
  do 4 (split; [assumption |]). intros Hcan.
  unfold main_outcome in HR, Habs. rewrite Hcan in HR, Habs.
  split; [exact Habs | exact (returned_closed _ _ HR)].
Qed.

(** What the stage says of the host: control is past the connection only
    when the connection was made, and [main] raises only when it was
    refused. *)
Definition stage_host (st : Stage) : Prop :=
  match st with
  | AtBanner | AtConnect => True
  | Returned (Raise e) => e = connect_error /\ can_connect DB_PATH = false
  | _ => can_connect DB_PATH = true
  end.

(** The invariant of the machine: the stage agrees with the host, and the
    configuration is related to a state of the protocol. *)
Definition stage_ok (c : Config) : Prop :=
  stage_host c.1 /\ exists p, stage_rel c p.

Lemma stage_ok_init w : stage_ok (AtBanner, w).
Proof. split; [exact I | exists proto_init; apply stage_rel_init]. Qed.

Lemma stage_host_step st w l c' :
  stage_host st -> (forall pending, st = AtFinally pending -> pending = None) ->
  fstep stage_next (st, w) l c' -> stage_host c'.1.
Proof.
  unfold fstep, stage_next, outside_try, inside_try, in_except, in_finally,
    sqlite3_connect.
  intros Hh Hp E. destruct st; cbn [stage_host] in Hh;
    try rewrite (Hp _ eq_refl) in E; try destruct (can_connect DB_PATH) eqn:?;
    repeat match goal with
    | H : context [match ?c ?w with _ => _ end] |- _ =>
        destruct (c w) as [[?|?] ?] eqn:?
    end; simplify_eq; cbn; auto.
Qed.

(** The invariant is kept by every step. *)
Lemma stage_ok_stable : stable (fstep stage_next) stage_ok.
Proof.
  intros [st w] l c' (Hh & p & HR) Hstep. split.
  - apply (stage_host_step st w l c' Hh); [| exact Hstep].
    intros pending ->. destruct HR as (_ & Habs & _). exact (proj1 Habs).
  - destruct (stage_simulates _ l c' p HR Hstep) as (p' & _ & HR'). eauto.
Qed.

(** A configuration of the invariant has returned what [main] returns,
    with the connection released if it was made, or has a step. *)
Lemma stage_progress (c : Config) :
  stage_ok c ->
  (c.1 = Returned main_outcome
   /\ (can_connect DB_PATH = true -> conn_open c.2 = false))
  \/ exists l c', fstep stage_next c l c'.
Proof.
  intros (Hh & p & HR). destruct c as [st w].
  destruct (stage_next (st, w)) as [[l c']|] eqn:E; [right; eauto |].
  left. apply stage_next_None in E as [r Hr]. cbn in Hr, Hh |- *. subst st.
  unfold main_outcome. destruct r as [[]|e]; cbn in Hh.
  - rewrite Hh. split; [reflexivity | intros _]. exact (returned_closed _ _ HR).
  - destruct Hh as [-> ->]. split; [reflexivity | discriminate].
Qed.

(** What holds of the state when control is at a stage. *)
Definition stage_inv (st : Stage) (w : World) : Prop :=
  match st with
  | AtBanner | AtConnect => True
  | AtSchema | AtCatalog | AtExcept _ | AtFinally _ => conn_open w = true
  | AtGdp countries =>
      countries = catalog /\ conn_open w = true
      /\ present (take 1 write_order) w
  | AtInequality countries =>
      countries = catalog /\ conn_open w = true
      /\ present (take 2 write_order) w
  | AtPoverty countries =>
      countries = catalog /\ conn_open w = true
      /\ present (take 3 write_order) w
  | AtTradeEdu countries =>
      countries = catalog /\ conn_open w = true
      /\ present (take 4 write_order) w
  | AtSummary => conn_open w = true /\ present write_order w
  | Returned (Ok _) => conn_open w = false
  | Returned (Raise e) => e = connect_error /\ can_connect DB_PATH = false
  end.

Lemma stage_ok_inv st w : stage_ok (st, w) -> stage_inv st w.
Proof.
  intros (Hh & p & (_ & Hc & _) & Habs & Hpres & Hconn).
  destruct st as [| | | | | | | | | | |[[]|e]];
    cbn [stage_abs stage_conn stage_inv stage_host fst snd] in *;
    repeat match goal with H : _ /\ _ |- _ => destruct H end; subst;
    auto; try split; try reflexivity; rewrite Hconn, Hc;
    match goal with H : p_phase _ = _ |- _ => rewrite H end; reflexivity.
Qed.

End Simulation.

(** ** Theorems on runs of the machine *)

Section Runs.
Context {RS : RandomSource} {ST : Storage} {HO : Host}.



(** C18. Refinement: the events of a run of [main] are a run of the
    protocol from its initial state to a state in which the run has ended:
    finished, with the connection released, when the connection was made,
    and aborted by the exception of [sqlite3.connect], with the state of
    the connection untouched, when it was refused.  The tables the
    protocol counts as written are in the database [main] leaves. *)
Theorem main_refines_protocol (w : World) :
  exists p, run pstep proto_init (main_events w) p
            /\ p_phase p = (if can_connect DB_PATH then Finished
                            else Aborted connect_error)
            /\ present (p_written p) (run_state main w)
            /\ conn_open (run_state main w)
               = (if can_connect DB_PATH then false else conn_open w).
Proof.
  destruct (main_final_returned w) as (p & Hrun & _ & Habs & Hpres & Hc).
  exists p. split; [exact Hrun |]. unfold main_outcome in Habs.
  destruct (can_connect DB_PATH) eqn:Hcan.
  - destruct (Hc eq_refl) as [Hph Ho]. auto.
  - split; [exact Habs | split; [exact Hpres |]].
    unfold run_state. rewrite main_run, Hcan.
    exact (proj2 (same_store_add_lines banner w)).
Qed.

(** C26. The tables are written in the order of the script, each at most
    once, and every table a run reports as written is in the database when
    [main] returns. *)
Theorem main_writes_in_order (w : World) :
  writes_of (main_events w) `prefix_of` write_order
  /\ present (writes_of (main_events w)) (run_state main w).
Proof.
  destruct (main_final_returned w) as (p & Hrun & Hok & _ & Hpres & _).
  rewrite (proto_run_history _ _ Hrun), (writes_of_history _ Hok).
  split; [apply Hok | exact Hpres].
Qed.

(** C20. The events of every run of [main].  When the connection is made:
    the banner, the connection, the schema script when it ran to its end,
    the writes of the first tables in their order, then either the summary
    and the release of the connection, or one exception, its report and
    the release; no table is written after an exception, and the summary
    is printed only after the five writes.  When the connection is
    refused: the banner and the exception, which nothing reports. *)
Theorem main_events_shape (w : World) :
  if can_connect DB_PATH then
    exists (schema : bool) (written tail : list Event),
      main_events w
      = [EvBanner; EvConnect] ++ (if schema then [EvSchema] else [])
        ++ written ++ tail
      /\ (exists ts, written = map EvWrite ts /\ ts `prefix_of` write_order)
      /\ proto_ending tail
      /\ (tail = [EvSummary; EvClose] ->
          schema = true /\ written = map EvWrite write_order)
  else main_events w = [EvBanner; EvRaise connect_error].
Proof.
  destruct (main_final_returned w) as (p & Hrun & Hok & Habs & _ & Hc).
  rewrite (proto_run_history _ _ Hrun). unfold main_outcome in Habs.
  destruct (can_connect DB_PATH);
    [| unfold proto_history; cbn in Habs; rewrite Habs; reflexivity].
  destruct (proto_finished_history p Hok (proj1 (Hc eq_refl)))
    as (tail & E & Hend & Hsum).
  exists (p_schema p), (map EvWrite (p_written p)), tail.
  split; [exact E | split; [| split; [exact Hend |]]].
  - exists (p_written p). split; [reflexivity | apply Hok].
  - intros Ht. destruct (Hsum Ht) as [-> ->]. split; reflexivity.
Qed.


(** Invariant of the reachable configurations, by induction on the
    run: inside [try], in the handler and in [finally] the connection is
    open; a loader is called on the catalog of the script with the tables
    of the loaders before it in the database; after a normal return the
    connection is closed; [main] raises only the exception of a refused
    connection. *)
Theorem stage_reachable_inv (w : World) (ls : list Event) (st : Stage)
    (w' : World) :
  run (fstep stage_next) (AtBanner, w) ls (st, w') -> stage_inv st w'.
Proof.
  intros Hrun.
  exact (stage_ok_inv st w'
           (run_invariant stage_ok_stable Hrun (stage_ok_init w))).
Qed.

End Runs.

(** ** The theorems at the script's catalog and a concrete environment *)


Lemma stage_reachable_inv_witness :
  stage_inv (HO := plain_host sample_schema) (AtGdp catalog)
    (catalog_loaded
       (schema_created (HO := plain_host sample_schema) sample_schema
          (connected initial_world))).
Proof.
  apply (stage_reachable_inv (RS := lcg_source) (ST := reliable_storage)
           (HO := plain_host sample_schema) initial_world
           [EvBanner; EvConnect; EvSchema; EvWrite "country_metadata"]).
  repeat (eapply run_cons; [reflexivity |]). apply run_nil.
Defined.
