(* ===== verification/Integrity.v ===== *)
(** * Integrity: the typing of the database

    The five tables have no declared types in the sources: a table is what
    the last [to_sql] wrote to it.  This file states what a database of
    this loader looks like (each of the five names holds a table of its own
    kind; every row refers to a country of the catalog, has a year of the
    series or of the surveys and values rounded to two decimals; no two
    rows of a table share the key (country_code, year)) and proves that the
    rows every generator writes are of this kind, that every statement of
    [main] keeps the database of this kind, and so that [main] does on
    every path, errors included, when the schema script does. *)

From Stdlib Require Import QArith ZArith List String Lia.
From stdpp Require Import base tactics option list strings gmap.
From S2P Require Import Prelude PyNum Effects Machine Schema World Protocol.
From S2P Require Import Catalog Gdp Inequality Poverty TradeEdu Main Stages.

Local Open Scope string_scope.
Local Open Scope list_scope.

(** ** Well-typed rows and tables *)

Section Rows.
Context (countries : list Country.t).

(** The code of a row is the code of a country of the frame. *)
Definition known_code (code : string) : Prop :=
  code ∈ map Country.country_code countries.

Definition gdp_row_ok (r : GdpRow.t) : Prop :=
  known_code (GdpRow.country_code r)
  /\ GdpRow.year r ∈ py_range 2015 2024
  /\ on_grid 2 (GdpRow.gdp_per_capita_current_usd r)
  /\ on_grid 2 (GdpRow.gdp_growth_annual_pct r)
  /\ GdpRow.gdp_total_current_usd r = None.

Definition inequality_row_ok (r : InequalityRow.t) : Prop :=
  known_code (InequalityRow.country_code r)
  /\ InequalityRow.year r ∈ years
  /\ on_grid 2 (InequalityRow.gini_coefficient r)
  /\ on_grid 2 (InequalityRow.income_share_lowest_20pct r)
  /\ on_grid 2 (InequalityRow.income_share_highest_20pct r)
  /\ on_grid 2 (InequalityRow.palma_ratio r).

Definition poverty_row_ok (r : PovertyRow.t) : Prop :=
  known_code (PovertyRow.country_code r)
  /\ PovertyRow.year r ∈ poverty_years
  /\ on_grid 2 (PovertyRow.poverty_headcount_215_pct r)
  /\ on_grid 2 (PovertyRow.poverty_headcount_365_pct r)
  /\ on_grid 2 (PovertyRow.poverty_headcount_685_pct r)
  /\ PovertyRow.poverty_gap r = None.

Definition trade_education_row_ok (r : TradeEduRow.t) : Prop :=
  known_code (TradeEduRow.country_code r)
  /\ TradeEduRow.year r ∈ py_range 2015 2024
  /\ on_grid 2 (TradeEduRow.trade_pct_gdp r)
  /\ on_grid 2 (TradeEduRow.secondary_enrollment_rate r)
  /\ on_grid 2 (TradeEduRow.tertiary_enrollment_rate r)
  /\ on_grid 2 (TradeEduRow.government_expenditure_education_pct r).

(** A table of the loader: the frame itself, or well-typed rows with
    pairwise distinct keys. *)
Definition table_ok (t : Table) : Prop :=
  match t with
  | CountryTable rows => rows = countries
  | GdpTable rows => Forall gdp_row_ok rows /\ NoDup (map gdp_key rows)
  | InequalityTable rows =>
      Forall inequality_row_ok rows /\ NoDup (map inequality_key rows)
  | PovertyTable rows =>
      Forall poverty_row_ok rows /\ NoDup (map poverty_key rows)
  | TradeEduTable rows =>
      Forall trade_education_row_ok rows
      /\ NoDup (map trade_education_key rows)
  end.

(** ** The rows the generators write are well typed *)

Lemma known_code_of (c : Country.t) (code : string) :
  c ∈ countries -> code = Country.country_code c -> known_code code.
Proof. intros Hc ->. apply list_elem_of_fmap_2, Hc. Qed.

Lemma gdp_rows_ok rows :
  gdp_table_spec countries rows -> Forall gdp_row_ok rows.
Proof.
  intros Hspec. apply Forall_forall. intros r Hr.
  destruct (gdp_table_row _ _ _ Hspec Hr)
    as (c & range & base & year & Hc & _ & _ & _ & Hy
        & Hcode & <- & Htot & g & _ & Hgdp & Hg).
  split; [exact (known_code_of c _ Hc Hcode) | split].
  - apply py_range_elem_of. exact Hy.
  - rewrite Hgdp, Hg. auto using py_round_idem.
Qed.

Lemma inequality_rows_ok rows :
  inequality_table_spec countries rows -> Forall inequality_row_ok rows.
Proof.
  intros Hspec. apply Forall_forall. intros r Hr. unfold inequality_row_ok.
  destruct (inequality_table_row _ _ _ Hspec Hr)
    as (c & range & base & year & Hc & _ & _ & _ & Hy
        & Hcode & <- & n & lo & hi & _ & _ & _ & -> & -> & -> & ->).
  split; [exact (known_code_of c _ Hc Hcode) | split; [exact Hy |]].
  auto 6 using py_round_idem.
Qed.

Lemma poverty_rows_ok rows :
  poverty_table_spec countries rows -> Forall poverty_row_ok rows.
Proof.
  intros Hspec. apply Forall_forall. intros r Hr.
  destruct (poverty_table_row _ _ _ Hspec Hr)
    as (c & [[b1 b2] b3] & year & Hc & _ & _ & Hy & ->).
  split; [exact (known_code_of c _ Hc eq_refl) | split; [exact Hy |]].
  cbn. auto 6 using py_round_idem.
Qed.

Lemma trade_education_rows_ok rows :
  trade_education_table_spec countries rows ->
  Forall trade_education_row_ok rows.
Proof.
  intros Hspec. apply Forall_forall. intros r Hr.
  unfold trade_education_row_ok.
  destruct (trade_education_table_row _ _ _ Hspec Hr)
    as (c & b & year & Hc & _ & Hy
        & Hcode & <- & -> & -> & tn & gn & _ & _ & -> & ->).
  split; [exact (known_code_of c _ Hc Hcode) | split; [exact Hy |]].
  unfold secondary_rate, tertiary_rate. auto 6 using py_round_idem.
Qed.

End Rows.

(** ** Well-typed databases *)

(** A database of the loader: under each of the five names, if anything, a
    table of the kind of that name, well typed for the catalog of the
    script.  Other tables are not constrained. *)
Definition db_ok (d : gmap string Table) : Prop :=
  forall name t, d !! name = Some t -> name ∈ tables ->
    table_kind t = name /\ table_ok catalog t.

(** A contract whose rows are well typed and stored under the name of
    their kind. *)
Definition typed_contract {B} (countries : list Country.t)
    (C : Contract Country.t B) : Prop :=
  forall rows, c_rows C countries rows ->
    table_kind (c_mk C rows) = c_table C /\ table_ok countries (c_mk C rows).

(** A schema script that keeps a database of the loader one. *)
Definition schema_keeps_types `{HO : Host} : Prop :=
  forall text d, db_ok d -> db_ok (script_effect text d).

Lemma db_ok_empty : db_ok ∅.
Proof. intros name t H. rewrite lookup_empty in H. discriminate. Qed.

Lemma db_ok_insert d name t :
  db_ok d -> table_kind t = name -> table_ok catalog t ->
  db_ok (<[name := t]> d).
Proof.
  intros Hd Hk Ht name' t' H Hin.
  destruct (decide (name' = name)) as [->|Hne].
  - rewrite lookup_insert_eq in H. by simplify_eq.
  - rewrite lookup_insert_ne in H by congruence. exact (Hd _ _ H Hin).
Qed.

(** The contracts whose rows are well typed on every frame with pairwise
    distinct codes: what [main] needs of a loader to keep the database
    well typed. *)
Class TypedContract {B} (C : Contract Country.t B) : Prop :=
  contract_typed :
    forall countries, unique_codes countries -> typed_contract countries C.

#[export] Instance gdp_contract_typed : TypedContract gdp_contract.
Proof.
  intros countries Hu rows Hr. split; [reflexivity | split].
  - exact (gdp_rows_ok _ _ Hr).
  - exact (gdp_table_keys _ _ Hu Hr).
Qed.

#[export] Instance inequality_contract_typed :
  TypedContract inequality_contract.
Proof.
  intros countries Hu rows Hr. split; [reflexivity | split].
  - exact (inequality_rows_ok _ _ Hr).
  - exact (inequality_table_keys _ _ Hu Hr).
Qed.

#[export] Instance poverty_contract_typed : TypedContract poverty_contract.
Proof.
  intros countries Hu rows Hr. split; [reflexivity | split].
  - exact (poverty_rows_ok _ _ Hr).
  - exact (poverty_table_keys _ _ Hu Hr).
Qed.

#[export] Instance trade_education_contract_typed :
  TypedContract trade_education_contract.
Proof.
  intros countries Hu rows Hr. split; [reflexivity | split].
  - exact (trade_education_rows_ok _ _ Hr).
  - exact (trade_education_table_keys _ _ Hu Hr).
Qed.

(** A loader with a typed contract writes a well-typed table under the
    name of its kind. *)
Lemma loader_writes_typed `{RS : RandomSource} `{ST : Storage} {B}
    (C : Contract Country.t B) (run : list Country.t -> Py unit)
    `{!Loader C run} `{!TypedContract C} (countries : list Country.t)
    (w : World) :
  unique_codes countries -> c_accepts C countries -> conn_open w = true ->
  write_ok (c_table C) = true ->
  exists t, db (run_state (run countries) w) !! c_table C = Some t
            /\ table_kind t = c_table C /\ table_ok countries t.
Proof.
  intros Hu Hacc Ho Hw.
  destruct (loader_table C run countries w Hacc Ho) as (rows & Hr & E).
  rewrite Hw in E. exists (c_mk C rows). split; [exact E |].
  exact (contract_typed countries Hu rows Hr).
Qed.

(** ** Every statement keeps the database well typed *)

Section Steps.
Context {RS : RandomSource} {ST : Storage} {HO : Host}.
Hypothesis schema_typed : schema_keeps_types.

(** A loader with a typed contract, on the catalog: whether or not the
    write succeeds. *)
Lemma loader_db_ok {B} (C : Contract Country.t B)
    (run : list Country.t -> Py unit) `{!Loader C run} `{!TypedContract C}
    (w : World) :
  c_accepts C catalog -> conn_open w = true ->
  db_ok (db w) -> db_ok (db (run_state (run catalog) w)).
Proof.
  intros Hacc Ho Hd.
  destruct (loader_outcome catalog w Hacc Ho) as (rows & Hr & E).
  unfold run_state. rewrite E. destruct (write_ok _); [| exact Hd].
  destruct (contract_typed catalog catalog_unique_codes rows Hr) as [Hk Ht].
  cbn. apply db_ok_insert; assumption.
Qed.

Lemma load_country_metadata_db_ok (w : World) :
  conn_open w = true -> db_ok (db w) ->
  db_ok (db (run_state load_country_metadata w)).
Proof.
  intros Ho Hd. unfold run_state. rewrite (load_country_metadata_run w Ho).
  destruct (write_ok _); [| exact Hd].
  cbn. apply db_ok_insert; [exact Hd | reflexivity | reflexivity].
Qed.

Lemma create_schema_db_ok (w : World) :
  db_ok (db w) -> db_ok (db (run_state create_schema w)).
Proof.
  intros Hd.
  unfold run_state, create_schema, bind, print, modify, open_read,
    executescript.
  destruct (file_content _); cbn; [| exact Hd].
  destruct (conn_open w); cbn; [| exact Hd].
  destruct (script_ok _ _); cbn; apply schema_typed, Hd.
Qed.

(** The state a statement of [try] leaves is the state of its run. *)
Lemma inside_try_state {A} (c : Py A) (l : Event) (k : A -> Stage) w :
  (inside_try c l k w).2.2 = run_state c w.
Proof.
  unfold inside_try, run_state. destruct (c w) as [[a|e] w']; reflexivity.
Qed.

Lemma stage_step_db_ok (c : Config) (l : Event) (c' : Config) :
  fstep stage_next c l c' -> stage_inv c.1 c.2 -> db_ok (db c.2) ->
  db_ok (db c'.2).
Proof.
  destruct c as [st w]. unfold fstep. intros Hstep Hinv Hd.
  destruct st; cbn [stage_next stage_inv fst snd] in *; try discriminate;
    apply (inj Some) in Hstep;
    apply (f_equal (fun x : Event * Config => db x.2.2)) in Hstep;
    cbn beta in Hstep; change (db (l, c').2.2) with (db c'.2) in Hstep;
    rewrite <- Hstep; rewrite ?inside_try_state; try exact Hd.
  - unfold outside_try, sqlite3_connect.
    destruct (can_connect DB_PATH); exact Hd.
  - exact (create_schema_db_ok w Hd).
  - exact (load_country_metadata_db_ok w Hinv Hd).
  - destruct Hinv as (-> & Ho & _).
    exact (loader_db_ok gdp_contract load_gdp_data w
             catalog_known_income_groups Ho Hd).
  - destruct Hinv as (-> & Ho & _).
    exact (loader_db_ok inequality_contract load_inequality_data w
             catalog_known_regions Ho Hd).
  - destruct Hinv as (-> & Ho & _).
    exact (loader_db_ok poverty_contract load_poverty_data w I Ho Hd).
  - destruct Hinv as (-> & Ho & _).
    exact (loader_db_ok trade_education_contract load_trade_education w
             I Ho Hd).
  - destruct (keeps_store_print_summary w) as [-> _]. exact Hd.
Qed.

(** The invariant of the machine: the database is well typed and the
    configuration is one the protocol allows. *)
Definition typed_config (c : Config) : Prop :=
  db_ok (db c.2) /\ stage_ok c.

Lemma typed_config_stable : stable (fstep stage_next) typed_config.
Proof.
  intros [st w] l c' [Hd HR] Hstep. split.
  - exact (stage_step_db_ok _ _ _ Hstep (stage_ok_inv st w HR) Hd).
  - exact (stage_ok_stable _ _ _ HR Hstep).
Qed.

(** C19. The typing of the database is an invariant of [main]: when the
    schema script keeps a database of the loader well typed, so does
    [main], on every path.  After the run, whether it succeeded or stopped at
    an error, each of the five names holds, if anything, a table of its own
    kind whose rows refer to countries of the catalog, have their years in
    the series and their values rounded to two decimals, with pairwise
    distinct keys. *)
Theorem main_keeps_integrity (w : World) :
  db_ok (db w) -> db_ok (db (run_state main w)).
Proof.
  intros Hd.
  assert (typed_config (AtBanner, w)) as Hinit
    by (split; [exact Hd | apply stage_ok_init]).
  pose proof (run_invariant typed_config_stable
                (exec_run stage_next 11 (AtBanner, w)) Hinit) as [Hfin _].
  change (db_ok (db (main_final w).2)) in Hfin.
  rewrite main_final_main in Hfin. unfold run_state.
  destruct (main w) as [r w']. exact Hfin.
Qed.

End Steps.

(** ** The generators write well-typed tables *)

Section Generators.
Context {RS : RandomSource} {ST : Storage}.
Context (countries : list Country.t) (w : World).
Hypothesis catalog_ok : well_formed countries.
Hypothesis conn_is_open : conn_open w = true.
Hypothesis writable : forall name, name ∈ tables -> write_ok name = true.

(** The table a generator leaves under a name. *)
Definition written_by (run : list Country.t -> Py unit) (name : string)
  : option Table :=
  db (run_state (run countries) w) !! name.

(** C25. The tables the four generators write are well typed for the frame
    they are given: on a frame with pairwise distinct codes whose income
    groups and regions are known, each generator leaves under its name a
    table of its own kind in which every row carries the code of a row of
    the frame and a year of its series, every number is rounded to two
    decimals, the columns the script leaves empty are empty and no two rows
    share the key (country_code, year). *)
Theorem generators_write_typed_tables :
  Forall2 (fun run name =>
             exists t, written_by run name = Some t
                       /\ table_kind t = name /\ table_ok countries t)
    [load_gdp_data; load_inequality_data; load_poverty_data;
     load_trade_education]
    (drop 1 tables).
Proof.
  destruct catalog_ok as (Hu & Hg & Hr).
  repeat apply List.Forall2_cons; [| | | | apply List.Forall2_nil].
  - apply (loader_writes_typed gdp_contract load_gdp_data countries w Hu Hg
             conn_is_open), writable. by_decide.
  - apply (loader_writes_typed inequality_contract load_inequality_data
             countries w Hu Hr conn_is_open), writable. by_decide.
  - apply (loader_writes_typed poverty_contract load_poverty_data countries
             w Hu I conn_is_open), writable. by_decide.
  - apply (loader_writes_typed trade_education_contract load_trade_education
             countries w Hu I conn_is_open), writable. by_decide.
Qed.

End Generators.

(** ** The theorems at the script's catalog and a concrete environment *)

Lemma plain_host_keeps_types text :
  schema_keeps_types (HO := plain_host text).
Proof. intros script d Hd. exact Hd. Qed.

Lemma main_keeps_integrity_witness :
  db_ok (db (run_state (main (RS := lcg_source)
                          (ST := failing_storage "poverty_indicators")
                          (HO := plain_host sample_schema)) initial_world)).
Proof.
  apply (main_keeps_integrity (RS := lcg_source)
           (ST := failing_storage "poverty_indicators")
           (HO := plain_host sample_schema)
           (plain_host_keeps_types sample_schema) initial_world).
  exact db_ok_empty.
Defined.

Lemma generators_write_typed_tables_witness :
  Forall2 (fun run name =>
             exists t, written_by catalog initial_world run name = Some t
                       /\ table_kind t = name /\ table_ok catalog t)
    [load_gdp_data (RS := lcg_source) (ST := reliable_storage);
     load_inequality_data (RS := lcg_source) (ST := reliable_storage);
     load_poverty_data (RS := lcg_source) (ST := reliable_storage);
     load_trade_education (RS := lcg_source) (ST := reliable_storage)]
    (drop 1 tables).
Proof.
  apply (generators_write_typed_tables (RS := lcg_source)
           (ST := reliable_storage) catalog initial_world);
    [by_decide | reflexivity | intros name _; reflexivity].
Defined.
