(* ===== verification/Panels.v ===== *)
(** * Panels: the keys of the generated tables

    The loops of the loaders run over the catalog and, for each country,
    over the years of a series; the keys (country_code, year) of the rows
    they append are therefore the codes of the catalog, in its order, each
    with every year of the series, in increasing order: a balanced panel.
    [panel_keys] is this list; the lemmas give the keys of a block and of a
    table for each loader, and [main_tables_are_panels] states it of the
    four generated tables of a run.  [poverty_indicators] is the panel of
    the countries the loader does not skip. *)

From Stdlib Require Import QArith ZArith List String Lia.
From stdpp Require Import base tactics option list strings gmap.
From S2P Require Import Prelude PyNum Effects Format Schema World.
From S2P Require Import Catalog Gdp Inequality Poverty TradeEdu Main.

Local Open Scope string_scope.
Local Open Scope list_scope.
Local Open Scope py_scope.

(** The keys of a panel: every code with every year, code by code. *)
Definition panel_keys (codes : list string) (years : list Z)
  : list (string * Z) :=
  concat (map (fun code => map (pair code) years) codes).

(** The codes of the countries [load_poverty_data] generates rows for. *)
Definition eligible_codes (countries : list Country.t) : list string :=
  map Country.country_code (filter eligible countries).

(** ** The keys of a table made of blocks *)

Section Keys.
Context {A B K : Type} (R : A -> list B -> Prop).
Context (key : B -> K) (keys : A -> list K).
Hypothesis R_keys : forall x b, R x b -> map key b = keys x.

Lemma blocks_table_keys (xs : list A) (rows : list B) :
  blocks_table R xs rows -> map key rows = concat (map keys xs).
Proof.
  intros (blocks & -> & H).
  induction H as [|x b xs blocks Hxb _ IH]; cbn; [reflexivity |].
  rewrite map_app, (R_keys _ _ Hxb), IH. reflexivity.
Qed.

End Keys.

(** Rows that carry one code and, one by one, the years of a series. *)
Lemma series_keys {B} (code : B -> string) (year : B -> Z)
    (P : Z -> B -> Prop) (c : string) (ys : list Z) (rows : list B) :
  (forall y r, P y r -> code r = c /\ year r = y) ->
  Forall2 P ys rows ->
  map (fun r => (code r, year r)) rows = map (pair c) ys.
Proof.
  intros HP H. induction H as [|y r ys rs Hyr _ IH]; cbn; [reflexivity |].
  destruct (HP _ _ Hyr) as [-> ->]. f_equal. exact IH.
Qed.

(** The panel of the codes of a catalog, from the keys of its entries. *)
Lemma panel_keys_catalog (countries : list Country.t) (years : list Z) :
  concat (map (fun c => map (pair (Country.country_code c)) years) countries)
  = panel_keys (map Country.country_code countries) years.
Proof. unfold panel_keys. rewrite map_map. reflexivity. Qed.

(** ** The keys of the blocks *)

Lemma gdp_block_panel c rows :
  gdp_block_spec c rows ->
  map gdp_key rows = map (pair (Country.country_code c)) (py_range 2015 2024).
Proof.
  intros (range & base & _ & _ & _ & Hrows).
  apply (series_keys GdpRow.country_code GdpRow.year (gdp_row_spec c base));
    [| exact Hrows].
  intros y r (Hc & Hy & _). auto.
Qed.

Lemma inequality_block_panel c rows :
  inequality_block_spec c rows ->
  map inequality_key rows = map (pair (Country.country_code c)) years.
Proof.
  intros (range & base & _ & _ & _ & Hrows).
  apply (series_keys InequalityRow.country_code InequalityRow.year
           (inequality_row_spec c base)); [| exact Hrows].
  intros y r (Hc & Hy & _). auto.
Qed.

Lemma trade_education_block_panel c rows :
  trade_education_block_spec c rows ->
  map trade_education_key rows
  = map (pair (Country.country_code c)) (py_range 2015 2024).
Proof.
  intros (b & _ & Hrows).
  apply (series_keys TradeEduRow.country_code TradeEduRow.year
           (trade_education_row_spec c b)); [| exact Hrows].
  intros y r (Hc & Hy & _). auto.
Qed.

(** The keys of the block of a country in [poverty_indicators]: the survey
    years, or nothing when the country is skipped. *)
Definition poverty_block_keys_of (c : Country.t) : list (string * Z) :=
  if decide (eligible c) then
    map (pair (Country.country_code c)) poverty_years
  else [].

Lemma poverty_block_panel c rows :
  poverty_block_spec c rows -> map poverty_key rows = poverty_block_keys_of c.
Proof.
  unfold poverty_block_spec, poverty_block_keys_of.
  destruct (decide (eligible c)); [| intros ->; reflexivity].
  intros ([[b1 b2] b3] & _ & ->). reflexivity.
Qed.

Lemma poverty_panel_eligible (countries : list Country.t) :
  concat (map poverty_block_keys_of countries)
  = panel_keys (eligible_codes countries) poverty_years.
Proof.
  unfold panel_keys, eligible_codes, poverty_block_keys_of.
  induction countries as [|c cs IH]; [reflexivity |].
  cbn [map concat]. rewrite IH.
  destruct (decide (eligible c)) as [He|He].
  - rewrite filter_cons_True by exact He. reflexivity.
  - rewrite filter_cons_False by exact He. reflexivity.
Qed.

(** ** The keys of the tables *)

Section Tables.
Context (countries : list Country.t).

Lemma gdp_table_panel rows :
  gdp_table_spec countries rows ->
  map gdp_key rows
  = panel_keys (map Country.country_code countries) (py_range 2015 2024).
Proof.
  intros Hspec. rewrite <- panel_keys_catalog.
  exact (blocks_table_keys _ _ _ gdp_block_panel _ _ Hspec).
Qed.

Lemma inequality_table_panel rows :
  inequality_table_spec countries rows ->
  map inequality_key rows
  = panel_keys (map Country.country_code countries) years.
Proof.
  intros Hspec. rewrite <- panel_keys_catalog.
  exact (blocks_table_keys _ _ _ inequality_block_panel _ _ Hspec).
Qed.

Lemma poverty_table_panel rows :
  poverty_table_spec countries rows ->
  map poverty_key rows = panel_keys (eligible_codes countries) poverty_years.
Proof.
  intros Hspec. rewrite <- poverty_panel_eligible.
  exact (blocks_table_keys _ _ _ poverty_block_panel _ _ Hspec).
Qed.

Lemma trade_education_table_panel rows :
  trade_education_table_spec countries rows ->
  map trade_education_key rows
  = panel_keys (map Country.country_code countries) (py_range 2015 2024).
Proof.
  intros Hspec. rewrite <- panel_keys_catalog.
  exact (blocks_table_keys _ _ _ trade_education_block_panel _ _ Hspec).
Qed.

End Tables.

Section MainPanels.
Context {RS : RandomSource} {ST : Storage} {HO : Host}.

(** C13. The generated tables of a run of [main] that succeeds are balanced
    panels.  The keys (country_code, year) of the rows of [gdp_data] are,
    in the order of the rows, the 48 codes of the catalog in its order,
    each with the nine years 2015 to 2023 in increasing order; those of
    [inequality_metrics] the 48 codes, each with the five survey years
    2015, 2017, 2019, 2021, 2023; those of [trade_education] the 48 codes
    with the nine years; those of [poverty_indicators] the codes of the
    countries that are not high income, each with the five survey years.
    No country and no year of a series is missing, none is repeated, and
    the rows of a country are consecutive. *)
Theorem main_tables_are_panels (script : string) (w : World) :
  can_connect DB_PATH = true ->
  file_content "schema.sql" = Some script ->
  script_ok script (db w) = true ->
  (forall table, table ∈ tables -> write_ok table = true) ->
  exists gdp inequality poverty trade,
    Forall2 (fun name t => db (run_state main w) !! name = Some t) tables
      [CountryTable catalog; GdpTable gdp; InequalityTable inequality;
       PovertyTable poverty; TradeEduTable trade]
    /\ map gdp_key gdp
       = panel_keys (map Country.country_code catalog) (py_range 2015 2024)
    /\ map inequality_key inequality
       = panel_keys (map Country.country_code catalog) years
    /\ map poverty_key poverty
       = panel_keys (eligible_codes catalog) poverty_years
    /\ map trade_education_key trade
       = panel_keys (map Country.country_code catalog) (py_range 2015 2024).
Proof.
  intros Hcan Hf Hs Hw.
  destruct (main_success_run script w Hcan Hf Hs Hw)
    as (g & i & p & t & (Hg & Hi & Hp & Ht) & E).
  exists g, i, p, t. unfold run_state. rewrite E. cbn [snd].
  rewrite succeeded_db. split; [apply all_loaded_lookup |].
  auto using gdp_table_panel, inequality_table_panel, poverty_table_panel,
    trade_education_table_panel.
Qed.

End MainPanels.

(** ** The theorem in a concrete environment *)

Lemma main_tables_are_panels_witness :
  let final := run_state (main (RS := lcg_source) (ST := reliable_storage)
                            (HO := plain_host sample_schema)) initial_world in
  exists gdp inequality poverty trade,
    Forall2 (fun name t => db final !! name = Some t) tables
      [CountryTable catalog; GdpTable gdp; InequalityTable inequality;
       PovertyTable poverty; TradeEduTable trade]
    /\ map gdp_key gdp
       = panel_keys (map Country.country_code catalog) (py_range 2015 2024)
    /\ map inequality_key inequality
       = panel_keys (map Country.country_code catalog) years
    /\ map poverty_key poverty
       = panel_keys (eligible_codes catalog) poverty_years
    /\ map trade_education_key trade
       = panel_keys (map Country.country_code catalog) (py_range 2015 2024).
Proof.
  apply (main_tables_are_panels (RS := lcg_source) (ST := reliable_storage)
           (HO := plain_host sample_schema) sample_schema initial_world);
    [reflexivity | reflexivity | reflexivity | intros table _; reflexivity].
Defined.
